(** * A block device served over TCP and the flat filesystem on top of it

    Shallow embedding of [disk_server_v2.c] (the simulated disk) and of
    [fs_server.c] (the FAT filesystem service that talks to the disk),
    followed by the properties of the two services.

    Conventions of the embedding.
    - Bytes are [Byte.byte]; buffers and the memory-mapped image are
      [list byte].
    - [uint32_t] values are [Z] with the reduction modulo [2^32] written
      where the C code computes; [size_t] likewise modulo [2^64].
    - A socket is a pair of byte lists: what is still to be read and what
      was sent.  Sends and receives on a live connection succeed.
    - An access outside an array, a division by zero, a loop that does not
      end within the fuel, and a disk connection whose framing was lost,
      are [Fault]s: the model says nothing about what follows them. *)

From Stdlib Require Import ZArith Lia ZifyBool.
From Stdlib.Strings Require Import Byte.
From stdpp Require Import base option list.

Open Scope Z_scope.

(** ** Outcomes *)

Inductive fault := OutOfBounds | DivByZero | Desync | OutOfFuel.

Inductive res (A : Type) :=
| Ret (a : A)
| Fault (f : fault).
Arguments Ret {A} a.
Arguments Fault {A} f.

#[global] Instance res_ret : MRet res := fun _ a => Ret a.
#[global] Instance res_bind : MBind res := fun _ _ k m =>
  match m with
  | Ret a => k a
  | Fault f => Fault f
  end.

(** ** Machine integers and byte buffers *)

Module Mach.

Definition u32 (z : Z) : Z := z mod 2 ^ 32.
Definition size_t (z : Z) : Z := z mod 2 ^ 64.
Definition long_min : Z := - 2 ^ 63.
Definition long_max : Z := 2 ^ 63 - 1.
(** Two's complement reduction of a [long] result. *)
Definition long (z : Z) : Z := (z + 2 ^ 63) mod 2 ^ 64 - 2 ^ 63.

Definition byte_to_Z (b : byte) : Z := Z.of_N (Byte.to_N b).
Definition byte_of_Z (z : Z) : byte :=
  default x00 (Byte.of_N (Z.to_N (z mod 256))).

(** Little-endian image of an integer on [n] bytes ([memcpy] of a
    [uint32_t] or of a [long] on the target). *)
Fixpoint le_enc (n : nat) (z : Z) : list byte :=
  match n with
  | O => []
  | S n' => byte_of_Z z :: le_enc n' (z / 256)
  end.

Fixpoint le_dec (l : list byte) : Z :=
  match l with
  | [] => 0
  | b :: l' => byte_to_Z b + 256 * le_dec l'
  end.

Definition zeros (n : nat) : list byte := replicate n x00.

(** [memcpy (dst + off, src, |src|)] inside the array [dst]. *)
Definition splice (dst : list byte) (off : nat) (src : list byte) : list byte :=
  take off dst ++ src ++ drop (off + length src)%nat dst.

(** Digits of [printf "%u"] / ["%ld"] for a non-negative number. *)
Fixpoint uint_bytes (u : Decimal.uint) : list byte :=
  match u with
  | Decimal.Nil => []
  | Decimal.D0 u => x30 :: uint_bytes u
  | Decimal.D1 u => x31 :: uint_bytes u
  | Decimal.D2 u => x32 :: uint_bytes u
  | Decimal.D3 u => x33 :: uint_bytes u
  | Decimal.D4 u => x34 :: uint_bytes u
  | Decimal.D5 u => x35 :: uint_bytes u
  | Decimal.D6 u => x36 :: uint_bytes u
  | Decimal.D7 u => x37 :: uint_bytes u
  | Decimal.D8 u => x38 :: uint_bytes u
  | Decimal.D9 u => x39 :: uint_bytes u
  end.

Definition fmt_u (z : Z) : list byte := uint_bytes (N.to_uint (Z.to_N z)).

End Mach.

#[global] Instance byte_eq_dec : EqDecision byte := Byte.byte_eq_dec.

(** ** The disk service ([disk_server_v2.c]) *)

Module Disk.
Import Mach.

Definition BLKSZ : Z := 128.

(** The globals of the server: geometry, seek time, the mapped image and
    the arm. *)
Record state := mkState {
  g_cyl : Z;
  g_sec : Z;
  g_track_us : Z;
  g_base : list byte;
  g_head_cyl : Z
}.

(** What an operation does besides answering, in program order. *)
Inductive event :=
| EvSleep (us : Z)      (* nanosleep of [us] microseconds *)
| EvArm (c : Z)         (* g_head_cyl = c *)
| EvLoad (off : Z)      (* the sector at byte offset [off] is read *)
| EvStore (off : Z).    (* the sector at byte offset [off] is overwritten *)

(** Result of one handler: its return value, the bytes sent, the bytes of
    the connection not yet consumed, the new globals and the events. *)
Record outcome := mkOut {
  rv : Z;
  sent : list byte;
  rest : list byte;
  st' : state;
  trace : list event
}.

Definition with_head (st : state) (c : Z) : state :=
  mkState (g_cyl st) (g_sec st) (g_track_us st) (g_base st) c.

Definition with_base (st : state) (m : list byte) : state :=
  mkState (g_cyl st) (g_sec st) (g_track_us st) m (g_head_cyl st).

(** Byte offset of sector [(c, s)] from [g_base]. *)
Definition blk_ptr (st : state) (c s : Z) : Z :=
  let idx := size_t (size_t (size_t c * size_t (g_sec st)) + size_t s) in
  size_t (idx * BLKSZ).

Definition validate_cs (st : state) (c s : Z) : bool :=
  (0 <=? c) && (c <? g_cyl st) && (0 <=? s) && (s <? g_sec st).

Definition sleep_tracks (st : state) (from to : Z) : list event :=
  let delta := Z.abs (long (to - from)) in
  let total_us := long (delta * g_track_us st) in
  if total_us <=? 0 then [] else [EvSleep total_us].

(** The 128 bytes at offset [off] of the image, when they are inside it. *)
Definition load (m : list byte) (off : Z) : res (list byte) :=
  if off + BLKSZ <=? Z.of_nat (length m)
  then Ret (take (Z.to_nat BLKSZ) (drop (Z.to_nat off) m))
  else Fault OutOfBounds.

Definition store (m : list byte) (off : Z) (buf : list byte) : res (list byte) :=
  if off + BLKSZ <=? Z.of_nat (length m)
  then Ret (splice m (Z.to_nat off) buf)
  else Fault OutOfBounds.

Definition handle_I (st : state) (inp : list byte) : outcome :=
  mkOut 0 (fmt_u (g_cyl st) ++ [x20] ++ fmt_u (g_sec st) ++ [x0a]) inp st [].

Definition handle_R (st : state) (inp : list byte) (c s : Z) : res outcome :=
  if negb (validate_cs st c s) then
    Ret (mkOut 0 [x30] inp st [])
  else
    let from := g_head_cyl st in
    let ev := sleep_tracks st from c in
    let st1 := with_head st c in
    let p := blk_ptr st c s in
    data ← load (g_base st) p;
    Ret (mkOut 0 (x31 :: data) inp st1 (ev ++ [EvArm c; EvLoad p])).

Definition handle_W (st : state) (inp : list byte) (c s l : Z) : res outcome :=
  if negb (validate_cs st c s) || (l <? 0) || (BLKSZ <? l) then
    Ret (mkOut 0 [x30] inp st [])
  else if (0 <? l) && (Z.of_nat (length inp) <? l) then
    (* read_exact meets the end of the stream: the handler gives up *)
    Ret (mkOut (-1) [] [] st [])
  else
    let buf := take (Z.to_nat l) inp ++ zeros (Z.to_nat (BLKSZ - l)) in
    let from := g_head_cyl st in
    let ev := sleep_tracks st from c in
    let st1 := with_head st c in
    let p := blk_ptr st c s in
    m ← store (g_base st) p buf;
    Ret (mkOut 0 [x31] (drop (Z.to_nat l) inp) (with_base st1 m)
           (ev ++ [EvArm c; EvStore p])).

(** A parsed command line of the protocol, and the dispatch of
    [client_main] on it. *)
Inductive request :=
| ReqI
| ReqR (c s : Z)
| ReqW (c s l : Z).

Definition serve (st : state) (inp : list byte) (q : request) : res outcome :=
  match q with
  | ReqI => Ret (handle_I st inp)
  | ReqR c s => handle_R st inp c s
  | ReqW c s l => handle_W st inp c s l
  end.

(** The size of the image as [main] computes it:
    [(size_t)g_cyl * (size_t)g_sec * BLKSZ]. *)
Definition total_bytes (cyl sec : Z) : Z :=
  size_t (size_t (size_t cyl * size_t sec) * BLKSZ).

(** The globals as [main] leaves them before the accept loop: the arm is
    at cylinder 0 and the image has the length of the mapping. *)
Definition boot (cyl sec track_us : Z) (image : list byte) : state :=
  mkState cyl sec track_us image 0.

(** States the server can be in: after [main] read the geometry and the
    seek time with [strtol] (three [long]), accepted the geometry
    ([g_cyl > 0], [g_sec > 0]) and mapped [total_bytes] bytes, and after
    any number of served requests.  [main] does not check that
    [total_bytes] is computed without wrapping. *)
Inductive reachable : state -> Prop :=
| reach_boot cyl sec track_us image :
    0 < cyl <= long_max -> 0 < sec <= long_max ->
    long_min <= track_us <= long_max ->
    Z.of_nat (length image) = total_bytes cyl sec ->
    reachable (boot cyl sec track_us image)
| reach_serve st inp q o :
    reachable st -> serve st inp q = Ret o -> reachable (st' o).

End Disk.

(** ** The filesystem service ([fs_server.c]) *)

Module FS.
Import Mach.

Definition BLKSZ : Z := 128.
Definition MAX_NAME : Z := 32.

Definition FAT_FREE : Z := 0x00000000.
Definition FAT_EOF : Z := 0xffffffff.
Definition FAT_RESERVED : Z := 0xfffffffe.

(** The worker's handle on the disk service: the geometry it believes in
    and, in place of the descriptor, the payload bytes that the disk left
    unread on this connection (none while the framing is intact). *)
Record disk_t := mkDiskT {
  cyl : Z;
  sec : Z;
  stale : list byte
}.

Record layout_t := mkLayout {
  total_blocks : Z;
  fat_start : Z;
  fat_sectors : Z;
  dir_start : Z;
  dir_sectors : Z;
  dir_entries : Z
}.

Record dirent_fs := mkDirent {
  name : list byte;      (* char name[32] *)
  length : Z;            (* uint32_t *)
  first : Z;             (* uint32_t *)
  used : byte            (* uint8_t; the pad bytes are always zero *)
}.

Record fat_cache_t := mkFat {
  v : list Z;            (* NULL is the empty array *)
  loaded : bool
}.

(** The process-wide [G]. *)
Record server_state_t := mkG {
  L : layout_t;
  fat : fat_cache_t;
  formatted : bool
}.

(** Everything a command handler can touch: the disk service at the other
    end of the worker's connection, the connection, and [G]. *)
Record world := mkWorld {
  dsk : Disk.state;
  conn : disk_t;
  G : server_state_t
}.

Definition set_dsk (w : world) (d : Disk.state) : world := mkWorld d (conn w) (G w).
Definition set_conn (w : world) (c : disk_t) : world := mkWorld (dsk w) c (G w).
Definition set_G (w : world) (g : server_state_t) : world := mkWorld (dsk w) (conn w) g.
Definition set_fat (w : world) (fc : fat_cache_t) : world :=
  set_G w (mkG (L (G w)) fc (formatted (G w))).
Definition set_v (w : world) (a : list Z) : world :=
  set_fat w (mkFat a (loaded (fat (G w)))).
Definition set_L (w : world) (l : layout_t) : world :=
  set_G w (mkG l (fat (G w)) (formatted (G w))).
Definition set_formatted (w : world) (b : bool) : world :=
  set_G w (mkG (L (G w)) (fat (G w)) b).
Definition set_stale (w : world) (bs : list byte) : world :=
  set_conn w (mkDiskT (cyl (conn w)) (sec (conn w)) bs).

(** Handlers are state transformers that may fault. *)
Definition M (A : Type) : Type := world -> res (A * world).

Definition ret {A} (a : A) : M A := fun w => Ret (a, w).
Definition bind {A B} (m : M A) (k : A -> M B) : M B := fun w =>
  match m w with
  | Ret (a, w') => k a w'
  | Fault f => Fault f
  end.
Definition lift {A} (r : res A) : M A := fun w =>
  match r with
  | Ret a => Ret (a, w)
  | Fault f => Fault f
  end.
Definition get : M world := fun w => Ret (w, w).
Definition modify (f : world -> world) : M unit := fun w => Ret (tt, f w).

#[global] Instance M_ret : MRet M := @ret.
#[global] Instance M_bind : MBind M := fun _ _ k m => bind m k.

(** An array access [a[i]]: outside the allocation it is a fault. *)
Definition aget (a : list Z) (i : Z) : res Z :=
  if (0 <=? i) && (i <? Z.of_nat (List.length a))
  then Ret (default 0 (a !! Z.to_nat i))
  else Fault OutOfBounds.

Definition aset (a : list Z) (i x : Z) : res (list Z) :=
  if (0 <=? i) && (i <? Z.of_nat (List.length a))
  then Ret (<[Z.to_nat i := x]> a)
  else Fault OutOfBounds.

(** *** Disk protocol helpers *)

Definition disk_total_blocks (d : disk_t) : Z := u32 (long (cyl d * sec d)).

Definition idx_to_cs (d : disk_t) (idx : Z) : res (Z * Z) :=
  let s32 := u32 (sec d) in
  if s32 =? 0 then Fault DivByZero else Ret (idx / s32, idx mod s32).

(** [disk_read_idx]: [None] is the C return value -1. *)
Definition disk_read_idx (idx : Z) : M (option (list byte)) := fun w =>
  match stale (conn w) with
  | _ :: _ => Fault Desync
  | [] =>
    match idx_to_cs (conn w) idx with
    | Fault f => Fault f
    | Ret (c, s) =>
      match Disk.handle_R (dsk w) [] c s with
      | Fault f => Fault f
      | Ret o =>
        let w' := set_dsk w (Disk.st' o) in
        match Disk.sent o with
        | code :: data =>
          if decide (code = x31) then
            if Z.of_nat (List.length data) <? BLKSZ then Ret (None, w')
            else Ret (Some (take (Z.to_nat BLKSZ) data), w')
          else Ret (None, w')
        | [] => Ret (None, w')
        end
      end
    end
  end.

(** [disk_write_idx]: the header asks for 128 bytes and the 128 bytes of
    [blk] follow it on the wire; what the disk does not consume stays on
    the connection. *)
Definition disk_write_idx (idx : Z) (blk : list byte) : M Z := fun w =>
  match stale (conn w) with
  | _ :: _ => Fault Desync
  | [] =>
    match idx_to_cs (conn w) idx with
    | Fault f => Fault f
    | Ret (c, s) =>
      match Disk.handle_W (dsk w) (take (Z.to_nat BLKSZ) blk) c s BLKSZ with
      | Fault f => Fault f
      | Ret o =>
        let w' := set_stale (set_dsk w (Disk.st' o)) (Disk.rest o) in
        match Disk.sent o with
        | code :: _ => if decide (code = x31) then Ret (0, w') else Ret (-1, w')
        | [] => Ret (-1, w')
        end
      end
    end
  end.

(** *** On-disk layout *)

Definition dirent_pack (e : dirent_fs) : list byte :=
  take 32 (name e) ++ le_enc 4 (length e) ++ le_enc 4 (first e) ++ [used e]
    ++ zeros 23.

Definition dirent_unpack (src : list byte) : dirent_fs :=
  mkDirent (take 31 src ++ [x00])
           (le_dec (take 4 (drop 32 src)))
           (le_dec (take 4 (drop 36 src)))
           (default x00 (src !! 40%nat)).

Definition magic : list byte := [x43; x53; x46; x53; x31].   (* "CSFS1" *)

Definition super_pack (d : disk_t) (l : layout_t) : list byte :=
  magic ++ zeros 11
    ++ le_enc 8 (cyl d) ++ le_enc 8 (sec d) ++ zeros 8
    ++ le_enc 4 (total_blocks l) ++ le_enc 4 (fat_start l)
    ++ le_enc 4 (fat_sectors l) ++ le_enc 4 (dir_start l)
    ++ le_enc 4 (dir_sectors l) ++ le_enc 4 (dir_entries l)
    ++ zeros 64.

(** [super_load]: [None] is -1; otherwise the geometry and the layout read
    from the block. *)
Definition super_load (blk : list byte) : option (Z * Z * layout_t) :=
  if decide (take 5 blk = magic) then
    let f off := le_dec (take 4 (drop off blk)) in
    Some (long (le_dec (take 8 (drop 16 blk))),
          long (le_dec (take 8 (drop 24 blk))),
          mkLayout (f 40%nat) (f 44%nat) (f 48%nat) (f 52%nat) (f 56%nat) (f 60%nat))
  else None.

(** *** FAT cache *)

Definition fat_init : fat_cache_t := mkFat [] false.

(** Inner loop of [fat_load]: entries [i..32) of one sector go to
    [v[idx..]] while [idx < total]. *)
Fixpoint fat_unpack_sector (n : nat) (i idx total : Z) (blk : list byte)
    (a : list Z) : res (list Z * Z) :=
  match n with
  | O => Ret (a, idx)
  | S n' =>
    if idx <? total then
      match aset a idx (le_dec (take 4 (drop (Z.to_nat (i * 4)) blk))) with
      | Ret a' => fat_unpack_sector n' (i + 1) (idx + 1) total blk a'
      | Fault f => Fault f
      end
    else Ret (a, idx)
  end.

Fixpoint fat_load_loop (n : nat) (s idx : Z) (l : layout_t) (a : list Z)
    : M (Z * list Z) :=
  match n with
  | O => ret (0, a)
  | S n' =>
    r ← disk_read_idx (u32 (fat_start l + s));
    match r with
    | None => ret (-1, a)
    | Some blk =>
      '(a', idx') ← lift (fat_unpack_sector 32 0 idx (total_blocks l) blk a);
      fat_load_loop n' (s + 1) idx' l a'
    end
  end.

Definition fat_load : M Z :=
  w ← get;
  if loaded (fat (G w)) then ret 0
  else
    let l := L (G w) in
    let a0 := replicate (Z.to_nat (total_blocks l)) 0 in
    '(rc, a) ← fat_load_loop (Z.to_nat (fat_sectors l)) 0 0 l a0;
    _ ← modify (fun w => set_fat w (mkFat a (rc =? 0)));
    ret rc.

(** Inner loop of [fat_flush]. *)
Fixpoint fat_pack_sector (n : nat) (i idx total : Z) (a : list Z)
    (blk : list byte) : res (list byte * Z) :=
  match n with
  | O => Ret (blk, idx)
  | S n' =>
    if idx <? total then
      match aget a idx with
      | Ret x =>
        fat_pack_sector n' (i + 1) (idx + 1) total a
          (splice blk (Z.to_nat (i * 4)) (le_enc 4 x))
      | Fault f => Fault f
      end
    else Ret (blk, idx)
  end.

Fixpoint fat_flush_loop (n : nat) (s idx : Z) (l : layout_t) (a : list Z) : M Z :=
  match n with
  | O => ret 0
  | S n' =>
    '(blk, idx') ← lift (fat_pack_sector 32 0 idx (total_blocks l) a (zeros 128));
    rc ← disk_write_idx (u32 (fat_start l + s)) blk;
    if rc <? 0 then ret (-1) else fat_flush_loop n' (s + 1) idx' l a
  end.

Definition fat_flush : M Z :=
  w ← get;
  if negb (loaded (fat (G w))) then ret 0
  else fat_flush_loop (Z.to_nat (fat_sectors (L (G w)))) 0 0 (L (G w)) (v (fat (G w))).

Definition fat_get (i : Z) : M Z :=
  w ← get; lift (aget (v (fat (G w))) i).

Definition fat_set (i x : Z) : M unit :=
  w ← get;
  a ← lift (aset (v (fat (G w))) i x);
  modify (fun w => set_v w a).

(** *** C strings *)

Fixpoint strlen (s : list byte) : Z :=
  match s with
  | [] => 0
  | c :: s' => if decide (c = x00) then 0 else 1 + strlen s'
  end.

(** The characters of a C string, up to its terminator. *)
Fixpoint cstr (s : list byte) : list byte :=
  match s with
  | [] => []
  | c :: s' => if decide (c = x00) then [] else c :: cstr s'
  end.

(** [strncpy (dst, src, n)]: the [n] bytes written to [dst]. *)
Fixpoint strncpy (n : nat) (src : list byte) : list byte :=
  match n with
  | O => []
  | S n' =>
    match src with
    | [] => zeros n
    | c :: s' => if decide (c = x00) then zeros n else c :: strncpy n' s'
    end
  end.

(** [strncmp (a, b, n) == 0].  The end of a list is its terminator. *)
Fixpoint strncmp (a b : list byte) (n : nat) : bool :=
  match n with
  | O => true
  | S n' =>
    let ca := hd x00 a in
    let cb := hd x00 b in
    if decide (ca = cb) then
      if decide (ca = x00) then true else strncmp (tl a) (tl b) n'
    else false
  end.

(** *** Directory helpers *)

Definition dir_read_entry (slot : Z) : M (option dirent_fs) :=
  w ← get;
  let per_sector := BLKSZ / 64 in
  let sec := u32 (dir_start (L (G w)) + slot / per_sector) in
  let offs := (slot mod per_sector) * 64 in
  r ← disk_read_idx sec;
  match r with
  | None => mret None
  | Some blk => mret (Some (dirent_unpack (drop (Z.to_nat offs) blk)))
  end.

Definition dir_write_entry (slot : Z) (e : dirent_fs) : M Z :=
  w ← get;
  let per_sector := BLKSZ / 64 in
  let sec := u32 (dir_start (L (G w)) + slot / per_sector) in
  let offs := (slot mod per_sector) * 64 in
  r ← disk_read_idx sec;
  match r with
  | None => mret (-1)
  | Some blk =>
    rc ← disk_write_idx sec (splice blk (Z.to_nat offs) (dirent_pack e));
    if rc <? 0 then mret (-1) else mret 0
  end.

(** Result of a directory scan: return value 0 with the slot and the
    entry, return value 1, or return value -1. *)
Inductive found :=
| Found (slot : Z) (e : dirent_fs)
| NotFound
| FindErr.

Fixpoint dir_find_by_name_loop (n : nat) (i : Z) (nm : list byte) : M found :=
  match n with
  | O => mret NotFound
  | S n' =>
    r ← dir_read_entry i;
    match r with
    | None => mret FindErr
    | Some ent =>
      if negb (bool_decide (used ent = x00)) && strncmp (name ent) nm 32
      then mret (Found i ent)
      else dir_find_by_name_loop n' (i + 1) nm
    end
  end.

Definition dir_find_by_name (nm : list byte) : M found :=
  w ← get;
  dir_find_by_name_loop (Z.to_nat (dir_entries (L (G w)))) 0 nm.

(** [dir_find_free]: [Some (Some slot)] is 0, [Some None] is 1, [None] is -1. *)
Fixpoint dir_find_free_loop (n : nat) (i : Z) : M (option (option Z)) :=
  match n with
  | O => mret (Some None)
  | S n' =>
    r ← dir_read_entry i;
    match r with
    | None => mret None
    | Some e =>
      if bool_decide (used e = x00) then mret (Some (Some i))
      else dir_find_free_loop n' (i + 1)
    end
  end.

Definition dir_find_free : M (option (option Z)) :=
  w ← get;
  dir_find_free_loop (Z.to_nat (dir_entries (L (G w)))) 0.

(** *** Allocation *)

Fixpoint find_free_block_loop (n : nat) (i : Z) (a : list Z) : res (option Z) :=
  match n with
  | O => Ret None
  | S n' =>
    match aget a i with
    | Ret x => if x =? FAT_FREE then Ret (Some i) else find_free_block_loop n' (i + 1) a
    | Fault f => Fault f
    end
  end.

Definition find_free_block (l : layout_t) (a : list Z) (start_idx : Z)
    : res (option Z) :=
  find_free_block_loop (Z.to_nat (total_blocks l - start_idx)) start_idx a.

(** [free_chain] on the cached array; the loop is bounded by [fuel]. *)
Fixpoint free_chain (fuel : nat) (a : list Z) (cur : Z) : res (list Z) :=
  if cur =? FAT_EOF then Ret a
  else
    match fuel with
    | O => Fault OutOfFuel
    | S fuel' =>
      match aget a cur with
      | Fault f => Fault f
      | Ret nxt =>
        match aset a cur FAT_FREE with
        | Fault f => Fault f
        | Ret a' => if nxt =? FAT_EOF then Ret a' else free_chain fuel' a' nxt
        end
      end
    end.

(** *** Formatting *)

Definition compute_layout (d : disk_t) : layout_t :=
  let total := disk_total_blocks d in
  let fat_bytes := u32 (total * 4) in
  let fat_secs := u32 (fat_bytes + BLKSZ - 1) / BLKSZ in
  let entries := 64 in
  let dsecs := 32 in
  let fstart := 1 in
  mkLayout total fstart fat_secs (u32 (fstart + fat_secs)) dsecs entries.

(** The sector that holds the superblock. *)
Definition super_sector : Z := 0.

(** The first usable data block ([data_start] in [write_whole_file]). *)
Definition data_start (l : layout_t) : Z := u32 (dir_start l + dir_sectors l).

(** [for (s = 0; s < n; s++) disk_write_idx (start + s, z)]. *)
Fixpoint write_run (n : nat) (start s : Z) (z : list byte) : M Z :=
  match n with
  | O => mret 0
  | S n' =>
    rc ← disk_write_idx (u32 (start + s)) z;
    if rc <? 0 then mret (-1) else write_run n' start (s + 1) z
  end.

(** [for (i = 0; i <= meta_end && i < total; i++) v[i] = FAT_RESERVED]. *)
Fixpoint reserve_loop (n : nat) (i meta_end : Z) (a : list Z) : res (list Z) :=
  match n with
  | O => Ret a
  | S n' =>
    if i <=? meta_end then
      match aset a i FAT_RESERVED with
      | Ret a' => reserve_loop n' (i + 1) meta_end a'
      | Fault f => Fault f
      end
    else Ret a
  end.

Definition format_fs : M Z :=
  w0 ← get;
  let l := compute_layout (conn w0) in
  _ ← modify (fun w => set_L w l);
  rc ← disk_write_idx super_sector (super_pack (conn w0) l);
  if rc <? 0 then mret (-1) else
  rc ← write_run (Z.to_nat (fat_sectors l)) (fat_start l) 0 (zeros 128);
  if rc <? 0 then mret (-1) else
  rc ← fat_load;
  if rc <? 0 then mret (-1) else
  let meta_end := u32 (dir_start l + dir_sectors l - 1) in
  w ← get;
  a ← lift (reserve_loop (Z.to_nat (total_blocks l)) 0 meta_end (v (fat (G w))));
  _ ← modify (fun w => set_v w a);
  rc ← fat_flush;
  if rc <? 0 then mret (-1) else
  rc ← write_run (Z.to_nat (dir_sectors l)) (dir_start l) 0 (zeros 128);
  if rc <? 0 then mret (-1) else mret 0.

(** *** Reading and writing files *)

(** The loop of [read_whole_file]: [out] is what has been copied into the
    buffer so far. *)
Fixpoint read_loop (fuel : nat) (left cur : Z) (out : list byte)
    : M (Z * list byte) :=
  if (0 <? left) && negb (cur =? FAT_EOF) then
    match fuel with
    | O => lift (Fault OutOfFuel)
    | S fuel' =>
      r ← disk_read_idx cur;
      match r with
      | None => mret (-1, out)
      | Some blk =>
        let take_ := if left <? BLKSZ then left else BLKSZ in
        nxt ← fat_get cur;
        read_loop fuel' (left - take_) nxt (out ++ take (Z.to_nat take_) blk)
      end
    end
  else mret (0, out).

(** [read_whole_file]: the return value and the bytes copied to the front
    of the [malloc]ed buffer of [length ent] bytes. *)
Definition read_whole_file (fuel : nat) (ent : dirent_fs) : M (Z * list byte) :=
  read_loop fuel (length ent) (first ent) [].

(** The allocation loop of [write_whole_file]: [None] is "no space". *)
Fixpoint alloc_loop (n : nat) (l : layout_t) (dstart head prev : Z)
    : M (option Z) :=
  match n with
  | O => mret (Some head)
  | S n' =>
    w ← get;
    fb ← lift (find_free_block l (v (fat (G w))) dstart);
    match fb with
    | None => mret None
    | Some b =>
      _ ← fat_set b FAT_EOF;
      _ ← (if prev =? FAT_EOF then mret tt else fat_set prev b);
      alloc_loop n' l dstart (if prev =? FAT_EOF then b else head) b
    end
  end.

(** The block-writing loop of [write_whole_file]. *)
Fixpoint write_loop (fuel : nat) (data : list byte) (len cur left pos : Z) : M Z :=
  if cur =? FAT_EOF then mret 0
  else
    match fuel with
    | O => lift (Fault OutOfFuel)
    | S fuel' =>
      let take_ := if left <? BLKSZ then left else BLKSZ in
      let blk := take (Z.to_nat take_) (drop (Z.to_nat pos) data)
                   ++ zeros (Z.to_nat (BLKSZ - take_)) in
      rc ← disk_write_idx cur blk;
      if rc <? 0 then mret (-1) else
      let pos' := u32 (pos + take_) in
      let left' := if take_ <? left then left - take_ else 0 in
      nxt ← fat_get cur;
      write_loop fuel' data len
        (if (nxt =? FAT_EOF) || (len <=? pos') then FAT_EOF else nxt) left' pos'
    end.

(** [write_whole_file]: the return value (0, -1, or -2 for "no space") and
    the entry as the function leaves it. *)
Definition write_whole_file (fuel : nat) (ent : dirent_fs) (data : list byte)
    (len : Z) : M (Z * dirent_fs) :=
  w ← get;
  _ ← (if negb (bool_decide (used ent = x00)) && negb (first ent =? FAT_EOF)
       then a ← lift (free_chain fuel (v (fat (G w))) (first ent));
            modify (fun w => set_v w a)
       else mret tt);
  let ent1 := mkDirent (name ent) len FAT_EOF (used ent) in
  if len =? 0 then mret (0, ent1) else
  let blocks := u32 (len + BLKSZ - 1) / BLKSZ in
  w ← get;
  let l := L (G w) in
  h ← alloc_loop (Z.to_nat blocks) l (data_start l) FAT_EOF FAT_EOF;
  match h with
  | None => mret (-2, ent1)
  | Some head =>
    let ent2 := mkDirent (name ent) len head (used ent) in
    rc ← write_loop fuel data len head len 0;
    mret (rc, ent2)
  end.

(** *** Command handlers

    A handler returns the bytes it sends to the client.  [cmd_write] also
    returns its C return value and what is left of the client's stream. *)

Definition r0 : list byte := [x30; x0a].          (* "0\n" *)
Definition r1 : list byte := [x31; x0a].          (* "1\n" *)
Definition r2 : list byte := [x32; x0a].          (* "2\n" *)
Definition r1_0 : list byte := [x31; x20; x30; x20; x0a].   (* "1 0 \n" *)
Definition r2_0 : list byte := [x32; x20; x30; x20; x0a].   (* "2 0 \n" *)
Definition unformatted_line : list byte :=
  [x28; x75; x6e; x66; x6f; x72; x6d; x61; x74; x74; x65; x64; x29; x0a].

Definition cmd_format : M (list byte) :=
  w0 ← get;
  _ ← modify (fun w => set_L w (compute_layout (conn w0)));
  _ ← modify (fun w => set_fat w fat_init);
  rc ← format_fs;
  _ ← (if rc =? 0 then modify (fun w => set_formatted w true) else mret tt);
  mret (if rc =? 0 then r0 else r2).

Definition cmd_create (nm : list byte) : M (list byte) :=
  if (strlen nm =? 0) || (MAX_NAME <=? strlen nm) then mret r2 else
  w ← get;
  if negb (formatted (G w)) then mret r2 else
  rc ← fat_load;
  if rc <? 0 then mret r2 else
  fnd ← dir_find_by_name nm;
  match fnd with
  | Found _ _ => mret r1
  | _ =>
    fs ← dir_find_free;
    match fs with
    | Some (Some free_slot) =>
      (* memset, strncpy of 31 bytes, length 0, first EOF, used 1 *)
      let e := mkDirent (strncpy 31 nm ++ [x00]) 0 FAT_EOF x01 in
      rc ← dir_write_entry free_slot e;
      mret (if rc =? 0 then r0 else r2)
    | _ => mret r2
    end
  end.

Definition blank : dirent_fs := mkDirent (zeros 32) 0 0 x00.

Definition cmd_delete (fuel : nat) (nm : list byte) : M (list byte) :=
  w ← get;
  if negb (formatted (G w)) then mret r2 else
  rc ← fat_load;
  if rc <? 0 then mret r2 else
  fnd ← dir_find_by_name nm;
  match fnd with
  | Found slot e =>
    _ ← (if negb (first e =? FAT_EOF)
         then w ← get;
              a ← lift (free_chain fuel (v (fat (G w))) (first e));
              modify (fun w => set_v w a)
         else mret tt);
    rc ← fat_flush;
    if rc <? 0 then mret r2 else
    rc ← dir_write_entry slot blank;
    mret (if rc =? 0 then r0 else r2)
  | _ => mret r1
  end.

(** [cmd_list]: [None] is the return value -1 (the lines sent before the
    failing read are dropped from the model). *)
Fixpoint cmd_list_loop (n : nat) (i : Z) (brief : bool) (acc : list byte)
    : M (option (list byte)) :=
  match n with
  | O => mret (Some acc)
  | S n' =>
    r ← dir_read_entry i;
    match r with
    | None => mret None
    | Some e =>
      if bool_decide (used e = x00) then cmd_list_loop n' (i + 1) brief acc
      else
        let line := if brief then cstr (name e) ++ [x0a]
                    else cstr (name e) ++ [x20] ++ fmt_u (length e) ++ [x0a] in
        cmd_list_loop n' (i + 1) brief (acc ++ line)
    end
  end.

Definition cmd_list (brief : bool) : M (option (list byte)) :=
  w ← get;
  if negb (formatted (G w)) then mret (Some unformatted_line)
  else cmd_list_loop (Z.to_nat (dir_entries (L (G w)))) 0 brief [].

(** [cmd_read]; [uninit] is the content of the buffer as [malloc] returned
    it, of which the part not overwritten by the copy is sent as it is. *)
Definition cmd_read (fuel : nat) (uninit : list byte) (nm : list byte)
    : M (list byte) :=
  w ← get;
  if negb (formatted (G w)) then mret r1_0 else
  rc ← fat_load;
  if rc <? 0 then mret r2_0 else
  fnd ← dir_find_by_name nm;
  match fnd with
  | Found slot e =>
    '(rc, out) ← read_whole_file fuel e;
    if rc <? 0 then mret r2_0 else
    let len := length e in
    let buf := take (Z.to_nat len) (out ++ drop (List.length out) uninit) in
    mret ([x30; x20] ++ fmt_u len ++ [x20] ++ buf ++ [x0a])
  | _ => mret r1_0
  end.

(** What [cmd_write] leaves on the client connection. *)
Record wres := mkWres {
  w_rv : Z;
  w_sent : list byte;
  w_unread : list byte
}.

Definition cmd_write (fuel : nat) (nm : list byte) (len : Z) (inp : list byte)
    : M wres :=
  if (0 <? len) && (Z.of_nat (List.length inp) <? len) then
    (* read_exact comes back short: the connection is given up *)
    mret (mkWres (-1) [] [])
  else
  let data := take (Z.to_nat len) inp in
  let unread := drop (Z.to_nat len) inp in
  let reply r := mret (mkWres 0 r unread) in
  w ← get;
  if negb (formatted (G w)) then reply r2 else
  rc ← fat_load;
  if rc <? 0 then reply r2 else
  fnd ← dir_find_by_name nm;
  match fnd with
  | Found slot e =>
    '(rc, e') ← write_whole_file fuel e data len;
    if rc =? -2 then reply r2 else
    if rc <? 0 then reply r2 else
    rc ← fat_flush;
    if rc <? 0 then reply r2 else
    rc ← dir_write_entry slot e';
    if rc <? 0 then reply r2 else
    reply r0
  | _ => reply r1
  end.

(** *** The worker *)

(** Start of [client_main]: [disk_connect] learns the geometry (the decimal
    text of the [I] reply is read back as the numbers the disk printed),
    then the layout of a superblock that carries the magic is adopted. *)
Definition client_open : M unit :=
  w ← get;
  _ ← modify (fun w => set_conn w (mkDiskT (Disk.g_cyl (dsk w)) (Disk.g_sec (dsk w)) []));
  r ← disk_read_idx super_sector;
  match r with
  | None => mret tt
  | Some blk =>
    match super_load blk with
    | None => mret tt
    | Some (c, s, l) =>
      modify (fun w =>
        set_formatted (set_L (set_conn w (mkDiskT c s (stale (conn w)))) l) true)
    end
  end.

End FS.

(** ** Invariants of the disk service *)

Module DiskInv.
Import Mach Disk.

(** The size of the disk in bytes is one that [main] computes without
    wrapping. *)
Definition size_ok (st : state) : Prop :=
  g_cyl st * g_sec st * BLKSZ < 2 ^ 64.

(** The image has the length of the geometry, which [main] mapped. *)
Definition geometry_ok (st : state) : Prop :=
  0 < g_cyl st /\ 0 < g_sec st /\
  Z.of_nat (length (g_base st)) = g_cyl st * g_sec st * BLKSZ /\
  g_cyl st * g_sec st * BLKSZ < 2 ^ 64.

Definition arm_ok (st : state) : Prop := 0 <= g_head_cyl st < g_cyl st.

(** The configured seek time is a duration, and the longest seek fits in
    the [long] that [sleep_tracks] computes it in. *)
Definition track_time_ok (st : state) : Prop :=
  0 <= g_track_us st /\ (g_cyl st - 1) * g_track_us st <= long_max.

Definition is_sleep (e : event) : Prop :=
  match e with EvSleep _ => True | _ => False end.

(** Total time slept in a trace, in microseconds. *)
Fixpoint slept (t : list event) : Z :=
  match t with
  | [] => 0
  | EvSleep us :: t' => us + slept t'
  | _ :: t' => slept t'
  end.

End DiskInv.

(** ** Invariants of the filesystem service *)

Module FSInv.
Import Mach FS.

(** The disk image behind the worker's connection, and its size in
    sectors. *)
Definition img (w : world) : list byte := Disk.g_base (dsk w).
Definition nblocks (w : world) : Z := Disk.g_cyl (dsk w) * Disk.g_sec (dsk w).

(** Sector [idx] of an image, and the image with that sector replaced. *)
Definition sector (m : list byte) (idx : Z) : list byte :=
  take 128 (drop (Z.to_nat (idx * 128)) m).
Definition put_sector (m : list byte) (idx : Z) (blk : list byte) : list byte :=
  splice m (Z.to_nat (idx * 128)) blk.

(** The world with another image and arm position; the worker's
    connection and [G] are those of [w]. *)
Definition at_disk (w : world) (m : list byte) (hd : Z) : world :=
  mkWorld
    (Disk.mkState (Disk.g_cyl (dsk w)) (Disk.g_sec (dsk w))
       (Disk.g_track_us (dsk w)) m hd)
    (conn w) (G w).

(** The worker is connected to a disk service in one of its states, holds
    the geometry that the disk announced, and the framing of the
    connection is intact. *)
Record conn_ok (w : world) : Prop := mkConnOk {
  ok_geometry : DiskInv.geometry_ok (dsk w);
  ok_cyl : cyl (conn w) = Disk.g_cyl (dsk w);
  ok_sec : sec (conn w) = Disk.g_sec (dsk w);
  ok_sec32 : Disk.g_sec (dsk w) < 2 ^ 32;
  ok_stale : stale (conn w) = []
}.

(** The regions of the layout in [G] follow one another on the disk:
    superblock, FAT, directory, data. *)
Record layout_ok (w : world) : Prop := mkLayoutOk {
  lo_fat_start : 1 <= fat_start (L (G w));
  lo_fat_sectors : 0 <= fat_sectors (L (G w));
  lo_dir_start : fat_start (L (G w)) + fat_sectors (L (G w)) <= dir_start (L (G w));
  lo_dir_sectors : 0 <= dir_sectors (L (G w));
  lo_data : dir_start (L (G w)) + dir_sectors (L (G w)) <= total_blocks (L (G w));
  lo_total : total_blocks (L (G w)) <= nblocks w;
  lo_total32 : total_blocks (L (G w)) < 2 ^ 32;
  lo_entries : 0 <= dir_entries (L (G w)) <= 2 * dir_sectors (L (G w))
}.

(** The part of [layout_ok] that loading and flushing the FAT rely on:
    the FAT sectors are sectors of the disk. *)
Record fat_region_ok (w : world) : Prop := mkFatRegionOk {
  fr_start : 0 <= fat_start (L (G w));
  fr_sectors : 0 <= fat_sectors (L (G w));
  fr_end : fat_start (L (G w)) + fat_sectors (L (G w)) <= nblocks w;
  fr_32 : fat_start (L (G w)) + fat_sectors (L (G w)) <= 2 ^ 32;
  fr_total : 0 <= total_blocks (L (G w))
}.

(** A loaded FAT cache has one entry per block. *)
Definition cache_ok (w : world) : Prop :=
  loaded (fat (G w)) = true ->
  Z.of_nat (List.length (v (fat (G w)))) = total_blocks (L (G w)).

(** A formatted filesystem, seen from one worker. *)
Record fs_ok (w : world) : Prop := mkFsOk {
  fs_conn : conn_ok w;
  fs_layout : layout_ok w;
  fs_cache : cache_ok w;
  fs_formatted : formatted (G w) = true
}.

(** The directory entry stored in slot [slot] of an image. *)
Definition entry_at (m : list byte) (l : layout_t) (slot : Z) : dirent_fs :=
  dirent_unpack
    (drop (Z.to_nat ((slot mod 2) * 64)) (sector m (dir_start l + slot / 2))).

(** Entry [e] is in use and its name compares equal to [nm]. *)
Definition names (e : dirent_fs) (nm : list byte) : Prop :=
  used e <> x00 /\ strncmp (name e) nm 32 = true.

(** Slot [slot] is the first one whose entry is in use under the name
    [nm]: the slot that [dir_find_by_name] returns. *)
Definition first_named (w : world) (nm : list byte) (slot : Z) : Prop :=
  0 <= slot < dir_entries (L (G w)) /\
  names (entry_at (img w) (L (G w)) slot) nm /\
  forall i, 0 <= i < slot -> ~ names (entry_at (img w) (L (G w)) i) nm.

(** Some slot holds a used entry named [nm]. *)
Definition has_entry (w : world) (nm : list byte) : Prop :=
  exists slot, 0 <= slot < dir_entries (L (G w)) /\
               names (entry_at (img w) (L (G w)) slot) nm.

(** The image after [dir_write_entry] stored [e] in slot [slot]. *)
Definition put_entry (m : list byte) (l : layout_t) (slot : Z) (e : dirent_fs)
    : list byte :=
  put_sector m (dir_start l + slot / 2)
    (splice (sector m (dir_start l + slot / 2))
       (Z.to_nat (slot mod 2 * 64)) (dirent_pack e)).

(** The entry that [cmd_create] writes for the name [nm]. *)
Definition new_entry (nm : list byte) : dirent_fs :=
  mkDirent (strncpy 31 nm ++ [x00]) 0 FAT_EOF x01.

(** The world with image [m], arm at [hd] and the loaded cache [a]. *)
Definition upd (w : world) (m : list byte) (hd : Z) (a : list Z) : world :=
  mkWorld
    (Disk.mkState (Disk.g_cyl (dsk w)) (Disk.g_sec (dsk w))
       (Disk.g_track_us (dsk w)) m hd)
    (conn w)
    (mkG (L (G w)) (mkFat a true) (formatted (G w))).

(** The FAT the handlers work on: the cache once [fat_load] has run. *)
Definition fat_of (w : world) : list Z :=
  match fat_load w with
  | Ret (_, w') => v (fat (G w'))
  | Fault _ => []
  end.

(** The FAT as the disk holds it: what [fat_load] reads into an empty
    cache. *)
Definition fat_on_disk (w : world) : list Z := fat_of (set_fat w fat_init).

(** Two images of the same length that agree on every sector outside
    [lo, hi). *)
Definition same_outside (lo hi : Z) (m m' : list byte) : Prop :=
  List.length m' = List.length m /\
  forall j, 0 <= j -> ~ lo <= j < hi -> sector m' j = sector m j.

(** The test of the directory scan, and the scans as functions of the
    image. *)
Definition named_b (e : dirent_fs) (nm : list byte) : bool :=
  negb (bool_decide (used e = x00)) && strncmp (name e) nm 32.

Fixpoint scan_name (m : list byte) (l : layout_t) (nm : list byte)
    (n : nat) (i : Z) : found :=
  match n with
  | O => NotFound
  | S n' =>
    let e := entry_at m l i in
    if named_b e nm then Found i e else scan_name m l nm n' (i + 1)
  end.

Fixpoint scan_free (m : list byte) (l : layout_t) (n : nat) (i : Z) : option Z :=
  match n with
  | O => None
  | S n' =>
    if bool_decide (used (entry_at m l i) = x00) then Some i
    else scan_free m l n' (i + 1)
  end.

(** [chain a b bs]: following the links of the FAT [a] from block [b]
    visits exactly the blocks [bs] and then meets the EOF mark. *)
Inductive chain (a : list Z) : Z -> list Z -> Prop :=
| chain_nil : chain a FAT_EOF []
| chain_cons b nxt bs :
    0 <= b -> b <> FAT_EOF -> a !! Z.to_nat b = Some nxt ->
    chain a nxt bs -> chain a b (b :: bs).

(** The FAT with the entries of the blocks [bs] set to FREE, in order. *)
Definition free_all (bs : list Z) (a : list Z) : list Z :=
  fold_left (fun acc b => <[Z.to_nat b := FAT_FREE]> acc) bs a.

(** Slot [slot] holds the only used entry named [nm] (names are unique
    among used entries). *)
Definition only_named (w : world) (nm : list byte) (slot : Z) : Prop :=
  0 <= slot < dir_entries (L (G w)) /\
  names (entry_at (img w) (L (G w)) slot) nm /\
  forall j, 0 <= j < dir_entries (L (G w)) -> j <> slot ->
            ~ names (entry_at (img w) (L (G w)) j) nm.

(** Number of FREE entries of a FAT fragment, and of the data area of a
    FAT: the blocks that [find_free_block] can return. *)
Definition nfree (xs : list Z) : nat :=
  List.length (filter (fun x => x = FAT_FREE) xs).

Definition free_count (l : layout_t) (a : list Z) : Z :=
  Z.of_nat (nfree (drop (Z.to_nat (data_start l)) a)).

(** One round of the allocation loop that finds a block: the block [b]
    becomes the end of the chain and, if there is one, the previous end
    [prev] is linked to it. *)
Definition link (a : list Z) (prev b : Z) : list Z :=
  let a1 := <[Z.to_nat b := FAT_EOF]> a in
  if prev =? FAT_EOF then a1 else <[Z.to_nat prev := b]> a1.

(** [holds lo hi m a cur d]: walking the FAT [a] from block [cur], the
    blocks (all in [lo, hi)) hold the bytes [d] in the image [m], 128 per
    block, the last block possibly in part. *)
Inductive holds (lo hi : Z) (m : list byte) (a : list Z)
    : Z -> list byte -> Prop :=
| holds_nil cur : holds lo hi m a cur []
| holds_cons cur nxt d :
    d <> [] -> lo <= cur < hi -> cur <> FAT_EOF ->
    a !! Z.to_nat cur = Some nxt ->
    take (List.length d) (sector m cur) = take 128 d ->
    holds lo hi m a nxt (drop 128 d) ->
    holds lo hi m a cur d.

(** Entry [j] of the FAT as the image stores it: four little-endian bytes,
    32 entries to a sector, from sector [fat_start] on. *)
Definition fat_entry_on_disk (m : list byte) (l : layout_t) (j : Z) : Z :=
  le_dec (take 4 (drop (Z.to_nat (j mod 32 * 4)) (sector m (fat_start l + j / 32)))).

(** The line of [cmd_list] for one directory entry, and the listing of a
    whole directory: the lines of the used entries, in slot order. *)
Definition list_line (brief : bool) (e : dirent_fs) : list byte :=
  if bool_decide (used e = x00) then []
  else if brief then cstr (name e) ++ [x0a]
       else cstr (name e) ++ [x20] ++ fmt_u (FS.length e) ++ [x0a].

Definition listing (brief : bool) (m : list byte) (l : layout_t) : list byte :=
  flat_map (fun i => list_line brief (entry_at m l (Z.of_nat i)))
    (seq 0 (Z.to_nat (dir_entries l))).

End FSInv.

(** ** The directory client's path helpers (fs_dirs.c)

    A string argument is a buffer read up to its terminator ([cstr]); a
    result is the text left in the output buffer, without the
    terminator.  Both functions are called with a buffer of [PATHBUF]
    bytes; the definitions are for a size of at least one byte, below
    which [snprintf] stores nothing. *)
Module Dirs.
Import Mach FS.

Definition PATHBUF : Z := 1024.

(** [snprintf (out, out_sz, ...)] of the text [s]: what fits before the
    terminator. *)
Definition snprintf (out_sz : Z) (s : list byte) : list byte :=
  take (Z.to_nat (out_sz - 1)) s.

(** [while (len > 1 && out[len - 1] == '/') { out[len - 1] = 0; len--; }],
    at most [n] rounds. *)
Fixpoint trim_slashes (n : nat) (out : list byte) : list byte :=
  match n with
  | O => out
  | S n' =>
    let len := List.length out in
    if (1 <? len)%nat && bool_decide (out !! (len - 1)%nat = Some x2f)
    then trim_slashes n' (take (len - 1) out)
    else out
  end.

Definition join_path (cwd name : list byte) (out_sz : Z) : list byte :=
  let out :=
    if bool_decide (hd x00 name = x2f) then snprintf out_sz (cstr name)
    else if bool_decide (cstr cwd = [x2f])
         then snprintf out_sz (x2f :: cstr name)
         else snprintf out_sz (cstr cwd ++ x2f :: cstr name) in
  trim_slashes (List.length out) out.

(** For a path that is not empty; [canon_path + 1] is read. *)
Definition path_to_fsname (canon_path : list byte) (fsname_sz : Z)
    : list byte :=
  if bool_decide (cstr canon_path = [x2f]) then []
  else snprintf fsname_sz (drop 1 (cstr canon_path) ++ [x2f]).

End Dirs.

(** ** Small filesystems used as instances *)

Module Examples.
Import Mach FS FSInv.

(** A zeroed disk of [c] cylinders and [s] sectors, a worker that has not
    connected yet, and a server that has just started. *)
Definition blank_world (c s : Z) : world :=
  mkWorld (Disk.boot c s 0 (zeros (Z.to_nat (c * s * 128))))
          (mkDiskT 0 0 [])
          (mkG (mkLayout 0 0 0 0 0 0) fat_init false).

(** The world a handler leaves behind. *)
Definition after {A} (m : M A) (w : world) : world :=
  match m w with
  | Ret (_, w') => w'
  | Fault _ => w
  end.

(** What a handler returns. *)
Definition answer {A} (m : M A) (w : world) : option A :=
  match m w with
  | Ret (a, _) => Some a
  | Fault _ => None
  end.

Definition foo : list byte := [x66; x6f; x6f].
Definition hello : list byte := [x68; x65; x6c; x6c; x6f].

(** 36 sectors: 35 of metadata and one data block. *)
Definition connected36 : world := after client_open (blank_world 6 6).
Definition fresh36 : world := after cmd_format connected36.
Definition foo36 : world := after (cmd_create foo) fresh36.
Definition hello36 : world := after (cmd_write 64 foo 5 hello) foo36.

(** 35 sectors: metadata only. *)
Definition connected35 : world := after client_open (blank_world 5 7).

(** 34 sectors: the directory does not fit. *)
Definition connected34 : world := after client_open (blank_world 2 17).

(** 42 sectors: seven data blocks. *)
Definition connected42 : world := after client_open (blank_world 6 7).
Definition fresh42 : world := after cmd_format connected42.
Definition foo42 : world := after (cmd_create foo) fresh42.

(** A booted disk of 4 x 4 blocks, and two payloads. *)
Definition disk44 : Disk.state := Disk.boot 4 4 1000 (zeros 2048).

Definition payload200 : list byte := replicate 200 x41.
Definition payload300 : list byte := replicate 300 x42.

(** The 36-sector filesystem after a [W foo 200] that does not fit. *)
Definition full36 : world := after (cmd_write 64 foo 200 payload200) hello36.

(** The longest payload that a [W] line can announce. *)
Definition payload_max : list byte := replicate (Z.to_nat 4294967295) x41.

(** A disk of 40000000 x 1 sectors as [F] and then [C foo] leave it when
    it was zeroed before: the superblock, the FAT with its 1250033
    metadata blocks RESERVED and the 38749967 data blocks FREE, the entry
    of the empty file in slot 0; and the server that did it. *)
Definition large_conn : disk_t := mkDiskT 40000000 1 [].
Definition large_layout : layout_t := mkLayout 40000000 1 1250000 1250001 32 64.
Definition large_fat : list Z :=
  replicate (Z.to_nat 1250033) FAT_RESERVED
    ++ replicate (Z.to_nat 38749967) FAT_FREE.
Definition large_img : list byte :=
  super_pack large_conn large_layout ++ flat_map (le_enc 4) large_fat
    ++ dirent_pack (new_entry foo) ++ zeros (Z.to_nat 4959999808).
Definition large_world : world :=
  mkWorld (Disk.mkState 40000000 1 0 large_img 0) large_conn
          (mkG large_layout (mkFat large_fat true) true).

(** The 42-sector filesystem with two files: [foo] of 300 bytes in the
    blocks 35, 36 and 37, and [bar] of 5 bytes in block 38. *)
Definition bar : list byte := [x62; x61; x72].
Definition two42 : world :=
  after (cmd_write 64 bar 5 hello)
    (after (cmd_create bar) (after (cmd_write 64 foo 300 payload300) foo42)).

(** A filesystem on the 36-sector disk whose superblock describes a
    directory of one sector, with both of its slots in use. *)
Definition narrow_layout : layout_t := mkLayout 36 1 2 3 1 2.
Definition narrow36 : world :=
  mkWorld (dsk connected36) (conn connected36) (mkG narrow_layout fat_init true).
Definition narrow36_full : world :=
  after (cmd_create bar) (after (cmd_create foo) narrow36).

(** What the disk server returns for [W 1 2 5] followed by [hello]. *)
Definition disk44_hello : Disk.outcome :=
  match Disk.handle_W disk44 (hello ++ foo) 1 2 5 with
  | Ret o => o
  | Fault _ => Disk.mkOut 0 [] [] disk44 []
  end.

(** A disk of 2^57 + 1 cylinders of one sector: its size in bytes wraps
    to 128, and 128 bytes are what [main] maps. *)
Definition wrapped_disk : Disk.state :=
  Disk.boot 144115188075855873 1 1000 (zeros 128).

(** Two disks of 8 x 4 blocks: one with a negative seek time, one with a
    seek time of 2^62 + 1, which four tracks take beyond [LONG_MAX]. *)
Definition backward84 : Disk.state := Disk.boot 8 4 (-5) (zeros 4096).
Definition slow84 : Disk.state :=
  Disk.boot 8 4 4611686018427387905 (zeros 4096).

(** Two buffers that hold the path [/a], the second with bytes left
    behind its terminator, and a name with a slash at its end. *)
Definition path_a : list byte := [x2f; x61].
Definition path_a_stale : list byte := [x2f; x61; x00; x62].
Definition name_b : list byte := [x62].
Definition name_b_slash : list byte := [x62; x2f].

End Examples.

(** * Properties *)

(** ** Bytes, integers and buffers *)

Module MachFacts.
Import Mach.

Lemma byte_to_Z_range b : 0 <= byte_to_Z b < 256.
Proof.
  unfold byte_to_Z. pose proof (Byte.to_N_bounded b). lia.
Qed.

Lemma byte_to_of_Z z : byte_to_Z (byte_of_Z z) = z mod 256.
Proof.
  unfold byte_to_Z, byte_of_Z.
  assert (Hr : 0 <= z mod 256 < 256) by (apply Z.mod_pos_bound; lia).
  destruct (Byte.of_N (Z.to_N (z mod 256))) as [b|] eqn:E.
  - apply Byte.to_of_N in E. simpl. rewrite E. lia.
  - apply Byte.of_N_None_iff in E. lia.
Qed.

Lemma byte_of_to_Z b : byte_of_Z (byte_to_Z b) = b.
Proof.
  unfold byte_of_Z. pose proof (byte_to_Z_range b) as Hr.
  rewrite Z.mod_small by lia. unfold byte_to_Z.
  rewrite N2Z.id, Byte.of_to_N. reflexivity.
Qed.

Lemma le_enc_length n z : length (le_enc n z) = n.
Proof. revert z. induction n as [|n IH]; intros z; simpl; [done|]. by rewrite IH. Qed.

Lemma le_dec_enc n z : le_dec (le_enc n z) = z mod 256 ^ Z.of_nat n.
Proof.
  revert z. induction n as [|n IH]; intros z.
  - simpl. by rewrite Z.mod_1_r.
  - cbn [le_enc le_dec]. rewrite byte_to_of_Z, IH.
    rewrite Nat2Z.inj_succ, Z.pow_succ_r by lia.
    rewrite (Z.rem_mul_r z 256 (256 ^ Z.of_nat n)) by lia. reflexivity.
Qed.

Lemma le_dec_enc_u32 z : 0 <= z < 2 ^ 32 -> le_dec (le_enc 4 z) = z.
Proof.
  intros Hz. rewrite le_dec_enc. change (256 ^ Z.of_nat 4) with (2 ^ 32).
  apply Z.mod_small, Hz.
Qed.

Lemma le_dec_range l : 0 <= le_dec l < 256 ^ Z.of_nat (length l).
Proof.
  induction l as [|b l IH].
  - simpl. lia.
  - cbn [le_dec length]. pose proof (byte_to_Z_range b).
    rewrite Nat2Z.inj_succ, Z.pow_succ_r by lia. lia.
Qed.

Lemma zeros_length n : length (zeros n) = n.
Proof. apply length_replicate. Qed.

Lemma splice_length dst off src :
  (off + length src <= length dst)%nat -> length (splice dst off src) = length dst.
Proof.
  intros H. unfold splice. rewrite !length_app, length_take, length_drop. lia.
Qed.

Lemma splice_read dst off src :
  (off <= length dst)%nat ->
  take (length src) (drop off (splice dst off src)) = src.
Proof.
  intros H. unfold splice.
  rewrite drop_app_length' by (rewrite length_take; lia).
  by rewrite take_app_length.
Qed.

(** Reading [n] bytes at [o] is unaffected by a write that ends before
    [o] or starts after [o + n]. *)
Lemma splice_read_other dst off src o n :
  (off + length src <= length dst)%nat ->
  (o + n <= off \/ off + length src <= o)%nat ->
  take n (drop o (splice dst off src)) = take n (drop o dst).
Proof.
  intros Hin Hd. apply list_eq. intros i.
  rewrite !lookup_take, !lookup_drop.
  destruct (decide (i < n)%nat) as [Hi|Hi]; [|done].
  unfold splice. destruct Hd as [Hd|Hd].
  - rewrite lookup_app_l by (rewrite length_take; lia).
    rewrite lookup_take. by rewrite decide_True by lia.
  - rewrite lookup_app_r by (rewrite length_take; lia).
    rewrite lookup_app_r by (rewrite length_take; lia).
    rewrite lookup_drop, length_take. f_equal. lia.
Qed.

End MachFacts.

(** ** The disk service *)

Module DiskFacts.
Import Mach Disk DiskInv MachFacts.

Lemma validate_cs_true st c s :
  validate_cs st c s = true <-> (0 <= c < g_cyl st /\ 0 <= s < g_sec st).
Proof. unfold validate_cs. rewrite !andb_true_iff. lia. Qed.

Lemma validate_cs_false st c s :
  validate_cs st c s = false <-> (~ 0 <= c < g_cyl st \/ ~ 0 <= s < g_sec st).
Proof.
  rewrite <- not_true_iff_false, validate_cs_true. lia.
Qed.

Lemma blk_ptr_valid st c s :
  geometry_ok st -> 0 <= c < g_cyl st -> 0 <= s < g_sec st ->
  blk_ptr st c s = (c * g_sec st + s) * BLKSZ /\
  0 <= (c * g_sec st + s) * BLKSZ /\
  (c * g_sec st + s) * BLKSZ + BLKSZ <= Z.of_nat (length (g_base st)).
Proof.
  intros (HC & HS & Hlen & Hsz) Hc Hs. unfold BLKSZ in *.
  assert (Hidx : 0 <= c * g_sec st + s < g_cyl st * g_sec st) by nia.
  split; [|lia].
  unfold blk_ptr, size_t, BLKSZ.
  rewrite (Z.mod_small c) by nia.
  rewrite (Z.mod_small (g_sec st)) by nia.
  rewrite (Z.mod_small s) by nia.
  rewrite (Z.mod_small (c * g_sec st)) by nia.
  rewrite (Z.mod_small (c * g_sec st + s)) by nia.
  rewrite Z.mod_small by nia. reflexivity.
Qed.

Lemma with_head_geometry st c : geometry_ok st -> geometry_ok (with_head st c).
Proof. done. Qed.

Lemma serve_geometry st inp q o :
  geometry_ok st -> serve st inp q = Ret o -> geometry_ok (st' o).
Proof.
  intros Hg. destruct q as [|c s|c s l]; simpl.
  - intros [= <-]. done.
  - unfold handle_R. destruct (validate_cs st c s); simpl.
    + destruct (load _ _); simpl; intros [= <-]; done.
    + intros [= <-]. done.
  - unfold handle_W. destruct (validate_cs st c s) eqn:Hv; simpl.
    2:{ intros [= <-]. done. }
    destruct (l <? 0) eqn:Hl0; simpl; [intros [= <-]; done|].
    destruct (BLKSZ <? l) eqn:Hl1; simpl; [intros [= <-]; done|].
    destruct ((0 <? l) && (Z.of_nat (length inp) <? l)) eqn:Hshort;
      [intros [= <-]; done|].
    unfold store.
    destruct (_ <=? _) eqn:Hin; simpl; [|done].
    intros [= <-]. simpl.
    destruct Hg as (HC & HS & Hlen & Hsz). unfold geometry_ok. simpl.
    apply validate_cs_true in Hv as [Hc Hs].
    destruct (blk_ptr_valid st c s) as (Hp & Hp0 & Hp1); [done..|].
    unfold BLKSZ in *.
    assert (Hbuf : length (take (Z.to_nat l) inp ++ zeros (Z.to_nat (128 - l))) = 128%nat).
    { rewrite length_app, length_take, zeros_length.
      apply andb_false_iff in Hshort. lia. }
    rewrite splice_length; [done|]. rewrite Hbuf. lia.
Qed.

(** No request changes the geometry or the seek time. *)
Lemma serve_config st inp q o :
  serve st inp q = Ret o ->
  g_cyl (st' o) = g_cyl st /\ g_sec (st' o) = g_sec st /\
  g_track_us (st' o) = g_track_us st.
Proof.
  destruct q as [|c s|c s l]; simpl.
  - intros [= <-]. done.
  - unfold handle_R. destruct (validate_cs st c s); simpl.
    + destruct (load _ _); simpl; intros [= <-]; done.
    + intros [= <-]. done.
  - unfold handle_W.
    destruct (negb (validate_cs st c s) || (l <? 0) || (BLKSZ <? l));
      [intros [= <-]; done|].
    destruct ((0 <? l) && _); [intros [= <-]; done|].
    destruct (store _ _ _); simpl; intros [= <-]; done.
Qed.

(** The globals stay the [long] values that [main] read. *)
Lemma reachable_config st :
  reachable st ->
  0 < g_cyl st <= long_max /\ 0 < g_sec st <= long_max /\
  long_min <= g_track_us st <= long_max.
Proof.
  induction 1 as [cyl sec t image HC HS HT Hlen|st inp q o _ IH Hs]; [done|].
  destruct (serve_config _ _ _ _ Hs) as (-> & -> & ->). exact IH.
Qed.

(** When the size of the disk does not wrap, the image that [main] maps
    has that size, and keeps it. *)
Lemma reachable_geometry st : reachable st -> size_ok st -> geometry_ok st.
Proof.
  induction 1 as [cyl sec t image HC HS HT Hlen|st inp q o _ IH Hs];
    intros Hsz.
  - unfold size_ok, geometry_ok, boot, BLKSZ in *. cbn [g_cyl g_sec g_base] in *.
    split; [lia|]. split; [lia|]. split; [|done].
    rewrite Hlen. unfold total_bytes, size_t, BLKSZ.
    rewrite (Z.mod_small cyl) by nia. rewrite (Z.mod_small sec) by nia.
    rewrite (Z.mod_small (cyl * sec)) by nia. apply Z.mod_small. nia.
  - destruct (serve_config _ _ _ _ Hs) as (Ec & Es & _).
    apply (serve_geometry st inp q o); [|done].
    apply IH. unfold size_ok in *. by rewrite <- Ec, <- Es.
Qed.

Lemma serve_arm st inp q o :
  arm_ok st -> serve st inp q = Ret o -> arm_ok (st' o).
Proof.
  intros Ha. destruct q as [|c s|c s l]; simpl.
  - intros [= <-]. done.
  - unfold handle_R. destruct (validate_cs st c s) eqn:Hv; simpl.
    + apply validate_cs_true in Hv.
      destruct (load _ _); simpl; intros [= <-]; unfold arm_ok; simpl; lia.
    + intros [= <-]. done.
  - unfold handle_W. destruct (validate_cs st c s) eqn:Hv; simpl.
    2:{ intros [= <-]. done. }
    apply validate_cs_true in Hv.
    destruct (l <? 0); simpl; [intros [= <-]; done|].
    destruct (BLKSZ <? l); simpl; [intros [= <-]; done|].
    destruct ((0 <? l) && _); [intros [= <-]; done|].
    destruct (store _ _ _); simpl; intros [= <-]; unfold arm_ok; simpl; lia.
Qed.

Lemma reachable_arm st : reachable st -> arm_ok st.
Proof.
  induction 1 as [cyl sec t image HC HS HT Hlen|st inp q o _ IH Hs].
  - unfold arm_ok, boot. simpl. lia.
  - eauto using serve_arm.
Qed.

Lemma long_small z : long_min <= z <= long_max -> long z = z.
Proof.
  unfold long, long_min, long_max. intros H.
  rewrite Z.mod_small by lia. lia.
Qed.

(** The seek from [h] to [c] sleeps [|c - h| * T] microseconds in all. *)
Lemma sleep_tracks_spec st h c :
  g_cyl st <= long_max -> track_time_ok st ->
  0 <= h < g_cyl st -> 0 <= c < g_cyl st ->
  Forall is_sleep (sleep_tracks st h c) /\
  slept (sleep_tracks st h c) = Z.abs (c - h) * g_track_us st.
Proof.
  intros HC [HT Hmax] Hh Hc. unfold sleep_tracks.
  assert (Hd : 0 <= Z.abs (c - h) <= g_cyl st - 1) by lia.
  rewrite (long_small (c - h)) by (unfold long_min, long_max in *; lia).
  rewrite long_small by (unfold long_min, long_max in *; nia).
  destruct (_ <=? _) eqn:E.
  - split; [constructor|]. simpl. nia.
  - split; [repeat constructor|]. simpl. lia.
Qed.

Lemma load_store m off buf :
  0 <= off -> off + BLKSZ <= Z.of_nat (length m) -> length buf = 128%nat ->
  exists m', store m off buf = Ret m' /\ load m' off = Ret buf /\
             length m' = length m.
Proof.
  intros H0 Hin Hbuf. unfold store, load, BLKSZ in *.
  assert (Hl : length (splice m (Z.to_nat off) buf) = length m).
  { apply splice_length. lia. }
  exists (splice m (Z.to_nat off) buf).
  rewrite Hl. destruct (_ <=? _) eqn:E; [|lia]. repeat split.
  change (Z.to_nat 128) with 128%nat. rewrite <- Hbuf at 1.
  rewrite splice_read by lia. reflexivity.
Qed.

(** C2, for the disks whose size is computed without wrapping.  In every
    state of a disk service whose geometry has [C * S * 128 < 2^64], for a
    valid sector address [(c, s)] and a payload [d] of at most 128 bytes,
    [W c s |d|] followed by [d] is answered '1' and consumes exactly [d];
    the [R c s] that follows is answered '1' and the 128 bytes [d] padded
    with zeros. *)
Theorem disk_write_then_read st inp c s d :
  reachable st -> size_ok st ->
  0 <= c < g_cyl st -> 0 <= s < g_sec st -> (length d <= 128)%nat ->
  exists o1 o2,
    handle_W st (d ++ inp) c s (Z.of_nat (length d)) = Ret o1 /\
    rv o1 = 0 /\ sent o1 = [x31] /\ rest o1 = inp /\
    handle_R (st' o1) inp c s = Ret o2 /\
    rv o2 = 0 /\ sent o2 = x31 :: d ++ zeros (128 - length d) /\
    length (d ++ zeros (128 - length d)) = 128%nat.
Proof.
  intros Hr Hsz Hc Hs Hd. pose proof (reachable_geometry _ Hr Hsz) as Hg.
  destruct (blk_ptr_valid st c s Hg Hc Hs) as (Hp & Hp0 & Hp1).
  set (buf := d ++ zeros (128 - length d)).
  assert (Hbuf : length buf = 128%nat).
  { unfold buf. rewrite length_app, zeros_length. lia. }
  destruct (load_store (g_base st) (blk_ptr st c s) buf) as (m' & Hst & Hld & Hlen);
    [lia|lia|done|].
  unfold handle_W.
  rewrite (proj2 (validate_cs_true st c s)) by done. simpl.
  destruct (_ <? 0) eqn:E0; [lia|]. unfold BLKSZ at 1.
  destruct (128 <? _) eqn:E1; [lia|]. simpl.
  rewrite length_app.
  destruct ((0 <? _) && _) eqn:E2; [lia|].
  rewrite Nat2Z.id, take_app_length, drop_app_length.
  replace (Z.to_nat (BLKSZ - Z.of_nat (length d))) with (128 - length d)%nat
    by (unfold BLKSZ; lia).
  fold buf. rewrite Hst. simpl.
  eexists _, _. split; [reflexivity|]. simpl.
  split; [done|]. split; [done|]. split; [done|].
  unfold handle_R.
  assert (Hv : validate_cs (with_base (with_head st c) m') c s = true).
  { apply validate_cs_true. done. }
  rewrite Hv. simpl.
  replace (blk_ptr (with_base (with_head st c) m') c s) with (blk_ptr st c s) by done.
  rewrite Hld. simpl. done.
Qed.

(** C5.  A request whose cylinder or sector is outside the geometry is
    answered by the single byte '0': this holds for [R c s], and for
    [W c s l] also when only [l] is outside [0, 128].  The rejected [W]
    leaves the connection where it was (the payload is not consumed), and
    neither request touches the image or the arm. *)
Theorem disk_rejects st inp c s l :
  ~ 0 <= c < g_cyl st \/ ~ 0 <= s < g_sec st \/ ~ 0 <= l <= 128 ->
  handle_W st inp c s l = Ret (mkOut 0 [x30] inp st []) /\
  (~ 0 <= c < g_cyl st \/ ~ 0 <= s < g_sec st ->
   handle_R st inp c s = Ret (mkOut 0 [x30] inp st [])).
Proof.
  intros H. split.
  - unfold handle_W.
    destruct (validate_cs st c s) eqn:Hv; simpl; [|done].
    apply validate_cs_true in Hv.
    destruct (l <? 0) eqn:E0; simpl; [done|].
    unfold BLKSZ. destruct (128 <? l) eqn:E1; simpl; [done|]. lia.
  - intros H'. unfold handle_R.
    rewrite (proj2 (validate_cs_false st c s)) by done. done.
Qed.

(** A valid [R] that is served: the events are the sleep, the arm and
    the access, in this order, and the arm is at [c] afterwards. *)
Lemma handle_R_trace st inp c s o :
  0 <= c < g_cyl st -> 0 <= s < g_sec st ->
  handle_R st inp c s = Ret o ->
  g_head_cyl (st' o) = c /\
  trace o = sleep_tracks st (g_head_cyl st) c
              ++ [EvArm c; EvLoad (blk_ptr st c s)].
Proof.
  intros Hc Hs. unfold handle_R.
  rewrite (proj2 (validate_cs_true st c s)) by done. simpl.
  destruct (load _ _); simpl; [|done]. intros [= <-]. done.
Qed.

Lemma handle_W_trace st inp c s l o :
  0 <= c < g_cyl st -> 0 <= s < g_sec st ->
  0 <= l <= 128 -> l <= Z.of_nat (length inp) ->
  handle_W st inp c s l = Ret o ->
  g_head_cyl (st' o) = c /\
  trace o = sleep_tracks st (g_head_cyl st) c
              ++ [EvArm c; EvStore (blk_ptr st c s)].
Proof.
  intros Hc Hs Hl Hinp. unfold handle_W.
  rewrite (proj2 (validate_cs_true st c s)) by done. simpl.
  destruct (l <? 0) eqn:E0; [lia|]. unfold BLKSZ at 1.
  destruct (128 <? l) eqn:E1; [lia|]. simpl.
  destruct ((0 <? l) && _) eqn:E2; [lia|].
  destruct (store _ _ _); simpl; [|done]. intros [= <-]. done.
Qed.

(** Whatever the seek time, a seek produces sleeps only. *)
Lemma sleep_tracks_sleeps st h c : Forall is_sleep (sleep_tracks st h c).
Proof.
  unfold sleep_tracks. destruct (_ <=? _); repeat constructor.
Qed.

(** C9, with the bound under which the wait is the product.  The arm
    starts at cylinder 0 and is a valid cylinder in every state of the
    service.  A valid [R c s] or [W c s l] that is served with the arm at
    [h] first sleeps, then sets the arm to [c], then accesses the sector,
    and the arm is [c] afterwards; the sleep is [|c - h| * T] microseconds
    in all when [0 <= T] and [(C - 1) * T <= LONG_MAX].  On a disk whose
    size [C * S * 128] is below [2^64], every valid request is served. *)
Theorem arm_position st :
  reachable st ->
  (forall cyl sec t image, g_head_cyl (boot cyl sec t image) = 0) /\
  0 <= g_head_cyl st < g_cyl st /\
  (forall inp c s, 0 <= c < g_cyl st -> 0 <= s < g_sec st ->
     (size_ok st -> exists o, handle_R st inp c s = Ret o) /\
     (forall o, handle_R st inp c s = Ret o ->
        g_head_cyl (st' o) = c /\
        exists pre,
          trace o = pre ++ [EvArm c; EvLoad (blk_ptr st c s)] /\
          Forall is_sleep pre /\
          (track_time_ok st ->
           slept pre = Z.abs (c - g_head_cyl st) * g_track_us st))) /\
  (forall inp c s l, 0 <= c < g_cyl st -> 0 <= s < g_sec st ->
     0 <= l <= 128 -> l <= Z.of_nat (length inp) ->
     (size_ok st -> exists o, handle_W st inp c s l = Ret o) /\
     (forall o, handle_W st inp c s l = Ret o ->
        g_head_cyl (st' o) = c /\
        exists pre,
          trace o = pre ++ [EvArm c; EvStore (blk_ptr st c s)] /\
          Forall is_sleep pre /\
          (track_time_ok st ->
           slept pre = Z.abs (c - g_head_cyl st) * g_track_us st))).
Proof.
  intros Hr.
  pose proof (reachable_arm _ Hr) as Ha.
  destruct (reachable_config _ Hr) as (HC & _ & _).
  split; [done|]. split; [done|]. split.
  - intros inp c s Hc Hs. split.
    + intros Hsz. pose proof (reachable_geometry _ Hr Hsz) as Hg.
      destruct (blk_ptr_valid st c s Hg Hc Hs) as (Hp & Hp0 & Hp1).
      unfold handle_R.
      rewrite (proj2 (validate_cs_true st c s)) by done. simpl.
      unfold load. destruct (_ <=? _) eqn:E; [|lia]. simpl. by eexists.
    + intros o Ho.
      destruct (handle_R_trace st inp c s o Hc Hs Ho) as [Harm Htr].
      split; [exact Harm|]. exists (sleep_tracks st (g_head_cyl st) c).
      split; [exact Htr|]. split; [apply sleep_tracks_sleeps|].
      intros HT.
      exact (proj2 (sleep_tracks_spec st (g_head_cyl st) c
                      (proj2 HC) HT Ha Hc)).
  - intros inp c s l Hc Hs Hl Hinp. split.
    + intros Hsz. pose proof (reachable_geometry _ Hr Hsz) as Hg.
      destruct (blk_ptr_valid st c s Hg Hc Hs) as (Hp & Hp0 & Hp1).
      unfold handle_W.
      rewrite (proj2 (validate_cs_true st c s)) by done. simpl.
      destruct (l <? 0) eqn:E0; [lia|]. unfold BLKSZ at 1.
      destruct (128 <? l) eqn:E1; [lia|]. simpl.
      destruct ((0 <? l) && _) eqn:E2; [lia|].
      unfold store. destruct (_ <=? _) eqn:E; [|lia]. simpl. by eexists.
    + intros o Ho.
      destruct (handle_W_trace st inp c s l o Hc Hs Hl Hinp Ho) as [Harm Htr].
      split; [exact Harm|]. exists (sleep_tracks st (g_head_cyl st) c).
      split; [exact Htr|]. split; [apply sleep_tracks_sleeps|].
      intros HT.
      exact (proj2 (sleep_tracks_spec st (g_head_cyl st) c
                      (proj2 HC) HT Ha Hc)).
Qed.

End DiskFacts.

(** ** The filesystem service: disk round trips *)

Module FSDisk.
Import Mach FS FSInv MachFacts.
#[local] Abbreviation length := List.length (only parsing).

Lemma bind_ok {A B} (m : M A) (k : A -> M B) w a w' :
  m w = Ret (a, w') -> (m ≫= k) w = k a w'.
Proof. intros H. unfold mbind, M_bind, bind. by rewrite H. Qed.

Lemma bind_fault {A B} (m : M A) (k : A -> M B) w f :
  m w = Fault f -> (m ≫= k) w = Fault f.
Proof. intros H. unfold mbind, M_bind, bind. by rewrite H. Qed.

Lemma bind_get {B} (k : world -> M B) w : (get ≫= k) w = k w w.
Proof. reflexivity. Qed.

Lemma bind_modify {B} f (k : unit -> M B) w : (modify f ≫= k) w = k tt (f w).
Proof. reflexivity. Qed.

Lemma bind_mret {A B} (a : A) (k : A -> M B) w : (mret a ≫= k) w = k a w.
Proof. reflexivity. Qed.

Lemma bind_lift {A B} (r : res A) (k : A -> M B) w a :
  r = Ret a -> (lift r ≫= k) w = k a w.
Proof. intros ->. reflexivity. Qed.

Lemma at_disk_id w : at_disk w (img w) (Disk.g_head_cyl (dsk w)) = w.
Proof. destruct w as [[] ? ?]. reflexivity. Qed.

Lemma conn_ok_at_disk w m hd :
  conn_ok w -> length m = length (img w) -> conn_ok (at_disk w m hd).
Proof.
  intros [Hg Hc Hs H32 Hst] Hlen. split; try done.
  destruct Hg as (HC & HS & Hl & Hsz). unfold DiskInv.geometry_ok. simpl.
  unfold img in Hlen. rewrite Hlen. done.
Qed.

Lemma layout_ok_at_disk w m hd : layout_ok w -> layout_ok (at_disk w m hd).
Proof. intros []. split; done. Qed.

Lemma fs_ok_at_disk w m hd :
  fs_ok w -> length m = length (img w) -> fs_ok (at_disk w m hd).
Proof.
  intros [Hc Hl Hca Hf] Hlen. split; try done.
  - by apply conn_ok_at_disk.
  - by apply layout_ok_at_disk.
Qed.

Lemma sector_length m idx :
  0 <= idx -> idx * 128 + 128 <= Z.of_nat (length m) ->
  length (sector m idx) = 128%nat.
Proof.
  intros H0 H. unfold sector. rewrite length_take, length_drop. lia.
Qed.

Lemma put_sector_length m idx blk :
  0 <= idx -> idx * 128 + 128 <= Z.of_nat (length m) -> length blk = 128%nat ->
  length (put_sector m idx blk) = length m.
Proof.
  intros H0 H Hb. unfold put_sector. apply splice_length. lia.
Qed.

Lemma sector_put_same m idx blk :
  0 <= idx -> idx * 128 + 128 <= Z.of_nat (length m) -> length blk = 128%nat ->
  sector (put_sector m idx blk) idx = blk.
Proof.
  intros H0 H Hb. unfold sector, put_sector. rewrite <- Hb at 1.
  apply splice_read. lia.
Qed.

Lemma sector_put_other m idx blk j :
  0 <= idx -> idx * 128 + 128 <= Z.of_nat (length m) -> length blk = 128%nat ->
  0 <= j -> j <> idx ->
  sector (put_sector m idx blk) j = sector m j.
Proof.
  intros H0 H Hb Hj Hne. unfold sector, put_sector.
  apply splice_read_other; lia.
Qed.

Section Connected.
Context (w : world) (Hok : conn_ok w).

Let S_ := Disk.g_sec (dsk w).
Let C_ := Disk.g_cyl (dsk w).

Lemma geometry_facts :
  0 < C_ /\ 0 < S_ /\ S_ < 2 ^ 32 /\
  Z.of_nat (length (img w)) = nblocks w * 128 /\ nblocks w * 128 < 2 ^ 64.
Proof.
  destruct Hok as [(HC & HS & Hl & Hsz) _ _ H32 _]. done.
Qed.

Lemma idx_to_cs_ok idx :
  idx_to_cs (conn w) idx = Ret (idx / S_, idx mod S_).
Proof.
  destruct geometry_facts as (HC & HS & H32 & _).
  unfold idx_to_cs, u32. rewrite (ok_sec _ Hok). fold S_.
  rewrite Z.mod_small by lia.
  destruct (S_ =? 0) eqn:E; [lia|done].
Qed.

Lemma in_range_cs idx :
  0 <= idx < nblocks w ->
  0 <= idx / S_ < C_ /\ 0 <= idx mod S_ < S_ /\
  idx / S_ * S_ + idx mod S_ = idx.
Proof.
  destruct geometry_facts as (HC & HS & _). unfold nblocks. fold C_ S_.
  intros Hi. split; [|split].
  - split; [apply Z.div_pos; lia|]. apply Z.div_lt_upper_bound; lia.
  - apply Z.mod_pos_bound. lia.
  - pose proof (Z.div_mod idx S_). lia.
Qed.

Lemma disk_read_idx_ok idx :
  0 <= idx < nblocks w ->
  disk_read_idx idx w
  = Ret (Some (sector (img w) idx), at_disk w (img w) (idx / S_)).
Proof.
  intros Hi. destruct geometry_facts as (HC & HS & H32 & Hlen & Hsz).
  destruct (in_range_cs idx Hi) as (Hc & Hs & Hcs).
  unfold disk_read_idx. rewrite (ok_stale _ Hok), idx_to_cs_ok.
  unfold Disk.handle_R.
  rewrite (proj2 (DiskFacts.validate_cs_true (dsk w) _ _)) by done. simpl.
  destruct (DiskFacts.blk_ptr_valid (dsk w) _ _ (ok_geometry _ Hok) Hc Hs)
    as (Hp & Hp0 & Hp1).
  fold S_ in Hp, Hp0, Hp1. rewrite Hcs in Hp, Hp0, Hp1.
  unfold Disk.load. rewrite Hp.
  destruct (_ <=? _) eqn:E; [|unfold Disk.BLKSZ in *; lia]. simpl.
  unfold Disk.BLKSZ in *. change (Z.to_nat 128) with 128%nat.
  fold (sector (Disk.g_base (dsk w)) idx). fold (img w).
  rewrite sector_length by lia. simpl.
  unfold BLKSZ. change (Z.to_nat 128) with 128%nat.
  rewrite take_ge by (rewrite sector_length; lia).
  reflexivity.
Qed.

Lemma out_of_range_cs idx :
  nblocks w <= idx -> Disk.validate_cs (dsk w) (idx / S_) (idx mod S_) = false.
Proof.
  destruct geometry_facts as (HC & HS & _). unfold nblocks. fold C_ S_.
  intros Hi. apply DiskFacts.validate_cs_false. left. fold C_.
  assert (C_ <= idx / S_); [|lia].
  apply Z.div_le_lower_bound; lia.
Qed.


Lemma disk_write_idx_ok idx blk :
  0 <= idx < nblocks w -> length blk = 128%nat ->
  disk_write_idx idx blk w
  = Ret (0, at_disk w (put_sector (img w) idx blk) (idx / S_)).
Proof.
  intros Hi Hb. destruct geometry_facts as (HC & HS & H32 & Hlen & Hsz).
  destruct (in_range_cs idx Hi) as (Hc & Hs & Hcs).
  unfold disk_write_idx. rewrite (ok_stale _ Hok), idx_to_cs_ok.
  unfold Disk.handle_W.
  rewrite (proj2 (DiskFacts.validate_cs_true (dsk w) _ _)) by done. simpl.
  destruct (DiskFacts.blk_ptr_valid (dsk w) _ _ (ok_geometry _ Hok) Hc Hs)
    as (Hp & Hp0 & Hp1).
  fold S_ in Hp, Hp0, Hp1. rewrite Hcs in Hp, Hp0, Hp1.
  unfold BLKSZ, Disk.BLKSZ in *. change (Z.to_nat 128) with 128%nat.
  rewrite !take_ge by lia.
  rewrite Hb. simpl.
  rewrite drop_ge by lia.
  change (zeros (Z.to_nat (128 - 128))) with (@nil byte).
  rewrite app_nil_r.
  unfold Disk.store. rewrite Hp.
  destruct (_ <=? _) eqn:E; [|unfold Disk.BLKSZ in *; lia]. simpl.
  unfold at_disk, set_stale, set_dsk, set_conn, put_sector, img. simpl.
  pose proof (ok_stale _ Hok) as Hst.
  destruct w as [d [c s st] g]. simpl in *. subst st. reflexivity.
Qed.

(** A write outside the disk is refused: the handler gets -1, the image
    is untouched, and the payload stays unread on the connection. *)
Lemma disk_write_idx_bad idx blk :
  nblocks w <= idx -> length blk = 128%nat ->
  disk_write_idx idx blk w = Ret (-1, set_stale w blk).
Proof.
  intros Hi Hb. unfold disk_write_idx.
  rewrite (ok_stale _ Hok), idx_to_cs_ok.
  unfold Disk.handle_W. rewrite out_of_range_cs by done. simpl.
  unfold BLKSZ. change (Z.to_nat 128) with 128%nat.
  rewrite take_ge by lia.
  destruct w as [? ? ?]. reflexivity.
Qed.

End Connected.

End FSDisk.

(** ** Layout, and the handlers before any format *)

Module FSBasics.
Import Mach FS FSInv MachFacts.
#[local] Abbreviation length := List.length (only parsing).

(** The layout in closed form, when nothing wraps. *)
Lemma compute_layout_exact (C S : Z) (pending : list byte) :
  0 < C -> 0 < S -> 4 * (C * S) + 127 < 2 ^ 32 ->
  compute_layout (mkDiskT C S pending)
  = mkLayout (C * S) 1 ((4 * (C * S) + 127) / 128)
             (1 + (4 * (C * S) + 127) / 128) 32 64.
Proof.
  intros HC HS Hsz.
  assert (HN : 0 < C * S) by nia.
  unfold compute_layout, disk_total_blocks, u32, BLKSZ. cbn [cyl sec].
  rewrite DiskFacts.long_small by (unfold long_min, long_max; lia).
  rewrite (Z.mod_small (C * S)) by lia.
  rewrite (Z.mod_small (C * S * 4)) by lia.
  rewrite (Z.mod_small (C * S * 4 + 128 - 1)) by lia.
  replace (C * S * 4 + 128 - 1) with (4 * (C * S) + 127) by lia.
  assert (Hq : 0 <= (4 * (C * S) + 127) / 128 < 2 ^ 25).
  { split; [apply Z.div_pos; lia|]. apply Z.div_lt_upper_bound; lia. }
  rewrite (Z.mod_small (1 + _)) by lia. reflexivity.
Qed.

(** C8, for the geometries whose FAT size is computed without wrapping.
    With [N = C * S] blocks and [4 * N + 127 < 2^32], the layout has the
    superblock in sector 0, the FAT from sector 1 on [ceil (4 * N / 128)]
    sectors, the directory right after the FAT on 32 sectors of 2 entries
    (64 entries), and the data area right after the directory. *)
Theorem layout_of_geometry (C S : Z) (pending : list byte) :
  0 < C -> 0 < S -> 4 * (C * S) + 127 < 2 ^ 32 ->
  let l := compute_layout (mkDiskT C S pending) in
  total_blocks l = C * S /\
  super_sector = 0 /\
  fat_start l = 1 /\
  (128 * (fat_sectors l - 1) < 4 * (C * S) <= 128 * fat_sectors l) /\
  dir_start l = fat_start l + fat_sectors l /\
  dir_sectors l = 32 /\
  dir_entries l = 64 /\
  dir_entries l = (BLKSZ / 64) * dir_sectors l /\
  data_start l = dir_start l + dir_sectors l.
Proof.
  intros HC HS Hsz. cbv zeta.
  rewrite (compute_layout_exact C S pending HC HS Hsz).
  assert (HN : 0 < C * S) by nia.
  pose proof (Z.div_mod (4 * (C * S) + 127) 128 ltac:(lia)) as Hd.
  pose proof (Z.mod_pos_bound (4 * (C * S) + 127) 128 ltac:(lia)) as Hm.
  assert (Hq : 0 <= (4 * (C * S) + 127) / 128 < 2 ^ 25).
  { split; [apply Z.div_pos; lia|]. apply Z.div_lt_upper_bound; lia. }
  unfold data_start, u32. cbn [total_blocks fat_start fat_sectors dir_start
                                dir_sectors dir_entries].
  rewrite (Z.mod_small (1 + _ + 32)) by lia.
  repeat split; try lia; reflexivity.
Qed.

(** C8 as stated fails where the 32-bit arithmetic wraps: with [2^32]
    blocks the block count itself is truncated to 0, and with [2^30]
    blocks the FAT size in bytes wraps to 0; in both cases the computed
    FAT has no sector at all. *)
Lemma layout_of_geometry_wraps :
  total_blocks (compute_layout (mkDiskT (2 ^ 32) 1 [])) = 0 /\
  fat_sectors (compute_layout (mkDiskT (2 ^ 32) 1 [])) = 0 /\
  (4 * (2 ^ 32 * 1) + 127) / 128 = 2 ^ 27 /\
  total_blocks (compute_layout (mkDiskT (2 ^ 30) 1 [])) = 2 ^ 30 /\
  fat_sectors (compute_layout (mkDiskT (2 ^ 30) 1 [])) = 0 /\
  (4 * (2 ^ 30 * 1) + 127) / 128 = 2 ^ 25.
Proof. vm_compute. done. Qed.

(** C10.  While the filesystem is not formatted, [C], [D] and [W] are
    answered "2\n" and [R] is answered "1 0 \n"; [W] consumes its payload;
    the world, and so every sector of the disk, is left as it was. *)
Theorem unformatted_replies w fuel uninit nm data unread :
  formatted (G w) = false ->
  cmd_create nm w = Ret (r2, w) /\
  cmd_delete fuel nm w = Ret (r2, w) /\
  cmd_write fuel nm (Z.of_nat (length data)) (data ++ unread) w
    = Ret (mkWres 0 r2 unread, w) /\
  cmd_read fuel uninit nm w = Ret (r1_0, w).
Proof.
  intros Hf. repeat split.
  - unfold cmd_create. destruct (_ || _); [done|].
    rewrite FSDisk.bind_get, Hf. done.
  - unfold cmd_delete. rewrite FSDisk.bind_get, Hf. done.
  - unfold cmd_write. rewrite length_app.
    destruct (_ && _) eqn:E; [lia|].
    rewrite Nat2Z.id, take_app_length, drop_app_length.
    rewrite FSDisk.bind_get, Hf. done.
  - unfold cmd_read. rewrite FSDisk.bind_get, Hf. done.
Qed.

End FSBasics.

(** ** The filesystem service: the directory *)

Module FSDir.
Import Mach FS FSInv MachFacts FSDisk.
#[local] Abbreviation length := List.length (only parsing).

Lemma named_b_names e nm : named_b e nm = true <-> names e nm.
Proof.
  unfold named_b, names. rewrite andb_true_iff, negb_true_iff, bool_decide_eq_false.
  done.
Qed.

Section Dir.
Context (w : world) (Hc : conn_ok w) (Hl : layout_ok w).

Let S_ := Disk.g_sec (dsk w).

Lemma dir_sector_range slot :
  0 <= slot < dir_entries (L (G w)) ->
  0 <= dir_start (L (G w)) + slot / 2 < nblocks w /\
  dir_start (L (G w)) + slot / 2 < dir_start (L (G w)) + dir_sectors (L (G w)) /\
  u32 (dir_start (L (G w)) + slot / 2) = dir_start (L (G w)) + slot / 2.
Proof.
  intros Hs. destruct Hl.
  assert (0 <= slot / 2 < dir_sectors (L (G w))).
  { split; [apply Z.div_pos; lia|]. apply Z.div_lt_upper_bound; lia. }
  unfold u32. rewrite Z.mod_small by lia. lia.
Qed.

Lemma dir_read_entry_ok slot :
  0 <= slot < dir_entries (L (G w)) ->
  dir_read_entry slot w
  = Ret (Some (entry_at (img w) (L (G w)) slot),
         at_disk w (img w) ((dir_start (L (G w)) + slot / 2) / S_)).
Proof.
  intros Hs. destruct (dir_sector_range slot Hs) as (Hr & _ & Hu).
  unfold dir_read_entry. rewrite bind_get.
  change (BLKSZ / 64) with 2. rewrite Hu.
  rewrite (bind_ok _ _ _ _ _ (disk_read_idx_ok w Hc _ Hr)).
  reflexivity.
Qed.

Lemma dir_write_entry_ok slot e :
  0 <= slot < dir_entries (L (G w)) -> length (dirent_pack e) = 64%nat ->
  dir_write_entry slot e w
  = Ret (0, at_disk w
              (put_sector (img w) (dir_start (L (G w)) + slot / 2)
                 (splice (sector (img w) (dir_start (L (G w)) + slot / 2))
                    (Z.to_nat (slot mod 2 * 64)) (dirent_pack e)))
              ((dir_start (L (G w)) + slot / 2) / S_)).
Proof.
  intros Hs He. destruct (dir_sector_range slot Hs) as (Hr & _ & Hu).
  destruct (geometry_facts w Hc) as (_ & _ & _ & Hlen & _).
  unfold dir_write_entry. rewrite bind_get.
  change (BLKSZ / 64) with 2. rewrite Hu.
  rewrite (bind_ok _ _ _ _ _ (disk_read_idx_ok w Hc _ Hr)).
  assert (Hm : 0 <= slot mod 2 < 2) by (apply Z.mod_pos_bound; lia).
  assert (Hsec : length (sector (img w) (dir_start (L (G w)) + slot / 2)) = 128%nat).
  { apply sector_length; lia. }
  assert (Hblk : length (splice (sector (img w) (dir_start (L (G w)) + slot / 2))
                    (Z.to_nat (slot mod 2 * 64)) (dirent_pack e)) = 128%nat).
  { rewrite splice_length; [done|]. rewrite He, Hsec. lia. }
  rewrite (bind_ok _ _ _ _ _
             (disk_write_idx_ok _ (conn_ok_at_disk w _ _ Hc eq_refl) _ _ Hr Hblk)).
  reflexivity.
Qed.

End Dir.

Lemma dir_find_by_name_loop_scan nm n : forall i w,
  conn_ok w -> layout_ok w ->
  0 <= i -> i + Z.of_nat n <= dir_entries (L (G w)) ->
  exists hd,
    dir_find_by_name_loop n i nm w
    = Ret (scan_name (img w) (L (G w)) nm n i, at_disk w (img w) hd).
Proof.
  induction n as [|n IH]; intros i w Hc Hl Hi Hn.
  - exists (Disk.g_head_cyl (dsk w)). simpl. by rewrite at_disk_id.
  - cbn [dir_find_by_name_loop scan_name].
    rewrite (bind_ok _ _ _ _ _ (dir_read_entry_ok w Hc Hl i ltac:(lia))).
    fold (named_b (entry_at (img w) (L (G w)) i) nm).
    destruct (named_b _ _).
    + eexists. reflexivity.
    + destruct (IH (i + 1) (at_disk w (img w)
                  ((dir_start (L (G w)) + i / 2) / Disk.g_sec (dsk w))))
        as [hd Hhd].
      * by apply conn_ok_at_disk.
      * by apply layout_ok_at_disk.
      * lia.
      * simpl. lia.
      * exists hd. apply Hhd.
Qed.

Lemma dir_find_by_name_scan nm w :
  conn_ok w -> layout_ok w ->
  exists hd,
    dir_find_by_name nm w
    = Ret (scan_name (img w) (L (G w)) nm (Z.to_nat (dir_entries (L (G w)))) 0,
           at_disk w (img w) hd).
Proof.
  intros Hc Hl. unfold dir_find_by_name. rewrite bind_get.
  apply dir_find_by_name_loop_scan; [done|done|lia|].
  destruct Hl. lia.
Qed.

Lemma dir_find_free_loop_scan n : forall i w,
  conn_ok w -> layout_ok w ->
  0 <= i -> i + Z.of_nat n <= dir_entries (L (G w)) ->
  exists hd,
    dir_find_free_loop n i w
    = Ret (Some (scan_free (img w) (L (G w)) n i), at_disk w (img w) hd).
Proof.
  induction n as [|n IH]; intros i w Hc Hl Hi Hn.
  - exists (Disk.g_head_cyl (dsk w)). simpl. by rewrite at_disk_id.
  - cbn [dir_find_free_loop scan_free].
    rewrite (bind_ok _ _ _ _ _ (dir_read_entry_ok w Hc Hl i ltac:(lia))).
    destruct (bool_decide _).
    + eexists. reflexivity.
    + destruct (IH (i + 1) (at_disk w (img w)
                  ((dir_start (L (G w)) + i / 2) / Disk.g_sec (dsk w))))
        as [hd Hhd].
      * by apply conn_ok_at_disk.
      * by apply layout_ok_at_disk.
      * lia.
      * simpl. lia.
      * exists hd. apply Hhd.
Qed.

Lemma dir_find_free_scan w :
  conn_ok w -> layout_ok w ->
  exists hd,
    dir_find_free w
    = Ret (Some (scan_free (img w) (L (G w)) (Z.to_nat (dir_entries (L (G w)))) 0),
           at_disk w (img w) hd).
Proof.
  intros Hc Hl. unfold dir_find_free. rewrite bind_get.
  apply dir_find_free_loop_scan; [done|done|lia|].
  destruct Hl. lia.
Qed.

(** What the scans compute. *)
Lemma scan_name_found m l nm n : forall i slot e,
  scan_name m l nm n i = Found slot e ->
  i <= slot < i + Z.of_nat n /\ e = entry_at m l slot /\ names e nm /\
  forall j, i <= j < slot -> ~ names (entry_at m l j) nm.
Proof.
  induction n as [|n IH]; intros i slot e; [done|].
  cbn [scan_name]. destruct (named_b _ _) eqn:E.
  - intros [= <- <-]. apply named_b_names in E.
    split; [lia|]. split; [done|]. split; [done|]. intros; lia.
  - intros H. destruct (IH _ _ _ H) as (Hr & He & Hn & Hfirst).
    split; [lia|]. split; [done|]. split; [done|].
    intros j Hj Hnames. destruct (decide (j = i)) as [->|Hne].
    + apply named_b_names in Hnames. congruence.
    + apply (Hfirst j); [lia|done].
Qed.

Lemma scan_name_not_found m l nm n : forall i,
  scan_name m l nm n i = NotFound ->
  forall j, i <= j < i + Z.of_nat n -> ~ names (entry_at m l j) nm.
Proof.
  induction n as [|n IH]; intros i H j Hj; [lia|].
  cbn [scan_name] in H. destruct (named_b _ _) eqn:E; [done|].
  destruct (decide (j = i)) as [->|Hne].
  - intros Hn. apply named_b_names in Hn. congruence.
  - apply (IH _ H). lia.
Qed.

Lemma scan_name_no_error m l nm n i : scan_name m l nm n i <> FindErr.
Proof.
  revert i. induction n as [|n IH]; intros i; [done|].
  cbn [scan_name]. destruct (named_b _ _); [done|apply IH].
Qed.

Lemma scan_name_first m l nm n i slot :
  i <= slot < i + Z.of_nat n ->
  names (entry_at m l slot) nm ->
  (forall j, i <= j < slot -> ~ names (entry_at m l j) nm) ->
  scan_name m l nm n i = Found slot (entry_at m l slot).
Proof.
  intros Hr Hn Hfirst.
  destruct (scan_name m l nm n i) as [slot' e'| |] eqn:E.
  - destruct (scan_name_found _ _ _ _ _ _ _ E) as (Hr' & -> & Hn' & Hfirst').
    destruct (Z.lt_trichotomy slot slot') as [Hlt|[->|Hgt]]; [|done|].
    + destruct (Hfirst' slot); [lia|done].
    + destruct (Hfirst slot'); [lia|done].
  - destruct (scan_name_not_found _ _ _ _ _ E slot Hr Hn).
  - by destruct (scan_name_no_error m l nm n i).
Qed.

Lemma scan_name_none m l nm n i :
  (forall j, i <= j < i + Z.of_nat n -> ~ names (entry_at m l j) nm) ->
  scan_name m l nm n i = NotFound.
Proof.
  intros Hnone.
  destruct (scan_name m l nm n i) as [slot' e'| |] eqn:E; [|done|].
  - destruct (scan_name_found _ _ _ _ _ _ _ E) as (Hr' & -> & Hn' & _).
    destruct (Hnone slot' Hr' Hn').
  - by destruct (scan_name_no_error m l nm n i).
Qed.

Lemma scan_free_some m l n : forall i slot,
  scan_free m l n i = Some slot ->
  i <= slot < i + Z.of_nat n /\ used (entry_at m l slot) = x00.
Proof.
  induction n as [|n IH]; intros i slot; [done|].
  cbn [scan_free]. destruct (bool_decide _) eqn:E.
  - intros [= <-]. apply bool_decide_eq_true in E. split; [lia|done].
  - intros H. destruct (IH _ _ H). split; [lia|done].
Qed.

(** The scans only look at the directory sectors. *)
Lemma entry_at_same m m' l lo hi slot :
  same_outside lo hi m m' ->
  0 <= dir_start l + slot / 2 -> ~ lo <= dir_start l + slot / 2 < hi ->
  entry_at m' l slot = entry_at m l slot.
Proof.
  intros [_ Hs] H0 Hout. unfold entry_at. by rewrite Hs.
Qed.

End FSDir.

(** ** The filesystem service: the FAT cache *)

Module FSFat.
Import Mach FS FSInv MachFacts FSDisk.
#[local] Abbreviation length := List.length (only parsing).

Lemma aget_ok a i :
  0 <= i < Z.of_nat (length a) -> aget a i = Ret (default 0 (a !! Z.to_nat i)).
Proof. intros H. unfold aget. destruct (_ && _) eqn:E; [done|lia]. Qed.

Lemma aget_lookup a i x :
  0 <= i -> a !! Z.to_nat i = Some x -> aget a i = Ret x.
Proof.
  intros H0 H. rewrite aget_ok.
  - by rewrite H.
  - apply lookup_lt_Some in H. lia.
Qed.

Lemma aset_ok a i x :
  0 <= i < Z.of_nat (length a) -> aset a i x = Ret (<[Z.to_nat i := x]> a).
Proof. intros H. unfold aset. destruct (_ && _) eqn:E; [done|lia]. Qed.

Lemma same_outside_refl lo hi m : same_outside lo hi m m.
Proof. done. Qed.

Lemma same_outside_trans lo hi m1 m2 m3 :
  same_outside lo hi m1 m2 -> same_outside lo hi m2 m3 -> same_outside lo hi m1 m3.
Proof.
  intros [Hl1 H1] [Hl2 H2]. split; [congruence|].
  intros j Hj Hout. rewrite H2, H1; done.
Qed.

Lemma same_outside_put lo hi m idx blk :
  0 <= idx -> idx * 128 + 128 <= Z.of_nat (length m) -> length blk = 128%nat ->
  lo <= idx < hi ->
  same_outside lo hi m (put_sector m idx blk).
Proof.
  intros H0 Hin Hb Hr. split.
  - by apply put_sector_length.
  - intros j Hj Hout. apply sector_put_other; [done..|lia].
Qed.

Lemma same_outside_wider lo hi lo' hi' m m' :
  lo' <= lo -> hi <= hi' -> same_outside lo hi m m' -> same_outside lo' hi' m m'.
Proof.
  intros H1 H2 [Hl Hs]. split; [done|]. intros j Hj Hout. apply Hs; lia.
Qed.

Lemma layout_fat_region w : layout_ok w -> fat_region_ok w.
Proof. intros []. split; lia. Qed.

Lemma fat_region_ok_at_disk w m hd : fat_region_ok w -> fat_region_ok (at_disk w m hd).
Proof. intros []. split; done. Qed.

Lemma fat_unpack_sector_ok total blk n : forall i idx a,
  0 <= idx -> Z.of_nat (length a) = total ->
  exists a' idx',
    fat_unpack_sector n i idx total blk a = Ret (a', idx') /\
    Z.of_nat (length a') = total /\ 0 <= idx'.
Proof.
  induction n as [|n IH]; intros i idx a H0 Hlen; simpl.
  - eauto.
  - destruct (idx <? total) eqn:E; [|eauto].
    rewrite aset_ok by lia.
    apply IH; [lia|]. by rewrite length_insert.
Qed.

Lemma fat_load_loop_ok n : forall s idx a w,
  conn_ok w -> fat_region_ok w ->
  0 <= s -> s + Z.of_nat n <= fat_sectors (L (G w)) ->
  0 <= idx -> Z.of_nat (length a) = total_blocks (L (G w)) ->
  exists a' hd,
    fat_load_loop n s idx (L (G w)) a w = Ret ((0, a'), at_disk w (img w) hd) /\
    Z.of_nat (length a') = total_blocks (L (G w)).
Proof.
  induction n as [|n IH]; intros s idx a w Hc Hl Hs Hn Hidx Hlen.
  - exists a, (Disk.g_head_cyl (dsk w)). simpl. by rewrite at_disk_id.
  - cbn [fat_load_loop].
    assert (Hr : 0 <= fat_start (L (G w)) + s < nblocks w) by (destruct Hl; lia).
    assert (Hu : u32 (fat_start (L (G w)) + s) = fat_start (L (G w)) + s).
    { unfold u32. apply Z.mod_small. destruct Hl; lia. }
    rewrite Hu, (bind_ok _ _ _ _ _ (disk_read_idx_ok w Hc _ Hr)).
    destruct (fat_unpack_sector_ok (total_blocks (L (G w)))
                (sector (img w) (fat_start (L (G w)) + s)) 32 0 idx a Hidx Hlen)
      as (a1 & idx1 & Hun & Hlen1 & Hidx1).
    rewrite (bind_lift _ _ _ _ Hun).
    destruct (IH (s + 1) idx1 a1
                (at_disk w (img w) ((fat_start (L (G w)) + s) / Disk.g_sec (dsk w))))
      as (a' & hd & Hloop & Hlen'); try done.
    + by apply conn_ok_at_disk.
    + by apply fat_region_ok_at_disk.
    + lia.
    + simpl. lia.
    + exists a', hd. done.
Qed.

Lemma fat_load_ok w :
  conn_ok w -> fat_region_ok w -> cache_ok w ->
  exists hd,
    fat_load w = Ret (0, upd w (img w) hd (fat_of w)) /\
    Z.of_nat (length (fat_of w)) = total_blocks (L (G w)).
Proof.
  intros Hc Hl Hca. unfold fat_of.
  destruct (loaded (fat (G w))) eqn:Hld.
  - assert (Hf : fat_load w = Ret (0, w)).
    { unfold fat_load. rewrite bind_get, Hld. done. }
    rewrite Hf. exists (Disk.g_head_cyl (dsk w)). split; [|by apply Hca].
    f_equal. f_equal.
    destruct w as [[] ? [? [] ?]]. simpl in *. by subst.
  - destruct (fat_load_loop_ok (Z.to_nat (fat_sectors (L (G w)))) 0 0
                (replicate (Z.to_nat (total_blocks (L (G w)))) 0) w)
      as (a' & hd & Hloop & Hlen'); try done.
    + destruct Hl; lia.
    + rewrite length_replicate. destruct Hl; lia.
    + assert (Hf : fat_load w = Ret (0, upd w (img w) hd a')).
      { unfold fat_load. rewrite bind_get, Hld.
        rewrite (bind_ok _ _ _ _ _ Hloop). reflexivity. }
      rewrite Hf. exists hd. done.
Qed.

Lemma fat_pack_sector_ok total a n : forall i idx blk,
  0 <= i -> i + Z.of_nat n <= 32 -> length blk = 128%nat ->
  0 <= idx -> Z.of_nat (length a) = total ->
  exists blk' idx',
    fat_pack_sector n i idx total a blk = Ret (blk', idx') /\
    length blk' = 128%nat /\ 0 <= idx'.
Proof.
  induction n as [|n IH]; intros i idx blk Hi Hn Hb H0 Hlen; cbn [fat_pack_sector].
  - eauto.
  - destruct (idx <? total) eqn:E; [|eauto].
    rewrite aget_ok by lia.
    apply IH; [lia..| |lia|done].
    rewrite splice_length; [done|]. rewrite le_enc_length. lia.
Qed.

Lemma fat_flush_loop_ok a n : forall s idx w,
  conn_ok w -> fat_region_ok w ->
  0 <= s -> s + Z.of_nat n <= fat_sectors (L (G w)) ->
  0 <= idx -> Z.of_nat (length a) = total_blocks (L (G w)) ->
  exists m' hd,
    fat_flush_loop n s idx (L (G w)) a w = Ret (0, at_disk w m' hd) /\
    same_outside (fat_start (L (G w)))
      (fat_start (L (G w)) + fat_sectors (L (G w))) (img w) m'.
Proof.
  induction n as [|n IH]; intros s idx w Hc Hl Hs Hn Hidx Hlen.
  - exists (img w), (Disk.g_head_cyl (dsk w)). simpl. by rewrite at_disk_id.
  - cbn [fat_flush_loop].
    destruct (fat_pack_sector_ok (total_blocks (L (G w))) a 32 0 idx (zeros 128))
      as (blk & idx1 & Hpk & Hblk & Hidx1); [lia|lia|done|done|done|].
    rewrite (bind_lift _ _ _ _ Hpk).
    assert (Hr : 0 <= fat_start (L (G w)) + s < nblocks w) by (destruct Hl; lia).
    assert (Hu : u32 (fat_start (L (G w)) + s) = fat_start (L (G w)) + s).
    { unfold u32. apply Z.mod_small. destruct Hl; lia. }
    rewrite Hu, (bind_ok _ _ _ _ _ (disk_write_idx_ok w Hc _ _ Hr Hblk)).
    change (0 <? 0) with false. cbv iota.
    destruct (geometry_facts w Hc) as (_ & _ & _ & Hgl & _).
    set (m1 := put_sector (img w) (fat_start (L (G w)) + s) blk).
    assert (Hm1 : length m1 = length (img w)) by (apply put_sector_length; lia).
    destruct (IH (s + 1) idx1
                (at_disk w m1 ((fat_start (L (G w)) + s) / Disk.g_sec (dsk w))))
      as (m' & hd & Hloop & Hsame); try done.
    + by apply conn_ok_at_disk.
    + by apply fat_region_ok_at_disk.
    + lia.
    + simpl. lia.
    + exists m', hd. split; [exact Hloop|].
      eapply same_outside_trans; [|exact Hsame].
      apply same_outside_put; lia.
Qed.

Lemma fat_flush_ok w :
  conn_ok w -> fat_region_ok w -> loaded (fat (G w)) = true ->
  Z.of_nat (length (v (fat (G w)))) = total_blocks (L (G w)) ->
  exists m' hd,
    fat_flush w = Ret (0, at_disk w m' hd) /\
    same_outside (fat_start (L (G w)))
      (fat_start (L (G w)) + fat_sectors (L (G w))) (img w) m'.
Proof.
  intros Hc Hl Hld Hlen. unfold fat_flush. rewrite bind_get, Hld. simpl.
  apply fat_flush_loop_ok; try done; destruct Hl; lia.
Qed.

(** Worlds built by [upd]. *)
Lemma conn_ok_upd w m hd a :
  conn_ok w -> length m = length (img w) -> conn_ok (upd w m hd a).
Proof.
  intros [Hg Hc Hs H32 Hst] Hlen. split; try done.
  destruct Hg as (HC & HS & Hl & Hsz). unfold DiskInv.geometry_ok. simpl.
  unfold img in Hlen. rewrite Hlen. done.
Qed.

Lemma layout_ok_upd w m hd a : layout_ok w -> layout_ok (upd w m hd a).
Proof. intros []. split; done. Qed.

(** With the cache loaded, the FAT of the handlers is the cache. *)
Lemma fat_of_loaded w : loaded (fat (G w)) = true -> fat_of w = v (fat (G w)).
Proof.
  intros H. unfold fat_of, fat_load. rewrite bind_get, H. reflexivity.
Qed.

(** The size of a FAT on disk: four bytes per entry. *)
Lemma fat_bytes_length (a : list Z) :
  length (flat_map (le_enc 4) a) = (4 * length a)%nat.
Proof.
  induction a as [|x a IH]; [done|].
  cbn [flat_map]. rewrite length_app, le_enc_length, IH. simpl. lia.
Qed.

End FSFat.

(** ** The filesystem service: the FAT on disk *)

Module FSFatStore.
Import Mach FS FSInv MachFacts FSDisk FSFat.
#[local] Abbreviation length := List.length (only parsing).

Lemma fat_unpack_sector_spec total blk n : forall i idx a,
  0 <= idx -> Z.of_nat (length a) = total ->
  exists a',
    fat_unpack_sector n i idx total blk a
    = Ret (a', Z.min (idx + Z.of_nat n) (Z.max idx total)) /\
    Z.of_nat (length a') = total /\
    forall j, 0 <= j ->
      a' !! Z.to_nat j
      = if decide (idx <= j < Z.min (idx + Z.of_nat n) total)
        then Some (le_dec (take 4 (drop (Z.to_nat ((i + (j - idx)) * 4)) blk)))
        else a !! Z.to_nat j.
Proof.
  induction n as [|n IH]; intros i idx a H0 Hlen.
  - exists a. cbn [fat_unpack_sector].
    split; [replace (Z.min _ _) with idx by lia; done|].
    split; [done|]. intros j Hj. rewrite decide_False by lia. done.
  - cbn [fat_unpack_sector]. destruct (idx <? total) eqn:E.
    + rewrite aset_ok by lia.
      destruct (IH (i + 1) (idx + 1)
                  (<[Z.to_nat idx := le_dec (take 4 (drop (Z.to_nat (i * 4)) blk))]> a))
        as (a' & Hrun & Hlen' & Hspec); [lia|by rewrite length_insert|].
      exists a'. split.
      { replace (Z.min (idx + Z.of_nat (S n)) (Z.max idx total))
          with (Z.min (idx + 1 + Z.of_nat n) (Z.max (idx + 1) total)) by lia.
        exact Hrun. }
      split; [done|].
      intros j Hj. rewrite Hspec by done.
      destruct (decide (j = idx)) as [->|Hne].
      * rewrite decide_False by lia. rewrite decide_True by lia.
        rewrite list_lookup_insert_eq by lia.
        replace (i + (idx - idx)) with i by lia. done.
      * rewrite list_lookup_insert_ne by lia.
        destruct (decide (idx + 1 <= j < _)); destruct (decide (idx <= j < _));
          try lia; [|done].
        replace (i + 1 + (j - (idx + 1))) with (i + (j - idx)) by lia. done.
    + exists a. split; [replace (Z.min _ _) with idx by lia; done|].
      split; [done|].
      intros j Hj. rewrite decide_False by lia. done.
Qed.


Lemma fat_load_loop_spec n : forall s idx a w,
  conn_ok w -> fat_region_ok w ->
  0 <= s -> s + Z.of_nat n <= fat_sectors (L (G w)) ->
  idx = Z.min (32 * s) (total_blocks (L (G w))) ->
  Z.of_nat (length a) = total_blocks (L (G w)) ->
  exists a' hd,
    fat_load_loop n s idx (L (G w)) a w = Ret ((0, a'), at_disk w (img w) hd) /\
    Z.of_nat (length a') = total_blocks (L (G w)) /\
    forall j, 0 <= j ->
      a' !! Z.to_nat j
      = if decide (32 * s <= j
                   < Z.min (32 * (s + Z.of_nat n)) (total_blocks (L (G w))))
        then Some (fat_entry_on_disk (img w) (L (G w)) j)
        else a !! Z.to_nat j.
Proof.
  induction n as [|n IH]; intros s idx a w Hc Hl Hs Hn Hidx Hlen.
  - exists a, (Disk.g_head_cyl (dsk w)). cbn [fat_load_loop].
    rewrite at_disk_id. split; [done|]. split; [done|].
    intros j Hj. rewrite decide_False by lia. done.
  - cbn [fat_load_loop].
    set (l := L (G w)) in *. set (total := total_blocks l) in *.
    assert (Ht : 0 <= total) by (destruct Hl; done).
    assert (Hr : 0 <= fat_start l + s < nblocks w) by (destruct Hl; unfold l in *; lia).
    assert (Hu : u32 (fat_start l + s) = fat_start l + s).
    { unfold u32. apply Z.mod_small. destruct Hl; unfold l in *; lia. }
    rewrite Hu, (bind_ok _ _ _ _ _ (disk_read_idx_ok w Hc _ Hr)).
    set (blk := sector (img w) (fat_start l + s)).
    destruct (fat_unpack_sector_spec total blk 32 0 idx a)
      as (a1 & Hun & Hlen1 & Hspec1); [lia|done|].
    rewrite (bind_lift _ _ _ _ Hun).
    destruct (IH (s + 1) (Z.min (idx + Z.of_nat 32) (Z.max idx total)) a1
                (at_disk w (img w) ((fat_start l + s) / Disk.g_sec (dsk w))))
      as (a' & hd & Hloop & Hlen' & Hspec').
    { by apply conn_ok_at_disk. }
    { by apply fat_region_ok_at_disk. }
    { lia. }
    { change (L (G (at_disk w (img w) _))) with l. lia. }
    { change (L (G (at_disk w (img w) _))) with l. fold total. lia. }
    { exact Hlen1. }
    + exists a', hd. split; [exact Hloop|]. split; [exact Hlen'|].
      intros j Hj.
      change (L (G (at_disk w (img w) _))) with l in Hspec'.
      change (img (at_disk w (img w) _)) with (img w) in Hspec'.
      fold total in Hspec'. rewrite Hspec' by done.
      destruct (decide (32 * (s + 1) <= j < _)) as [Hin|Hout].
      * rewrite decide_True by lia. done.
      * rewrite Hspec1 by done.
        destruct (decide (idx <= j < _)) as [Hin1|Hout1].
        -- rewrite decide_True by lia. f_equal. unfold fat_entry_on_disk.
           pose proof (Z.div_mod j 32 ltac:(lia)) as Hd.
           pose proof (Z.mod_pos_bound j 32 ltac:(lia)) as Hm.
           assert (Hq : j / 32 = s) by lia.
           rewrite Hq. fold blk.
           replace (0 + (j - idx)) with (j mod 32) by lia. done.
        -- rewrite decide_False by lia. done.
Qed.

(** What [fat_load] reads: entry [j] comes from its four bytes on the
    disk; entries for which the FAT sectors have no room stay 0. *)
Lemma fat_load_spec w :
  conn_ok w -> fat_region_ok w -> loaded (fat (G w)) = false ->
  exists a hd,
    fat_load w = Ret (0, upd w (img w) hd a) /\
    Z.of_nat (length a) = total_blocks (L (G w)) /\
    forall j, 0 <= j < total_blocks (L (G w)) ->
      a !! Z.to_nat j
      = Some (if decide (j < 32 * fat_sectors (L (G w)))
              then fat_entry_on_disk (img w) (L (G w)) j else 0).
Proof.
  intros Hc Hl Hld.
  set (l := L (G w)). set (total := total_blocks l).
  assert (Ht : 0 <= total) by (destruct Hl; done).
  assert (Hfs : 0 <= fat_sectors l) by (destruct Hl; done).
  destruct (fat_load_loop_spec (Z.to_nat (fat_sectors l)) 0 0
              (replicate (Z.to_nat total) 0) w)
    as (a & hd & Hloop & Hlen & Hspec); try done.
  - fold l. lia.
  - fold l total. lia.
  - rewrite length_replicate. fold l total. lia.
  - exists a, hd. split; [|split; [exact Hlen|]].
    + unfold fat_load. rewrite bind_get, Hld. fold l total.
      rewrite (bind_ok _ _ _ _ _ Hloop). reflexivity.
    + intros j Hj. fold l total in Hspec. rewrite Hspec by lia.
      destruct (decide (j < 32 * fat_sectors l)).
      * rewrite decide_True by lia. done.
      * rewrite decide_False by lia. apply lookup_replicate_2. lia.
Qed.


Lemma fat_pack_sector_spec total a n : forall i idx blk,
  0 <= i -> i + Z.of_nat n <= 32 -> length blk = 128%nat ->
  0 <= idx -> Z.of_nat (length a) = total ->
  exists blk',
    fat_pack_sector n i idx total a blk
    = Ret (blk', Z.min (idx + Z.of_nat n) (Z.max idx total)) /\
    length blk' = 128%nat /\
    forall q, 0 <= q < 32 ->
      take 4 (drop (Z.to_nat (q * 4)) blk')
      = if decide (i <= q < i + Z.of_nat n /\ idx + (q - i) < total)
        then le_enc 4 (default 0 (a !! Z.to_nat (idx + (q - i))))
        else take 4 (drop (Z.to_nat (q * 4)) blk).
Proof.
  induction n as [|n IH]; intros i idx blk Hi Hn Hb H0 Hlen;
    cbn [fat_pack_sector].
  - exists blk. split; [replace (Z.min _ _) with idx by lia; done|].
    split; [done|]. intros q Hq. rewrite decide_False by lia. done.
  - destruct (idx <? total) eqn:E.
    + rewrite aget_ok by lia.
      set (x := default 0 (a !! Z.to_nat idx)).
      set (blk1 := splice blk (Z.to_nat (i * 4)) (le_enc 4 x)).
      assert (Hb1 : length blk1 = 128%nat).
      { unfold blk1. rewrite splice_length; [done|]. rewrite le_enc_length. lia. }
      destruct (IH (i + 1) (idx + 1) blk1) as (blk' & Hrun & Hb' & Hspec);
        [lia|lia|done|lia|done|].
      exists blk'. split.
      { replace (Z.min (idx + Z.of_nat (S n)) (Z.max idx total))
          with (Z.min (idx + 1 + Z.of_nat n) (Z.max (idx + 1) total)) by lia.
        exact Hrun. }
      split; [done|]. intros q Hq. rewrite Hspec by done.
      destruct (decide (q = i)) as [->|Hne].
      * rewrite decide_False by lia. rewrite decide_True by lia.
        replace (idx + (i - i)) with idx by lia. fold x.
        unfold blk1. rewrite <- (le_enc_length 4 x) at 1.
        apply splice_read. lia.
      * destruct (decide (i + 1 <= q < _ /\ _)) as [Hin|Hout].
        -- rewrite decide_True by lia.
           replace (idx + 1 + (q - (i + 1))) with (idx + (q - i)) by lia. done.
        -- rewrite decide_False by lia. unfold blk1.
           apply splice_read_other; rewrite le_enc_length; lia.
    + exists blk. split; [replace (Z.min _ _) with idx by lia; done|].
      split; [done|]. intros q Hq. rewrite decide_False by lia. done.
Qed.

Lemma fat_flush_loop_spec a n : forall s idx w,
  conn_ok w -> fat_region_ok w ->
  0 <= s -> s + Z.of_nat n <= fat_sectors (L (G w)) ->
  idx = Z.min (32 * s) (total_blocks (L (G w))) ->
  Z.of_nat (length a) = total_blocks (L (G w)) ->
  exists m' hd,
    fat_flush_loop n s idx (L (G w)) a w = Ret (0, at_disk w m' hd) /\
    length m' = length (img w) /\
    (forall j, 0 <= j ->
       ~ fat_start (L (G w)) + s <= j < fat_start (L (G w)) + s + Z.of_nat n ->
       sector m' j = sector (img w) j) /\
    (forall j, 32 * s <= j
               < Z.min (32 * (s + Z.of_nat n)) (total_blocks (L (G w))) ->
       fat_entry_on_disk m' (L (G w)) j
       = default 0 (a !! Z.to_nat j) mod 2 ^ 32).
Proof.
  induction n as [|n IH]; intros s idx w Hc Hl Hs Hn Hidx Hlen.
  - exists (img w), (Disk.g_head_cyl (dsk w)). cbn [fat_flush_loop].
    rewrite at_disk_id. split; [done|]. split; [done|]. split; [done|].
    intros j Hj. lia.
  - cbn [fat_flush_loop].
    set (l := L (G w)) in *. set (total := total_blocks l) in *.
    assert (Ht : 0 <= total) by (destruct Hl; done).
    destruct (fat_pack_sector_spec total a 32 0 idx (zeros 128))
      as (blk & Hpk & Hblk & Hfields); [lia|lia|done|lia|done|].
    rewrite (bind_lift _ _ _ _ Hpk).
    assert (Hr : 0 <= fat_start l + s < nblocks w)
      by (destruct Hl; unfold l in *; lia).
    assert (Hu : u32 (fat_start l + s) = fat_start l + s).
    { unfold u32. apply Z.mod_small. destruct Hl; unfold l in *; lia. }
    rewrite Hu, (bind_ok _ _ _ _ _ (disk_write_idx_ok w Hc _ _ Hr Hblk)).
    change (0 <? 0) with false. cbv iota.
    destruct (geometry_facts w Hc) as (_ & _ & _ & Hgl & _).
    set (m1 := put_sector (img w) (fat_start l + s) blk).
    assert (Hm1 : length m1 = length (img w)) by (apply put_sector_length; lia).
    destruct (IH (s + 1) (Z.min (idx + Z.of_nat 32) (Z.max idx total))
                (at_disk w m1 ((fat_start l + s) / Disk.g_sec (dsk w))))
      as (m' & hd & Hloop & Hlen' & Hframe & Hcont).
    { by apply conn_ok_at_disk. }
    { by apply fat_region_ok_at_disk. }
    { lia. }
    { change (L (G (at_disk w m1 _))) with l. lia. }
    { change (L (G (at_disk w m1 _))) with l. fold total. lia. }
    { exact Hlen. }
    change (L (G (at_disk w m1 _))) with l in Hframe, Hcont.
    change (img (at_disk w m1 _)) with m1 in Hlen', Hframe.
    fold total in Hcont.
    exists m', hd. split; [exact Hloop|]. split; [congruence|]. split.
    + intros j Hj Hout. rewrite Hframe by lia.
      unfold m1. apply sector_put_other; lia.
    + intros j Hj.
      destruct (decide (32 * (s + 1) <= j)) as [Hhi|Hlo].
      * apply Hcont. lia.
      * unfold fat_entry_on_disk.
        pose proof (Z.div_mod j 32 ltac:(lia)) as Hd.
        pose proof (Z.mod_pos_bound j 32 ltac:(lia)) as Hm.
        assert (Hq : j / 32 = s) by lia. rewrite Hq.
        rewrite Hframe by lia. unfold m1.
        rewrite sector_put_same by lia.
        rewrite Hfields by lia. rewrite decide_True by lia.
        replace (idx + (j mod 32 - 0)) with j by lia.
        rewrite le_dec_enc. reflexivity.
Qed.

(** A cached FAT of 32-bit entries, one for each block, that fits the FAT
    sectors is written by [fat_flush] to the FAT sectors only, and
    [fat_load] with an empty cache then reads back the same FAT. *)
Theorem fat_flush_load w :
  conn_ok w -> fat_region_ok w -> loaded (fat (G w)) = true ->
  Z.of_nat (length (v (fat (G w)))) = total_blocks (L (G w)) ->
  total_blocks (L (G w)) <= 32 * fat_sectors (L (G w)) ->
  Forall (fun x => 0 <= x < 2 ^ 32) (v (fat (G w))) ->
  exists w1 w2,
    fat_flush w = Ret (0, w1) /\
    G w1 = G w /\
    (forall j, 0 <= j ->
       ~ fat_start (L (G w)) <= j
         < fat_start (L (G w)) + fat_sectors (L (G w)) ->
       sector (img w1) j = sector (img w) j) /\
    fat_load (set_fat w1 fat_init) = Ret (0, w2) /\
    fat (G w2) = fat (G w) /\ img w2 = img w1.
Proof.
  intros Hc Hl Hld Hlen Hcap Hrange.
  set (l := L (G w)) in *. set (total := total_blocks l) in *.
  set (a := v (fat (G w))) in *.
  assert (Hfs : 0 <= fat_sectors l) by (destruct Hl; done).
  destruct (fat_flush_loop_spec a (Z.to_nat (fat_sectors l)) 0 0 w)
    as (m' & hd & Hloop & Hlen' & Hframe & Hcont); try done.
  { fold l. lia. }
  { pose proof (fr_total w Hl) as Ht. fold l total in Ht. fold l total. lia. }
  fold l total in Hloop, Hframe, Hcont.
  set (w1 := at_disk w m' hd).
  assert (Hflush : fat_flush w = Ret (0, w1)).
  { unfold fat_flush. rewrite bind_get, Hld. cbn [negb]. exact Hloop. }
  set (w1' := set_fat w1 fat_init).
  assert (Hc1 : conn_ok w1').
  { destruct (conn_ok_at_disk w m' hd Hc Hlen') as [g1 g2 g3 g4 g5].
    apply mkConnOk; [exact g1|exact g2|exact g3|exact g4|exact g5]. }
  assert (Hl1 : fat_region_ok w1').
  { destruct Hl as [f1 f2 f3 f4 f5].
    apply mkFatRegionOk; [exact f1|exact f2|exact f3|exact f4|exact f5]. }
  destruct (fat_load_spec w1' Hc1 Hl1 eq_refl) as (a' & hd' & Hload & Hla' & Hspec).
  change (L (G w1')) with l in Hla', Hspec. change (img w1') with m' in Hload, Hspec.
  fold total in Hla', Hspec.
  assert (Ha : a' = a).
  { apply list_eq. intros i.
    destruct (decide (Z.of_nat i < total)) as [Hi|Hi].
    - pose proof (Hspec (Z.of_nat i) ltac:(lia)) as Hs. rewrite Nat2Z.id in Hs.
      rewrite Hs, decide_True by lia.
      rewrite Hcont by lia. rewrite Nat2Z.id.
      destruct (a !! i) as [x|] eqn:Ex.
      + cbn [default]. rewrite Z.mod_small; [done|].
        eapply (Forall_lookup_1 _ a i x) in Hrange; done.
      + apply lookup_ge_None in Ex. lia.
    - rewrite !lookup_ge_None_2 by lia. done. }
  exists w1, (upd w1' m' hd' a'). split; [exact Hflush|]. split; [done|].
  split.
  { intros j Hj Hout. apply Hframe; [done|]. lia. }
  split; [exact Hload|]. split; [|done].
  rewrite Ha. change (fat (G (upd w1' m' hd' a))) with (mkFat a true).
  unfold a. destruct (fat (G w)) as [va ld]. cbn in *. by rewrite Hld.
Qed.

(** What [fat_flush] leaves on the disk: the sectors outside the FAT as
    they were, and in the FAT sectors the entries of the cache. *)
Lemma fat_flush_stores w :
  conn_ok w -> fat_region_ok w -> loaded (fat (G w)) = true ->
  Z.of_nat (length (v (fat (G w)))) = total_blocks (L (G w)) ->
  exists m' hd,
    fat_flush w = Ret (0, at_disk w m' hd) /\
    same_outside (fat_start (L (G w)))
      (fat_start (L (G w)) + fat_sectors (L (G w))) (img w) m' /\
    forall j, 0 <= j < total_blocks (L (G w)) ->
      j < 32 * fat_sectors (L (G w)) ->
      fat_entry_on_disk m' (L (G w)) j
      = default 0 (v (fat (G w)) !! Z.to_nat j) mod 2 ^ 32.
Proof.
  intros Hc Hl Hld Hlen.
  set (l := L (G w)) in *. set (total := total_blocks l) in *.
  set (a := v (fat (G w))) in *.
  assert (Hfs : 0 <= fat_sectors l) by (destruct Hl; done).
  destruct (fat_flush_loop_spec a (Z.to_nat (fat_sectors l)) 0 0 w)
    as (m' & hd & Hloop & Hlen' & Hframe & Hcont); try done.
  { fold l. lia. }
  { pose proof (fr_total w Hl) as Ht. fold l total in Ht. fold l total. lia. }
  fold l total in Hloop, Hframe, Hcont.
  exists m', hd. split; [|split].
  - unfold fat_flush. rewrite bind_get, Hld. cbn [negb]. exact Hloop.
  - split; [exact Hlen'|]. intros j Hj Hout. apply Hframe; [done|]. lia.
  - intros j Hj Hfit. apply Hcont. lia.
Qed.

(** An entry of the FAT on disk is read from its FAT sector only. *)
Lemma fat_entry_on_disk_same m m' l j :
  sector m' (fat_start l + j / 32) = sector m (fat_start l + j / 32) ->
  fat_entry_on_disk m' l j = fat_entry_on_disk m l j.
Proof. intros H. unfold fat_entry_on_disk. by rewrite H. Qed.

(** When the FAT sectors hold an entry for every block, and hold the
    32-bit entries of [a], [fat_load] with an empty cache loads [a]. *)
Lemma fat_on_disk_eq w a :
  conn_ok w -> fat_region_ok w ->
  Z.of_nat (length a) = total_blocks (L (G w)) ->
  total_blocks (L (G w)) <= 32 * fat_sectors (L (G w)) ->
  Forall (fun x => 0 <= x < 2 ^ 32) a ->
  (forall j, 0 <= j < total_blocks (L (G w)) ->
     fat_entry_on_disk (img w) (L (G w)) j
     = default 0 (a !! Z.to_nat j) mod 2 ^ 32) ->
  fat_on_disk w = a.
Proof.
  intros Hc Hl Hlen Hcap Hrange Hdisk.
  set (w0 := set_fat w fat_init).
  assert (Hc0 : conn_ok w0).
  { destruct Hc as [g1 g2 g3 g4 g5].
    apply mkConnOk; [exact g1|exact g2|exact g3|exact g4|exact g5]. }
  assert (Hl0 : fat_region_ok w0).
  { destruct Hl as [f1 f2 f3 f4 f5].
    apply mkFatRegionOk; [exact f1|exact f2|exact f3|exact f4|exact f5]. }
  destruct (fat_load_spec w0 Hc0 Hl0 eq_refl) as (a' & hd' & Hload & Hla' & Hspec).
  change (L (G w0)) with (L (G w)) in Hla', Hspec.
  change (img w0) with (img w) in Hspec.
  unfold fat_on_disk, fat_of. fold w0. rewrite Hload.
  change (v (fat (G (upd w0 (img w0) hd' a')))) with a'.
  apply list_eq. intros i.
  destruct (decide (Z.of_nat i < total_blocks (L (G w)))) as [Hi|Hi].
  - pose proof (Hspec (Z.of_nat i) ltac:(lia)) as Hs. rewrite Nat2Z.id in Hs.
    rewrite Hs, decide_True by lia.
    rewrite Hdisk by lia. rewrite Nat2Z.id.
    destruct (a !! i) as [x|] eqn:Ex.
    + cbn [default]. rewrite Z.mod_small; [done|].
      eapply (Forall_lookup_1 _ a i x) in Hrange; done.
    + apply lookup_ge_None in Ex. lia.
  - rewrite !lookup_ge_None_2 by lia. done.
Qed.

End FSFatStore.

(** ** The filesystem service: directory entries on disk *)

Module FSEntry.
Import Mach FS FSInv MachFacts FSDisk FSFat FSDir.
#[local] Abbreviation length := List.length (only parsing).

Lemma dirent_pack_length e :
  (32 <= length (name e))%nat -> length (dirent_pack e) = 64%nat.
Proof.
  intros H. unfold dirent_pack.
  rewrite !length_app, length_take, !le_enc_length, zeros_length.
  change (length [used e]) with 1%nat. lia.
Qed.

Lemma dirent_unpack_pack e r :
  (32 <= length (name e))%nat ->
  dirent_unpack (dirent_pack e ++ r)
  = mkDirent (take 31 (name e) ++ [x00])
             (FS.length e mod 2 ^ 32) (first e mod 2 ^ 32) (used e).
Proof.
  intros H. unfold dirent_unpack, dirent_pack.
  assert (Hn : length (take 32 (name e)) = 32%nat) by (rewrite length_take; lia).
  rewrite <- !app_assoc. f_equal.
  - f_equal. rewrite take_app_le by lia. rewrite take_take. done.
  - rewrite drop_app_length' by done.
    rewrite take_app_length' by (by rewrite le_enc_length).
    apply le_dec_enc.
  - replace 36%nat with (32 + 4)%nat by done. rewrite <- drop_drop.
    rewrite drop_app_length' by done.
    rewrite drop_app_length' by (by rewrite le_enc_length).
    rewrite take_app_length' by (by rewrite le_enc_length).
    apply le_dec_enc.
  - rewrite lookup_app_r by lia. rewrite Hn.
    rewrite lookup_app_r by (rewrite le_enc_length; lia). rewrite le_enc_length.
    rewrite lookup_app_r by (rewrite le_enc_length; lia). rewrite le_enc_length.
    done.
Qed.

Lemma dirent_unpack_take64 x : dirent_unpack (take 64 x) = dirent_unpack x.
Proof.
  unfold dirent_unpack. f_equal.
  - by rewrite take_take.
  - rewrite skipn_firstn_comm, take_take. done.
  - rewrite skipn_firstn_comm, take_take. done.
  - by rewrite lookup_take_lt by lia.
Qed.

Section PutEntry.
Context (m : list byte) (l : layout_t) (slot : Z) (e : dirent_fs).
Context (Hslot : 0 <= slot) (Hds : 0 <= dir_start l).
Context (Hin : (dir_start l + slot / 2) * 128 + 128 <= Z.of_nat (length m)).
Context (He : length (dirent_pack e) = 64%nat).

Let sec_ := dir_start l + slot / 2.

Lemma slot_facts : 0 <= sec_ /\ 0 <= slot mod 2 < 2 /\ 0 <= slot / 2.
Proof.
  assert (0 <= slot / 2) by (apply Z.div_pos; lia).
  assert (0 <= slot mod 2 < 2) by (apply Z.mod_pos_bound; lia).
  unfold sec_. lia.
Qed.

Lemma new_sector_length :
  length (splice (sector m sec_) (Z.to_nat (slot mod 2 * 64)) (dirent_pack e))
  = 128%nat.
Proof.
  destruct slot_facts as (H0 & Hm & _).
  assert (Hs : length (sector m sec_) = 128%nat) by (apply sector_length; lia).
  rewrite splice_length; [done|]. rewrite He, Hs. lia.
Qed.

Lemma put_entry_length : length (put_entry m l slot e) = length m.
Proof.
  destruct slot_facts as (H0 & _). unfold put_entry.
  apply put_sector_length; [done|done|apply new_sector_length].
Qed.

Lemma put_entry_same_outside :
  same_outside sec_ (sec_ + 1) m (put_entry m l slot e).
Proof.
  destruct slot_facts as (H0 & _). unfold put_entry.
  apply same_outside_put; [done|done|apply new_sector_length|lia].
Qed.

Lemma entry_at_put_same :
  exists r, entry_at (put_entry m l slot e) l slot
            = dirent_unpack (dirent_pack e ++ r).
Proof.
  destruct slot_facts as (H0 & Hm & _).
  assert (Hs : length (sector m sec_) = 128%nat) by (apply sector_length; lia).
  unfold entry_at, put_entry. fold sec_.
  rewrite sector_put_same by (done || apply new_sector_length).
  unfold splice.
  rewrite drop_app_length' by (rewrite length_take; lia).
  eexists. reflexivity.
Qed.

Lemma entry_at_put_other j :
  0 <= j -> j <> slot ->
  entry_at (put_entry m l slot e) l j = entry_at m l j.
Proof.
  intros Hj Hne. destruct slot_facts as (H0 & Hm & Hq).
  assert (Hjq : 0 <= j / 2) by (apply Z.div_pos; lia).
  assert (Hjm : 0 <= j mod 2 < 2) by (apply Z.mod_pos_bound; lia).
  assert (Hs : length (sector m sec_) = 128%nat) by (apply sector_length; lia).
  unfold entry_at, put_entry. fold sec_.
  destruct (decide (j / 2 = slot / 2)) as [Heq|Hdiff].
  - rewrite Heq. fold sec_.
    rewrite sector_put_same by (done || apply new_sector_length).
    rewrite <- dirent_unpack_take64.
    rewrite <- (dirent_unpack_take64 (drop _ (sector m sec_))).
    f_equal. apply splice_read_other.
    + rewrite He, Hs. lia.
    + rewrite He.
      pose proof (Z.div_mod j 2 ltac:(lia)).
      pose proof (Z.div_mod slot 2 ltac:(lia)). lia.
  - rewrite sector_put_other; [done|done|done|apply new_sector_length|lia|lia].
Qed.

End PutEntry.

(** C strings. *)
Lemma strlen_nonneg s : 0 <= strlen s.
Proof. induction s as [|c s IH]; simpl; [lia|]. destruct (decide _); lia. Qed.

Lemma strncpy_length n : forall s, length (strncpy n s) = n.
Proof.
  induction n as [|n IH]; intros s; [done|].
  cbn [strncpy]. destruct s as [|c s]; [apply zeros_length|].
  destruct (decide _); [apply zeros_length|]. simpl. by rewrite IH.
Qed.

Lemma strncmp_strncpy n : forall s,
  strlen s <= Z.of_nat n -> strncmp (strncpy n s ++ [x00]) s (S n) = true.
Proof.
  induction n as [|n IH]; intros s Hs.
  - destruct s as [|c s]; [done|]. simpl in *.
    destruct (decide (c = x00)) as [->|Hc]; [done|].
    pose proof (strlen_nonneg s). lia.
  - destruct s as [|c s]; [done|]. cbn [strncpy].
    destruct (decide (c = x00)) as [->|Hc]; [done|].
    cbn [strncmp app hd tl]. rewrite decide_True by done.
    rewrite decide_False by done. apply IH.
    simpl in Hs. rewrite decide_False in Hs by done. lia.
Qed.

Lemma new_entry_names nm r :
  strlen nm < 32 -> names (dirent_unpack (dirent_pack (new_entry nm) ++ r)) nm.
Proof.
  intros Hn.
  assert (Hlen : length (name (new_entry nm)) = 32%nat).
  { unfold new_entry. cbn [name]. rewrite length_app, strncpy_length. done. }
  rewrite dirent_unpack_pack by lia. split; [done|].
  unfold new_entry. cbn [name].
  rewrite take_app_length' by (by rewrite strncpy_length).
  apply (strncmp_strncpy 31). lia.
Qed.

Lemma new_entry_pack_length nm : length (dirent_pack (new_entry nm)) = 64%nat.
Proof.
  apply dirent_pack_length. unfold new_entry. cbn [name].
  rewrite length_app, strncpy_length. simpl. lia.
Qed.

End FSEntry.

(** ** The filesystem service: create *)

Module FSCreate.
Import Mach FS FSInv MachFacts FSDisk FSFat FSDir FSEntry.
#[local] Abbreviation length := List.length (only parsing).

Lemma fs_ok_upd w m hd a :
  fs_ok w -> length m = length (img w) ->
  Z.of_nat (length a) = total_blocks (L (G w)) ->
  fs_ok (upd w m hd a).
Proof.
  intros [Hc Hl Hca Hf] Hm Ha. split.
  - by apply conn_ok_upd.
  - by apply layout_ok_upd.
  - intros _. exact Ha.
  - exact Hf.
Qed.

Lemma has_entry_scan w nm :
  layout_ok w ->
  has_entry w nm <->
  exists slot e,
    scan_name (img w) (L (G w)) nm (Z.to_nat (dir_entries (L (G w)))) 0
    = Found slot e.
Proof.
  intros Hl. assert (He : 0 <= dir_entries (L (G w))) by (destruct Hl; lia).
  split.
  - intros (slot & Hr & Hn).
    destruct (scan_name _ _ _ _ _) as [s e| |] eqn:E; [eauto| |].
    + destruct (scan_name_not_found _ _ _ _ _ E slot); [lia|done].
    + by destruct (scan_name_no_error _ _ _ _ _ E).
  - intros (slot & e & E).
    destruct (scan_name_found _ _ _ _ _ _ _ E) as (Hr & -> & Hn & _).
    exists slot. split; [lia|done].
Qed.

(** The three ways [cmd_create] ends for a valid name. *)
Lemma cmd_create_cases w nm :
  fs_ok w -> 1 <= strlen nm < 32 ->
  (has_entry w nm /\
   exists hd, cmd_create nm w = Ret (r1, upd w (img w) hd (fat_of w)))
  \/
  (~ has_entry w nm /\
   ((exists hd, cmd_create nm w = Ret (r2, upd w (img w) hd (fat_of w)))
    \/
    (exists slot hd,
       0 <= slot < dir_entries (L (G w)) /\
       cmd_create nm w
       = Ret (r0, upd w (put_entry (img w) (L (G w)) slot (new_entry nm)) hd
                    (fat_of w))))).
Proof.
  intros [Hc Hl Hca Hf] Hnm.
  destruct (fat_load_ok w Hc (layout_fat_region w Hl) Hca) as (hd1 & Hload & Hlen).
  set (w1 := upd w (img w) hd1 (fat_of w)) in *.
  assert (Hc1 : conn_ok w1) by (by apply conn_ok_upd).
  assert (Hl1 : layout_ok w1) by (by apply layout_ok_upd).
  destruct (dir_find_by_name_scan nm w1 Hc1 Hl1) as (hd2 & Hfind).
  change (img w1) with (img w) in Hfind.
  change (L (G w1)) with (L (G w)) in Hfind.
  assert (Hstart : cmd_create nm w
                   = (fnd ← dir_find_by_name nm;
                      match fnd with
                      | Found _ _ => mret r1
                      | _ =>
                        fs ← dir_find_free;
                        match fs with
                        | Some (Some free_slot) =>
                          rc ← dir_write_entry free_slot (new_entry nm);
                          mret (if rc =? 0 then r0 else r2)
                        | _ => mret r2
                        end
                      end) w1).
  { unfold cmd_create, MAX_NAME.
    destruct (_ || _) eqn:E; [lia|].
    rewrite bind_get, Hf. cbn [negb].
    rewrite (bind_ok _ _ _ _ _ Hload). reflexivity. }
  rewrite Hstart, (bind_ok _ _ _ _ _ Hfind).
  pose proof (has_entry_scan w nm Hl) as Hhas.
  destruct (scan_name _ _ _ _ _) as [slot e| |] eqn:E.
  - left. split; [apply Hhas; eauto|]. exists hd2. reflexivity.
  - right. split; [intros (s & e & He)%Hhas; done|].
    set (w2 := at_disk w1 (img w) hd2).
    assert (Hc2 : conn_ok w2) by (by apply conn_ok_at_disk).
    assert (Hl2 : layout_ok w2) by (by apply layout_ok_at_disk).
    destruct (dir_find_free_scan w2 Hc2 Hl2) as (hd3 & Hfree).
    change (img w2) with (img w) in Hfree.
    change (L (G w2)) with (L (G w)) in Hfree.
    rewrite (bind_ok _ _ _ _ _ Hfree).
    destruct (scan_free _ _ _ _) as [slot|] eqn:Es.
    + right. destruct (scan_free_some _ _ _ _ _ Es) as [Hr _].
      assert (Hr' : 0 <= slot < dir_entries (L (G w))) by (destruct Hl; lia).
      set (w3 := at_disk w2 (img w) hd3).
      assert (Hc3 : conn_ok w3) by (by apply conn_ok_at_disk).
      assert (Hl3 : layout_ok w3) by (by apply layout_ok_at_disk).
      rewrite (bind_ok _ _ _ _ _
                 (dir_write_entry_ok w3 Hc3 Hl3 slot (new_entry nm) Hr'
                    (new_entry_pack_length nm))).
      exists slot. eexists. split; [done|]. reflexivity.
    + left. exists hd3. reflexivity.
  - by destruct (scan_name_no_error _ _ _ _ _ E).
Qed.

Lemma has_entry_after_create w nm slot hd a :
  fs_ok w -> strlen nm < 32 -> 0 <= slot < dir_entries (L (G w)) ->
  has_entry (upd w (put_entry (img w) (L (G w)) slot (new_entry nm)) hd a) nm.
Proof.
  intros [Hc Hl Hca Hf] Hnm Hs.
  destruct (dir_sector_range w Hl slot Hs) as (Hr & _ & _).
  destruct (geometry_facts w Hc) as (_ & _ & _ & Hlen & _).
  exists slot. split; [done|].
  change (img (upd w ?m _ _)) with m. change (L (G (upd w _ _ _))) with (L (G w)).
  destruct (entry_at_put_same (img w) (L (G w)) slot (new_entry nm)) as [r ->].
  - lia.
  - destruct Hl; lia.
  - lia.
  - apply new_entry_pack_length.
  - by apply new_entry_names.
Qed.

(** C4, with the answer to an invalid name as the code gives it.  On a
    formatted filesystem [C name] is answered "1\n" exactly when the name
    is valid ([1 <= len < 32]) and a used directory entry carries it; an
    invalid name is answered "2\n" and changes nothing; a valid name always
    gets one of the three answers; and when [C name] was answered "0\n",
    the next [C name] is answered "1\n". *)
Theorem create_replies w nm :
  fs_ok w ->
  ((exists w', cmd_create nm w = Ret (r1, w'))
   <-> (1 <= strlen nm < 32 /\ has_entry w nm)) /\
  (~ 1 <= strlen nm < 32 -> cmd_create nm w = Ret (r2, w)) /\
  (exists r w', cmd_create nm w = Ret (r, w') /\ (r = r0 \/ r = r1 \/ r = r2)) /\
  (forall w1, cmd_create nm w = Ret (r0, w1) ->
              exists w2, cmd_create nm w1 = Ret (r1, w2)).
Proof.
  intros Hok.
  assert (Hbad : ~ 1 <= strlen nm < 32 -> cmd_create nm w = Ret (r2, w)).
  { intros Hn. pose proof (strlen_nonneg nm). unfold cmd_create, MAX_NAME.
    destruct (_ || _) eqn:E; [done|lia]. }
  destruct (decide (1 <= strlen nm < 32)) as [Hnm|Hnm].
  - destruct (cmd_create_cases w nm Hok Hnm)
      as [[Hhas [hd H1]]|[Hno [[hd H2]|(slot & hd & Hs & H0)]]].
    + split; [|split; [done|split]].
      * split; [done|eauto].
      * eauto 6.
      * intros w1. rewrite H1. intros [= ].
    + split; [|split; [done|split]].
      * split; [|intros [_ ?]; done]. intros [w' Hw']. rewrite H2 in Hw'. done.
      * eauto 6.
      * intros w1. rewrite H2. intros [= ].
    + split; [|split; [done|split]].
      * split; [|intros [_ ?]; done]. intros [w' Hw']. rewrite H0 in Hw'. done.
      * eauto 6.
      * intros w1. rewrite H0. intros [= <-].
        destruct Hok as [Hc Hl Hca Hf].
        destruct (fat_load_ok w Hc (layout_fat_region w Hl) Hca) as (_ & _ & Hlen).
        destruct (dir_sector_range w Hl slot Hs) as (Hr & _ & _).
        destruct (geometry_facts w Hc) as (_ & _ & _ & Hgl & _).
        set (w1 := upd w _ hd (fat_of w)).
        assert (Hok1 : fs_ok w1).
        { apply fs_ok_upd; [done| |done].
          apply put_entry_length; [lia|destruct Hl; lia|lia|].
          apply new_entry_pack_length. }
        assert (Hhas1 : has_entry w1 nm).
        { apply has_entry_after_create; [done|lia|done]. }
        destruct (cmd_create_cases w1 nm Hok1 Hnm)
          as [[_ [hd' H1']]|[Hno' _]]; [eauto|done].
  - split; [|split; [done|split]].
    + split; [|intros [? _]; done]. intros [w' Hw'].
      rewrite Hbad in Hw' by done. done.
    + exists r2, w. split; [by apply Hbad|auto].
    + intros w1. rewrite Hbad by done. intros [= ].
Qed.

End FSCreate.

(** ** The filesystem service: chains *)

Module FSChain.
Import Mach FS FSInv MachFacts FSDisk FSFat.
#[local] Abbreviation length := List.length (only parsing).

Lemma chain_det a b bs1 : chain a b bs1 -> forall bs2, chain a b bs2 -> bs1 = bs2.
Proof.
  induction 1 as [|b nxt bs H0 Hne Hlk _ IH]; intros bs2 H2.
  - inversion H2; [done|]. congruence.
  - inversion H2 as [|b' nxt' bs' _ _ Hlk' Hch']; subst; [done|].
    f_equal. apply IH. congruence.
Qed.

(** From any block of a chain, the rest of the chain is the chain. *)
Lemma chain_from_member a b bs y :
  chain a b bs -> y ∈ bs ->
  exists bs', chain a y bs' /\ (length bs' <= length bs)%nat.
Proof.
  induction 1 as [|b nxt bs H0 Hne Hlk Hch IH]; intros Hy.
  - by apply elem_of_nil in Hy.
  - apply elem_of_cons in Hy as [->|Hy].
    + exists (b :: bs). split; [by econstructor|done].
    + destruct (IH Hy) as (bs' & Hc & Hl). exists bs'. split; [done|]. simpl. lia.
Qed.

Lemma chain_NoDup a b bs : chain a b bs -> NoDup bs.
Proof.
  induction 1 as [|b nxt bs H0 Hne Hlk Hch IH]; [constructor|].
  constructor; [|done]. intros Hin.
  destruct (chain_from_member _ _ _ _ Hch Hin) as (bs' & Hc & Hl).
  assert (Heq : bs' = b :: bs) by (eapply chain_det; [exact Hc|by econstructor]).
  subst bs'. simpl in Hl. lia.
Qed.

Lemma chain_in_bounds a b bs y :
  chain a b bs -> y ∈ bs -> 0 <= y < Z.of_nat (length a) /\ y <> FAT_EOF.
Proof.
  induction 1 as [|b nxt bs H0 Hne Hlk Hch IH]; intros Hy.
  - by apply elem_of_nil in Hy.
  - apply elem_of_cons in Hy as [->|Hy]; [|by apply IH].
    apply lookup_lt_Some in Hlk. split; [lia|done].
Qed.

Lemma chain_insert_other a b bs i x :
  chain a b bs -> i ∉ bs -> 0 <= i -> chain (<[Z.to_nat i := x]> a) b bs.
Proof.
  induction 1 as [|b nxt bs H0 Hne Hlk Hch IH]; intros Hi Hi0; [constructor|].
  apply not_elem_of_cons in Hi as [Hib Hi].
  econstructor; [done|done| |by apply IH].
  rewrite list_lookup_insert_ne by lia. done.
Qed.

Lemma free_all_length bs : forall a, length (free_all bs a) = length a.
Proof.
  induction bs as [|b bs IH]; intros a; [done|].
  unfold free_all in *. simpl. rewrite IH. apply length_insert.
Qed.

Lemma free_all_other bs : forall a j,
  0 <= j -> j ∉ bs -> Forall (fun b => 0 <= b) bs ->
  free_all bs a !! Z.to_nat j = a !! Z.to_nat j.
Proof.
  induction bs as [|b bs IH]; intros a j Hj Hn Hpos; [done|].
  apply not_elem_of_cons in Hn as [Hjb Hn].
  inversion Hpos; subst.
  unfold free_all in *. simpl. rewrite IH by done.
  apply list_lookup_insert_ne. lia.
Qed.

Lemma free_all_member bs : forall a b,
  b ∈ bs -> Forall (fun b => 0 <= b < Z.of_nat (length a)) bs ->
  free_all bs a !! Z.to_nat b = Some FAT_FREE.
Proof.
  induction bs as [|c bs IH]; intros a b Hb Hin; [by apply elem_of_nil in Hb|].
  inversion Hin as [|? ? Hc Hin']; subst.
  unfold free_all in *. simpl.
  destruct (decide (b ∈ bs)) as [Hbs|Hbs].
  - apply IH; [done|]. rewrite length_insert. done.
  - apply elem_of_cons in Hb as [->|Hb]; [|done].
    fold (free_all bs (<[Z.to_nat c := FAT_FREE]> a)).
    rewrite free_all_other; [|lia|done|].
    + apply list_lookup_insert_eq. lia.
    + eapply Forall_impl; [exact Hin'|]. simpl. lia.
Qed.

Lemma chain_bounds_Forall a b bs :
  chain a b bs -> Forall (fun y => 0 <= y < Z.of_nat (length a)) bs.
Proof.
  intros Hch. apply Forall_forall. intros y Hy.
  by destruct (chain_in_bounds _ _ _ _ Hch Hy).
Qed.

(** [free_chain] frees exactly the blocks of the chain. *)
Lemma free_chain_ok bs : forall a b fuel,
  chain a b bs -> (length bs <= fuel)%nat ->
  free_chain fuel a b = Ret (free_all bs a).
Proof.
  induction bs as [|c bs IH]; intros a b fuel Hch Hfuel.
  - inversion Hch; subst. by destruct fuel.
  - pose proof (chain_NoDup _ _ _ Hch) as Hnd.
    inversion Hch as [|b' nxt bs' H0 Hne Hlk Hch']; subst.
    destruct fuel as [|fuel]; [simpl in Hfuel; lia|].
    cbn [free_chain]. destruct (c =? FAT_EOF) eqn:E; [lia|].
    pose proof (lookup_lt_Some _ _ _ Hlk) as Hlt.
    rewrite (aget_lookup _ _ _ H0 Hlk), aset_ok by lia.
    destruct (nxt =? FAT_EOF) eqn:E'.
    + assert (nxt = FAT_EOF) by lia. subst nxt.
      inversion Hch'; subst; [done|congruence].
    + apply NoDup_cons in Hnd as [Hc Hnd].
      rewrite (IH _ nxt fuel); [done| |simpl in Hfuel; lia].
      by apply chain_insert_other.
Qed.

End FSChain.

(** ** The filesystem service: delete *)

Module FSDelete.
Import Mach FS FSInv MachFacts FSDisk FSFat FSFatStore FSDir FSEntry FSCreate
       FSChain.
#[local] Abbreviation length := List.length (only parsing).

Lemma set_v_id w : set_v w (v (fat (G w))) = w.
Proof. by destruct w as [? ? [? [] ?]]. Qed.

Lemma only_named_first w nm slot : only_named w nm slot -> first_named w nm slot.
Proof.
  intros (Hr & Hn & Hu). split; [done|]. split; [done|].
  intros i Hi. apply Hu; lia.
Qed.

Lemma find_first_named w nm slot :
  conn_ok w -> layout_ok w -> first_named w nm slot ->
  exists hd,
    dir_find_by_name nm w
    = Ret (Found slot (entry_at (img w) (L (G w)) slot), at_disk w (img w) hd).
Proof.
  intros Hc Hl (Hr & Hn & Hfirst).
  destruct (dir_find_by_name_scan nm w Hc Hl) as (hd & Hfind).
  exists hd. rewrite Hfind. f_equal. f_equal.
  apply scan_name_first; [lia|done|]. intros j Hj. apply Hfirst. lia.
Qed.

Lemma find_none w nm :
  conn_ok w -> layout_ok w ->
  (forall j, 0 <= j < dir_entries (L (G w)) ->
             ~ names (entry_at (img w) (L (G w)) j) nm) ->
  exists hd, dir_find_by_name nm w = Ret (NotFound, at_disk w (img w) hd).
Proof.
  intros Hc Hl Hnone.
  destruct (dir_find_by_name_scan nm w Hc Hl) as (hd & Hfind).
  exists hd. rewrite Hfind. f_equal. f_equal.
  apply scan_name_none. intros j Hj. apply Hnone. lia.
Qed.

(** The freeing step of [cmd_delete]. *)
Lemma delete_free_step fuel w e bs :
  chain (v (fat (G w))) (first e) bs -> (length bs <= fuel)%nat ->
  (if negb (first e =? FAT_EOF)
   then w0 ← get;
        a ← lift (free_chain fuel (v (fat (G w0))) (first e));
        modify (fun w => set_v w a)
   else mret tt) w
  = Ret (tt, set_v w (free_all bs (v (fat (G w))))).
Proof.
  intros Hch Hfuel. destruct (first e =? FAT_EOF) eqn:E; cbn [negb].
  - assert (first e = FAT_EOF) as Heq by lia. rewrite Heq in Hch.
    inversion Hch; subst; [|done]. unfold free_all. simpl.
    by rewrite set_v_id.
  - rewrite bind_get.
    rewrite (bind_lift _ _ _ _ (free_chain_ok _ _ _ _ Hch Hfuel)).
    reflexivity.
Qed.

Lemma blank_pack : dirent_pack blank = zeros 64.
Proof. reflexivity. Qed.

(** C7.  On a formatted filesystem where [nm] names the used entry of
    slot [slot] and no other, with the chain [bs] hanging from that entry,
    [D nm] is answered "0\n".  Afterwards the FAT has FREE in every block
    of the chain and is unchanged elsewhere, in the cache and on the disk:
    the FAT sectors hold FREE for the blocks of the chain and, for every
    other block, the entry that the handler's FAT had.  The 64 bytes of
    the slot on disk are zero, and [R nm] is answered "1 0 \n".  (An entry
    is on the disk when the FAT sectors reach it, [j < 32 * fat_sectors],
    which holds of every block in a layout made by [F].) *)
Theorem delete_removes w nm slot bs fuel uninit :
  fs_ok w -> only_named w nm slot ->
  chain (fat_of w) (first (entry_at (img w) (L (G w)) slot)) bs ->
  (length bs <= fuel)%nat ->
  exists w',
    cmd_delete fuel nm w = Ret (r0, w') /\
    v (fat (G w')) = free_all bs (fat_of w) /\
    (forall b, b ∈ bs -> v (fat (G w')) !! Z.to_nat b = Some FAT_FREE) /\
    (forall j, 0 <= j -> j ∉ bs ->
               v (fat (G w')) !! Z.to_nat j = fat_of w !! Z.to_nat j) /\
    (forall b, b ∈ bs -> b < 32 * fat_sectors (L (G w)) ->
               fat_entry_on_disk (img w') (L (G w')) b = FAT_FREE) /\
    (forall j, 0 <= j < total_blocks (L (G w)) ->
               j < 32 * fat_sectors (L (G w)) -> j ∉ bs ->
               fat_entry_on_disk (img w') (L (G w')) j
               = default 0 (fat_of w !! Z.to_nat j) mod 2 ^ 32) /\
    take 64 (drop (Z.to_nat (slot mod 2 * 64))
               (sector (img w') (dir_start (L (G w)) + slot / 2)))
    = zeros 64 /\
    exists w'', cmd_read fuel uninit nm w' = Ret (r1_0, w'').
Proof.
  intros Hok Hname Hch Hfuel.
  pose proof Hok as [Hc Hl Hca Hf].
  pose proof Hname as (Hslot & Hnames & Huniq).
  destruct (geometry_facts w Hc) as (_ & _ & _ & Hgl & _).
  destruct (dir_sector_range w Hl slot Hslot) as (Hsec & Hsec' & _).
  set (l := L (G w)) in *. set (m := img w) in *. set (a := fat_of w) in *.
  set (e := entry_at m l slot) in *.
  (* load *)
  destruct (fat_load_ok w Hc (layout_fat_region w Hl) Hca) as (hd1 & Hload & Hlen). fold a m in Hload, Hlen.
  set (w1 := upd w m hd1 a).
  assert (Hc1 : conn_ok w1) by (by apply conn_ok_upd).
  assert (Hl1 : layout_ok w1) by (by apply layout_ok_upd).
  (* find *)
  destruct (find_first_named w1 nm slot Hc1 Hl1) as (hd2 & Hfind).
  { by apply only_named_first. }
  change (entry_at (img w1) (L (G w1)) slot) with e in Hfind.
  change (at_disk w1 (img w1) hd2) with (upd w m hd2 a) in Hfind.
  (* free *)
  set (a' := free_all bs a).
  assert (Hlen' : Z.of_nat (length a') = total_blocks l).
  { unfold a'. by rewrite free_all_length. }
  pose proof (delete_free_step fuel (upd w m hd2 a) e bs Hch Hfuel) as Hfree.
  change (set_v (upd w m hd2 a) (free_all bs (v (fat (G (upd w m hd2 a))))))
    with (upd w m hd2 a') in Hfree.
  (* flush *)
  destruct (fat_flush_stores (upd w m hd2 a'))
    as (m' & hd3 & Hflush & Hsame & Hdisk);
    [by apply conn_ok_upd|by apply layout_fat_region, layout_ok_upd|done|done|].
  change (at_disk (upd w m hd2 a') m' hd3) with (upd w m' hd3 a') in Hflush.
  change (L (G (upd w m hd2 a'))) with l in Hsame, Hdisk.
  change (v (fat (G (upd w m hd2 a')))) with a' in Hdisk.
  change (img (upd w m hd2 a')) with m in Hsame.
  pose proof Hsame as [Hlm' Hsec_same].
  (* clear the slot *)
  assert (Hc4 : conn_ok (upd w m' hd3 a')) by (by apply conn_ok_upd).
  assert (Hl4 : layout_ok (upd w m' hd3 a')) by (by apply layout_ok_upd).
  pose proof (dir_write_entry_ok (upd w m' hd3 a') Hc4 Hl4 slot blank Hslot eq_refl)
    as Hwrite.
  set (m'' := put_entry m' l slot blank).
  set (hd4 := (dir_start l + slot / 2) / Disk.g_sec (dsk w)).
  change (dir_write_entry slot blank (upd w m' hd3 a')
          = Ret (0, upd w m'' hd4 a')) in Hwrite.
  assert (Hin' : (dir_start l + slot / 2) * 128 + 128 <= Z.of_nat (length m')).
  { rewrite Hlm'. fold m in Hgl. lia. }
  assert (Hds : 0 <= dir_start l) by (destruct Hl; unfold l in *; lia).
  assert (Hlm'' : length m'' = length m).
  { unfold m''. rewrite put_entry_length; [done|lia|done|done|done]. }
  assert (Hfatsec : forall j, 0 <= j < 32 * fat_sectors l ->
            fat_entry_on_disk m'' l j = fat_entry_on_disk m' l j).
  { intros j Hj. apply fat_entry_on_disk_same. unfold m'', put_entry.
    assert (Hq : 0 <= slot / 2) by (apply Z.div_pos; lia).
    assert (Hjq : 0 <= j / 32 < fat_sectors l).
    { split; [apply Z.div_pos; lia|apply Z.div_lt_upper_bound; lia]. }
    pose proof (lo_fat_start w Hl) as Hfs1.
    pose proof (lo_dir_start w Hl) as Hfs2. fold l in Hfs1, Hfs2.
    rewrite sector_put_other;
      [done|lia|done|apply new_sector_length; (lia || done)|lia|lia]. }
  exists (upd w m'' hd4 a').
  split; [|split; [done|split; [|split; [|split; [|split; [|split]]]]]].
  - unfold cmd_delete. rewrite bind_get, Hf. cbn [negb].
    rewrite (bind_ok _ _ _ _ _ Hload). change (0 <? 0) with false. cbv iota.
    rewrite (bind_ok _ _ _ _ _ Hfind).
    rewrite (bind_ok _ _ _ _ _ Hfree).
    rewrite (bind_ok _ _ _ _ _ Hflush). change (0 <? 0) with false. cbv iota.
    rewrite (bind_ok _ _ _ _ _ Hwrite). reflexivity.
  - intros b Hb. apply free_all_member; [done|].
    by eapply FSChain.chain_bounds_Forall.
  - intros j Hj Hnb. apply free_all_other; [done|done|].
    eapply Forall_impl; [by eapply FSChain.chain_bounds_Forall|]. simpl. lia.
  - intros b Hb Hfit.
    change (img (upd w m'' hd4 a')) with m''.
    change (L (G (upd w m'' hd4 a'))) with l.
    destruct (chain_in_bounds _ _ _ _ Hch Hb) as [Hb0 _].
    assert (Hb1 : 0 <= b < total_blocks l) by (unfold l, a in *; lia).
    rewrite Hfatsec, Hdisk by lia. unfold a'.
    rewrite free_all_member; [done|done|by eapply FSChain.chain_bounds_Forall].
  - intros j Hj Hfit Hnb.
    change (img (upd w m'' hd4 a')) with m''.
    change (L (G (upd w m'' hd4 a'))) with l.
    rewrite Hfatsec, Hdisk by lia. unfold a'.
    rewrite free_all_other; [done|lia|done|].
    eapply Forall_impl; [by eapply FSChain.chain_bounds_Forall|]. simpl. lia.
  - change (img (upd w m'' hd4 a')) with m''. unfold m'', put_entry.
    assert (Hm2 : 0 <= slot mod 2 < 2) by (apply Z.mod_pos_bound; lia).
    rewrite sector_put_same;
      [|lia|done|apply new_sector_length; (lia || done)].
    rewrite <- blank_pack.
    change 64%nat with (length (dirent_pack blank)) at 1.
    apply splice_read. rewrite sector_length by lia. lia.
  - (* read *)
    set (w5 := upd w m'' hd4 a').
    assert (Hc5 : conn_ok w5) by (by apply conn_ok_upd).
    assert (Hl5 : layout_ok w5) by (by apply layout_ok_upd).
    destruct (find_none w5 nm Hc5 Hl5) as (hd5 & Hnot).
    { intros j Hj. change (img w5) with m''. change (L (G w5)) with l.
      destruct (decide (j = slot)) as [->|Hne].
      - destruct (entry_at_put_same m' l slot blank) as [r Hr];
          [lia|done|done|done|].
        fold m'' in Hr. rewrite Hr, dirent_unpack_pack by (simpl; lia).
        intros [Hu _]. by apply Hu.
      - unfold m''. rewrite entry_at_put_other by (lia || done).
        destruct (dir_sector_range w Hl j Hj) as (Hjr & _ & _). fold l in Hjr.
        rewrite (entry_at_same m m' l _ _ j Hsame); [by apply Huniq|lia|].
        destruct Hl. unfold l in *.
        assert (0 <= j / 2) by (apply Z.div_pos; lia). lia. }
    eexists. unfold cmd_read. rewrite bind_get.
    change (formatted (G w5)) with (formatted (G w)). rewrite Hf. cbn [negb].
    assert (Hload5 : fat_load w5 = Ret (0, w5)) by reflexivity.
    rewrite (bind_ok _ _ _ _ _ Hload5). change (0 <? 0) with false. cbv iota.
    rewrite (bind_ok _ _ _ _ _ Hnot). reflexivity.
Qed.

(** A way to establish [only_named] by running the scans. *)
Lemma only_named_scan w nm slot e :
  0 <= dir_entries (L (G w)) ->
  scan_name (img w) (L (G w)) nm (Z.to_nat (dir_entries (L (G w)))) 0
    = Found slot e ->
  scan_name (img w) (L (G w)) nm
    (Z.to_nat (dir_entries (L (G w)) - slot - 1)) (slot + 1) = NotFound ->
  only_named w nm slot.
Proof.
  intros He Hfound Hrest.
  destruct (scan_name_found _ _ _ _ _ _ _ Hfound) as (Hr & -> & Hn & Hfirst).
  split; [lia|]. split; [done|]. intros j Hj Hne.
  destruct (decide (j < slot)) as [Hlt|Hge].
  - apply Hfirst. lia.
  - apply (scan_name_not_found _ _ _ _ _ Hrest). lia.
Qed.

End FSDelete.

(** ** The filesystem service: format *)

Module FSFormat.
Import Mach FS FSInv MachFacts FSDisk FSFat FSBasics.
#[local] Abbreviation length := List.length (only parsing).

Lemma super_pack_length d l : length (super_pack d l) = 128%nat.
Proof.
  unfold super_pack. rewrite !length_app, !le_enc_length, !zeros_length.
  reflexivity.
Qed.

Lemma write_run_ok z start n : forall s w,
  conn_ok w -> length z = 128%nat ->
  0 <= start + s -> start + s + Z.of_nat n <= nblocks w ->
  start + s + Z.of_nat n <= 2 ^ 32 ->
  exists m' hd,
    write_run n start s z w = Ret (0, at_disk w m' hd) /\
    length m' = length (img w).
Proof.
  induction n as [|n IH]; intros s w Hc Hz H0 Hn H32.
  - exists (img w), (Disk.g_head_cyl (dsk w)). simpl. by rewrite at_disk_id.
  - cbn [write_run].
    assert (Hu : u32 (start + s) = start + s) by (apply Z.mod_small; lia).
    rewrite Hu.
    rewrite (bind_ok _ _ _ _ _ (disk_write_idx_ok w Hc (start + s) z ltac:(lia) Hz)).
    change (0 <? 0) with false. cbv iota.
    destruct (geometry_facts w Hc) as (_ & _ & _ & Hgl & _).
    assert (Hm1 : length (put_sector (img w) (start + s) z) = length (img w)).
    { apply put_sector_length; lia. }
    destruct (IH (s + 1) (at_disk w (put_sector (img w) (start + s) z)
                            ((start + s) / Disk.g_sec (dsk w))))
      as (m' & hd & Hrun & Hlen).
    + by apply conn_ok_at_disk.
    + done.
    + lia.
    + change (nblocks (at_disk w ?m ?h)) with (nblocks w). lia.
    + lia.
    + exists m', hd. split; [exact Hrun|].
      change (img (at_disk w ?m ?h)) with m in Hlen. congruence.
Qed.

(** What a run of writes leaves on the disk. *)
Lemma write_run_spec z start n : forall s w,
  conn_ok w -> length z = 128%nat ->
  0 <= start + s -> start + s + Z.of_nat n <= nblocks w ->
  start + s + Z.of_nat n <= 2 ^ 32 ->
  exists m' hd,
    write_run n start s z w = Ret (0, at_disk w m' hd) /\
    length m' = length (img w) /\
    (forall k, start + s <= k < start + s + Z.of_nat n -> sector m' k = z) /\
    (forall j, 0 <= j -> ~ start + s <= j < start + s + Z.of_nat n ->
               sector m' j = sector (img w) j).
Proof.
  induction n as [|n IH]; intros s w Hc Hz H0 Hn H32.
  - exists (img w), (Disk.g_head_cyl (dsk w)). cbn [write_run].
    rewrite at_disk_id. split; [done|]. split; [done|]. split; [|done].
    intros k Hk. lia.
  - cbn [write_run].
    assert (Hu : u32 (start + s) = start + s) by (apply Z.mod_small; lia).
    rewrite Hu.
    rewrite (bind_ok _ _ _ _ _ (disk_write_idx_ok w Hc (start + s) z ltac:(lia) Hz)).
    change (0 <? 0) with false. cbv iota.
    destruct (geometry_facts w Hc) as (_ & _ & _ & Hgl & _).
    set (m1 := put_sector (img w) (start + s) z).
    assert (Hm1 : length m1 = length (img w)) by (apply put_sector_length; lia).
    destruct (IH (s + 1) (at_disk w m1 ((start + s) / Disk.g_sec (dsk w))))
      as (m' & hd & Hrun & Hlen & Hin & Hout).
    { by apply conn_ok_at_disk. }
    { done. }
    { lia. }
    { change (nblocks (at_disk w ?m ?h)) with (nblocks w). lia. }
    { lia. }
    change (img (at_disk w m1 _)) with m1 in Hlen, Hout.
    exists m', hd. split; [exact Hrun|]. split; [congruence|]. split.
    + intros k Hk. destruct (decide (k = start + s)) as [->|Hne].
      * rewrite Hout by lia. unfold m1. apply sector_put_same; lia.
      * apply Hin. lia.
    + intros j Hj Hnot. rewrite Hout by lia. unfold m1.
      apply sector_put_other; lia.
Qed.

(** A run of writes that goes past the end of the disk stops with -1 at
    the first sector that is not on the disk. *)
Lemma write_run_overrun z start n : forall s w,
  conn_ok w -> length z = 128%nat ->
  0 <= start + s <= nblocks w -> nblocks w < start + s + Z.of_nat n ->
  start + s + Z.of_nat n <= 2 ^ 32 ->
  exists w',
    write_run n start s z w = Ret (-1, w') /\ G w' = G w /\
    DiskInv.geometry_ok (dsk w') /\
    Disk.g_sec (dsk w') = Disk.g_sec (dsk w) /\
    (forall j, 0 <= j < start + s -> sector (img w') j = sector (img w) j).
Proof.
  induction n as [|n IH]; intros s w Hc Hz H0 Hn H32; [lia|].
  cbn [write_run].
  assert (Hu : u32 (start + s) = start + s) by (apply Z.mod_small; lia).
  rewrite Hu.
  destruct (decide (start + s < nblocks w)) as [Hin|Hout].
  - rewrite (bind_ok _ _ _ _ _ (disk_write_idx_ok w Hc (start + s) z ltac:(lia) Hz)).
    change (0 <? 0) with false. cbv iota.
    destruct (geometry_facts w Hc) as (_ & _ & _ & Hgl & _).
    destruct (IH (s + 1) (at_disk w (put_sector (img w) (start + s) z)
                            ((start + s) / Disk.g_sec (dsk w))))
      as (w' & Hrun & HG & Hgeo & Hsec & Hlow).
    + apply conn_ok_at_disk; [done|]. apply put_sector_length; lia.
    + done.
    + change (nblocks (at_disk w ?m ?h)) with (nblocks w). lia.
    + change (nblocks (at_disk w ?m ?h)) with (nblocks w). lia.
    + lia.
    + exists w'. split; [done|]. split; [done|]. split; [done|].
      split; [done|]. intros j Hj. rewrite Hlow by lia.
      change (img (at_disk w ?m ?h)) with m.
      apply sector_put_other; lia.
  - rewrite (bind_ok _ _ _ _ _ (disk_write_idx_bad w Hc (start + s) z ltac:(lia) Hz)).
    change (-1 <? 0) with true. cbv iota.
    eexists. split; [reflexivity|]. split; [done|].
    split; [exact (ok_geometry w Hc)|]. done.
Qed.

Lemma reserve_loop_ok meta_end n : forall i a,
  0 <= i -> i + Z.of_nat n <= Z.of_nat (length a) ->
  exists a', reserve_loop n i meta_end a = Ret a' /\ length a' = length a.
Proof.
  induction n as [|n IH]; intros i a Hi Hn; cbn [reserve_loop]; [eauto|].
  destruct (i <=? meta_end); [|eauto].
  rewrite aset_ok by lia.
  destruct (IH (i + 1) (<[Z.to_nat i := FAT_RESERVED]> a)) as (a' & Hr & Hl).
  - lia.
  - rewrite length_insert. lia.
  - exists a'. split; [done|]. by rewrite Hl, length_insert.
Qed.

(** When the disk is smaller than the metadata, the layout is computed
    without wrapping and the disk has at most 34 blocks. *)
Lemma small_disk_layout w :
  conn_ok w ->
  nblocks w < dir_start (compute_layout (conn w))
              + dir_sectors (compute_layout (conn w)) ->
  compute_layout (conn w)
  = mkLayout (nblocks w) 1 ((4 * nblocks w + 127) / 128)
             (1 + (4 * nblocks w + 127) / 128) 32 64 /\
  1 <= nblocks w <= 34.
Proof.
  intros Hc Hsmall.
  destruct (geometry_facts w Hc) as (HC & HS & _).
  assert (HN : 0 < nblocks w) by (unfold nblocks; nia).
  assert (Hb : nblocks w < 2 ^ 25 + 33).
  { revert Hsmall. unfold compute_layout, u32, BLKSZ.
    cbn [dir_start dir_sectors].
    set (fb := (disk_total_blocks (conn w) * 4) mod 2 ^ 32).
    pose proof (Z.mod_pos_bound (fb + 128 - 1) (2 ^ 32) ltac:(lia)) as H1.
    assert (H2 : 0 <= (fb + 128 - 1) mod 2 ^ 32 / 128 < 2 ^ 25).
    { split; [apply Z.div_pos; lia|]. apply Z.div_lt_upper_bound; lia. }
    rewrite (Z.mod_small (1 + _)) by lia. lia. }
  assert (Hex : compute_layout (conn w)
                = mkLayout (nblocks w) 1 ((4 * nblocks w + 127) / 128)
                    (1 + (4 * nblocks w + 127) / 128) 32 64).
  { destruct (conn w) as [c s p] eqn:Econn.
    pose proof (ok_cyl _ Hc) as Hcy. pose proof (ok_sec _ Hc) as Hse.
    rewrite Econn in Hcy, Hse. simpl in Hcy, Hse. subst c s.
    apply compute_layout_exact; [done|done|]. fold (nblocks w). lia. }
  split; [done|]. rewrite Hex in Hsmall. cbn [dir_start dir_sectors] in Hsmall.
  pose proof (Z.div_mod (4 * nblocks w + 127) 128 ltac:(lia)) as Hd.
  pose proof (Z.mod_pos_bound (4 * nblocks w + 127) 128 ltac:(lia)) as Hm.
  lia.
Qed.

(** [F] on a disk with fewer blocks than the metadata needs: the
    superblock is written before the write that the disk refuses. *)
Lemma format_small_run w :
  conn_ok w ->
  nblocks w < dir_start (compute_layout (conn w))
              + dir_sectors (compute_layout (conn w)) ->
  exists w',
    cmd_format w = Ret (r2, w') /\ formatted (G w') = formatted (G w) /\
    DiskInv.geometry_ok (dsk w') /\
    Disk.g_sec (dsk w') = Disk.g_sec (dsk w) /\
    sector (img w') 0 = super_pack (conn w) (compute_layout (conn w)).
Proof.
  intros Hc Hsmall.
  destruct (small_disk_layout w Hc Hsmall) as (Hlay & HN).
  rewrite Hlay in Hsmall. cbn [dir_start dir_sectors] in Hsmall.
  set (N := nblocks w) in *. set (fs := (4 * N + 127) / 128) in *.
  set (l := mkLayout N 1 fs (1 + fs) 32 64) in *.
  assert (Hfs : 1 <= fs <= 2).
  { unfold fs. split.
    - apply Z.div_le_lower_bound; lia.
    - assert ((4 * N + 127) / 128 < 3); [|lia].
      apply Z.div_lt_upper_bound; lia. }
  destruct (geometry_facts w Hc) as (_ & _ & _ & Hgl & _). fold N in Hgl.
  (* the world once the layout is recomputed and the cache reset *)
  set (wA := mkWorld (dsk w) (conn w) (mkG l fat_init (formatted (G w)))).
  assert (HcA : conn_ok wA) by (destruct Hc; by split).
  assert (Hfail : exists w', format_fs wA = Ret (-1, w') /\
                             formatted (G w') = formatted (G w) /\
                             DiskInv.geometry_ok (dsk w') /\
                             Disk.g_sec (dsk w') = Disk.g_sec (dsk w) /\
                             sector (img w') 0 = super_pack (conn w) l).
  { unfold format_fs. rewrite bind_get. change (conn wA) with (conn w).
    rewrite Hlay. fold l. rewrite bind_modify.
    change (set_L wA l) with wA.
    rewrite (bind_ok _ _ _ _ _
               (disk_write_idx_ok wA HcA super_sector _
                  ltac:(unfold super_sector; change (nblocks wA) with N; lia)
                  (super_pack_length _ _))).
    change (0 <? 0) with false. cbv iota.
    set (w2 := at_disk wA _ _).
    assert (Hs2 : sector (img w2) 0 = super_pack (conn w) l).
    { change (img w2) with (put_sector (img w) super_sector
                              (super_pack (conn wA) l)).
      change (conn wA) with (conn w). unfold super_sector.
      apply sector_put_same; [lia|lia|apply super_pack_length]. }
    assert (Hc2 : conn_ok w2).
    { apply conn_ok_at_disk; [done|]. apply put_sector_length.
      - done.
      - change (img wA) with (img w). unfold super_sector. lia.
      - apply super_pack_length. }
    change (fat_sectors l) with fs. change (fat_start l) with 1.
    change (dir_sectors l) with 32. change (dir_start l) with (1 + fs).
    change (total_blocks l) with N.
    destruct (decide (1 + fs <= N)) as [Hfat|Hfat].
    - (* the FAT fits, the directory does not *)
      destruct (write_run_spec (zeros 128) 1 (Z.to_nat fs) 0 w2 Hc2)
        as (m3 & hd3 & Hrun & Hlen3 & _ & Hlow3); [done|lia| | |].
      { change (nblocks w2) with N. lia. }
      { lia. }
      rewrite (bind_ok _ _ _ _ _ Hrun). change (0 <? 0) with false. cbv iota.
      set (w3 := at_disk w2 m3 hd3).
      assert (Hc3 : conn_ok w3) by (by apply conn_ok_at_disk).
      assert (Hr3 : fat_region_ok w3).
      { split; simpl; change (nblocks w3) with N; lia. }
      destruct (fat_load_ok w3 Hc3 Hr3) as (hd4 & Hload & Hlen4); [done|].
      rewrite (bind_ok _ _ _ _ _ Hload). change (0 <? 0) with false. cbv iota.
      rewrite bind_get.
      change (v (fat (G (upd w3 (img w3) hd4 (fat_of w3))))) with (fat_of w3).
      change (total_blocks (L (G w3))) with N in Hlen4.
      destruct (reserve_loop_ok (u32 (1 + fs + 32 - 1)) (Z.to_nat N) 0 (fat_of w3))
        as (a' & Hres & Hlen'); [lia|lia|].
      rewrite (bind_lift _ _ _ _ Hres), bind_modify.
      change (set_v (upd w3 (img w3) hd4 (fat_of w3)) a')
        with (upd w3 (img w3) hd4 a').
      destruct (fat_flush_ok (upd w3 (img w3) hd4 a')) as (m5 & hd5 & Hflush & Hsame).
      { by apply conn_ok_upd. }
      { split; simpl; change (nblocks (upd w3 ?m ?h ?a)) with N; lia. }
      { done. }
      { change (total_blocks (L (G (upd w3 (img w3) hd4 a')))) with N.
        cbn [v fat G upd]. lia. }
      rewrite (bind_ok _ _ _ _ _ Hflush). change (0 <? 0) with false. cbv iota.
      destruct Hsame as [Hlen5 Hlow5].
      destruct (write_run_overrun (zeros 128) (1 + fs) 32 0
                  (at_disk (upd w3 (img w3) hd4 a') m5 hd5))
        as (w' & Hover & HG & Hgeo & Hsec & Hlow).
      { apply conn_ok_at_disk; [by apply conn_ok_upd|done]. }
      { done. }
      { change (nblocks (at_disk ?w ?m ?h)) with N. lia. }
      { change (nblocks (at_disk ?w ?m ?h)) with N. lia. }
      { lia. }
      change (Z.to_nat 32) with 32%nat.
      rewrite (bind_ok _ _ _ _ _ Hover). change (-1 <? 0) with true. cbv iota.
      exists w'. split; [reflexivity|]. split; [by rewrite HG|].
      split; [exact Hgeo|]. split; [exact Hsec|].
      rewrite Hlow by lia. change (img (at_disk ?w0 ?m ?h)) with m.
      rewrite Hlow5 by (change (fat_start (L (G (upd w3 (img w3) hd4 a'))))
                          with 1; lia).
      change (img (upd w3 (img w3) hd4 a')) with m3.
      rewrite Hlow3 by lia. exact Hs2.
    - (* the FAT does not fit *)
      destruct (write_run_overrun (zeros 128) 1 (Z.to_nat fs) 0 w2 Hc2)
        as (w' & Hover & HG & Hgeo & Hsec & Hlow); [done| | |lia|].
      { change (nblocks w2) with N. lia. }
      { change (nblocks w2) with N. lia. }
      rewrite (bind_ok _ _ _ _ _ Hover). change (-1 <? 0) with true. cbv iota.
      exists w'. split; [reflexivity|]. split; [by rewrite HG|].
      split; [exact Hgeo|]. split; [exact Hsec|].
      rewrite Hlow by lia. exact Hs2. }
  destruct Hfail as (w' & Hfmt & Hflag & Hgeo & Hsec & Hs0).
  exists w'. split; [|by rewrite Hlay].
  unfold cmd_format. rewrite bind_get, !bind_modify.
  rewrite Hlay. fold l.
  change (set_fat (set_L w l) fat_init) with wA.
  rewrite (bind_ok _ _ _ _ _ Hfmt). reflexivity.
Qed.

End FSFormat.

(** ** The filesystem service: allocation *)

Module FSAlloc.
Import Mach FS FSInv MachFacts FSDisk FSFat FSChain.
#[local] Abbreviation length := List.length (only parsing).

Lemma nfree_app xs ys : nfree (xs ++ ys) = (nfree xs + nfree ys)%nat.
Proof. unfold nfree. by rewrite filter_app, length_app. Qed.

Lemma nfree_cons x xs :
  nfree (x :: xs) = ((if decide (x = FAT_FREE) then 1 else 0) + nfree xs)%nat.
Proof.
  unfold nfree. rewrite filter_cons. destruct (decide (x = FAT_FREE)); done.
Qed.

Lemma nfree_insert xs i x y :
  xs !! i = Some x ->
  (nfree (<[i := y]> xs) + (if decide (x = FAT_FREE) then 1 else 0)
   = nfree xs + (if decide (y = FAT_FREE) then 1 else 0))%nat.
Proof.
  intros Hx. pose proof (lookup_lt_Some _ _ _ Hx) as Hlt.
  rewrite insert_take_drop by done.
  rewrite <- (take_drop_middle xs i x Hx) at 3.
  rewrite !nfree_app, !nfree_cons. lia.
Qed.

Lemma nfree_none xs :
  (forall i, xs !! i <> Some FAT_FREE) -> nfree xs = 0%nat.
Proof.
  induction xs as [|x xs IH]; intros H; [done|].
  rewrite nfree_cons. rewrite IH by (intros i; apply (H (S i))).
  destruct (decide (x = FAT_FREE)) as [->|]; [|done].
  by destruct (H 0%nat).
Qed.

(** Effect on the count of an update at or above [data_start]. *)
Lemma free_count_insert l a i x y :
  data_start l <= i -> 0 <= data_start l -> a !! Z.to_nat i = Some x ->
  free_count l (<[Z.to_nat i := y]> a) + (if decide (x = FAT_FREE) then 1 else 0)
  = free_count l a + (if decide (y = FAT_FREE) then 1 else 0).
Proof.
  intros Hi H0 Hx. unfold free_count.
  rewrite drop_insert_ge by lia.
  pose proof (nfree_insert (drop (Z.to_nat (data_start l)) a)
                (Z.to_nat i - Z.to_nat (data_start l)) x y) as H.
  rewrite lookup_drop in H.
  replace (Z.to_nat (data_start l) + (Z.to_nat i - Z.to_nat (data_start l)))%nat
    with (Z.to_nat i) in H by lia.
  specialize (H Hx).
  destruct (decide (x = FAT_FREE)), (decide (y = FAT_FREE)); lia.
Qed.

Lemma free_count_insert_below l a i y :
  0 <= i < data_start l -> free_count l (<[Z.to_nat i := y]> a) = free_count l a.
Proof.
  intros Hi. unfold free_count. rewrite drop_insert_lt by lia. done.
Qed.

Lemma free_count_nonneg l a : 0 <= free_count l a.
Proof. unfold free_count. lia. Qed.

(** Freeing blocks never lowers the count. *)
Lemma free_all_count l bs : forall a,
  0 <= data_start l ->
  Forall (fun b => 0 <= b < Z.of_nat (length a)) bs ->
  free_count l a <= free_count l (free_all bs a).
Proof.
  induction bs as [|b bs IH]; intros a H0 Hin; [done|].
  inversion Hin as [|? ? Hb Hin']; subst.
  unfold free_all in *. simpl.
  etrans; [|apply IH; [done|]].
  - destruct (decide (data_start l <= b)) as [Hge|Hlt].
    + destruct (lookup_lt_is_Some_2 a (Z.to_nat b) ltac:(lia)) as [x Hx].
      pose proof (free_count_insert l a b x FAT_FREE Hge H0 Hx) as H.
      rewrite (decide_True (P := FAT_FREE = FAT_FREE)) in H by done.
      destruct (decide (x = FAT_FREE)); lia.
    + rewrite free_count_insert_below by lia. lia.
  - rewrite length_insert. done.
Qed.

(** The scan of [find_free_block]. *)
Lemma find_free_block_loop_spec n : forall i a,
  0 <= i -> i + Z.of_nat n <= Z.of_nat (length a) ->
  (exists b, find_free_block_loop n i a = Ret (Some b) /\
             i <= b < i + Z.of_nat n /\ a !! Z.to_nat b = Some FAT_FREE /\
             forall j, i <= j < b -> a !! Z.to_nat j <> Some FAT_FREE)
  \/
  (find_free_block_loop n i a = Ret None /\
   forall j, i <= j < i + Z.of_nat n -> a !! Z.to_nat j <> Some FAT_FREE).
Proof.
  induction n as [|n IH]; intros i a Hi Hn.
  - right. split; [done|]. intros j Hj. lia.
  - cbn [find_free_block_loop].
    destruct (lookup_lt_is_Some_2 a (Z.to_nat i) ltac:(lia)) as [x Hx].
    rewrite (aget_lookup a i x Hi Hx). cbv iota beta.
    destruct (x =? FAT_FREE) eqn:E.
    + left. exists i. split; [done|]. split; [lia|]. split.
      * rewrite Hx. f_equal. lia.
      * intros j Hj. lia.
    + destruct (IH (i + 1) a ltac:(lia) ltac:(lia))
        as [(b & Hf & Hr & Hb & Hfirst)|(Hf & Hnone)].
      * left. exists b. split; [done|]. split; [lia|]. split; [done|].
        intros j Hj. destruct (decide (j = i)) as [->|Hne].
        -- rewrite Hx. intros [= ->]. unfold FAT_FREE in E. lia.
        -- apply Hfirst. lia.
      * right. split; [done|]. intros j Hj.
        destruct (decide (j = i)) as [->|Hne].
        -- rewrite Hx. intros [= ->]. unfold FAT_FREE in E. lia.
        -- apply Hnone. lia.
Qed.

Lemma free_count_zero l a :
  0 <= data_start l ->
  (forall j, data_start l <= j < Z.of_nat (length a) ->
             a !! Z.to_nat j <> Some FAT_FREE) ->
  free_count l a = 0.
Proof.
  intros H0 Hnone. unfold free_count. rewrite nfree_none; [done|].
  intros i. rewrite lookup_drop. intros Hi.
  pose proof (lookup_lt_Some _ _ _ Hi) as Hlt.
  apply (Hnone (data_start l + Z.of_nat i)); [lia|].
  rewrite <- Hi. f_equal. lia.
Qed.

Lemma nfree_replicate k : nfree (replicate k FAT_FREE) = k.
Proof.
  unfold nfree. induction k as [|k IH]; [done|].
  cbn [replicate]. rewrite filter_cons_True by done. simpl. by rewrite IH.
Qed.

Section Alloc.
Context (w : world) (m : list byte) (hd : Z).

Let l := L (G w).
Let dstart := data_start l.
Let total := total_blocks l.

Context (Hstart : 1 <= dstart <= total) (Htotal : total < 2 ^ 32).

Lemma fat_set_ok a i x :
  0 <= i < Z.of_nat (length a) ->
  fat_set i x (upd w m hd a) = Ret (tt, upd w m hd (<[Z.to_nat i := x]> a)).
Proof.
  intros Hi. unfold fat_set. rewrite bind_get.
  change (v (fat (G (upd w m hd a)))) with a.
  rewrite (bind_lift _ _ _ _ (aset_ok a i x Hi)). reflexivity.
Qed.

Lemma fat_get_ok a i x :
  0 <= i -> a !! Z.to_nat i = Some x ->
  fat_get i (upd w m hd a) = Ret (x, upd w m hd a).
Proof.
  intros Hi Hx. unfold fat_get. rewrite bind_get.
  change (v (fat (G (upd w m hd a)))) with a.
  by rewrite (aget_lookup a i x Hi Hx).
Qed.

Lemma find_free_block_spec a :
  Z.of_nat (length a) = total ->
  (exists b, find_free_block l a dstart = Ret (Some b) /\
             dstart <= b < total /\ a !! Z.to_nat b = Some FAT_FREE /\
             forall j, dstart <= j < b -> a !! Z.to_nat j <> Some FAT_FREE)
  \/
  (find_free_block l a dstart = Ret None /\ free_count l a = 0).
Proof.
  intros Hlen. unfold find_free_block. fold total.
  destruct (find_free_block_loop_spec (Z.to_nat (total - dstart)) dstart a)
    as [(b & Hf & Hr & Hb & Hfirst)|(Hf & Hnone)]; [lia|lia| |].
  - left. exists b. split; [done|]. split; [lia|]. done.
  - right. split; [done|]. apply free_count_zero; [fold dstart; lia|].
    intros j Hj. apply Hnone. fold dstart in Hj. lia.
Qed.

Lemma alloc_loop_step n a head prev b :
  Z.of_nat (length a) = total ->
  prev = FAT_EOF \/ 0 <= prev < total ->
  find_free_block l a dstart = Ret (Some b) -> dstart <= b < total ->
  alloc_loop (S n) l dstart head prev (upd w m hd a)
  = alloc_loop n l dstart (if prev =? FAT_EOF then b else head) b
      (upd w m hd (link a prev b)).
Proof.
  intros Hlen Hprev Hfind Hb. cbn [alloc_loop]. rewrite bind_get.
  change (v (fat (G (upd w m hd a)))) with a.
  rewrite (bind_lift _ _ _ _ Hfind).
  rewrite (bind_ok _ _ _ _ _ (fat_set_ok a b FAT_EOF ltac:(lia))).
  unfold link. destruct (prev =? FAT_EOF) eqn:E.
  - reflexivity.
  - assert (Hp : 0 <= prev < Z.of_nat (length (<[Z.to_nat b := FAT_EOF]> a))).
    { rewrite length_insert. unfold FAT_EOF in *. lia. }
    rewrite (bind_ok _ _ _ _ _ (fat_set_ok _ prev b Hp)).
    reflexivity.
Qed.

Lemma link_length a prev b : length (link a prev b) = length a.
Proof. unfold link. destruct (_ =? _); by rewrite ?length_insert. Qed.

Lemma link_count a prev b :
  Z.of_nat (length a) = total ->
  dstart <= b < total -> a !! Z.to_nat b = Some FAT_FREE ->
  prev = FAT_EOF \/ (dstart <= prev < total /\ a !! Z.to_nat prev <> Some FAT_FREE) ->
  free_count l (link a prev b) = free_count l a - 1.
Proof.
  intros Hlen Hb Hfree Hprev.
  assert (H1 : free_count l (<[Z.to_nat b := FAT_EOF]> a) = free_count l a - 1).
  { pose proof (free_count_insert l a b FAT_FREE FAT_EOF) as H.
    fold dstart in H. specialize (H ltac:(lia) ltac:(lia) Hfree).
    rewrite decide_True in H by done. rewrite decide_False in H by done. lia. }
  unfold link. destruct (prev =? FAT_EOF) eqn:E; [done|].
  destruct Hprev as [->|[Hp Hnf]]; [done|].
  assert (Hne : prev <> b) by (intros ->; done).
  destruct (lookup_lt_is_Some_2 a (Z.to_nat prev) ltac:(lia)) as [x Hx].
  pose proof (free_count_insert l (<[Z.to_nat b := FAT_EOF]> a) prev x b) as H.
  fold dstart in H. specialize (H ltac:(lia) ltac:(lia)).
  rewrite list_lookup_insert_ne in H by lia. specialize (H Hx).
  rewrite (decide_False (P := x = FAT_FREE)) in H by congruence.
  rewrite (decide_False (P := b = FAT_FREE)) in H by (unfold FAT_FREE; lia).
  lia.
Qed.

(** Without enough FREE data blocks the loop gives up; only the cache has
    changed by then. *)
Lemma alloc_loop_fail n : forall a head prev,
  Z.of_nat (length a) = total ->
  prev = FAT_EOF \/ (dstart <= prev < total /\ a !! Z.to_nat prev <> Some FAT_FREE) ->
  free_count l a < Z.of_nat n ->
  exists a',
    alloc_loop n l dstart head prev (upd w m hd a) = Ret (None, upd w m hd a') /\
    length a' = length a.
Proof.
  induction n as [|n IH]; intros a head prev Hlen Hprev Hcount.
  - pose proof (free_count_nonneg l a). lia.
  - destruct (find_free_block_spec a Hlen)
      as [(b & Hfind & Hb & Hfree & Hfirst)|(Hfind & Hzero)].
    + rewrite (alloc_loop_step n a head prev b Hlen ltac:(lia) Hfind Hb).
      destruct (IH (link a prev b) (if prev =? FAT_EOF then b else head) b)
        as (a' & Hloop & Hlen').
      * by rewrite link_length.
      * right. split; [done|]. unfold link.
        destruct (prev =? FAT_EOF) eqn:E.
        -- rewrite list_lookup_insert_eq by lia. done.
        -- destruct Hprev as [->|[Hp Hnf]]; [done|].
           assert (Hne : prev <> b) by (intros ->; done).
           rewrite list_lookup_insert_ne by lia.
           rewrite list_lookup_insert_eq by lia. done.
      * rewrite link_count by done. lia.
      * exists a'. split; [done|]. by rewrite Hlen', link_length.
    + exists a. split; [|done]. cbn [alloc_loop]. rewrite bind_get.
      change (v (fat (G (upd w m hd a)))) with a.
      rewrite (bind_lift _ _ _ _ Hfind). reflexivity.
Qed.

(** With enough FREE data blocks the loop builds a chain of [n] blocks of
    the data area, in increasing order, and touches no other entry. *)
Lemma alloc_loop_ok n : forall a head prev,
  Z.of_nat (length a) = total ->
  (prev = FAT_EOF /\ head = FAT_EOF) \/
  (dstart <= prev < total /\ a !! Z.to_nat prev = Some FAT_EOF /\
   forall j, dstart <= j <= prev -> a !! Z.to_nat j <> Some FAT_FREE) ->
  Z.of_nat n <= free_count l a ->
  exists a' bs head',
    alloc_loop n l dstart head prev (upd w m hd a)
    = Ret (Some head', upd w m hd a') /\
    length a' = length a /\ length bs = n /\
    Forall (fun b => dstart <= b < total /\ (prev <> FAT_EOF -> prev < b)) bs /\
    (prev = FAT_EOF -> chain a' head' bs) /\
    (prev <> FAT_EOF -> head' = head /\ chain a' prev (prev :: bs)) /\
    (forall j, 0 <= j -> j ∉ bs -> j <> prev ->
               a' !! Z.to_nat j = a !! Z.to_nat j).
Proof.
  induction n as [|n IH]; intros a head prev Hlen Hprev Hcount.
  - exists a, [], head. split; [reflexivity|].
    split; [done|]. split; [done|]. split; [constructor|].
    split; [|split; [|done]].
    + intros ->. destruct Hprev as [[_ ->]|[Hp _]]; [constructor|].
      unfold FAT_EOF in Hp. lia.
    + intros Hne. split; [done|].
      destruct Hprev as [[-> _]|(Hp & Hend & _)]; [done|].
      econstructor; [lia|done|exact Hend|constructor].
  - destruct (find_free_block_spec a Hlen)
      as [(b & Hfind & Hb & Hfree & Hfirst)|(Hfind & Hzero)]; [|lia].
    assert (Hprev' : prev = FAT_EOF \/ 0 <= prev < total)
      by (destruct Hprev as [[-> _]|(Hp & _)]; [by left|right; lia]).
    rewrite (alloc_loop_step n a head prev b Hlen Hprev' Hfind Hb).
    assert (Hpb : prev <> FAT_EOF -> prev < b).
    { intros Hne. destruct Hprev as [[-> _]|(Hp & Hend & Hfull)]; [done|].
      destruct (decide (prev < b)); [done|].
      destruct (Hfull b); [lia|done]. }
    assert (Hcount' : free_count l (link a prev b) = free_count l a - 1).
    { apply link_count; [done..|].
      destruct Hprev as [[-> _]|(Hp & Hend & _)]; [by left|].
      right. split; [done|]. by rewrite Hend. }
    assert (HbEOF : b <> FAT_EOF) by (unfold FAT_EOF; lia).
    destruct (IH (link a prev b) (if prev =? FAT_EOF then b else head) b)
      as (a' & bs & head' & Hloop & Hlen' & Hbs & Hin & _ & Hchain & Hframe).
    + by rewrite link_length.
    + right. split; [done|]. unfold link.
      destruct (prev =? FAT_EOF) eqn:E.
      * split; [by rewrite list_lookup_insert_eq by lia|].
        intros j Hj. destruct (decide (j = b)) as [->|Hjb].
        -- by rewrite list_lookup_insert_eq by lia.
        -- rewrite list_lookup_insert_ne by lia. apply Hfirst. lia.
      * assert (prev < b) by (apply Hpb; unfold FAT_EOF in *; lia).
        split.
        -- rewrite list_lookup_insert_ne by lia.
           by rewrite list_lookup_insert_eq by lia.
        -- intros j Hj. destruct (decide (j = prev)) as [->|Hjp].
           ++ rewrite list_lookup_insert_eq
                by (rewrite length_insert; unfold FAT_EOF in *; lia).
              intros [= ->]. unfold FAT_FREE in *. lia.
           ++ rewrite list_lookup_insert_ne by lia.
              destruct (decide (j = b)) as [->|Hjb].
              ** by rewrite list_lookup_insert_eq by lia.
              ** rewrite list_lookup_insert_ne by lia. apply Hfirst. lia.
    + lia.
    + destruct (Hchain HbEOF) as [Hhead Hch].
      exists a', (b :: bs), head'. split; [exact Hloop|].
      split; [by rewrite Hlen', link_length|].
      split; [simpl; by rewrite Hbs|].
      assert (Hgt : Forall (fun x => b < x) bs).
      { eapply Forall_impl; [exact Hin|]. simpl. intros x [_ Hx]. by apply Hx. }
      split.
      { constructor; [done|].
        eapply Forall_impl; [exact Hin|]. simpl. intros x [Hr Hx].
        split; [done|]. intros Hne. specialize (Hx HbEOF). specialize (Hpb Hne). lia. }
      split; [|split].
      * intros ->. rewrite Hhead. done.
      * intros Hne. assert (E : (prev =? FAT_EOF) = false) by lia.
        rewrite E in Hhead. split; [done|].
        specialize (Hpb Hne).
        destruct Hprev as [[-> _]|(Hp & Hend & _)]; [done|].
        econstructor; [lia|done| |exact Hch].
        rewrite Hframe; [|lia| |lia].
        -- unfold link. rewrite E.
           apply list_lookup_insert_eq. rewrite length_insert. lia.
        -- intros Hmem. rewrite Forall_forall in Hgt.
           specialize (Hgt _ Hmem). lia.
      * intros j Hj Hnot Hjp. apply not_elem_of_cons in Hnot as [Hjb Hnot].
        rewrite Hframe by done. unfold link.
        destruct (prev =? FAT_EOF) eqn:E2.
        -- by rewrite list_lookup_insert_ne by lia.
        -- assert (0 <= prev) by (destruct Hprev' as [->|?]; [done|lia]).
           rewrite list_lookup_insert_ne by lia.
           by rewrite list_lookup_insert_ne by lia.
Qed.

End Alloc.

End FSAlloc.

(** ** The filesystem service: file contents *)

Module FSFile.
Import Mach FS FSInv MachFacts FSDisk FSFat FSChain FSAlloc.
#[local] Abbreviation length := List.length (only parsing).

Lemma write_loop_eof fuel data len left pos :
  write_loop fuel data len FAT_EOF left pos = mret 0.
Proof. by destruct fuel. Qed.

Lemma read_loop_done fuel left cur out :
  left <= 0 -> read_loop fuel left cur out = mret (0, out).
Proof.
  intros H. destruct fuel; cbn [read_loop];
    (destruct (0 <? left) eqn:E; [lia|done]).
Qed.

Section Blocks.
Context (w : world) (a : list Z) (lo hi : Z).
Context (Hc : conn_ok w) (Hlo : 0 <= lo) (Hhi : hi <= nblocks w).

Lemma holds_same m m' cur d :
  holds lo hi m a cur d ->
  (forall j, lo <= j < hi -> sector m' j = sector m j) ->
  holds lo hi m' a cur d.
Proof.
  induction 1 as [|cur nxt d Hd Hr Hne Hlk Hsec _ IH]; intros Hs.
  - constructor.
  - econstructor; try done.
    + by rewrite Hs.
    + by apply IH.
Qed.

Lemma read_loop_ok m d : forall cur out hd fuel,
  holds lo hi m a cur d ->
  length m = length (img w) ->
  Z.of_nat (length d) <= 128 * Z.of_nat fuel ->
  exists hd',
    read_loop fuel (Z.of_nat (length d)) cur out (upd w m hd a)
    = Ret ((0, out ++ d), upd w m hd' a).
Proof.
  intros cur out hd fuel Hh. revert out hd fuel.
  induction Hh as [|cur nxt d Hd Hr Hne Hlk Hsec _ IH]; intros out hd fuel Hm Hfuel.
  - exists hd. rewrite read_loop_done by (simpl; lia). by rewrite app_nil_r.
  - assert (Hpos : (0 < length d)%nat) by (destruct d; [done|simpl; lia]).
    destruct fuel as [|fuel]; [lia|].
    cbn [read_loop].
    destruct ((0 <? Z.of_nat (length d)) && negb (cur =? FAT_EOF)) eqn:E; [|lia].
    assert (Hc' : conn_ok (upd w m hd a)) by (by apply conn_ok_upd).
    rewrite (bind_ok _ _ _ _ _
               (disk_read_idx_ok _ Hc' cur
                  ltac:(change (nblocks (upd w m hd a)) with (nblocks w); lia))).
    change (img (upd w m hd a)) with m.
    change (at_disk (upd w m hd a) m ?h) with (upd w m h a).
    rewrite (bind_ok _ _ _ _ _ (fat_get_ok w m _ a cur nxt ltac:(lia) Hlk)).
    set (tk := if Z.of_nat (length d) <? BLKSZ then Z.of_nat (length d) else BLKSZ).
    assert (Htk : take (Z.to_nat tk) (sector m cur) = take 128 d).
    { unfold tk, BLKSZ. destruct (_ <? 128) eqn:E1.
      - rewrite Nat2Z.id, Hsec. done.
      - change (Z.to_nat 128) with 128%nat.
        transitivity (take 128 (take (length d) (sector m cur))).
        + rewrite take_take. f_equal. lia.
        + rewrite Hsec. apply take_idemp. }
    rewrite Htk.
    assert (Hleft : Z.of_nat (length d) - tk = Z.of_nat (length (drop 128 d))).
    { rewrite length_drop. unfold tk, BLKSZ. destruct (_ <? 128) eqn:E1; lia. }
    rewrite Hleft.
    destruct (IH (out ++ take 128 d) (cur / Disk.g_sec (dsk (upd w m hd a))) fuel Hm)
      as (hd' & Hread).
    { rewrite length_drop. lia. }
    exists hd'. rewrite Hread. rewrite <- app_assoc, take_drop. done.
Qed.

Lemma write_loop_ok data len bs : forall cur pos left m hd fuel,
  chain a cur bs -> Forall (fun b => lo <= b < hi) bs ->
  length m = length (img w) ->
  0 <= pos -> 0 < left -> pos + left = len ->
  len = Z.of_nat (length data) -> len < 2 ^ 32 ->
  128 * (Z.of_nat (length bs) - 1) < left <= 128 * Z.of_nat (length bs) ->
  (length bs <= fuel)%nat ->
  exists m' hd',
    write_loop fuel data len cur left pos (upd w m hd a)
    = Ret (0, upd w m' hd' a) /\
    length m' = length m /\
    (forall j, 0 <= j -> j ∉ bs -> sector m' j = sector m j) /\
    holds lo hi m' a cur (drop (Z.to_nat pos) data).
Proof.
  induction bs as [|b bs IH];
    intros cur pos left m hd fuel Hch Hin Hm Hpos Hleft Hsum Hlen H32 Hcnt Hfuel.
  - simpl in Hcnt. lia.
  - pose proof (chain_NoDup _ _ _ Hch) as Hnd.
    apply NoDup_cons in Hnd as [Hnb Hnd].
    inversion Hch as [|b' nxt bs' H0 Hne Hlk Hch']; subst b' bs' cur.
    apply Forall_cons in Hin as [Hb Hin'].
    destruct fuel as [|fuel]; [simpl in Hfuel; lia|].
    destruct (geometry_facts w Hc) as (_ & _ & _ & Hgl & _).
    cbn [write_loop]. destruct (b =? FAT_EOF) eqn:E; [lia|].
    set (tk := if left <? BLKSZ then left else BLKSZ).
    set (d := drop (Z.to_nat pos) data).
    assert (Hd : Z.of_nat (length d) = left).
    { unfold d. rewrite length_drop. lia. }
    assert (Htk : 0 < tk <= 128 /\ tk <= left /\ (left <= 128 -> tk = left)
                  /\ (128 < left -> tk = 128)).
    { unfold tk, BLKSZ. destruct (left <? 128) eqn:E1; lia. }
    set (blk := take (Z.to_nat tk) d ++ zeros (Z.to_nat (BLKSZ - tk))).
    assert (Hblk : length blk = 128%nat).
    { unfold blk, BLKSZ. rewrite length_app, length_take, zeros_length. lia. }
    assert (Hc' : conn_ok (upd w m hd a)) by (by apply conn_ok_upd).
    rewrite (bind_ok _ _ _ _ _
               (disk_write_idx_ok _ Hc' b blk
                  ltac:(change (nblocks (upd w m hd a)) with (nblocks w); lia)
                  Hblk)).
    change (0 <? 0) with false. cbv iota.
    change (img (upd w m hd a)) with m.
    set (m1 := put_sector m b blk).
    change (at_disk (upd w m hd a) m1 ?h) with (upd w m1 h a).
    assert (Hm1 : length m1 = length m).
    { apply put_sector_length; [lia| |done]. rewrite Hm. lia. }
    assert (Hsec1 : sector m1 b = blk).
    { apply sector_put_same; [lia| |done]. rewrite Hm. lia. }
    rewrite (bind_ok _ _ _ _ _ (fat_get_ok w m1 _ a b nxt ltac:(lia) Hlk)).
    assert (Hu : u32 (pos + tk) = pos + tk) by (apply Z.mod_small; lia).
    rewrite Hu.
    destruct bs as [|b2 bs].
    + (* last block *)
      assert (Hl1 : left <= 128) by (simpl in Hcnt; lia).
      assert (Etk : tk = left) by lia.
      assert (Hstop : ((nxt =? FAT_EOF) || (len <=? pos + tk)) = true) by lia.
      rewrite Hstop, write_loop_eof.
      eexists m1, _. split; [reflexivity|]. split; [done|]. split.
      * intros j Hj Hnot. apply not_elem_of_cons in Hnot as [Hjb _].
        apply sector_put_other; [lia| |done|done|done]. rewrite Hm. lia.
      * fold d. econstructor; [|done|done|exact Hlk| |].
        -- intros ->. simpl in Hd. lia.
        -- rewrite Hsec1. unfold blk. rewrite Etk, <- Hd, Nat2Z.id.
           rewrite (take_ge d (length d)) by lia.
           rewrite take_app_length. by rewrite take_ge by lia.
        -- rewrite drop_ge by lia. constructor.
    + (* more blocks follow *)
      assert (Hl1 : 128 < left) by (simpl in Hcnt; lia).
      assert (Etk : tk = 128) by lia.
      inversion Hch' as [|b2' nxt2 bs2 H02 Hne2 Hlk2 Hch2]; subst b2' bs2 nxt.
      assert (Hgo : ((b2 =? FAT_EOF) || (len <=? pos + tk)) = false) by lia.
      rewrite Hgo.
      assert (Hlt : (tk <? left) = true) by lia.
      rewrite Hlt, Etk.
      destruct (IH b2 (pos + 128) (left - 128) m1
                  (b / Disk.g_sec (dsk (upd w m hd a))) fuel Hch' Hin'
                  ltac:(congruence) ltac:(lia) ltac:(lia) ltac:(lia) Hlen H32)
        as (m' & hd' & Hloop & Hm' & Hframe & Hholds).
      { cbn [List.length] in Hcnt |- *. lia. }
      { cbn [List.length] in Hfuel |- *. lia. }
      exists m', hd'. split; [exact Hloop|]. split; [congruence|]. split.
      * intros j Hj Hnot. apply not_elem_of_cons in Hnot as [Hjb Hnot].
        rewrite Hframe by done.
        apply sector_put_other; [lia| |done|done|done]. rewrite Hm. lia.
      * fold d. econstructor; [|done|done|exact Hlk| |].
        -- intros Hnil. rewrite Hnil in Hd. simpl in Hd. lia.
        -- rewrite Hframe by (done || lia). rewrite Hsec1. unfold blk.
           rewrite Etk. change (Z.to_nat (BLKSZ - 128)) with 0%nat.
           change (Z.to_nat 128) with 128%nat.
           change (zeros 0) with (@nil byte). rewrite app_nil_r.
           apply take_ge. rewrite length_take. lia.
        -- unfold d. rewrite drop_drop.
           replace (Z.to_nat pos + 128)%nat with (Z.to_nat (pos + 128)) by lia.
           exact Hholds.
Qed.

End Blocks.

End FSFile.

(** ** The filesystem service: write and read *)

Module FSWrite.
Import Mach FS FSInv MachFacts FSDisk FSFat FSDir FSEntry FSCreate FSChain
       FSDelete FSAlloc FSFile.
#[local] Abbreviation length := List.length (only parsing).

Lemma data_start_ok w :
  layout_ok w ->
  data_start (L (G w)) = dir_start (L (G w)) + dir_sectors (L (G w)) /\
  1 <= data_start (L (G w)) <= total_blocks (L (G w)).
Proof.
  intros []. unfold data_start, u32. rewrite Z.mod_small by lia. lia.
Qed.

(** The freeing step of [write_whole_file], for an entry in use. *)
Lemma write_free_step fuel w e bs :
  used e <> x00 ->
  chain (v (fat (G w))) (first e) bs -> (length bs <= fuel)%nat ->
  (if negb (bool_decide (used e = x00)) && negb (first e =? FAT_EOF)
   then a ← lift (free_chain fuel (v (fat (G w))) (first e));
        modify (fun w => set_v w a)
   else mret tt) w
  = Ret (tt, set_v w (free_all bs (v (fat (G w))))).
Proof.
  intros Hu Hch Hfuel. rewrite bool_decide_eq_false_2 by done. cbn [negb andb].
  destruct (first e =? FAT_EOF) eqn:E; cbn [negb].
  - assert (first e = FAT_EOF) as Heq by lia. rewrite Heq in Hch.
    inversion Hch; subst; [|done]. unfold free_all. simpl.
    by rewrite set_v_id.
  - rewrite (bind_lift _ _ _ _ (free_chain_ok _ _ _ _ Hch Hfuel)).
    reflexivity.
Qed.

Lemma blocks_of_len len :
  0 < len -> len + 127 < 2 ^ 32 ->
  0 < u32 (len + BLKSZ - 1) / BLKSZ /\
  128 * (u32 (len + BLKSZ - 1) / BLKSZ - 1) < len
    <= 128 * (u32 (len + BLKSZ - 1) / BLKSZ).
Proof.
  intros H0 H32. unfold u32, BLKSZ. rewrite Z.mod_small by lia.
  pose proof (Z.div_mod (len + 128 - 1) 128 ltac:(lia)) as Hd.
  pose proof (Z.mod_pos_bound (len + 128 - 1) 128 ltac:(lia)) as Hm.
  lia.
Qed.

Section Write.
Context (w : world) (Hok : fs_ok w) (m : list byte) (hd : Z) (a : list Z).
Context (Hm : length m = length (img w)).
Context (Ha : Z.of_nat (length a) = total_blocks (L (G w))).
Context (fuel : nat) (e : dirent_fs) (bs0 : list Z) (data : list byte) (len : Z).
Context (Hused : used e <> x00).
Context (Hch : chain a (first e) bs0) (Hfuel0 : (length bs0 <= fuel)%nat).
Context (Hlen : len = Z.of_nat (length data)).

Let l := L (G w).
Let dstart := data_start l.
Let total := total_blocks l.

(** Not enough room: -2, and nothing but the cache has changed. *)
Lemma write_whole_file_no_space :
  0 < len -> len + 127 < 2 ^ 32 ->
  free_count l (free_all bs0 a) < (len + 127) / 128 ->
  exists a2,
    write_whole_file fuel e data len (upd w m hd a)
    = Ret ((-2, mkDirent (name e) len FAT_EOF (used e)), upd w m hd a2).
Proof.
  intros H0 H32 Hfew.
  pose proof Hok as [Hc Hl Hca Hf].
  destruct (data_start_ok w Hl) as [_ Hds]. fold l dstart total in Hds.
  destruct (blocks_of_len len H0 H32) as [Hb0 Hb].
  unfold write_whole_file. rewrite bind_get.
  rewrite (bind_ok _ _ _ _ _ (write_free_step fuel (upd w m hd a) e bs0 Hused Hch Hfuel0)).
  change (set_v (upd w m hd a) (free_all bs0 (v (fat (G (upd w m hd a))))))
    with (upd w m hd (free_all bs0 a)).
  destruct (len =? 0) eqn:E0; [lia|].
  rewrite bind_get. change (L (G (upd w m hd (free_all bs0 a)))) with l.
  destruct (alloc_loop_fail w m hd ltac:(exact Hds) ltac:(destruct Hl; exact lo_total33)
              (Z.to_nat (u32 (len + BLKSZ - 1) / BLKSZ))
              (free_all bs0 a) FAT_EOF FAT_EOF) as (a2 & Hloop & _).
  - rewrite free_all_length. exact Ha.
  - by left.
  - fold l. unfold u32, BLKSZ. rewrite Z.mod_small by lia.
    replace (len + 128 - 1) with (len + 127) by lia. lia.
  - exists a2. fold l in Hloop. rewrite (bind_ok _ _ _ _ _ Hloop). reflexivity.
Qed.

(** Enough room: the data is on the disk along a fresh chain, and the
    metadata sectors are untouched. *)
Lemma write_whole_file_ok :
  len + 127 < 2 ^ 32 ->
  (len + 127) / 128 <= free_count l a ->
  (Z.to_nat ((len + 127) / 128) <= fuel)%nat ->
  exists head a2 m3 hd3,
    write_whole_file fuel e data len (upd w m hd a)
    = Ret ((0, mkDirent (name e) len head (used e)), upd w m3 hd3 a2) /\
    Z.of_nat (length a2) = total /\ length m3 = length m /\
    (forall j, 0 <= j < dstart -> sector m3 j = sector m j) /\
    holds dstart total m3 a2 head data /\
    0 <= head < 2 ^ 32.
Proof.
  intros H32 Hroom Hfuel.
  pose proof Hok as [Hc Hl Hca Hf].
  destruct (data_start_ok w Hl) as [_ Hds]. fold l dstart total in Hds.
  assert (Ht32 : total < 2 ^ 32) by (destruct Hl; exact lo_total33).
  assert (Htn : total <= nblocks w) by (destruct Hl; exact lo_total0).
  unfold write_whole_file. rewrite bind_get.
  rewrite (bind_ok _ _ _ _ _ (write_free_step fuel (upd w m hd a) e bs0 Hused Hch Hfuel0)).
  change (set_v (upd w m hd a) (free_all bs0 (v (fat (G (upd w m hd a))))))
    with (upd w m hd (free_all bs0 a)).
  set (a1 := free_all bs0 a).
  assert (Ha1 : Z.of_nat (length a1) = total).
  { unfold a1. rewrite free_all_length. exact Ha. }
  destruct (len =? 0) eqn:E0.
  - (* empty file *)
    exists FAT_EOF, a1, m, hd. split; [reflexivity|].
    split; [done|]. split; [done|]. split; [done|].
    assert (data = []) as -> by (destruct data; [done|simpl in Hlen; lia]).
    split; [constructor|]. unfold FAT_EOF. lia.
  - assert (H0 : 0 < len) by lia.
    destruct (blocks_of_len len H0 H32) as [Hb0 Hb].
    set (blocks := u32 (len + BLKSZ - 1) / BLKSZ) in *.
    assert (Hbl : blocks = (len + 127) / 128).
    { unfold blocks, u32, BLKSZ. rewrite Z.mod_small by lia. f_equal. lia. }
    rewrite bind_get. change (L (G (upd w m hd a1))) with l.
    destruct (alloc_loop_ok w m hd ltac:(exact Hds) Ht32 (Z.to_nat blocks)
                a1 FAT_EOF FAT_EOF)
      as (a2 & bs & head & Hloop & Hlen2 & Hbs & Hin & Hchain & _ & _).
    + exact Ha1.
    + by left.
    + fold l. rewrite Z2Nat.id by lia. rewrite Hbl.
      etrans; [exact Hroom|]. unfold a1. apply free_all_count.
      * fold l dstart. lia.
      * by eapply chain_bounds_Forall.
    + fold l dstart total in Hloop, Hin.
      rewrite (bind_ok _ _ _ _ _ Hloop).
      specialize (Hchain eq_refl).
      destruct (write_loop_ok w a2 dstart total Hc Htn data len bs
                  head 0 len m hd fuel Hchain)
        as (m3 & hd3 & Hwl & Hm3 & Hframe & Hholds).
      * eapply Forall_impl; [exact Hin|]. simpl. tauto.
      * exact Hm.
      * lia.
      * lia.
      * lia.
      * exact Hlen.
      * lia.
      * rewrite Hbs, Z2Nat.id by lia. exact Hb.
      * rewrite Hbs, Hbl. exact Hfuel.
      * rewrite (bind_ok _ _ _ _ _ Hwl).
        exists head, a2, m3, hd3. split; [reflexivity|].
        split; [congruence|]. split; [done|]. split; [|split; [exact Hholds|]].
        -- intros j Hj. apply Hframe; [lia|].
           intros Hmem. rewrite Forall_forall in Hin.
           destruct (Hin _ Hmem). lia.
        -- destruct bs as [|b bs'].
           ++ simpl in Hbs. lia.
           ++ inversion Hchain; subst. apply Forall_cons in Hin as [[Hb1 _] _]. lia.
Qed.

End Write.

(** The name array of an entry read from the disk has 32 bytes, the last
    of which is the terminator. *)
Lemma entry_name w slot :
  conn_ok w -> layout_ok w -> 0 <= slot < dir_entries (L (G w)) ->
  let e := entry_at (img w) (L (G w)) slot in
  length (name e) = 32%nat /\ take 31 (name e) ++ [x00] = name e.
Proof.
  intros Hc Hl Hs.
  destruct (dir_sector_range w Hl slot Hs) as (Hr & _ & _).
  destruct (geometry_facts w Hc) as (_ & _ & _ & Hgl & _).
  assert (Hm2 : 0 <= slot mod 2 < 2) by (apply Z.mod_pos_bound; lia).
  cbv zeta. unfold entry_at, dirent_unpack. cbn [name].
  set (src := drop _ (sector _ _)).
  assert (Hsrc : (64 <= length src)%nat).
  { unfold src. rewrite length_drop, sector_length by lia. lia. }
  rewrite length_app, length_take. change (length [x00]) with 1%nat.
  split; [lia|].
  rewrite take_app_length' by (rewrite length_take; lia). done.
Qed.

(** [cmd_write] up to the call of [write_whole_file]. *)
Lemma cmd_write_start w nm slot fuel data unread :
  fs_ok w -> first_named w nm slot ->
  exists hd,
    cmd_write fuel nm (Z.of_nat (length data)) (data ++ unread) w
    = ('(rc, e') ← write_whole_file fuel (entry_at (img w) (L (G w)) slot)
                     data (Z.of_nat (length data));
       if rc =? -2 then mret (mkWres 0 r2 unread) else
       if rc <? 0 then mret (mkWres 0 r2 unread) else
       rc ← fat_flush;
       if rc <? 0 then mret (mkWres 0 r2 unread) else
       rc ← dir_write_entry slot e';
       if rc <? 0 then mret (mkWres 0 r2 unread) else
       mret (mkWres 0 r0 unread)) (upd w (img w) hd (fat_of w)).
Proof.
  intros [Hc Hl Hca Hf] Hname.
  destruct (fat_load_ok w Hc (layout_fat_region w Hl) Hca) as (hd1 & Hload & Hlen).
  destruct (find_first_named (upd w (img w) hd1 (fat_of w)) nm slot) as (hd2 & Hfind).
  { by apply conn_ok_upd. }
  { by apply layout_ok_upd. }
  { exact Hname. }
  exists hd2. unfold cmd_write. rewrite length_app.
  destruct ((0 <? _) && _) eqn:E; [lia|].
  rewrite Nat2Z.id, take_app_length, drop_app_length.
  rewrite bind_get, Hf. cbn [negb].
  rewrite (bind_ok _ _ _ _ _ Hload). change (0 <? 0) with false. cbv iota.
  rewrite (bind_ok _ _ _ _ _ Hfind). reflexivity.
Qed.

(** C3, as the code behaves.  On a formatted filesystem, when [W name l]
    (with [0 < l] and [l + 127 < 2^32]) finds fewer FREE data blocks than
    the [ceil (l / 128)] it needs, once the old chain [bs] of the file is
    freed in the cache, it is answered "2\n" after consuming the payload,
    and no sector of the disk has changed: the directory entry on disk
    keeps the length and the first block it had. *)
Theorem write_no_space w nm slot bs fuel data unread :
  fs_ok w -> first_named w nm slot ->
  chain (fat_of w) (first (entry_at (img w) (L (G w)) slot)) bs ->
  (length bs <= fuel)%nat ->
  0 < Z.of_nat (length data) -> Z.of_nat (length data) + 127 < 2 ^ 32 ->
  free_count (L (G w)) (free_all bs (fat_of w))
    < (Z.of_nat (length data) + 127) / 128 ->
  exists w',
    cmd_write fuel nm (Z.of_nat (length data)) (data ++ unread) w
    = Ret (mkWres 0 r2 unread, w') /\
    img w' = img w /\
    entry_at (img w') (L (G w')) slot = entry_at (img w) (L (G w)) slot.
Proof.
  intros Hok Hname Hch Hfuel H0 H32 Hfew.
  pose proof Hok as [Hc Hl Hca Hf].
  destruct (fat_load_ok w Hc (layout_fat_region w Hl) Hca) as (_ & _ & Hlen).
  destruct (cmd_write_start w nm slot fuel data unread Hok Hname) as (hd & Hstart).
  destruct Hname as (Hslot & [Hused _] & _).
  destruct (write_whole_file_no_space w Hok (img w) hd (fat_of w) eq_refl Hlen
              fuel _ bs data _ Hused Hch Hfuel H0 H32 Hfew) as (a2 & Hw).
  exists (upd w (img w) hd a2). split; [|done].
  rewrite Hstart, (bind_ok _ _ _ _ _ Hw). reflexivity.
Qed.

(** What follows a successful [write_whole_file] in [cmd_write], and the
    start of the next [cmd_read]: the FAT is flushed, the entry is stored
    in its slot, the data area is as [write_whole_file] left it, and the
    read finds the stored entry. *)
Lemma persist_ok w nm slot len head a2 m3 hd3 fuel uninit :
  fs_ok w -> first_named w nm slot ->
  0 <= len < 2 ^ 32 -> 0 <= head < 2 ^ 32 ->
  Z.of_nat (length a2) = total_blocks (L (G w)) ->
  length m3 = length (img w) ->
  (forall j, 0 <= j < data_start (L (G w)) -> sector m3 j = sector (img w) j) ->
  let e' := mkDirent (name (entry_at (img w) (L (G w)) slot)) len head
              (used (entry_at (img w) (L (G w)) slot)) in
  exists m4 hd4 m5 hd5 hd6,
    fat_flush (upd w m3 hd3 a2) = Ret (0, upd w m4 hd4 a2) /\
    dir_write_entry slot e' (upd w m4 hd4 a2) = Ret (0, upd w m5 hd5 a2) /\
    length m5 = length (img w) /\
    (forall j, data_start (L (G w)) <= j < total_blocks (L (G w)) ->
               sector m5 j = sector m3 j) /\
    entry_at m5 (L (G w)) slot = e' /\
    cmd_read fuel uninit nm (upd w m5 hd5 a2)
    = ('(rc, out) ← read_whole_file fuel e';
       if rc <? 0 then mret r2_0 else
       mret ([x30; x20] ++ fmt_u len ++ [x20]
             ++ take (Z.to_nat len) (out ++ drop (length out) uninit)
             ++ [x0a])) (upd w m5 hd6 a2).
Proof.
  intros Hok Hname Hlen32 Hhead Ha2 Hm3 Hmeta e'.
  pose proof Hok as [Hc Hl Hca Hf].
  pose proof Hname as (Hslot & Hnames & Hfirst).
  pose proof Hnames as [Hused Hcmp].
  destruct (data_start_ok w Hl) as [Hdse Hds].
  destruct (geometry_facts w Hc) as (_ & _ & _ & Hgl & _).
  destruct (dir_sector_range w Hl slot Hslot) as (Hsec & Hsec' & _).
  destruct (entry_name w slot Hc Hl Hslot) as [Hnlen Hnfix].
  set (l := L (G w)) in *. set (m := img w) in *.
  set (e := entry_at m l slot) in *.
  (* flush *)
  destruct (fat_flush_ok (upd w m3 hd3 a2)) as (m4 & hd4 & Hflush & Hsame);
    [by apply conn_ok_upd|by apply layout_fat_region, layout_ok_upd|done|done|].
  change (at_disk (upd w m3 hd3 a2) m4 hd4) with (upd w m4 hd4 a2) in Hflush.
  change (L (G (upd w m3 hd3 a2))) with l in Hsame.
  change (img (upd w m3 hd3 a2)) with m3 in Hsame.
  pose proof Hsame as [Hm4 Hsame4].
  (* the directory entry *)
  assert (Hpack : length (dirent_pack e') = 64%nat).
  { apply dirent_pack_length. cbn [name e']. lia. }
  assert (Hc4 : conn_ok (upd w m4 hd4 a2))
    by (apply conn_ok_upd; [done|by rewrite Hm4, Hm3]).
  assert (Hl4 : layout_ok (upd w m4 hd4 a2)) by (by apply layout_ok_upd).
  pose proof (dir_write_entry_ok (upd w m4 hd4 a2) Hc4 Hl4 slot e' Hslot Hpack)
    as Hwrite.
  set (m5 := put_entry m4 l slot e').
  set (hd5 := (dir_start l + slot / 2) / Disk.g_sec (dsk w)).
  change (dir_write_entry slot e' (upd w m4 hd4 a2) = Ret (0, upd w m5 hd5 a2))
    in Hwrite.
  assert (Hin4 : (dir_start l + slot / 2) * 128 + 128 <= Z.of_nat (length m4)).
  { rewrite Hm4, Hm3. lia. }
  assert (Hds0 : 0 <= dir_start l) by (destruct Hl; unfold l; lia).
  assert (Hm5 : length m5 = length m).
  { unfold m5. rewrite put_entry_length; [by rewrite Hm4, Hm3|lia|done|done|done]. }
  set (w5 := upd w m5 hd5 a2).
  assert (Hc5 : conn_ok w5) by (by apply conn_ok_upd).
  assert (Hl5 : layout_ok w5) by (by apply layout_ok_upd).
  (* the entry that the read finds *)
  assert (He5 : entry_at m5 l slot = e').
  { destruct (entry_at_put_same m4 l slot e') as [r Hr]; [lia|done|done|done|].
    fold m5 in Hr. rewrite Hr, dirent_unpack_pack by (cbn [name e']; lia).
    unfold e'. cbn [name FS.length first used]. f_equal.
    - exact Hnfix.
    - apply Z.mod_small. lia.
    - apply Z.mod_small. lia. }
  assert (Hother : forall j, 0 <= j < dir_entries l -> j <> slot ->
                             entry_at m5 l j = entry_at m l j).
  { intros j Hj Hne. unfold m5.
    rewrite entry_at_put_other by (lia || done).
    destruct (dir_sector_range w Hl j Hj) as (Hjr & Hjd & _). fold l in Hjr, Hjd.
    assert (Hjq : 0 <= j / 2) by (apply Z.div_pos; lia).
    rewrite (entry_at_same m3 m4 l _ _ j Hsame);
      [|lia|destruct Hl; unfold l in *; lia].
    unfold entry_at. rewrite Hmeta; [done|]. lia. }
  assert (Hname5 : first_named w5 nm slot).
  { split; [done|]. change (img w5) with m5. change (L (G w5)) with l. split.
    - rewrite He5. done.
    - intros i Hi. rewrite Hother by lia. by apply Hfirst. }
  destruct (find_first_named w5 nm slot Hc5 Hl5 Hname5) as (hd6 & Hfind).
  change (entry_at (img w5) (L (G w5)) slot) with (entry_at m5 l slot) in Hfind.
  rewrite He5 in Hfind.
  change (at_disk w5 (img w5) hd6) with (upd w m5 hd6 a2) in Hfind.
  exists m4, hd4, m5, hd5, hd6.
  split; [exact Hflush|]. split; [exact Hwrite|]. split; [exact Hm5|].
  split; [|split].
  - intros j Hj. unfold m5, put_entry.
    assert (Hq : 0 <= slot / 2) by (apply Z.div_pos; lia).
    rewrite sector_put_other;
      [|lia|done|apply new_sector_length; (lia || done)|lia|lia].
    apply Hsame4; [lia|]. destruct Hl. unfold l in *. lia.
  - exact He5.
  - fold w5. unfold cmd_read. rewrite bind_get.
    change (formatted (G w5)) with (formatted (G w)). rewrite Hf. cbn [negb].
    assert (Hload5 : fat_load w5 = Ret (0, w5)) by reflexivity.
    rewrite (bind_ok _ _ _ _ _ Hload5). change (0 <? 0) with false. cbv iota.
    rewrite (bind_ok _ _ _ _ _ Hfind). reflexivity.
Qed.

(** The round trip of [W] and [R], for the lengths whose block count is
    computed without wrapping.  On a formatted filesystem where [nm] names
    a used entry (the first such entry is in slot [slot], and [bs] is its
    chain), for every [d]
    with [len d + 127 < 2^32] that fits in the FREE data blocks
    ([ceil (len d / 128) <= free blocks], which [len d <= free * 128]
    gives), [W nm (len d)] followed by [d] is answered "0\n" and consumes
    exactly [d], and the [R nm] that follows is answered ["0 <len d> "],
    the bytes [d], and a newline. *)
Theorem write_then_read w nm slot bs fuel data unread uninit :
  fs_ok w -> first_named w nm slot ->
  chain (fat_of w) (first (entry_at (img w) (L (G w)) slot)) bs ->
  (length bs <= fuel)%nat -> Z.of_nat (length data) <= 128 * Z.of_nat fuel ->
  Z.of_nat (length data) + 127 < 2 ^ 32 ->
  Z.of_nat (length data) <= free_count (L (G w)) (fat_of w) * 128 ->
  exists w1 w2,
    cmd_write fuel nm (Z.of_nat (length data)) (data ++ unread) w
    = Ret (mkWres 0 r0 unread, w1) /\
    cmd_read fuel uninit nm w1
    = Ret ([x30; x20] ++ fmt_u (Z.of_nat (length data)) ++ [x20] ++ data ++ [x0a],
           w2).
Proof.
  intros Hok Hname Hch Hfuel Hfuel' H32 Hfits.
  pose proof Hok as [Hc Hl Hca Hf].
  destruct (fat_load_ok w Hc (layout_fat_region w Hl) Hca) as (_ & _ & Hlen).
  destruct (cmd_write_start w nm slot fuel data unread Hok Hname) as (hd & Hstart).
  pose proof Hname as (Hslot & [Hused _] & _).
  destruct (data_start_ok w Hl) as [Hdse Hds].
  set (l := L (G w)) in *. set (m := img w) in *. set (a := fat_of w) in *.
  set (e := entry_at m l slot) in *. set (len := Z.of_nat (length data)) in *.
  assert (Hblocks : (len + 127) / 128 <= free_count l a).
  { assert ((len + 127) / 128 < free_count l a + 1); [|lia].
    apply Z.div_lt_upper_bound; lia. }
  assert (Hbf : (Z.to_nat ((len + 127) / 128) <= fuel)%nat).
  { assert ((len + 127) / 128 < Z.of_nat fuel + 1); [|lia].
    apply Z.div_lt_upper_bound; lia. }
  destruct (write_whole_file_ok w Hok m hd a eq_refl Hlen fuel e bs data len
              Hused Hch Hfuel eq_refl H32 Hblocks Hbf)
    as (head & a2 & m3 & hd3 & Hw & Ha2 & Hm3 & Hmeta & Hholds & Hhead).
  fold l in Ha2, Hmeta, Hholds.
  destruct (persist_ok w nm slot len head a2 m3 hd3 fuel uninit Hok Hname
              ltac:(lia) Hhead Ha2 Hm3 Hmeta)
    as (m4 & hd4 & m5 & hd5 & hd6 & Hflush & Hwrite & Hm5 & Hdata & _ & Hrd).
  fold l m e in Hwrite, Hm5, Hdata, Hrd.
  set (e' := mkDirent (name e) len head (used e)) in *.
  assert (Hholds5 : holds (data_start l) (total_blocks l) m5 a2 head data).
  { eapply holds_same; [exact Hholds|]. exact Hdata. }
  destruct (read_loop_ok w a2 (data_start l) (total_blocks l) Hc
              ltac:(lia) ltac:(destruct Hl; unfold l; lia)
              m5 data head [] hd6 fuel Hholds5 Hm5 Hfuel') as (hd7 & Hread).
  exists (upd w m5 hd5 a2), (upd w m5 hd7 a2). split.
  - rewrite Hstart, (bind_ok _ _ _ _ _ Hw).
    change (0 =? -2) with false. change (0 <? 0) with false. cbv iota.
    rewrite (bind_ok _ _ _ _ _ Hflush). change (0 <? 0) with false. cbv iota.
    rewrite (bind_ok _ _ _ _ _ Hwrite). reflexivity.
  - rewrite Hrd. unfold read_whole_file. cbn [FS.length first e'].
    fold len in Hread. rewrite (bind_ok _ _ _ _ _ Hread).
    change (0 <? 0) with false. cbv iota.
    unfold len at 2. rewrite Nat2Z.id. cbn [app].
    rewrite take_app_length. reflexivity.
Qed.

(** The block count of [write_whole_file] for the last 127 lengths of a
    [uint32_t]: the sum [len + BLKSZ - 1] wraps and the quotient is 0. *)
Lemma blocks_wrap len :
  2 ^ 32 - 127 <= len < 2 ^ 32 -> u32 (len + BLKSZ - 1) / BLKSZ = 0.
Proof.
  intros H. unfold u32, BLKSZ.
  replace (len + 128 - 1) with (len + 127 - 2 ^ 32 + 1 * 2 ^ 32) by lia.
  rewrite Z.mod_add by lia. rewrite Z.mod_small by lia.
  apply Z.div_small. lia.
Qed.

(** [write_whole_file] for such a length: the old chain is freed, no
    block is allocated or written, and the entry records the length with
    an empty chain. *)
Lemma write_whole_file_wraps w m hd a fuel e bs data len :
  used e <> x00 -> chain a (first e) bs -> (length bs <= fuel)%nat ->
  2 ^ 32 - 127 <= len < 2 ^ 32 ->
  write_whole_file fuel e data len (upd w m hd a)
  = Ret ((0, mkDirent (name e) len FAT_EOF (used e)),
         upd w m hd (free_all bs a)).
Proof.
  intros Hused Hch Hfuel Hlen.
  unfold write_whole_file. rewrite bind_get.
  rewrite (bind_ok _ _ _ _ _ (write_free_step fuel (upd w m hd a) e bs Hused Hch Hfuel)).
  change (set_v (upd w m hd a) (free_all bs (v (fat (G (upd w m hd a))))))
    with (upd w m hd (free_all bs a)).
  destruct (len =? 0) eqn:E0; [lia|].
  rewrite bind_get, (blocks_wrap len Hlen).
  change (Z.to_nat 0) with O. cbn [alloc_loop].
  rewrite bind_mret, write_loop_eof, bind_mret. reflexivity.
Qed.

(** C1, where the code departs from it.  For a payload [d] whose length
    is one of the last 127 values of a [uint32_t], whatever the number of
    FREE blocks, [W nm (len d)] followed by [d] is answered "0\n" although
    no block was written, and the [R nm] that follows is answered
    ["0 <len d> "], the [len d] bytes of the buffer as [malloc] returned
    it, and a newline: the answer of the round trip only if that buffer
    happened to hold [d]. *)
Theorem write_wraps w nm slot bs fuel data unread uninit :
  fs_ok w -> first_named w nm slot ->
  chain (fat_of w) (first (entry_at (img w) (L (G w)) slot)) bs ->
  (length bs <= fuel)%nat ->
  2 ^ 32 - 127 <= Z.of_nat (length data) < 2 ^ 32 ->
  exists w1 w2 reply,
    cmd_write fuel nm (Z.of_nat (length data)) (data ++ unread) w
    = Ret (mkWres 0 r0 unread, w1) /\
    first (entry_at (img w1) (L (G w1)) slot) = FAT_EOF /\
    cmd_read fuel uninit nm w1 = Ret (reply, w2) /\
    reply = [x30; x20] ++ fmt_u (Z.of_nat (length data)) ++ [x20]
            ++ take (length data) uninit ++ [x0a] /\
    (reply = [x30; x20] ++ fmt_u (Z.of_nat (length data)) ++ [x20]
             ++ data ++ [x0a] ->
     take (length data) uninit = data).
Proof.
  intros Hok Hname Hch Hfuel Hlen.
  pose proof Hok as [Hc Hl Hca Hf].
  destruct (fat_load_ok w Hc (layout_fat_region w Hl) Hca) as (_ & _ & Hla).
  destruct (cmd_write_start w nm slot fuel data unread Hok Hname) as (hd & Hstart).
  pose proof Hname as (Hslot & [Hused _] & _).
  set (len := Z.of_nat (length data)) in *.
  pose proof (write_whole_file_wraps w (img w) hd (fat_of w) fuel _ bs data len
                Hused Hch Hfuel Hlen) as Hw.
  destruct (persist_ok w nm slot len FAT_EOF (free_all bs (fat_of w)) (img w) hd
              fuel uninit Hok Hname ltac:(lia) ltac:(unfold FAT_EOF; lia))
    as (m4 & hd4 & m5 & hd5 & hd6 & Hflush & Hwrite & Hm5 & _ & He5 & Hrd).
  { by rewrite free_all_length. }
  { done. }
  { done. }
  set (a2 := free_all bs (fat_of w)) in *.
  exists (upd w m5 hd5 a2), (upd w m5 hd6 a2). eexists.
  split; [|split; [|split; [|split; [reflexivity|]]]].
  - rewrite Hstart, (bind_ok _ _ _ _ _ Hw).
    change (0 =? -2) with false. change (0 <? 0) with false. cbv iota.
    rewrite (bind_ok _ _ _ _ _ Hflush). change (0 <? 0) with false. cbv iota.
    rewrite (bind_ok _ _ _ _ _ Hwrite). reflexivity.
  - change (entry_at m5 (L (G w)) slot) with
      (entry_at (img (upd w m5 hd5 a2)) (L (G (upd w m5 hd5 a2))) slot) in He5.
    by rewrite He5.
  - rewrite Hrd. unfold read_whole_file. cbn [FS.length first].
    assert (Hr : read_loop fuel len FAT_EOF [] = mret (0, [])).
    { destruct fuel; cbn [read_loop]; change (FAT_EOF =? FAT_EOF) with true;
        by rewrite andb_false_r. }
    rewrite Hr, bind_mret. change (0 <? 0) with false. cbv iota.
    unfold len at 2. rewrite Nat2Z.id. reflexivity.
  - intros Heq. apply app_inv_head in Heq. apply app_inv_head in Heq.
    apply app_inv_head in Heq. by apply app_inv_tail in Heq.
Qed.

End FSWrite.

(** ** The disk server: what a request can and cannot do *)

Module DiskSafety.
Import Mach Disk DiskInv MachFacts DiskFacts.

(** On a disk whose size [C * S * 128] is below [2^64], the disk server
    never fails on a request, whatever the request line and the bytes that
    follow it: from a state reached from boot, serving a request returns,
    and leaves the size of the image and the geometry as they were. *)
Theorem serve_in_bounds st inp q :
  reachable st -> size_ok st ->
  exists o, serve st inp q = Ret o /\
            length (g_base (st' o)) = length (g_base st) /\
            g_cyl (st' o) = g_cyl st /\ g_sec (st' o) = g_sec st.
Proof.
  intros Hr Hsz. pose proof (reachable_geometry st Hr Hsz) as Hg.
  destruct q as [|c s|c s l]; cbn [serve].
  - eexists. split; [reflexivity|]. done.
  - unfold handle_R. destruct (validate_cs st c s) eqn:Ev; cbn [negb].
    + apply validate_cs_true in Ev as [Hc Hs].
      destruct (blk_ptr_valid st c s Hg Hc Hs) as (-> & H0 & Hin).
      unfold load. destruct (_ <=? _) eqn:E; [|lia].
      eexists. split; [reflexivity|]. done.
    + eexists. split; [reflexivity|]. done.
  - unfold handle_W. destruct (validate_cs st c s) eqn:Ev; cbn [negb orb].
    + destruct (l <? 0) eqn:E0; cbn [orb]; [eexists; split; [reflexivity|done]|].
      destruct (BLKSZ <? l) eqn:E1; [eexists; split; [reflexivity|done]|].
      destruct ((0 <? l) && _) eqn:E2; [eexists; split; [reflexivity|done]|].
      apply validate_cs_true in Ev as [Hc Hs].
      destruct (blk_ptr_valid st c s Hg Hc Hs) as (-> & H0 & Hin).
      unfold store. destruct (_ <=? _) eqn:E; [|lia].
      eexists. split; [reflexivity|]. cbn [st' with_base with_head g_base g_cyl g_sec].
      split; [|done]. unfold BLKSZ in *.
      apply splice_length. rewrite length_app, length_take, zeros_length. lia.
    + eexists. split; [reflexivity|]. done.
Qed.

(** On a disk whose size [C * S * 128] is below [2^64], a [W] changes no
    sector but the one it names: a valid sector other than [(c, s)] is
    read after the write as it was read before it, as a ['1'] and its 128
    bytes. *)
Theorem write_leaves_other_sectors st inp inp' c s l c' s' o :
  reachable st -> size_ok st ->
  0 <= c' < g_cyl st -> 0 <= s' < g_sec st -> (c', s') <> (c, s) ->
  handle_W st inp c s l = Ret o ->
  exists o1 o2,
    handle_R st inp' c' s' = Ret o1 /\
    handle_R (st' o) inp' c' s' = Ret o2 /\
    sent o2 = sent o1 /\ length (sent o1) = 129%nat.
Proof.
  intros Hr Hsz Hc' Hs' Hne Hw. pose proof (reachable_geometry st Hr Hsz) as Hg.
  destruct (blk_ptr_valid st c' s' Hg Hc' Hs') as (Hp' & H0' & Hin').
  assert (Hv' : validate_cs st c' s' = true).
  { unfold validate_cs. lia. }
  assert (Hread : forall m hd,
            length m = length (g_base st) ->
            take 128 (drop (Z.to_nat ((c' * g_sec st + s') * BLKSZ)) m)
            = take 128 (drop (Z.to_nat ((c' * g_sec st + s') * BLKSZ)) (g_base st)) ->
            exists o1 o2,
              handle_R st inp' c' s' = Ret o1 /\
              handle_R (mkState (g_cyl st) (g_sec st) (g_track_us st) m hd)
                inp' c' s' = Ret o2 /\
              sent o2 = sent o1 /\ length (sent o1) = 129%nat).
  { intros m hd Hm Heq. unfold handle_R.
    change (validate_cs (mkState _ _ _ m hd) c' s') with (validate_cs st c' s').
    rewrite Hv'. cbn [negb].
    change (blk_ptr (mkState _ _ _ m hd) c' s') with (blk_ptr st c' s').
    rewrite Hp'. unfold load. cbn [g_base]. rewrite Hm.
    destruct (_ <=? _) eqn:E; [|lia].
    eexists _, _. split; [reflexivity|]. split; [reflexivity|].
    cbn [sent]. change (Z.to_nat BLKSZ) with 128%nat. rewrite Heq.
    split; [done|]. cbn [length]. rewrite length_take, length_drop.
    unfold BLKSZ in *. lia. }
  unfold handle_W in Hw.
  destruct (negb (validate_cs st c s) || (l <? 0) || (BLKSZ <? l)) eqn:Erej.
  { injection Hw as <-. cbn [st']. destruct st. by apply Hread. }
  destruct ((0 <? l) && _) eqn:Eshort.
  { injection Hw as <-. cbn [st']. destruct st. by apply Hread. }
  destruct (validate_cs st c s) eqn:Ev; [|done].
  apply validate_cs_true in Ev as [Hc Hs].
  destruct (blk_ptr_valid st c s Hg Hc Hs) as (Hp & H0 & Hin).
  rewrite Hp in Hw. unfold store in Hw.
  destruct (_ <=? _) eqn:E in Hw; [|lia].
  injection Hw as <-. cbn [st' with_base with_head g_base g_cyl g_sec g_track_us].
  unfold BLKSZ in *.
  assert (Hbuf : length (take (Z.to_nat l) inp ++ zeros (Z.to_nat (128 - l))) = 128%nat).
  { rewrite length_app, length_take, zeros_length. lia. }
  apply Hread.
  - apply splice_length. lia.
  - apply splice_read_other; [lia|]. rewrite Hbuf.
    assert (c' * g_sec st + s' <> c * g_sec st + s).
    { intros Heq. apply Hne.
      assert (c' = c) by nia. subst. f_equal. lia. }
    lia.
Qed.

End DiskSafety.

(** ** The filesystem service: the stored form of entries and superblock *)

Module FSCodec.
Import Mach FS FSInv MachFacts FSDisk FSEntry FSFormat.
#[local] Abbreviation length := List.length (only parsing).

(** A directory entry whose name fills its 32 bytes and ends with a
    terminator, and whose length and first block are 32-bit values, packs
    into 64 bytes and is read back unchanged, whatever follows it in the
    sector. *)
Theorem dirent_roundtrip e rest :
  length (name e) = 32%nat -> name e !! 31%nat = Some x00 ->
  0 <= FS.length e < 2 ^ 32 -> 0 <= first e < 2 ^ 32 ->
  length (dirent_pack e) = 64%nat /\
  dirent_unpack (dirent_pack e ++ rest) = e.
Proof.
  intros Hn Hz Hl Hf. split; [apply dirent_pack_length; lia|].
  rewrite dirent_unpack_pack by lia.
  rewrite !Z.mod_small by lia. destruct e as [nm len fst u]. cbn in *.
  f_equal. rewrite <- (take_drop 31 nm) at 2. f_equal.
  apply list_eq. intros [|i].
  - rewrite lookup_drop. change (31 + 0)%nat with 31%nat. by rewrite Hz.
  - rewrite lookup_drop. simpl. symmetry. apply lookup_ge_None. lia.
Qed.

Lemma long_id z : - 2 ^ 63 <= z < 2 ^ 63 -> long (z mod 2 ^ 64) = z.
Proof.
  intros H. unfold long.
  destruct (decide (0 <= z)).
  - rewrite (Z.mod_small z) by lia. rewrite Z.mod_small by lia. lia.
  - replace (z mod 2 ^ 64) with (z + 2 ^ 64).
    + replace (z + 2 ^ 64 + 2 ^ 63) with (z + 2 ^ 63 + 1 * 2 ^ 64) by lia.
      rewrite Z.mod_add by lia. rewrite Z.mod_small by lia. lia.
    + symmetry. replace z with (z + 2 ^ 64 + (-1) * 2 ^ 64) at 1 by lia.
      rewrite Z.mod_add by lia. apply Z.mod_small. lia.
Qed.

(** The superblock survives packing. *)
Lemma super_roundtrip d l :
  - 2 ^ 63 <= cyl d < 2 ^ 63 -> - 2 ^ 63 <= sec d < 2 ^ 63 ->
  0 <= total_blocks l < 2 ^ 32 -> 0 <= fat_start l < 2 ^ 32 ->
  0 <= fat_sectors l < 2 ^ 32 -> 0 <= dir_start l < 2 ^ 32 ->
  0 <= dir_sectors l < 2 ^ 32 -> 0 <= dir_entries l < 2 ^ 32 ->
  length (super_pack d l) = 128%nat /\
  super_load (super_pack d l) = Some (cyl d, sec d, l).
Proof.
  intros Hc Hs H1 H2 H3 H4 H5 H6. split; [apply super_pack_length|].
  assert (E0 : take 5 (super_pack d l) = magic) by reflexivity.
  assert (E1 : take 8 (drop 16 (super_pack d l)) = le_enc 8 (cyl d)) by reflexivity.
  assert (E2 : take 8 (drop 24 (super_pack d l)) = le_enc 8 (sec d)) by reflexivity.
  assert (E3 : take 4 (drop 40 (super_pack d l)) = le_enc 4 (total_blocks l))
    by reflexivity.
  assert (E4 : take 4 (drop 44 (super_pack d l)) = le_enc 4 (fat_start l))
    by reflexivity.
  assert (E5 : take 4 (drop 48 (super_pack d l)) = le_enc 4 (fat_sectors l))
    by reflexivity.
  assert (E6 : take 4 (drop 52 (super_pack d l)) = le_enc 4 (dir_start l))
    by reflexivity.
  assert (E7 : take 4 (drop 56 (super_pack d l)) = le_enc 4 (dir_sectors l))
    by reflexivity.
  assert (E8 : take 4 (drop 60 (super_pack d l)) = le_enc 4 (dir_entries l))
    by reflexivity.
  unfold super_load. rewrite decide_True by exact E0.
  rewrite E1, E2, E3, E4, E5, E6, E7, E8.
  rewrite !le_dec_enc_u32 by lia.
  rewrite !le_dec_enc. change (256 ^ Z.of_nat 8) with (2 ^ 64).
  rewrite !long_id by lia. by destruct l.
Qed.

End FSCodec.

(** ** The filesystem service: sectors by index *)

Module FSSectors.
Import Mach FS FSInv MachFacts FSDisk.
#[local] Abbreviation length := List.length (only parsing).

(** [disk_write_idx] of a full block to a sector of the disk succeeds;
    [disk_read_idx] of that sector then returns the block, and of any
    other sector of the disk what it held before. *)
Theorem sector_write_read w idx blk :
  conn_ok w -> 0 <= idx < nblocks w -> length blk = 128%nat ->
  exists w1,
    disk_write_idx idx blk w = Ret (0, w1) /\ conn_ok w1 /\
    (exists w2, disk_read_idx idx w1 = Ret (Some blk, w2)) /\
    (forall j, 0 <= j < nblocks w -> j <> idx ->
       exists w3, disk_read_idx j w1 = Ret (Some (sector (img w) j), w3)).
Proof.
  intros Hc Hidx Hblk.
  destruct (geometry_facts w Hc) as (HC & HS & HS32 & Hlen & H64).
  assert (Hin : idx * 128 + 128 <= Z.of_nat (length (img w))) by lia.
  set (w1 := at_disk w (put_sector (img w) idx blk)
               (idx / Disk.g_sec (dsk w))).
  assert (Hc1 : conn_ok w1).
  { apply conn_ok_at_disk; [done|]. apply put_sector_length; (lia || done). }
  exists w1. split; [by apply disk_write_idx_ok|]. split; [done|]. split.
  - eexists. rewrite (disk_read_idx_ok w1 Hc1 idx) by done.
    change (img w1) with (put_sector (img w) idx blk).
    rewrite sector_put_same by (lia || done). reflexivity.
  - intros j Hj Hne. eexists. rewrite (disk_read_idx_ok w1 Hc1 j) by done.
    change (img w1) with (put_sector (img w) idx blk).
    rewrite sector_put_other by (lia || done). reflexivity.
Qed.


End FSSectors.

(** ** The filesystem service: free blocks *)

Module FSSpace.
Import Mach FS FSInv MachFacts FSDisk FSFat FSChain FSAlloc.
#[local] Abbreviation length := List.length (only parsing).

(** [find_free_block] is a first fit: it returns the least block at or
    above [start] whose FAT entry is FREE, and none exactly when no block
    from [start] to the end of the disk is FREE. *)
Theorem find_free_block_first_fit l a start :
  0 <= start -> total_blocks l <= Z.of_nat (length a) ->
  (exists b, find_free_block l a start = Ret (Some b) /\
             start <= b < total_blocks l /\ a !! Z.to_nat b = Some FAT_FREE /\
             forall j, start <= j < b -> a !! Z.to_nat j <> Some FAT_FREE)
  \/
  (find_free_block l a start = Ret None /\
   forall j, start <= j < total_blocks l -> a !! Z.to_nat j <> Some FAT_FREE).
Proof.
  intros H0 Hlen. unfold find_free_block.
  destruct (decide (start <= total_blocks l)) as [Hle|Hgt]; cycle 1.
  { right. replace (Z.to_nat (total_blocks l - start)) with O by lia.
    split; [reflexivity|]. intros j Hj. lia. }
  destruct (find_free_block_loop_spec (Z.to_nat (total_blocks l - start)) start a)
    as [(b & Hb & Hr & Hfree & Hmin)|[Hnone Hall]]; [lia|lia| |].
  - left. exists b. split; [done|]. split; [lia|]. done.
  - right. split; [done|]. intros j Hj. apply Hall. lia.
Qed.

(** Blocks of a chain in the data area are not FREE. *)
Lemma chain_not_free l a b bs y :
  chain a b bs -> 0 < data_start l -> Forall (fun y => data_start l <= y) bs ->
  y ∈ bs -> exists x, a !! Z.to_nat y = Some x /\ x <> FAT_FREE.
Proof.
  intros Hch Hds. induction Hch as [|b nxt bs H0 Hne Hb Hch IH]; intros Hin Hy.
  - by apply elem_of_nil in Hy.
  - apply Forall_cons in Hin as [Hb1 Hin].
    apply elem_of_cons in Hy as [->|Hy]; [|by apply IH].
    exists nxt. split; [done|]. inversion Hch; subst; [done|].
    apply Forall_cons in Hin as [Hn _]. unfold FAT_FREE. lia.
Qed.

Lemma free_all_reclaims l bs : forall a b,
  chain a b bs -> 0 < data_start l -> Forall (fun y => data_start l <= y) bs ->
  free_count l (free_all bs a) = free_count l a + Z.of_nat (length bs).
Proof.
  induction bs as [|y bs IH]; intros a b Hch Hds Hin.
  - simpl. unfold free_all. simpl. lia.
  - pose proof (chain_NoDup _ _ _ Hch) as Hnd. apply NoDup_cons in Hnd as [Hy Hnd].
    destruct (chain_not_free l a b (y :: bs) y Hch Hds Hin) as (x & Hx & Hxf);
      [by left|].
    inversion Hch; subst. apply Forall_cons in Hin as [Hy1 Hin].
    change (free_all (y :: bs) a) with (free_all bs (<[Z.to_nat y := FAT_FREE]> a)).
    rewrite (IH (<[Z.to_nat y := FAT_FREE]> a) nxt); [| |done|done].
    + pose proof (free_count_insert l a y x FAT_FREE Hy1 ltac:(lia) Hx) as Hc.
      rewrite decide_False in Hc by done. rewrite decide_True in Hc by done.
      cbn [length]. lia.
    + apply chain_insert_other; [done|done|lia].
Qed.

(** [free_chain] on a chain of data blocks sets the FAT entry of each of
    its blocks to FREE, keeps the size of the FAT, and raises the number of
    FREE data blocks by the length of the chain. *)
Theorem free_chain_reclaims l a b bs fuel :
  chain a b bs -> (length bs <= fuel)%nat ->
  0 < data_start l -> Forall (fun y => data_start l <= y) bs ->
  free_chain fuel a b = Ret (free_all bs a) /\
  length (free_all bs a) = length a /\
  (forall y, y ∈ bs -> free_all bs a !! Z.to_nat y = Some FAT_FREE) /\
  free_count l (free_all bs a) = free_count l a + Z.of_nat (length bs).
Proof.
  intros Hch Hfuel Hds Hin. split; [by apply free_chain_ok|].
  split; [apply free_all_length|]. split.
  - intros y Hy. apply free_all_member; [done|].
    by eapply chain_bounds_Forall.
  - by eapply free_all_reclaims.
Qed.

End FSSpace.

(** ** The filesystem service: names, creation and listing *)

Module FSNames.
Import Mach FS FSInv MachFacts FSDisk FSDir FSFat FSEntry FSCreate FSChain FSDelete
  FSFile FSWrite.
#[local] Abbreviation length := List.length (only parsing).

(** For a name that no used directory entry carries, [D] answers 1, [R]
    answers [1 0] and [W] answers 1 after it has consumed the announced
    payload; none of them changes the disk image. *)
Theorem missing_name w nm fuel uninit data unread :
  fs_ok w -> ~ has_entry w nm ->
  (exists w', cmd_delete fuel nm w = Ret (r1, w') /\ img w' = img w) /\
  (exists w', cmd_read fuel uninit nm w = Ret (r1_0, w') /\ img w' = img w) /\
  (exists w', cmd_write fuel nm (Z.of_nat (length data)) (data ++ unread) w
              = Ret (mkWres 0 r1 unread, w') /\ img w' = img w).
Proof.
  intros [Hc Hl Hca Hf] Hno.
  destruct (fat_load_ok w Hc (layout_fat_region w Hl) Hca) as (hd1 & Hload & Hlen).
  set (w1 := upd w (img w) hd1 (fat_of w)) in *.
  destruct (find_none w1 nm) as (hd2 & Hfind).
  { by apply conn_ok_upd. }
  { by apply layout_ok_upd. }
  { intros j Hj Hn. apply Hno. exists j. split; [exact Hj|exact Hn]. }
  split; [|split].
  - eexists. split.
    + unfold cmd_delete. rewrite bind_get, Hf. cbn [negb].
      rewrite (bind_ok _ _ _ _ _ Hload). change (0 <? 0) with false. cbv iota.
      rewrite (bind_ok _ _ _ _ _ Hfind). reflexivity.
    + reflexivity.
  - eexists. split.
    + unfold cmd_read. rewrite bind_get, Hf. cbn [negb].
      rewrite (bind_ok _ _ _ _ _ Hload). change (0 <? 0) with false. cbv iota.
      rewrite (bind_ok _ _ _ _ _ Hfind). reflexivity.
    + reflexivity.
  - eexists. split.
    + unfold cmd_write. rewrite length_app.
      destruct ((0 <? _) && _) eqn:E; [lia|].
      rewrite Nat2Z.id, take_app_length, drop_app_length.
      rewrite bind_get, Hf. cbn [negb].
      rewrite (bind_ok _ _ _ _ _ Hload). change (0 <? 0) with false. cbv iota.
      rewrite (bind_ok _ _ _ _ _ Hfind). reflexivity.
    + reflexivity.
Qed.


Lemma scan_free_first m l n : forall i slot,
  i <= slot < i + Z.of_nat n ->
  used (entry_at m l slot) = x00 ->
  (forall j, i <= j < slot -> used (entry_at m l j) <> x00) ->
  scan_free m l n i = Some slot.
Proof.
  induction n as [|n IH]; intros i slot Hr Hu Hmin; [lia|].
  cbn [scan_free]. destruct (decide (i = slot)) as [->|Hne].
  - by rewrite bool_decide_eq_true_2.
  - rewrite bool_decide_eq_false_2 by (apply Hmin; lia).
    apply IH; [lia|done|]. intros j Hj. apply Hmin. lia.
Qed.

Lemma scan_free_none m l n : forall i,
  (forall j, i <= j < i + Z.of_nat n -> used (entry_at m l j) <> x00) ->
  scan_free m l n i = None.
Proof.
  induction n as [|n IH]; intros i Hall; [done|].
  cbn [scan_free]. rewrite bool_decide_eq_false_2 by (apply Hall; lia).
  apply IH. intros j Hj. apply Hall. lia.
Qed.

(** [cmd_create] for a valid name, by the outcome of the two scans. *)
Lemma cmd_create_scan w nm :
  fs_ok w -> 1 <= strlen nm < 32 ->
  exists hd,
    cmd_create nm w
    = Ret (match scan_name (img w) (L (G w)) nm
                   (Z.to_nat (dir_entries (L (G w)))) 0 with
           | Found _ _ => (r1, upd w (img w) hd (fat_of w))
           | _ =>
             match scan_free (img w) (L (G w))
                     (Z.to_nat (dir_entries (L (G w)))) 0 with
             | Some slot =>
               (r0, upd w (put_entry (img w) (L (G w)) slot (new_entry nm))
                      ((dir_start (L (G w)) + slot / 2) / Disk.g_sec (dsk w))
                      (fat_of w))
             | None => (r2, upd w (img w) hd (fat_of w))
             end
           end).
Proof.
  intros [Hc Hl Hca Hf] Hnm.
  destruct (fat_load_ok w Hc (layout_fat_region w Hl) Hca) as (hd1 & Hload & Hlen).
  set (w1 := upd w (img w) hd1 (fat_of w)).
  assert (Hc1 : conn_ok w1) by (by apply conn_ok_upd).
  assert (Hl1 : layout_ok w1) by (by apply layout_ok_upd).
  destruct (dir_find_by_name_scan nm w1 Hc1 Hl1) as (hd2 & Hfind).
  change (img w1) with (img w) in Hfind.
  change (L (G w1)) with (L (G w)) in Hfind.
  set (w2 := at_disk w1 (img w) hd2) in *.
  assert (Hc2 : conn_ok w2) by (by apply conn_ok_at_disk).
  assert (Hl2 : layout_ok w2) by (by apply layout_ok_at_disk).
  destruct (dir_find_free_scan w2 Hc2 Hl2) as (hd3 & Hfree).
  change (img w2) with (img w) in Hfree.
  change (L (G w2)) with (L (G w)) in Hfree.
  unfold cmd_create, MAX_NAME.
  destruct (_ || _) eqn:E; [lia|].
  rewrite bind_get, Hf. cbn [negb].
  rewrite (bind_ok _ _ _ _ _ Hload). change (0 <? 0) with false. cbv iota.
  rewrite (bind_ok _ _ _ _ _ Hfind).
  destruct (scan_name _ _ _ _ _) as [slot e| |] eqn:Es.
  - exists hd2. reflexivity.
  - rewrite (bind_ok _ _ _ _ _ Hfree).
    destruct (scan_free _ _ _ _) as [slot|] eqn:Ef.
    + destruct (scan_free_some _ _ _ _ _ Ef) as [Hr _].
      assert (Hr' : 0 <= slot < dir_entries (L (G w))) by (destruct Hl; lia).
      set (w3 := at_disk w2 (img w) hd3).
      assert (Hc3 : conn_ok w3) by (by apply conn_ok_at_disk).
      assert (Hl3 : layout_ok w3) by (by apply layout_ok_at_disk).
      rewrite (bind_ok _ _ _ _ _
                 (dir_write_entry_ok w3 Hc3 Hl3 slot (new_entry nm) Hr'
                    (new_entry_pack_length nm))).
      exists 0. reflexivity.
    + exists hd3. reflexivity.
  - by destruct (scan_name_no_error _ _ _ _ _ Es).
Qed.

(** A valid name that no entry carries goes to the first unused slot. *)
Lemma create_run w nm slot :
  fs_ok w -> 1 <= strlen nm < 32 -> ~ has_entry w nm ->
  0 <= slot < dir_entries (L (G w)) ->
  used (entry_at (img w) (L (G w)) slot) = x00 ->
  (forall j, 0 <= j < slot -> used (entry_at (img w) (L (G w)) j) <> x00) ->
  exists w',
    cmd_create nm w = Ret (r0, w') /\
    fs_ok w' /\ L (G w') = L (G w) /\
    loaded (fat (G w')) = true /\ v (fat (G w')) = fat_of w /\
    only_named w' nm slot /\
    FS.length (entry_at (img w') (L (G w')) slot) = 0 /\
    first (entry_at (img w') (L (G w')) slot) = FAT_EOF /\
    (forall j, 0 <= j < dir_entries (L (G w)) -> j <> slot ->
       entry_at (img w') (L (G w')) j = entry_at (img w) (L (G w)) j) /\
    (forall j, 0 <= j -> j <> dir_start (L (G w)) + slot / 2 ->
       sector (img w') j = sector (img w) j).
Proof.
  intros Hok Hnm Hno Hslot Hfree Hmin.
  pose proof Hok as [Hc Hl Hca Hf].
  destruct (fat_load_ok w Hc (layout_fat_region w Hl) Hca) as (_ & _ & Hlen).
  destruct (geometry_facts w Hc) as (_ & _ & _ & Hgl & _).
  destruct (dir_sector_range w Hl slot Hslot) as (Hsec & Hsec' & _).
  destruct (cmd_create_scan w nm Hok Hnm) as (hd & Hrun).
  rewrite scan_name_none in Hrun; cycle 1.
  { intros j Hj Hn. apply Hno. exists j. split; [lia|done]. }
  rewrite (scan_free_first _ _ _ 0 slot) in Hrun by (lia || done).
  set (l := L (G w)) in *. set (m := img w) in *. set (a := fat_of w) in *.
  set (m' := put_entry m l slot (new_entry nm)) in *.
  set (hd' := (dir_start l + slot / 2) / Disk.g_sec (dsk w)) in *.
  set (w' := upd w m' hd' a) in *.
  assert (Hds0 : 0 <= dir_start l) by (destruct Hl; unfold l; lia).
  assert (Hin : (dir_start l + slot / 2) * 128 + 128 <= Z.of_nat (length m)) by lia.
  assert (Hm' : length m' = length m).
  { unfold m'. rewrite put_entry_length;
      [done|lia|done|done|apply new_entry_pack_length]. }
  assert (Hok' : fs_ok w') by (by apply fs_ok_upd).
  assert (He' : exists r, entry_at m' l slot
                          = dirent_unpack (dirent_pack (new_entry nm) ++ r)).
  { apply entry_at_put_same; [lia|done|done|apply new_entry_pack_length]. }
  destruct He' as [r He'].
  assert (Hnl : (32 <= length (name (new_entry nm)))%nat).
  { unfold new_entry. cbn [name]. rewrite length_app, strncpy_length. simpl. lia. }
  assert (Hother : forall j, 0 <= j < dir_entries l -> j <> slot ->
                     entry_at m' l j = entry_at m l j).
  { intros j Hj Hne. unfold m'.
    apply entry_at_put_other; [lia|done|done|apply new_entry_pack_length|lia|done]. }
  assert (Honly : only_named w' nm slot).
  { split; [done|]. change (img w') with m'. change (L (G w')) with l. split.
    - rewrite He'. apply new_entry_names. lia.
    - intros j Hj Hne. rewrite Hother by done. intros Hn. apply Hno.
      exists j. split; [done|done]. }
  exists w'. split; [exact Hrun|]. split; [exact Hok'|]. split; [done|].
  split; [done|]. split; [done|]. split; [exact Honly|].
  change (img w') with m'. change (L (G w')) with l.
  split; [|split; [|split; [exact Hother|]]].
  - rewrite He', dirent_unpack_pack by done. reflexivity.
  - rewrite He', dirent_unpack_pack by done. reflexivity.
  - intros j Hj Hne. unfold m', put_entry.
    assert (Hq : 0 <= slot / 2) by (apply Z.div_pos; lia).
    apply sector_put_other; [lia|done| |done|done].
    apply new_sector_length; [lia|done|done|apply new_entry_pack_length].
Qed.

(** [C] of a valid name that is not in the directory answers 0 and takes
    the first unused slot: afterwards that slot is the only one with the
    name, the FAT, the other entries and all sectors but the one of the
    slot are as before, and [R] of the name answers the empty file,
    [0 0 ]. *)
Theorem create_new w nm slot fuel uninit :
  fs_ok w -> 1 <= strlen nm < 32 -> ~ has_entry w nm ->
  0 <= slot < dir_entries (L (G w)) ->
  used (entry_at (img w) (L (G w)) slot) = x00 ->
  (forall j, 0 <= j < slot -> used (entry_at (img w) (L (G w)) j) <> x00) ->
  exists w' w'',
    cmd_create nm w = Ret (r0, w') /\
    only_named w' nm slot /\
    v (fat (G w')) = fat_of w /\
    (forall j, 0 <= j < dir_entries (L (G w)) -> j <> slot ->
       entry_at (img w') (L (G w')) j = entry_at (img w) (L (G w)) j) /\
    (forall j, 0 <= j -> j <> dir_start (L (G w)) + slot / 2 ->
       sector (img w') j = sector (img w) j) /\
    cmd_read fuel uninit nm w' = Ret ([x30; x20; x30; x20; x0a], w'').
Proof.
  intros Hok Hnm Hno Hslot Hfree Hmin.
  destruct (create_run w nm slot Hok Hnm Hno Hslot Hfree Hmin)
    as (w' & Hrun & Hok' & HL & Hld & Hv & Honly & Hlen & Hfst & Hother & Hsect).
  pose proof Hok' as [Hc' Hl' Hca' Hf'].
  destruct (fat_load_ok w' Hc' (layout_fat_region w' Hl') Hca')
    as (hd1 & Hload & _).
  set (w1 := upd w' (img w') hd1 (fat_of w')) in *.
  destruct (find_first_named w1 nm slot) as (hd2 & Hfind).
  { by apply conn_ok_upd. }
  { by apply layout_ok_upd. }
  { by apply only_named_first. }
  change (entry_at (img w1) (L (G w1)) slot)
    with (entry_at (img w') (L (G w')) slot) in Hfind.
  eexists w', _. split; [exact Hrun|]. split; [exact Honly|].
  split; [exact Hv|]. split; [exact Hother|]. split; [exact Hsect|].
  unfold cmd_read. rewrite bind_get, Hf'. cbn [negb].
  rewrite (bind_ok _ _ _ _ _ Hload). change (0 <? 0) with false. cbv iota.
  rewrite (bind_ok _ _ _ _ _ Hfind).
  unfold read_whole_file. rewrite Hlen, Hfst.
  rewrite read_loop_done by lia. rewrite bind_mret. reflexivity.
Qed.

(** When every directory slot is in use, [C] of a valid new name answers
    2 and leaves the disk image as it was. *)
Theorem create_directory_full w nm :
  fs_ok w -> 1 <= strlen nm < 32 -> ~ has_entry w nm ->
  (forall j, 0 <= j < dir_entries (L (G w)) ->
             used (entry_at (img w) (L (G w)) j) <> x00) ->
  exists w', cmd_create nm w = Ret (r2, w') /\ img w' = img w.
Proof.
  intros Hok Hnm Hno Hfull.
  pose proof Hok as [Hc Hl Hca Hf].
  destruct (cmd_create_scan w nm Hok Hnm) as (hd & Hrun).
  rewrite scan_name_none in Hrun; cycle 1.
  { intros j Hj Hn. apply Hno. exists j. split; [lia|done]. }
  rewrite scan_free_none in Hrun; cycle 1.
  { intros j Hj. apply Hfull. destruct Hl. lia. }
  eexists. split; [exact Hrun|]. reflexivity.
Qed.

Lemma cmd_list_loop_run brief n : forall i acc w,
  conn_ok w -> layout_ok w ->
  (i + n <= Z.to_nat (dir_entries (L (G w))))%nat ->
  exists hd,
    cmd_list_loop n (Z.of_nat i) brief acc w
    = Ret (Some (acc ++ flat_map
                   (fun i => list_line brief
                               (entry_at (img w) (L (G w)) (Z.of_nat i)))
                   (seq i n)),
           at_disk w (img w) hd).
Proof.
  induction n as [|n IH]; intros i acc w Hc Hl Hn.
  - exists (Disk.g_head_cyl (dsk w)). cbn [cmd_list_loop seq flat_map].
    rewrite app_nil_r, at_disk_id. reflexivity.
  - cbn [cmd_list_loop seq flat_map].
    rewrite (bind_ok _ _ _ _ _ (dir_read_entry_ok w Hc Hl (Z.of_nat i) ltac:(lia))).
    set (e := entry_at (img w) (L (G w)) (Z.of_nat i)).
    set (w1 := at_disk w (img w) _).
    assert (Hc1 : conn_ok w1) by (by apply conn_ok_at_disk).
    assert (Hl1 : layout_ok w1) by (by apply layout_ok_at_disk).
    replace (Z.of_nat i + 1) with (Z.of_nat (S i)) by lia.
    unfold list_line at 1. fold e.
    destruct (bool_decide (used e = x00)) eqn:Eu.
    + destruct (IH (S i) acc w1 Hc1 Hl1) as (hd & Hrun).
      { change (L (G w1)) with (L (G w)). lia. }
      exists hd. rewrite Hrun. reflexivity.
    + destruct (IH (S i)
                  (acc ++ (if brief then cstr (name e) ++ [x0a]
                           else cstr (name e) ++ [x20] ++ fmt_u (FS.length e)
                                  ++ [x0a]))
                  w1 Hc1 Hl1) as (hd & Hrun).
      { change (L (G w1)) with (L (G w)). lia. }
      exists hd. rewrite Hrun.
      change (img w1) with (img w). change (L (G w1)) with (L (G w)).
      change (at_disk w1 (img w) hd) with (at_disk w (img w) hd).
      by rewrite <- app_assoc.
Qed.

(** On a formatted filesystem [L] sends one line for each used
    directory entry, in slot order (the name, followed by the length
    unless the listing is brief), and changes neither the image nor the
    server's tables; with no used entry it sends nothing. *)
Theorem list_names w brief :
  fs_ok w ->
  exists w',
    cmd_list brief w = Ret (Some (listing brief (img w) (L (G w))), w') /\
    img w' = img w /\ G w' = G w /\
    ((forall slot, 0 <= slot < dir_entries (L (G w)) ->
        used (entry_at (img w) (L (G w)) slot) = x00) ->
     listing brief (img w) (L (G w)) = []).
Proof.
  intros [Hc Hl Hca Hf].
  destruct (cmd_list_loop_run brief (Z.to_nat (dir_entries (L (G w)))) 0 [] w
              Hc Hl ltac:(lia)) as (hd & Hrun).
  exists (at_disk w (img w) hd). split; [|split; [done|split; [done|]]].
  - unfold cmd_list. rewrite bind_get, Hf. cbn [negb]. exact Hrun.
  - intros Hnone. unfold listing.
    assert (Hall : forall n i, (i + n <= Z.to_nat (dir_entries (L (G w))))%nat ->
              flat_map (fun i => list_line brief
                                   (entry_at (img w) (L (G w)) (Z.of_nat i)))
                (seq i n) = []).
    { induction n as [|n IH]; intros i Hi; [done|].
      cbn [seq flat_map]. rewrite IH by lia. unfold list_line.
      rewrite bool_decide_eq_true_2 by (apply Hnone; lia). done. }
    apply Hall. lia.
Qed.

End FSNames.

(** ** The filesystem service: a freshly formatted disk *)

Module FSFresh.
Import Mach FS FSInv MachFacts FSDisk FSDir FSFat FSEntry FSDelete FSFormat FSAlloc
  FSFatStore.
#[local] Abbreviation length := List.length (only parsing).

(** What the reservation loop of [format_fs] leaves in the cache. *)
Lemma reserve_loop_spec meta_end n : forall i a,
  0 <= i -> i + Z.of_nat n <= Z.of_nat (length a) ->
  exists a',
    reserve_loop n i meta_end a = Ret a' /\ length a' = length a /\
    forall j, 0 <= j ->
      a' !! Z.to_nat j
      = if decide (i <= j < i + Z.of_nat n /\ j <= meta_end)
        then Some FAT_RESERVED else a !! Z.to_nat j.
Proof.
  induction n as [|n IH]; intros i a Hi Hn; cbn [reserve_loop].
  - exists a. split; [done|]. split; [done|]. intros j Hj.
    rewrite decide_False by lia. done.
  - destruct (i <=? meta_end) eqn:E.
    + rewrite aset_ok by lia.
      destruct (IH (i + 1) (<[Z.to_nat i := FAT_RESERVED]> a))
        as (a' & Hr & Hl & Hspec).
      { lia. }
      { rewrite length_insert. lia. }
      exists a'. split; [done|]. split; [by rewrite Hl, length_insert|].
      intros j Hj. rewrite Hspec by done.
      destruct (decide (j = i)) as [->|Hne].
      * rewrite decide_False by lia. rewrite decide_True by lia.
        apply list_lookup_insert_eq. lia.
      * rewrite list_lookup_insert_ne by lia.
        destruct (decide (i + 1 <= j < _ /\ _)); destruct (decide (i <= j < _ /\ _));
          (done || lia).
    + exists a. split; [done|]. split; [done|]. intros j Hj.
      rewrite decide_False by lia. done.
Qed.


Lemma le_dec_zeros n : le_dec (zeros n) = 0.
Proof. induction n as [|n IH]; [done|]. cbn [zeros replicate le_dec]. fold (zeros n). rewrite IH. reflexivity. Qed.

Lemma fat_entry_zero m l j :
  sector m (fat_start l + j / 32) = zeros 128 -> fat_entry_on_disk m l j = 0.
Proof.
  intros H. unfold fat_entry_on_disk. rewrite H. unfold zeros.
  rewrite drop_replicate, take_replicate. apply le_dec_zeros.
Qed.

Lemma entry_unused m l slot :
  0 <= slot -> sector m (dir_start l + slot / 2) = zeros 128 ->
  used (entry_at m l slot) = x00.
Proof.
  intros H0 H. unfold entry_at. rewrite H.
  assert (Hm : 0 <= slot mod 2 < 2) by (apply Z.mod_pos_bound; lia).
  assert (Hc : slot mod 2 = 0 \/ slot mod 2 = 1) by lia.
  destruct Hc as [-> | ->]; reflexivity.
Qed.

(** The FAT of a fresh filesystem has its free blocks in the data area. *)
Lemma fresh_fat_count l a N :
  0 <= data_start l <= N -> Z.of_nat (length a) = N ->
  (forall j, 0 <= j < N ->
     a !! Z.to_nat j
     = Some (if decide (j < data_start l) then FAT_RESERVED else FAT_FREE)) ->
  free_count l a = N - data_start l.
Proof.
  intros Hds Hlen Hspec.
  assert (Ha : a = replicate (Z.to_nat (data_start l)) FAT_RESERVED
                   ++ replicate (Z.to_nat (N - data_start l)) FAT_FREE).
  { apply list_eq. intros i.
    destruct (decide (Z.of_nat i < N)) as [Hi|Hi].
    - pose proof (Hspec (Z.of_nat i) ltac:(lia)) as Hs. rewrite Nat2Z.id in Hs.
      rewrite Hs. symmetry. destruct (decide (Z.of_nat i < data_start l)).
      + rewrite lookup_app_l by (rewrite length_replicate; lia).
        apply lookup_replicate_2. lia.
      + rewrite lookup_app_r by (rewrite length_replicate; lia).
        apply lookup_replicate_2. rewrite length_replicate. lia.
    - rewrite !lookup_ge_None_2; [done| |lia].
      rewrite length_app, !length_replicate. lia. }
  unfold free_count. rewrite Ha.
  rewrite drop_app_length' by (by rewrite length_replicate).
  rewrite nfree_replicate. lia.
Qed.


(** [F] on a disk that has room for the metadata, step by step. *)
Lemma format_run w :
  conn_ok w -> 4 * nblocks w + 127 < 2 ^ 32 ->
  dir_start (compute_layout (conn w)) + dir_sectors (compute_layout (conn w))
    <= nblocks w ->
  exists w',
    cmd_format w = Ret (r0, w') /\
    fs_ok w' /\ L (G w') = compute_layout (conn w) /\
    loaded (fat (G w')) = true /\
    sector (img w') 0 = super_pack (conn w) (compute_layout (conn w)) /\
    (forall slot, 0 <= slot < dir_entries (L (G w')) ->
       used (entry_at (img w') (L (G w')) slot) = x00) /\
    (forall j, 0 <= j < nblocks w ->
       v (fat (G w')) !! Z.to_nat j
       = Some (if decide (j < data_start (L (G w')))
               then FAT_RESERVED else FAT_FREE)) /\
    (forall j, 0 <= j < nblocks w ->
       fat_entry_on_disk (img w') (L (G w')) j
       = if decide (j < data_start (L (G w'))) then FAT_RESERVED else FAT_FREE) /\
    free_count (L (G w')) (v (fat (G w'))) = nblocks w - data_start (L (G w')) /\
    (forall j, data_start (L (G w')) <= j -> sector (img w') j = sector (img w) j).
Proof.
  intros Hc H32 Hfit.
  destruct (geometry_facts w Hc) as (HC & HS & HS32 & Hgl & H64).
  assert (HN : 0 < nblocks w) by (unfold nblocks; nia).
  assert (Hlay : compute_layout (conn w)
                 = mkLayout (nblocks w) 1 ((4 * nblocks w + 127) / 128)
                     (1 + (4 * nblocks w + 127) / 128) 32 64).
  { destruct (conn w) as [c s p] eqn:Econn.
    pose proof (ok_cyl _ Hc) as Hcy. pose proof (ok_sec _ Hc) as Hse.
    rewrite Econn in Hcy, Hse. simpl in Hcy, Hse. subst c s.
    apply FSBasics.compute_layout_exact; [done|done|]. fold (nblocks w). lia. }
  rewrite Hlay in *. cbn [dir_start dir_sectors] in Hfit.
  set (N := nblocks w) in *. set (fs := (4 * N + 127) / 128) in *.
  set (l := mkLayout N 1 fs (1 + fs) 32 64) in *.
  assert (Hfs : 1 <= fs /\ N <= 32 * fs /\ fs < 2 ^ 25).
  { pose proof (Z.div_mod (4 * N + 127) 128 ltac:(lia)) as Hd.
    pose proof (Z.mod_pos_bound (4 * N + 127) 128 ltac:(lia)) as Hm.
    fold fs in Hd. lia. }
  assert (Hds : data_start l = 1 + fs + 32).
  { unfold data_start, u32. cbn [dir_start dir_sectors l]. apply Z.mod_small. lia. }
  set (wA := mkWorld (dsk w) (conn w) (mkG l fat_init (formatted (G w)))).
  assert (HcA : conn_ok wA) by (destruct Hc; by split).
  (* superblock *)
  set (sp := super_pack (conn w) l).
  set (m1 := put_sector (img w) 0 sp).
  assert (Hm1 : length m1 = length (img w)).
  { apply put_sector_length; [lia|lia|apply super_pack_length]. }
  pose proof (disk_write_idx_ok wA HcA 0 sp
                ltac:(change (nblocks wA) with N; lia) (super_pack_length _ _))
    as Hsuper.
  set (w2 := at_disk wA m1 (0 / Disk.g_sec (dsk wA))).
  change (disk_write_idx 0 sp wA = Ret (0, w2)) in Hsuper.
  assert (Hc2 : conn_ok w2) by (by apply conn_ok_at_disk).
  (* FAT sectors zeroed *)
  destruct (write_run_spec (zeros 128) 1 (Z.to_nat fs) 0 w2 Hc2)
    as (m3 & hd3 & Hrun3 & Hm3 & Hin3 & Hout3); [done|lia| |lia|].
  { change (nblocks w2) with N. lia. }
  change (img w2) with m1 in Hm3, Hout3.
  set (w3 := at_disk w2 m3 hd3) in *.
  assert (Hc3 : conn_ok w3) by (apply conn_ok_at_disk; [done|exact Hm3]).
  assert (Hr3 : fat_region_ok w3).
  { split; cbn; change (nblocks w3) with N; lia. }
  (* load *)
  destruct (fat_load_spec w3 Hc3 Hr3 eq_refl) as (a & hd4 & Hload & Hla & Ha).
  change (img w3) with m3 in Hload, Ha. change (L (G w3)) with l in Hla, Ha.
  change (total_blocks l) with N in Hla, Ha. change (fat_sectors l) with fs in Ha.
  assert (Ha0 : forall j, 0 <= j < N -> a !! Z.to_nat j = Some 0).
  { intros j Hj. rewrite Ha by done. rewrite decide_True by lia. f_equal.
    apply fat_entry_zero. change (fat_start l) with 1.
    pose proof (Z.div_mod j 32 ltac:(lia)) as Hd.
    pose proof (Z.mod_pos_bound j 32 ltac:(lia)) as Hm.
    apply Hin3. lia. }
  (* reserve *)
  destruct (reserve_loop_spec (u32 (1 + fs + 32 - 1)) (Z.to_nat N) 0 a)
    as (a' & Hres & Hla' & Ha'); [lia|lia|].
  assert (Hme : u32 (1 + fs + 32 - 1) = fs + 32).
  { unfold u32. rewrite Z.mod_small by lia. lia. }
  rewrite Hme in Ha'.
  assert (Hfat : forall j, 0 <= j < N ->
            a' !! Z.to_nat j
            = Some (if decide (j < data_start l) then FAT_RESERVED else FAT_FREE)).
  { intros j Hj. rewrite Ha' by lia. rewrite Hds.
    destruct (decide (j < 1 + fs + 32)).
    - rewrite decide_True by lia. done.
    - rewrite decide_False by lia. by apply Ha0. }
  (* flush *)
  set (wF := upd w3 m3 hd4 a').
  assert (HcF : conn_ok wF) by (by apply conn_ok_upd).
  assert (HrF : fat_region_ok wF).
  { split; cbn; change (nblocks wF) with N; lia. }
  destruct (fat_flush_loop_spec a' (Z.to_nat fs) 0 0 wF HcF HrF)
    as (m5 & hd5 & Hflush & Hm5 & Hout5 & Hin5).
  { lia. }
  { change (fat_sectors (L (G wF))) with fs. lia. }
  { change (total_blocks (L (G wF))) with N. lia. }
  { change (total_blocks (L (G wF))) with N. lia. }
  change (L (G wF)) with l in Hflush, Hout5, Hin5.
  change (img wF) with m3 in Hm5, Hout5.
  change (total_blocks l) with N in Hin5. change (fat_start l) with 1 in Hout5.
  set (w5 := at_disk wF m5 hd5) in *.
  assert (Hc5 : conn_ok w5) by (apply conn_ok_at_disk; [done|exact Hm5]).
  (* directory sectors zeroed *)
  destruct (write_run_spec (zeros 128) (1 + fs) 32 0 w5 Hc5)
    as (m6 & hd6 & Hrun6 & Hm6 & Hin6 & Hout6); [done|lia| |lia|].
  { change (nblocks w5) with N. lia. }
  change (img w5) with m5 in Hm6, Hout6.
  set (w6 := at_disk w5 m6 hd6) in *.
  set (w' := set_formatted w6 true).
  assert (Hfmt : format_fs wA = Ret (0, w6)).
  { unfold format_fs. rewrite bind_get. change (conn wA) with (conn w).
    rewrite Hlay. fold l. rewrite bind_modify.
    change (set_L wA l) with wA. unfold super_sector. fold sp.
    rewrite (bind_ok _ _ _ _ _ Hsuper). change (0 <? 0) with false. cbv iota.
    change (fat_sectors l) with fs. change (fat_start l) with 1.
    change (dir_sectors l) with 32. change (dir_start l) with (1 + fs).
    change (total_blocks l) with N.
    rewrite (bind_ok _ _ _ _ _ Hrun3). change (0 <? 0) with false. cbv iota.
    rewrite (bind_ok _ _ _ _ _ Hload). change (0 <? 0) with false. cbv iota.
    rewrite bind_get.
    change (v (fat (G (upd w3 m3 hd4 a)))) with a.
    rewrite (bind_lift _ _ _ _ Hres), bind_modify.
    change (set_v (upd w3 m3 hd4 a) a') with wF.
    assert (Hfl : fat_flush wF = Ret (0, w5)).
    { unfold fat_flush. rewrite bind_get. exact Hflush. }
    rewrite (bind_ok _ _ _ _ _ Hfl). change (0 <? 0) with false. cbv iota.
    change (Z.to_nat 32) with 32%nat.
    rewrite (bind_ok _ _ _ _ _ Hrun6). reflexivity. }
  assert (Hlen6 : length m6 = length (img w)) by congruence.
  exists w'. split; [|split; [|split; [done|split; [done|]]]].
  - unfold cmd_format. rewrite bind_get, !bind_modify.
    rewrite Hlay. fold l.
    change (set_fat (set_L w l) fat_init) with wA.
    rewrite (bind_ok _ _ _ _ _ Hfmt). reflexivity.
  - split.
    + destruct Hc as [[g1 [g2 [g3 g4]]] c1 c2 c3 c4].
      apply mkConnOk; [|exact c1|exact c2|exact c3|exact c4].
      split; [exact g1|]. split; [exact g2|]. split; [|exact g4].
      change (Disk.g_base (dsk w')) with m6. rewrite Hlen6. exact g3.
    + split; cbn; change (nblocks w') with N; lia.
    + intros _. change (v (fat (G w'))) with a'.
      change (total_blocks (L (G w'))) with N. lia.
    + reflexivity.
  - change (img w') with m6. change (L (G w')) with l.
    change (v (fat (G w'))) with a'. change (dir_entries l) with 64.
    split; [|split; [|split; [exact Hfat|split; [|split]]]].
    + rewrite Hout6 by lia. rewrite Hout5 by lia. rewrite Hout3 by lia.
      unfold m1. apply sector_put_same; [lia|lia|apply super_pack_length].
    + intros slot Hslot. apply entry_unused; [lia|].
      change (dir_start l) with (1 + fs).
      pose proof (Z.div_mod slot 2 ltac:(lia)) as Hd.
      pose proof (Z.mod_pos_bound slot 2 ltac:(lia)) as Hm.
      apply Hin6. lia.
    + intros j Hj.
      unfold fat_entry_on_disk. change (fat_start l) with 1.
      pose proof (Z.div_mod j 32 ltac:(lia)) as Hd.
      pose proof (Z.mod_pos_bound j 32 ltac:(lia)) as Hm.
      rewrite Hout6 by lia.
      pose proof (Hin5 j ltac:(lia)) as H5. unfold fat_entry_on_disk in H5.
      change (fat_start l) with 1 in H5. rewrite H5.
      rewrite Hfat by done. cbn [default].
      destruct (decide (j < data_start l)); reflexivity.
    + apply fresh_fat_count; [lia|lia|exact Hfat].
    + intros j Hj. rewrite Hds in Hj.
      rewrite Hout6 by lia. rewrite Hout5 by lia. rewrite Hout3 by lia.
      unfold m1. apply sector_put_other; [lia|lia|apply super_pack_length|lia|lia].
Qed.

(** [F] on a disk that holds the metadata, with a FAT size that does not
    wrap, answers 0 and leaves a formatted filesystem with the layout
    computed from the geometry: the superblock in sector 0, every directory
    slot unused, the FAT entries of the metadata blocks RESERVED and of
    all data blocks FREE, in the cache and in the FAT sectors of the disk;
    the data sectors are not touched, and [R] of any name answers
    [1 0]. *)
Theorem format_fresh w nm fuel uninit :
  conn_ok w -> 4 * nblocks w + 127 < 2 ^ 32 ->
  dir_start (compute_layout (conn w)) + dir_sectors (compute_layout (conn w))
    <= nblocks w ->
  exists w' w'',
    cmd_format w = Ret (r0, w') /\
    fs_ok w' /\ L (G w') = compute_layout (conn w) /\
    sector (img w') 0 = super_pack (conn w) (compute_layout (conn w)) /\
    (forall slot, 0 <= slot < dir_entries (L (G w')) ->
       used (entry_at (img w') (L (G w')) slot) = x00) /\
    (forall j, 0 <= j < nblocks w ->
       fat_of w' !! Z.to_nat j
       = Some (if decide (j < data_start (L (G w')))
               then FAT_RESERVED else FAT_FREE)) /\
    (forall j, 0 <= j < nblocks w ->
       fat_entry_on_disk (img w') (L (G w')) j
       = if decide (j < data_start (L (G w')))
         then FAT_RESERVED else FAT_FREE) /\
    free_count (L (G w')) (fat_of w') = nblocks w - data_start (L (G w')) /\
    (forall j, data_start (L (G w')) <= j -> sector (img w') j = sector (img w) j) /\
    cmd_read fuel uninit nm w' = Ret (r1_0, w'').
Proof.
  intros Hc H32 Hfit.
  destruct (format_run w Hc H32 Hfit)
    as (w' & Hrun & Hok & HL & Hld & Hsb & Hdir & Hfat & Hondisk & Hcnt & Hdata).
  pose proof Hok as [Hc' Hl' Hca' Hf'].
  assert (Hfo : fat_of w' = v (fat (G w'))) by (by apply fat_of_loaded).
  destruct (fat_load_ok w' Hc' (layout_fat_region w' Hl') Hca')
    as (hd1 & Hload & _).
  set (w1 := upd w' (img w') hd1 (fat_of w')) in *.
  destruct (find_none w1 nm) as (hd2 & Hfind).
  { by apply conn_ok_upd. }
  { by apply layout_ok_upd. }
  { intros j Hj [Hu _]. apply Hu. by apply Hdir. }
  eexists w', _. rewrite Hfo.
  split; [exact Hrun|]. split; [exact Hok|]. split; [exact HL|].
  split; [exact Hsb|]. split; [exact Hdir|]. split; [exact Hfat|].
  split; [exact Hondisk|]. split; [exact Hcnt|]. split; [exact Hdata|].
  unfold cmd_read. rewrite bind_get, Hf'. cbn [negb].
  rewrite (bind_ok _ _ _ _ _ Hload). change (0 <? 0) with false. cbv iota.
  rewrite (bind_ok _ _ _ _ _ Hfind). reflexivity.
Qed.

End FSFresh.

(** ** The filesystem service: the start of a worker *)

Module FSOpen.
Import Mach FS FSInv MachFacts FSDisk FSBasics FSFormat FSCodec.
#[local] Abbreviation length := List.length (only parsing).

(** A worker that starts takes the geometry from the disk server and
    reads sector 0, changing nothing on the disk: without the magic tag the
    server's tables stay as they are; with a superblock it adopts the
    layout and the geometry stored there and marks the filesystem
    formatted. *)
Theorem client_open_adopts w :
  DiskInv.geometry_ok (dsk w) -> Disk.g_sec (dsk w) < 2 ^ 32 ->
  exists w',
    client_open w = Ret (tt, w') /\
    img w' = img w /\ fat (G w') = fat (G w) /\
    (take 5 (sector (img w) 0) <> magic ->
     G w' = G w /\
     conn w' = mkDiskT (Disk.g_cyl (dsk w)) (Disk.g_sec (dsk w)) []) /\
    (forall d l,
       sector (img w) 0 = super_pack d l ->
       - 2 ^ 63 <= cyl d < 2 ^ 63 -> - 2 ^ 63 <= sec d < 2 ^ 63 ->
       0 <= total_blocks l < 2 ^ 32 -> 0 <= fat_start l < 2 ^ 32 ->
       0 <= fat_sectors l < 2 ^ 32 -> 0 <= dir_start l < 2 ^ 32 ->
       0 <= dir_sectors l < 2 ^ 32 -> 0 <= dir_entries l < 2 ^ 32 ->
       formatted (G w') = true /\ L (G w') = l /\
       conn w' = mkDiskT (cyl d) (sec d) []).
Proof.
  intros Hg H32.
  set (w1 := set_conn w (mkDiskT (Disk.g_cyl (dsk w)) (Disk.g_sec (dsk w)) [])).
  assert (Hc1 : conn_ok w1) by (by split).
  destruct (geometry_facts w1 Hc1) as (HC & HS & _ & Hgl & _).
  assert (HN : 0 < nblocks w1) by (unfold nblocks in *; nia).
  pose proof (disk_read_idx_ok w1 Hc1 0 ltac:(lia)) as Hread.
  change (img w1) with (img w) in Hread.
  set (w2 := at_disk w1 (img w) (0 / Disk.g_sec (dsk w1))) in *.
  assert (Hstart : client_open w
                   = match super_load (sector (img w) 0) with
                     | None => mret tt
                     | Some (c, s, l) =>
                       modify (fun w =>
                         set_formatted
                           (set_L (set_conn w (mkDiskT c s (stale (conn w)))) l)
                           true)
                     end w2).
  { unfold client_open. rewrite bind_get, bind_modify. fold w1.
    unfold super_sector. rewrite (bind_ok _ _ _ _ _ Hread). reflexivity. }
  rewrite Hstart.
  destruct (super_load (sector (img w) 0)) as [[[c s] l0]|] eqn:E.
  - eexists. split; [reflexivity|]. split; [done|]. split; [done|]. split.
    + intros Hm. unfold super_load in E. by rewrite decide_False in E.
    + intros d l Hsec Hcy Hse H1 H2 H3 H4 H5 H6.
      rewrite Hsec in E.
      destruct (super_roundtrip d l Hcy Hse H1 H2 H3 H4 H5 H6) as [_ Hrt].
      rewrite Hrt in E. injection E as <- <- <-. done.
  - exists w2. split; [reflexivity|]. split; [done|]. split; [done|]. split.
    + done.
    + intros d l Hsec Hcy Hse H1 H2 H3 H4 H5 H6.
      rewrite Hsec in E.
      destruct (super_roundtrip d l Hcy Hse H1 H2 H3 H4 H5 H6) as [_ Hrt].
      by rewrite Hrt in E.
Qed.

(** The start of a worker, up to the test of the superblock. *)
Lemma client_open_start w :
  DiskInv.geometry_ok (dsk w) -> Disk.g_sec (dsk w) < 2 ^ 32 ->
  client_open w
  = match super_load (sector (img w) 0) with
    | None => mret tt
    | Some (c, s, l) =>
      modify (fun w =>
        set_formatted (set_L (set_conn w (mkDiskT c s (stale (conn w)))) l)
          true)
    end (at_disk
           (set_conn w (mkDiskT (Disk.g_cyl (dsk w)) (Disk.g_sec (dsk w)) []))
           (img w) (0 / Disk.g_sec (dsk w))).
Proof.
  intros Hg H32.
  set (w1 := set_conn w (mkDiskT (Disk.g_cyl (dsk w)) (Disk.g_sec (dsk w)) [])).
  assert (Hc1 : conn_ok w1) by (by split).
  destruct (geometry_facts w1 Hc1) as (HC & HS & _ & Hgl & _).
  assert (HN : 0 < nblocks w1) by (unfold nblocks in *; nia).
  pose proof (disk_read_idx_ok w1 Hc1 0 ltac:(lia)) as Hread.
  change (img w1) with (img w) in Hread.
  unfold client_open. rewrite bind_get, bind_modify. fold w1.
  unfold super_sector. rewrite (bind_ok _ _ _ _ _ Hread). reflexivity.
Qed.

(** C6, for the geometries that the code does refuse.  When the disk has
    fewer blocks than the metadata needs ([N < dir_start + dir_sectors]),
    [F] is answered "2\n" and the formatted flag of the server keeps its
    value.  The disk does not stay as it was: the superblock of the
    layout is in sector 0 by then, and the next worker that starts finds
    it, adopts that layout and sets the formatted flag. *)
Theorem format_rejects_small w :
  conn_ok w ->
  nblocks w < dir_start (compute_layout (conn w))
              + dir_sectors (compute_layout (conn w)) ->
  exists w',
    cmd_format w = Ret (r2, w') /\
    formatted (G w') = formatted (G w) /\
    sector (img w') 0 = super_pack (conn w) (compute_layout (conn w)) /\
    exists w'',
      client_open w' = Ret (tt, w'') /\
      formatted (G w'') = true /\ L (G w'') = compute_layout (conn w).
Proof.
  intros Hc Hsmall.
  destruct (format_small_run w Hc Hsmall)
    as (w' & Hrun & Hflag & Hgeo & Hsec & Hs0).
  destruct (small_disk_layout w Hc Hsmall) as (Hlay & HN).
  destruct (geometry_facts w Hc) as (HC & HS & HS32 & _ & H64).
  assert (Hfs : 0 <= (4 * nblocks w + 127) / 128 <= 2).
  { split; [apply Z.div_pos; lia|].
    assert ((4 * nblocks w + 127) / 128 < 3); [|lia].
    apply Z.div_lt_upper_bound; lia. }
  destruct (super_roundtrip (conn w) (compute_layout (conn w))) as [_ Hrt].
  { rewrite (ok_cyl w Hc). unfold nblocks in *. nia. }
  { rewrite (ok_sec w Hc). lia. }
  { rewrite Hlay. cbn [total_blocks]. lia. }
  { rewrite Hlay. cbn [fat_start]. lia. }
  { rewrite Hlay. cbn [fat_sectors]. lia. }
  { rewrite Hlay. cbn [dir_start]. lia. }
  { rewrite Hlay. cbn [dir_sectors]. lia. }
  { rewrite Hlay. cbn [dir_entries]. lia. }
  exists w'. split; [exact Hrun|]. split; [exact Hflag|]. split; [exact Hs0|].
  rewrite (client_open_start w' Hgeo) by (rewrite Hsec; lia).
  rewrite Hs0, Hrt. eexists. split; [reflexivity|]. done.
Qed.

End FSOpen.

(** ** The filesystem service: files side by side *)

Module FSFiles.
Import Mach FS FSInv MachFacts FSDisk FSDir FSFat FSFatStore FSEntry FSCreate
  FSChain FSDelete FSAlloc FSFile FSWrite FSSpace.
#[local] Abbreviation length := List.length (only parsing).

Section Fresh.
Context (w : world) (m : list byte) (hd : Z).

#[local] Abbreviation l := (L (G w)).
#[local] Abbreviation dstart := (data_start (L (G w))).
#[local] Abbreviation total := (total_blocks (L (G w))).

Context (Hstart : 1 <= dstart <= total) (Htotal : total < 2 ^ 32).

(** The allocation loop once more, with what it takes from the FREE
    blocks: the blocks of the new chain were FREE, and the number of FREE
    blocks drops by the length of the chain. *)
Lemma alloc_loop_fresh n : forall a head prev,
  Z.of_nat (length a) = total ->
  (prev = FAT_EOF /\ head = FAT_EOF) \/
  (dstart <= prev < total /\ a !! Z.to_nat prev = Some FAT_EOF /\
   forall j, dstart <= j <= prev -> a !! Z.to_nat j <> Some FAT_FREE) ->
  Z.of_nat n <= free_count l a ->
  exists a' bs head',
    alloc_loop n l dstart head prev (upd w m hd a)
    = Ret (Some head', upd w m hd a') /\
    length a' = length a /\ length bs = n /\
    Forall (fun b => dstart <= b < total /\ (prev <> FAT_EOF -> prev < b)) bs /\
    (prev = FAT_EOF -> chain a' head' bs) /\
    (prev <> FAT_EOF -> head' = head /\ chain a' prev (prev :: bs)) /\
    (forall j, 0 <= j -> j ∉ bs -> j <> prev ->
               a' !! Z.to_nat j = a !! Z.to_nat j) /\
    Forall (fun b => a !! Z.to_nat b = Some FAT_FREE) bs /\
    free_count l a' = free_count l a - Z.of_nat n.
Proof.
  induction n as [|n IH]; intros a head prev Hlen Hprev Hcount.
  - exists a, [], head. split; [reflexivity|].
    split; [done|]. split; [done|]. split; [constructor|].
    split; [|split; [|split; [done|split; [constructor|simpl; lia]]]].
    + intros ->. destruct Hprev as [[_ ->]|[Hp _]]; [constructor|].
      unfold FAT_EOF in Hp. lia.
    + intros Hne. split; [done|].
      destruct Hprev as [[-> _]|(Hp & Hend & _)]; [done|].
      econstructor; [lia|done|exact Hend|constructor].
  - destruct (find_free_block_spec w Hstart a Hlen)
      as [(b & Hfind & Hb & Hfree & Hfirst)|(Hfind & Hzero)]; [|lia].
    assert (Hprev' : prev = FAT_EOF \/ 0 <= prev < total)
      by (destruct Hprev as [[-> _]|(Hp & _)]; [by left|right; lia]).
    rewrite (alloc_loop_step w m hd Hstart Htotal n a head prev b Hlen Hprev' Hfind Hb).
    assert (Hpb : prev <> FAT_EOF -> prev < b).
    { intros Hne. destruct Hprev as [[-> _]|(Hp & Hend & Hfull)]; [done|].
      destruct (decide (prev < b)); [done|].
      destruct (Hfull b); [lia|done]. }
    assert (Hcount' : free_count l (link a prev b) = free_count l a - 1).
    { apply (link_count w Hstart); [done..|].
      destruct Hprev as [[-> _]|(Hp & Hend & _)]; [by left|].
      right. split; [done|]. by rewrite Hend. }
    assert (HbEOF : b <> FAT_EOF) by (unfold FAT_EOF; lia).
    destruct (IH (link a prev b) (if prev =? FAT_EOF then b else head) b)
      as (a' & bs & head' & Hloop & Hlen' & Hbs & Hin & _ & Hchain & Hframe
          & Hfresh & Hcnt).
    + by rewrite link_length.
    + right. split; [done|]. unfold link.
      destruct (prev =? FAT_EOF) eqn:E.
      * split; [by rewrite list_lookup_insert_eq by lia|].
        intros j Hj. destruct (decide (j = b)) as [->|Hjb].
        -- by rewrite list_lookup_insert_eq by lia.
        -- rewrite list_lookup_insert_ne by lia. apply Hfirst. lia.
      * assert (prev < b) by (apply Hpb; unfold FAT_EOF in *; lia).
        split.
        -- rewrite list_lookup_insert_ne by lia.
           by rewrite list_lookup_insert_eq by lia.
        -- intros j Hj. destruct (decide (j = prev)) as [->|Hjp].
           ++ rewrite list_lookup_insert_eq
                by (rewrite length_insert; unfold FAT_EOF in *; lia).
              intros [= ->]. unfold FAT_FREE in *. lia.
           ++ rewrite list_lookup_insert_ne by lia.
              destruct (decide (j = b)) as [->|Hjb].
              ** by rewrite list_lookup_insert_eq by lia.
              ** rewrite list_lookup_insert_ne by lia. apply Hfirst. lia.
    + lia.
    + destruct (Hchain HbEOF) as [Hhead Hch].
      exists a', (b :: bs), head'. split; [exact Hloop|].
      split; [by rewrite Hlen', link_length|].
      split; [simpl; by rewrite Hbs|].
      assert (Hgt : Forall (fun x => b < x) bs).
      { eapply Forall_impl; [exact Hin|]. simpl. intros x [_ Hx]. by apply Hx. }
      split.
      { constructor; [done|].
        eapply Forall_impl; [exact Hin|]. simpl. intros x [Hr Hx].
        split; [done|]. intros Hne. specialize (Hx HbEOF). specialize (Hpb Hne). lia. }
      split; [|split; [|split; [|split]]].
      * intros ->. rewrite Hhead. done.
      * intros Hne. assert (E : (prev =? FAT_EOF) = false) by lia.
        rewrite E in Hhead. split; [done|].
        specialize (Hpb Hne).
        destruct Hprev as [[-> _]|(Hp & Hend & _)]; [done|].
        econstructor; [lia|done| |exact Hch].
        rewrite Hframe; [|lia| |lia].
        -- unfold link. rewrite E.
           apply list_lookup_insert_eq. rewrite length_insert. lia.
        -- intros Hmem. rewrite Forall_forall in Hgt.
           specialize (Hgt _ Hmem). lia.
      * intros j Hj Hnot Hjp. apply not_elem_of_cons in Hnot as [Hjb Hnot].
        rewrite Hframe by done. unfold link.
        destruct (prev =? FAT_EOF) eqn:E2.
        -- by rewrite list_lookup_insert_ne by lia.
        -- assert (0 <= prev) by (destruct Hprev' as [->|?]; [done|lia]).
           rewrite list_lookup_insert_ne by lia.
           by rewrite list_lookup_insert_ne by lia.
      * constructor; [exact Hfree|].
        rewrite Forall_forall in Hfresh, Hgt. apply Forall_forall.
        intros x Hx. specialize (Hfresh x Hx). specialize (Hgt x Hx).
        unfold link in Hfresh. destruct (prev =? FAT_EOF) eqn:E2.
        -- by rewrite list_lookup_insert_ne in Hfresh by lia.
        -- destruct (decide (x = prev)) as [->|Hxp].
           ++ rewrite list_lookup_insert_eq in Hfresh
                by (rewrite length_insert; destruct Hprev' as [->|?];
                    [done|lia]).
              injection Hfresh as Hfresh. unfold FAT_FREE in Hfresh. lia.
           ++ assert (0 <= prev) by (destruct Hprev' as [->|?]; [done|lia]).
              rewrite list_lookup_insert_ne in Hfresh by lia.
              by rewrite list_lookup_insert_ne in Hfresh by lia.
      * rewrite Hcnt, Hcount'. rewrite Nat2Z.inj_succ. lia.
Qed.

End Fresh.

(** [write_whole_file] when the blocks it needs are FREE once the old
    chain is released: the new chain, what became of the FAT and of the
    sectors. *)
Lemma write_whole_file_full w m hd a fuel e bs0 data :
  fs_ok w -> length m = length (img w) ->
  Z.of_nat (length a) = total_blocks (L (G w)) ->
  used e <> x00 -> chain a (first e) bs0 -> (length bs0 <= fuel)%nat ->
  Z.of_nat (length data) + 127 < 2 ^ 32 ->
  (Z.of_nat (length data) + 127) / 128
    <= free_count (L (G w)) (free_all bs0 a) ->
  (Z.to_nat ((Z.of_nat (length data) + 127) / 128) <= fuel)%nat ->
  exists head a2 m3 hd3 bs',
    write_whole_file fuel e data (Z.of_nat (length data)) (upd w m hd a)
    = Ret ((0, mkDirent (name e) (Z.of_nat (length data)) head (used e)),
           upd w m3 hd3 a2) /\
    Z.of_nat (length a2) = total_blocks (L (G w)) /\ length m3 = length m /\
    chain a2 head bs' /\
    Z.of_nat (length bs') = (Z.of_nat (length data) + 127) / 128 /\
    Forall (fun b => data_start (L (G w)) <= b < total_blocks (L (G w))) bs' /\
    Forall (fun b => free_all bs0 a !! Z.to_nat b = Some FAT_FREE) bs' /\
    (forall j, 0 <= j -> j ∉ bs' ->
       a2 !! Z.to_nat j = free_all bs0 a !! Z.to_nat j) /\
    free_count (L (G w)) a2
    = free_count (L (G w)) (free_all bs0 a)
      - (Z.of_nat (length data) + 127) / 128 /\
    (forall j, 0 <= j -> j ∉ bs' -> sector m3 j = sector m j) /\
    holds (data_start (L (G w))) (total_blocks (L (G w))) m3 a2 head data /\
    0 <= head < 2 ^ 32.
Proof.
  intros Hok Hm Ha Hused Hch Hfuel0 H32 Hroom Hfuel.
  pose proof Hok as [Hc Hl Hca Hf].
  destruct (data_start_ok w Hl) as [_ Hds].
  assert (Ht32 : total_blocks (L (G w)) < 2 ^ 32) by (destruct Hl; done).
  assert (Htn : total_blocks (L (G w)) <= nblocks w) by (destruct Hl; done).
  set (len := Z.of_nat (length data)) in *.
  unfold write_whole_file. rewrite bind_get.
  rewrite (bind_ok _ _ _ _ _ (write_free_step fuel (upd w m hd a) e bs0 Hused Hch Hfuel0)).
  change (set_v (upd w m hd a) (free_all bs0 (v (fat (G (upd w m hd a))))))
    with (upd w m hd (free_all bs0 a)).
  set (a1 := free_all bs0 a) in *.
  assert (Ha1 : Z.of_nat (length a1) = total_blocks (L (G w))).
  { unfold a1. rewrite free_all_length. exact Ha. }
  destruct (len =? 0) eqn:E0.
  - assert (data = []) as -> by (destruct data; [done|simpl in len; lia]).
    exists FAT_EOF, a1, m, hd, [].
    split; [reflexivity|]. split; [done|]. split; [done|].
    split; [constructor|]. split; [reflexivity|]. split; [constructor|].
    split; [constructor|]. split; [done|].
    split; [change ((len + 127) / 128) with 0; lia|].
    split; [done|]. split; [constructor|]. unfold FAT_EOF. lia.
  - assert (H0 : 0 < len) by lia.
    destruct (blocks_of_len len H0 H32) as [Hb0 Hb].
    set (blocks := u32 (len + BLKSZ - 1) / BLKSZ) in *.
    assert (Hbl : blocks = (len + 127) / 128).
    { unfold blocks, u32, BLKSZ. rewrite Z.mod_small by lia. f_equal. lia. }
    rewrite bind_get. change (L (G (upd w m hd a1))) with (L (G w)).
    destruct (alloc_loop_fresh w m hd Hds Ht32 (Z.to_nat blocks)
                a1 FAT_EOF FAT_EOF)
      as (a2 & bs & head & Hloop & Hlen2 & Hbs & Hin & Hchain & _ & Hframe
          & Hfresh & Hcnt).
    { exact Ha1. }
    { by left. }
    { rewrite Z2Nat.id by lia. rewrite Hbl. exact Hroom. }
    rewrite (bind_ok _ _ _ _ _ Hloop).
    specialize (Hchain eq_refl).
    assert (Hin' : Forall (fun b => data_start (L (G w)) <= b
                                    < total_blocks (L (G w))) bs).
    { eapply Forall_impl; [exact Hin|]. simpl. tauto. }
    destruct (write_loop_ok w a2 (data_start (L (G w))) (total_blocks (L (G w)))
                Hc Htn data len bs head 0 len m hd fuel Hchain Hin')
      as (m3 & hd3 & Hwl & Hm3 & Hsec & Hholds).
    { exact Hm. }
    { lia. }
    { lia. }
    { lia. }
    { reflexivity. }
    { lia. }
    { rewrite Hbs, Z2Nat.id by lia. exact Hb. }
    { rewrite Hbs, Hbl. exact Hfuel. }
    rewrite (bind_ok _ _ _ _ _ Hwl).
    exists head, a2, m3, hd3, bs. split; [reflexivity|].
    split; [congruence|]. split; [done|]. split; [exact Hchain|].
    split; [rewrite Hbs, Z2Nat.id by lia; exact Hbl|].
    split; [exact Hin'|]. split; [exact Hfresh|]. split.
    { intros j Hj Hnot. destruct (decide (j = FAT_EOF)) as [->|Hne].
      - unfold FAT_EOF. rewrite !lookup_ge_None_2 by lia. done.
      - by apply Hframe. }
    split; [rewrite Hcnt, Z2Nat.id by lia; by rewrite Hbl|].
    split; [exact Hsec|]. split; [exact Hholds|].
    destruct bs as [|b bs'].
    + simpl in Hbs. lia.
    + inversion Hchain; subst. apply Forall_cons in Hin' as [Hb1 _]. lia.
Qed.

(** Names are kept by a change of length and first block. *)
Lemma names_same_name e e' nm :
  name e' = name e -> used e' = used e -> names e' nm <-> names e nm.
Proof. intros Hn Hu. unfold names. by rewrite Hn, Hu. Qed.

(** What [R] returns: the length of the entry and the bytes that its
    chain holds. *)
Lemma read_returns w nm slot fuel uninit data :
  fs_ok w -> first_named w nm slot ->
  FS.length (entry_at (img w) (L (G w)) slot) = Z.of_nat (length data) ->
  holds (data_start (L (G w))) (total_blocks (L (G w))) (img w) (fat_of w)
    (first (entry_at (img w) (L (G w)) slot)) data ->
  Z.of_nat (length data) <= 128 * Z.of_nat fuel ->
  exists w',
    cmd_read fuel uninit nm w
    = Ret ([x30; x20] ++ fmt_u (Z.of_nat (length data)) ++ [x20] ++ data
             ++ [x0a], w') /\
    img w' = img w /\ v (fat (G w')) = fat_of w.
Proof.
  intros Hok Hname Hlen Hholds Hfuel.
  pose proof Hok as [Hc Hl Hca Hf].
  destruct (fat_load_ok w Hc (layout_fat_region w Hl) Hca) as (hd1 & Hload & Hla).
  destruct (data_start_ok w Hl) as [_ Hds].
  set (w1 := upd w (img w) hd1 (fat_of w)) in *.
  destruct (find_first_named w1 nm slot) as (hd2 & Hfind).
  { by apply conn_ok_upd. }
  { by apply layout_ok_upd. }
  { exact Hname. }
  change (entry_at (img w1) (L (G w1)) slot)
    with (entry_at (img w) (L (G w)) slot) in Hfind.
  change (at_disk w1 (img w1) hd2) with (upd w (img w) hd2 (fat_of w)) in Hfind.
  destruct (read_loop_ok w (fat_of w) (data_start (L (G w)))
              (total_blocks (L (G w))) Hc ltac:(lia)
              ltac:(destruct Hl; lia) (img w) data
              (first (entry_at (img w) (L (G w)) slot)) [] hd2 fuel
              Hholds eq_refl Hfuel) as (hd3 & Hread).
  exists (upd w (img w) hd3 (fat_of w)). split; [|done].
  unfold cmd_read. rewrite bind_get, Hf. cbn [negb].
  rewrite (bind_ok _ _ _ _ _ Hload). change (0 <? 0) with false. cbv iota.
  rewrite (bind_ok _ _ _ _ _ Hfind). unfold read_whole_file.
  rewrite Hlen, (bind_ok _ _ _ _ _ Hread).
  change (0 <? 0) with false. cbv iota.
  rewrite Nat2Z.id. cbn [app]. rewrite take_app_length. reflexivity.
Qed.

(** What a successful [W] leaves behind. *)
Lemma write_stores w nm slot bs fuel data unread :
  fs_ok w -> first_named w nm slot ->
  chain (fat_of w) (first (entry_at (img w) (L (G w)) slot)) bs ->
  (length bs <= fuel)%nat -> Z.of_nat (length data) <= 128 * Z.of_nat fuel ->
  Z.of_nat (length data) + 127 < 2 ^ 32 ->
  (Z.of_nat (length data) + 127) / 128
    <= free_count (L (G w)) (free_all bs (fat_of w)) ->
  exists w1 bs',
    cmd_write fuel nm (Z.of_nat (length data)) (data ++ unread) w
    = Ret (mkWres 0 r0 unread, w1) /\
    fs_ok w1 /\ L (G w1) = L (G w) /\ first_named w1 nm slot /\
    name (entry_at (img w1) (L (G w1)) slot)
    = name (entry_at (img w) (L (G w)) slot) /\
    used (entry_at (img w1) (L (G w1)) slot)
    = used (entry_at (img w) (L (G w)) slot) /\
    FS.length (entry_at (img w1) (L (G w1)) slot) = Z.of_nat (length data) /\
    chain (fat_of w1) (first (entry_at (img w1) (L (G w1)) slot)) bs' /\
    Z.of_nat (length bs') = (Z.of_nat (length data) + 127) / 128 /\
    Forall (fun b => data_start (L (G w)) <= b < total_blocks (L (G w))
                     /\ free_all bs (fat_of w) !! Z.to_nat b = Some FAT_FREE) bs' /\
    holds (data_start (L (G w))) (total_blocks (L (G w))) (img w1) (fat_of w1)
      (first (entry_at (img w1) (L (G w1)) slot)) data /\
    free_count (L (G w)) (fat_of w1)
    = free_count (L (G w)) (free_all bs (fat_of w))
      - (Z.of_nat (length data) + 127) / 128 /\
    (forall j, 0 <= j < dir_entries (L (G w)) -> j <> slot ->
       entry_at (img w1) (L (G w1)) j = entry_at (img w) (L (G w)) j) /\
    (forall j, 0 <= j -> j ∉ bs' ->
       fat_of w1 !! Z.to_nat j = free_all bs (fat_of w) !! Z.to_nat j) /\
    (forall j, data_start (L (G w)) <= j < total_blocks (L (G w)) -> j ∉ bs' ->
       sector (img w1) j = sector (img w) j) /\
    (forall j, 0 <= j < total_blocks (L (G w)) ->
       j < 32 * fat_sectors (L (G w)) ->
       fat_entry_on_disk (img w1) (L (G w1)) j
       = default 0 (fat_of w1 !! Z.to_nat j) mod 2 ^ 32).
Proof.
  intros Hok Hname Hch Hfuel Hfuel' H32 Hroom.
  pose proof Hok as [Hc Hl Hca Hf].
  destruct (fat_load_ok w Hc (layout_fat_region w Hl) Hca) as (_ & _ & Hlen).
  destruct (cmd_write_start w nm slot fuel data unread Hok Hname) as (hd & Hstart).
  pose proof Hname as (Hslot & [Hused Hcmp] & Hfirst).
  destruct (data_start_ok w Hl) as [Hdse Hds].
  destruct (geometry_facts w Hc) as (_ & _ & _ & Hgl & _).
  destruct (dir_sector_range w Hl slot Hslot) as (Hsec & Hsec' & _).
  set (l := L (G w)) in *. set (m := img w) in *. set (a := fat_of w) in *.
  set (e := entry_at m l slot) in *. set (len := Z.of_nat (length data)) in *.
  assert (Hbf : (Z.to_nat ((len + 127) / 128) <= fuel)%nat).
  { assert ((len + 127) / 128 < Z.of_nat fuel + 1); [|lia].
    apply Z.div_lt_upper_bound; lia. }
  destruct (write_whole_file_full w m hd a fuel e bs data Hok eq_refl Hlen
              Hused Hch Hfuel H32 Hroom Hbf)
    as (head & a2 & m3 & hd3 & bs' & Hw & Ha2 & Hm3 & Hch2 & Hnb & Hin & Hfresh
        & Hfat & Hcnt & Hsect & Hholds & Hhead).
  fold l len in Hw, Ha2, Hnb, Hin, Hcnt, Hholds.
  assert (Hmeta : forall j, 0 <= j < data_start l -> sector m3 j = sector m j).
  { intros j Hj. apply Hsect; [lia|]. intros Hmem.
    rewrite Forall_forall in Hin. specialize (Hin _ Hmem). lia. }
  destruct (persist_ok w nm slot len head a2 m3 hd3 fuel [] Hok Hname
              ltac:(lia) Hhead Ha2 Hm3 Hmeta)
    as (m4 & hd4 & m5 & hd5 & hd6 & Hflush & Hwrite & Hm5 & Hdata & He5 & _).
  fold l m e in Hwrite, Hm5, Hdata, He5.
  set (e' := mkDirent (name e) len head (used e)) in *.
  (* the image after the flush and after the entry is stored *)
  destruct (fat_flush_stores (upd w m3 hd3 a2))
    as (m4' & hd4' & Hflush' & Hsame & Hdisk);
    [by apply conn_ok_upd|by apply layout_fat_region, layout_ok_upd|done|done|].
  rewrite Hflush in Hflush'. injection Hflush' as <- <-.
  change (L (G (upd w m3 hd3 a2))) with l in Hsame, Hdisk.
  change (img (upd w m3 hd3 a2)) with m3 in Hsame.
  change (v (fat (G (upd w m3 hd3 a2)))) with a2 in Hdisk.
  pose proof Hsame as [Hm4 _].
  assert (Hpack : length (dirent_pack e') = 64%nat).
  { apply dirent_pack_length. cbn [name e'].
    destruct (entry_name w slot Hc Hl Hslot) as [Hnlen _]. fold l m e in Hnlen. lia. }
  assert (Hc4 : conn_ok (upd w m4 hd4 a2))
    by (apply conn_ok_upd; [done|by rewrite Hm4, Hm3]).
  assert (Hl4 : layout_ok (upd w m4 hd4 a2)) by (by apply layout_ok_upd).
  pose proof (dir_write_entry_ok (upd w m4 hd4 a2) Hc4 Hl4 slot e' Hslot Hpack)
    as Hwrite'.
  rewrite Hwrite in Hwrite'. injection Hwrite' as Hm5eq _.
  change (m5 = put_entry m4 l slot e') in Hm5eq.
  assert (Hin4 : (dir_start l + slot / 2) * 128 + 128 <= Z.of_nat (length m4)).
  { rewrite Hm4, Hm3. lia. }
  assert (Hds0 : 0 <= dir_start l) by (destruct Hl; unfold l; lia).
  assert (Hother : forall j, 0 <= j < dir_entries l -> j <> slot ->
                             entry_at m5 l j = entry_at m l j).
  { intros j Hj Hne. rewrite Hm5eq.
    rewrite entry_at_put_other by (lia || done).
    destruct (dir_sector_range w Hl j Hj) as (Hjr & Hjd & _). fold l in Hjr, Hjd.
    assert (Hjq : 0 <= j / 2) by (apply Z.div_pos; lia).
    rewrite (entry_at_same m3 m4 l _ _ j Hsame);
      [|lia|destruct Hl; unfold l in *; lia].
    unfold entry_at. rewrite Hmeta; [done|]. lia. }
  set (w1 := upd w m5 hd5 a2).
  assert (Hfo : fat_of w1 = a2) by (by apply fat_of_loaded).
  exists w1, bs'. rewrite Hfo.
  change (img w1) with m5. change (L (G w1)) with l. rewrite He5.
  cbn [FS.length first name used e'].
  split; [|split; [|split; [done|split; [|split; [done|split; [done|split; [done|split; [done|split;
    [done|split; [|split; [|split; [done|split; [done|split; [done|]]]]]]]]]]]]]].
  - rewrite Hstart, (bind_ok _ _ _ _ _ Hw).
    change (0 =? -2) with false. change (0 <? 0) with false. cbv iota.
    rewrite (bind_ok _ _ _ _ _ Hflush). change (0 <? 0) with false. cbv iota.
    rewrite (bind_ok _ _ _ _ _ Hwrite). reflexivity.
  - by apply fs_ok_upd.
  - split; [done|]. change (img w1) with m5. change (L (G w1)) with l. split.
    + rewrite He5. by apply (names_same_name e e' nm).
    + intros i Hi. rewrite Hother by lia. by apply Hfirst.
  - apply Forall_forall. intros b Hb. rewrite Forall_forall in Hin, Hfresh.
    split; [by apply Hin|by apply Hfresh].
  - eapply holds_same; [exact Hholds|]. exact Hdata.
  - split.
    + intros j Hj Hnot. rewrite Hdata by done. apply Hsect; [lia|done].
    + intros j Hj Hfit. rewrite <- Hdisk by lia.
      apply fat_entry_on_disk_same. rewrite Hm5eq. unfold put_entry.
      assert (Hq : 0 <= slot / 2) by (apply Z.div_pos; lia).
      assert (Hjq : 0 <= j / 32 < fat_sectors l).
      { split; [apply Z.div_pos; lia|apply Z.div_lt_upper_bound; lia]. }
      pose proof (lo_fat_start w Hl) as Hfs1.
      pose proof (lo_dir_start w Hl) as Hfs2. fold l in Hfs1, Hfs2.
      apply sector_put_other;
        [lia|done|apply new_sector_length; (lia || done)|lia|lia].
Qed.

(** The bytes a chain holds depend on its blocks only. *)
Lemma holds_frame lo hi m a m' a' cur d :
  holds lo hi m a cur d ->
  forall bs, chain a cur bs ->
  (forall y, y ∈ bs -> a' !! Z.to_nat y = a !! Z.to_nat y
                       /\ sector m' y = sector m y) ->
  holds lo hi m' a' cur d.
Proof.
  induction 1 as [cur|cur nxt d Hd Hcur Hne Hnxt Hsec Hrest IH]; intros bs Hch Hsame.
  - constructor.
  - inversion Hch as [|b nxt' bs' Hb0 Hbne Hb Hch' E1]; subst; [done|].
    assert (nxt' = nxt) as -> by congruence.
    destruct (Hsame cur ltac:(by left)) as [Ha' Hm'].
    econstructor; [done|done|done| | |].
    + rewrite Ha'. exact Hnxt.
    + by rewrite Hm'.
    + apply (IH bs'); [done|]. intros y Hy. apply Hsame. by right.
Qed.

(** A successful [W] to one file leaves any other file intact: the entry
    of the other file and its chain are unchanged, and [R] still answers
    the other file's content. *)
Theorem write_spares_other_file w nm slot bs fuel data unread
    nm' slot' bs2 d2 uninit :
  fs_ok w -> first_named w nm slot ->
  chain (fat_of w) (first (entry_at (img w) (L (G w)) slot)) bs ->
  (length bs <= fuel)%nat -> Z.of_nat (length data) <= 128 * Z.of_nat fuel ->
  Z.of_nat (length data) + 127 < 2 ^ 32 ->
  (Z.of_nat (length data) + 127) / 128
    <= free_count (L (G w)) (free_all bs (fat_of w)) ->
  first_named w nm' slot' -> slot' <> slot ->
  chain (fat_of w) (first (entry_at (img w) (L (G w)) slot')) bs2 ->
  Forall (fun y => data_start (L (G w)) <= y) bs2 ->
  (forall y, y ∈ bs2 -> y ∉ bs) ->
  FS.length (entry_at (img w) (L (G w)) slot') = Z.of_nat (length d2) ->
  holds (data_start (L (G w))) (total_blocks (L (G w))) (img w) (fat_of w)
    (first (entry_at (img w) (L (G w)) slot')) d2 ->
  Z.of_nat (length d2) <= 128 * Z.of_nat fuel ->
  exists w1 w2,
    cmd_write fuel nm (Z.of_nat (length data)) (data ++ unread) w
    = Ret (mkWres 0 r0 unread, w1) /\
    entry_at (img w1) (L (G w1)) slot' = entry_at (img w) (L (G w)) slot' /\
    chain (fat_of w1) (first (entry_at (img w1) (L (G w1)) slot')) bs2 /\
    cmd_read fuel uninit nm' w1
    = Ret ([x30; x20] ++ fmt_u (Z.of_nat (length d2)) ++ [x20] ++ d2 ++ [x0a],
           w2).
Proof.
  intros Hok Hname Hch Hfuel Hfuel' H32 Hroom Hname' Hne Hch2 Hin2 Hdisj Hlen2
    Hholds2 Hfuel2.
  destruct (write_stores w nm slot bs fuel data unread Hok Hname Hch Hfuel
              Hfuel' H32 Hroom)
    as (w1 & bs' & Hw & Hok1 & HL & Hname1 & Hnm & Hus & _ & _ & _ & Hnew & _ & _
        & Hother & Hfat & Hsect & _).
  pose proof Hok as [Hc Hl Hca Hf].
  destruct (data_start_ok w Hl) as [_ Hds].
  destruct (fat_load_ok w Hc (layout_fat_region w Hl) Hca) as (_ & _ & Hla).
  pose proof Hname' as (Hslot' & Hnames' & Hfirst').
  pose proof Hname as (Hslot & _ & _).
  rewrite HL in *.
  assert (He' : entry_at (img w1) (L (G w)) slot'
                = entry_at (img w) (L (G w)) slot') by (by apply Hother).
  (* the blocks of the other file are untouched *)
  assert (Hkeep : forall y, y ∈ bs2 ->
            fat_of w1 !! Z.to_nat y = fat_of w !! Z.to_nat y
            /\ sector (img w1) y = sector (img w) y).
  { intros y Hy.
    destruct (chain_in_bounds _ _ _ y Hch2 Hy) as [Hyr _].
    destruct (chain_not_free (L (G w)) _ _ _ y Hch2 ltac:(lia) Hin2 Hy)
      as (x & Hx & Hxf).
    assert (Hy2 : data_start (L (G w)) <= y).
    { rewrite Forall_forall in Hin2. by apply Hin2. }
    assert (Hfa : free_all bs (fat_of w) !! Z.to_nat y = fat_of w !! Z.to_nat y).
    { apply free_all_other; [lia|by apply Hdisj|].
      eapply Forall_impl; [by eapply chain_bounds_Forall|]. simpl. lia. }
    assert (Hnot : y ∉ bs').
    { intros Hmem. rewrite Forall_forall in Hnew.
      destruct (Hnew _ Hmem) as [_ Hfree]. congruence. }
    split.
    - rewrite Hfat by (lia || done). exact Hfa.
    - apply Hsect; [lia|done]. }
  assert (Hch2' : chain (fat_of w1) (first (entry_at (img w) (L (G w)) slot')) bs2).
  { clear Hholds2 Hlen2 He'. revert Hkeep.
    induction Hch2 as [|b nxt bs2' Hb0 Hbne Hb Hch2 IH]; intros Hkeep.
    - constructor.
    - apply Forall_cons in Hin2 as [Hb2 Hin2].
      econstructor; [done|done| |].
      + destruct (Hkeep b ltac:(by left)) as [-> _]. exact Hb.
      + apply IH; [done| |].
        * intros y Hy. apply Hdisj. by right.
        * intros y Hy. apply Hkeep. by right. }
  assert (Hname1' : first_named w1 nm' slot').
  { split; [by rewrite HL|]. rewrite HL. split.
    - by rewrite He'.
    - intros i Hi. destruct (decide (i = slot)) as [->|Hi'].
      + intros Hn. apply (Hfirst' slot Hi).
        apply (names_same_name _ _ nm' Hnm Hus). exact Hn.
      + rewrite Hother by lia. by apply Hfirst'. }
  destruct (read_returns w1 nm' slot' fuel uninit d2 Hok1 Hname1')
    as (w2 & Hread & _).
  { rewrite HL, He'. exact Hlen2. }
  { rewrite HL, He'. eapply holds_frame; [exact Hholds2|exact Hch2|exact Hkeep]. }
  { exact Hfuel2. }
  exists w1, w2. rewrite HL, He'. done.
Qed.


Lemma free_all_range bs : forall a,
  Forall (fun x => 0 <= x < 2 ^ 32) a ->
  Forall (fun x => 0 <= x < 2 ^ 32) (free_all bs a).
Proof.
  induction bs as [|b bs IH]; intros a Ha; [done|].
  unfold free_all in *. simpl. apply IH.
  apply Forall_insert; [done|]. unfold FAT_FREE. lia.
Qed.



(** A disk whose FAT sectors hold the entries of the cache is a disk from
    which [fat_load] with an empty cache loads that FAT. *)
Lemma persisted w1 :
  fs_ok w1 -> total_blocks (L (G w1)) <= 32 * fat_sectors (L (G w1)) ->
  Forall (fun x => 0 <= x < 2 ^ 32) (fat_of w1) ->
  (forall j, 0 <= j < total_blocks (L (G w1)) ->
     j < 32 * fat_sectors (L (G w1)) ->
     fat_entry_on_disk (img w1) (L (G w1)) j
     = default 0 (fat_of w1 !! Z.to_nat j) mod 2 ^ 32) ->
  fat_on_disk w1 = fat_of w1.
Proof.
  intros [Hc Hl Hca _] Hfit Hr Hd.
  destruct (fat_load_ok w1 Hc (layout_fat_region w1 Hl) Hca) as (_ & _ & Hlen).
  apply fat_on_disk_eq; [done|by apply layout_fat_region|done|done|done|].
  intros j Hj. apply Hd; lia.
Qed.


(** [D] on an existing file, step by step. *)
Lemma delete_run w nm slot bs fuel :
  fs_ok w -> first_named w nm slot ->
  chain (fat_of w) (first (entry_at (img w) (L (G w)) slot)) bs ->
  (length bs <= fuel)%nat ->
  exists w',
    cmd_delete fuel nm w = Ret (r0, w') /\
    fs_ok w' /\ L (G w') = L (G w) /\
    fat_of w' = free_all bs (fat_of w) /\
    used (entry_at (img w') (L (G w')) slot) = x00 /\
    (forall j, 0 <= j < dir_entries (L (G w)) -> j <> slot ->
       entry_at (img w') (L (G w')) j = entry_at (img w) (L (G w)) j) /\
    (forall j, data_start (L (G w)) <= j -> sector (img w') j = sector (img w) j) /\
    (forall j, 0 <= j < total_blocks (L (G w)) ->
       j < 32 * fat_sectors (L (G w)) ->
       fat_entry_on_disk (img w') (L (G w')) j
       = default 0 (fat_of w' !! Z.to_nat j) mod 2 ^ 32).
Proof.
  intros Hok Hname Hch Hfuel.
  pose proof Hok as [Hc Hl Hca Hf].
  pose proof Hname as (Hslot & Hnames & Hfirst).
  destruct (geometry_facts w Hc) as (_ & _ & _ & Hgl & _).
  destruct (dir_sector_range w Hl slot Hslot) as (Hsec & Hsec' & _).
  destruct (data_start_ok w Hl) as [Hdse Hds].
  set (l := L (G w)) in *. set (m := img w) in *. set (a := fat_of w) in *.
  set (e := entry_at m l slot) in *.
  destruct (fat_load_ok w Hc (layout_fat_region w Hl) Hca) as (hd1 & Hload & Hlen).
  fold a m l in Hload, Hlen.
  set (w1 := upd w m hd1 a).
  assert (Hc1 : conn_ok w1) by (by apply conn_ok_upd).
  assert (Hl1 : layout_ok w1) by (by apply layout_ok_upd).
  destruct (find_first_named w1 nm slot Hc1 Hl1 Hname) as (hd2 & Hfind).
  change (entry_at (img w1) (L (G w1)) slot) with e in Hfind.
  change (at_disk w1 (img w1) hd2) with (upd w m hd2 a) in Hfind.
  set (a' := free_all bs a).
  assert (Hlen' : Z.of_nat (length a') = total_blocks l).
  { unfold a'. by rewrite free_all_length. }
  pose proof (delete_free_step fuel (upd w m hd2 a) e bs Hch Hfuel) as Hfree.
  change (set_v (upd w m hd2 a) (free_all bs (v (fat (G (upd w m hd2 a))))))
    with (upd w m hd2 a') in Hfree.
  destruct (fat_flush_stores (upd w m hd2 a'))
    as (m' & hd3 & Hflush & Hsame & Hdisk);
    [by apply conn_ok_upd|by apply layout_fat_region, layout_ok_upd|done|done|].
  change (at_disk (upd w m hd2 a') m' hd3) with (upd w m' hd3 a') in Hflush.
  change (L (G (upd w m hd2 a'))) with l in Hsame, Hdisk.
  change (v (fat (G (upd w m hd2 a')))) with a' in Hdisk.
  change (img (upd w m hd2 a')) with m in Hsame.
  pose proof Hsame as [Hlm' Hsec_same].
  assert (Hc4 : conn_ok (upd w m' hd3 a')) by (by apply conn_ok_upd).
  assert (Hl4 : layout_ok (upd w m' hd3 a')) by (by apply layout_ok_upd).
  pose proof (dir_write_entry_ok (upd w m' hd3 a') Hc4 Hl4 slot blank Hslot eq_refl)
    as Hwrite.
  set (m'' := put_entry m' l slot blank).
  set (hd4 := (dir_start l + slot / 2) / Disk.g_sec (dsk w)).
  change (dir_write_entry slot blank (upd w m' hd3 a')
          = Ret (0, upd w m'' hd4 a')) in Hwrite.
  assert (Hin' : (dir_start l + slot / 2) * 128 + 128 <= Z.of_nat (length m')).
  { rewrite Hlm'. lia. }
  assert (Hds0 : 0 <= dir_start l) by (destruct Hl; unfold l in *; lia).
  assert (Hlm'' : length m'' = length m).
  { unfold m''. rewrite put_entry_length; [done|lia|done|done|done]. }
  set (w' := upd w m'' hd4 a').
  exists w'. split; [|split; [by apply fs_ok_upd|split; [done|split;
    [by apply fat_of_loaded|]]]].
  - unfold cmd_delete. rewrite bind_get, Hf. cbn [negb].
    rewrite (bind_ok _ _ _ _ _ Hload). change (0 <? 0) with false. cbv iota.
    rewrite (bind_ok _ _ _ _ _ Hfind).
    rewrite (bind_ok _ _ _ _ _ Hfree).
    rewrite (bind_ok _ _ _ _ _ Hflush). change (0 <? 0) with false. cbv iota.
    rewrite (bind_ok _ _ _ _ _ Hwrite). reflexivity.
  - change (img w') with m''. change (L (G w')) with l.
    rewrite (fat_of_loaded w' eq_refl).
    change (v (fat (G w'))) with a'.
    split; [|split; [|split]].
    + destruct (entry_at_put_same m' l slot blank) as [r Hr];
        [lia|done|done|done|].
      fold m'' in Hr. rewrite Hr, dirent_unpack_pack by (simpl; lia). done.
    + intros j Hj Hne. unfold m''. rewrite entry_at_put_other by (lia || done).
      destruct (dir_sector_range w Hl j Hj) as (Hjr & Hjd & _). fold l in Hjr, Hjd.
      apply (entry_at_same m m' l _ _ j Hsame); [lia|].
      destruct Hl. unfold l in *.
      assert (0 <= j / 2) by (apply Z.div_pos; lia). lia.
    + intros j Hj. unfold m'', put_entry.
      assert (Hq : 0 <= slot / 2) by (apply Z.div_pos; lia).
      rewrite sector_put_other;
        [|lia|done|apply new_sector_length; (lia || done)|lia|lia].
      apply Hsec_same; [lia|]. destruct Hl. unfold l in *. lia.
    + intros j Hj Hfit. rewrite <- Hdisk by lia.
      apply fat_entry_on_disk_same. unfold m'', put_entry.
      assert (Hq : 0 <= slot / 2) by (apply Z.div_pos; lia).
      assert (Hjq : 0 <= j / 32 < fat_sectors l).
      { split; [apply Z.div_pos; lia|apply Z.div_lt_upper_bound; lia]. }
      pose proof (lo_fat_start w Hl) as Hfs1.
      pose proof (lo_dir_start w Hl) as Hfs2. fold l in Hfs1, Hfs2.
      apply sector_put_other;
        [lia|done|apply new_sector_length; (lia || done)|lia|lia].
Qed.

(** [D] of a file whose chain lies in the data area, as the disk holds
    it afterwards.  [D] answers 0 and empties the slot.  When the FAT
    sectors hold an entry for every block, the FAT that [fat_load] reads
    from the disk into an empty cache is the old FAT with the blocks of
    the chain FREE, as the cache holds it, and it has as many more FREE
    data blocks as the chain had blocks.  The other entries and the data
    sectors are unchanged. *)
Theorem delete_reclaims w nm slot bs fuel :
  fs_ok w -> first_named w nm slot ->
  chain (fat_of w) (first (entry_at (img w) (L (G w)) slot)) bs ->
  Forall (fun y => data_start (L (G w)) <= y) bs ->
  (length bs <= fuel)%nat ->
  total_blocks (L (G w)) <= 32 * fat_sectors (L (G w)) ->
  Forall (fun x => 0 <= x < 2 ^ 32) (fat_of w) ->
  exists w',
    cmd_delete fuel nm w = Ret (r0, w') /\
    fs_ok w' /\
    fat_on_disk w' = free_all bs (fat_of w) /\
    fat_of w' = fat_on_disk w' /\
    (forall b, b ∈ bs -> fat_on_disk w' !! Z.to_nat b = Some FAT_FREE) /\
    free_count (L (G w')) (fat_on_disk w')
    = free_count (L (G w)) (fat_of w) + Z.of_nat (length bs) /\
    used (entry_at (img w') (L (G w')) slot) = x00 /\
    (forall j, 0 <= j < dir_entries (L (G w)) -> j <> slot ->
       entry_at (img w') (L (G w')) j = entry_at (img w) (L (G w)) j) /\
    (forall j, data_start (L (G w)) <= j -> sector (img w') j = sector (img w) j).
Proof.
  intros Hok Hname Hch Hin Hfuel Hfit Hrange.
  destruct (delete_run w nm slot bs fuel Hok Hname Hch Hfuel)
    as (w' & Hrun & Hok' & HL & Hfat & Hu & Hother & Hsect & Hdisk).
  pose proof Hok as [_ Hl _ _].
  destruct (data_start_ok w Hl) as [_ Hds].
  assert (Hpers : fat_on_disk w' = fat_of w').
  { apply persisted; [exact Hok'|by rewrite HL| |].
    - rewrite Hfat. by apply free_all_range.
    - intros j Hj1 Hj2. rewrite HL in Hj1, Hj2. exact (Hdisk j Hj1 Hj2). }
  exists w'. rewrite Hpers, Hfat.
  split; [exact Hrun|]. split; [exact Hok'|]. split; [done|]. split; [done|].
  split.
  { intros b Hb. apply free_all_member; [done|].
    by eapply chain_bounds_Forall. }
  split; [|done].
  rewrite HL. apply (free_all_reclaims _ _ _ _ Hch); [lia|exact Hin].
Qed.

(** [D] of one file leaves any other file readable: [R] of the other
    file answers its content as before. *)
Theorem delete_spares_other_file w nm slot bs fuel nm' slot' bs2 d2 uninit :
  fs_ok w -> first_named w nm slot ->
  chain (fat_of w) (first (entry_at (img w) (L (G w)) slot)) bs ->
  (length bs <= fuel)%nat ->
  first_named w nm' slot' -> slot' <> slot ->
  chain (fat_of w) (first (entry_at (img w) (L (G w)) slot')) bs2 ->
  Forall (fun y => data_start (L (G w)) <= y) bs2 ->
  (forall y, y ∈ bs2 -> y ∉ bs) ->
  FS.length (entry_at (img w) (L (G w)) slot') = Z.of_nat (length d2) ->
  holds (data_start (L (G w))) (total_blocks (L (G w))) (img w) (fat_of w)
    (first (entry_at (img w) (L (G w)) slot')) d2 ->
  Z.of_nat (length d2) <= 128 * Z.of_nat fuel ->
  exists w1 w2,
    cmd_delete fuel nm w = Ret (r0, w1) /\
    cmd_read fuel uninit nm' w1
    = Ret ([x30; x20] ++ fmt_u (Z.of_nat (length d2)) ++ [x20] ++ d2 ++ [x0a],
           w2).
Proof.
  intros Hok Hname Hch Hfuel Hname' Hne Hch2 Hin2 Hdisj Hlen2 Hholds2 Hfuel2.
  destruct (delete_run w nm slot bs fuel Hok Hname Hch Hfuel)
    as (w1 & Hrun & Hok1 & HL & Hfat & Hu & Hother & Hsect & _).
  pose proof Hname' as (Hslot' & Hnames' & Hfirst').
  assert (He' : entry_at (img w1) (L (G w1)) slot'
                = entry_at (img w) (L (G w)) slot') by (by apply Hother).
  assert (Hkeep : forall y, y ∈ bs2 ->
            fat_of w1 !! Z.to_nat y = fat_of w !! Z.to_nat y
            /\ sector (img w1) y = sector (img w) y).
  { intros y Hy.
    assert (Hy2 : data_start (L (G w)) <= y).
    { rewrite Forall_forall in Hin2. by apply Hin2. }
    pose proof Hok as [_ Hl _ _]. destruct (data_start_ok w Hl) as [_ Hds].
    split; [|by apply Hsect].
    rewrite Hfat. apply free_all_other; [lia|by apply Hdisj|].
    eapply Forall_impl; [by eapply chain_bounds_Forall|]. simpl. lia. }
  assert (Hname1' : first_named w1 nm' slot').
  { split; [by rewrite HL|]. split.
    - by rewrite He'.
    - intros i Hi. destruct (decide (i = slot)) as [->|Hi'].
      + intros [Hu' _]. by apply Hu'.
      + rewrite Hother by lia. by apply Hfirst'. }
  destruct (read_returns w1 nm' slot' fuel uninit d2 Hok1 Hname1')
    as (w2 & Hread & _).
  { rewrite He'. exact Hlen2. }
  { rewrite He', HL.
    eapply holds_frame; [exact Hholds2|exact Hch2|exact Hkeep]. }
  { exact Hfuel2. }
  exists w1, w2. done.
Qed.

End FSFiles.

(** ** The filesystem service: a whole session *)

Module FSSession.
Import Mach FS FSInv MachFacts FSDisk FSDir FSFat FSEntry FSCreate FSChain FSDelete
  FSAlloc FSFile FSWrite FSSpace FSNames FSFresh FSFiles.
#[local] Abbreviation length := List.length (only parsing).


End FSSession.

(** ** The directory client: paths and marker names *)

Module DirsFacts.
Import Mach FS Dirs.
#[local] Abbreviation length := List.length (only parsing).

Lemma cstr_no_nul s : x00 ∉ cstr s.
Proof.
  induction s as [|c s IH]; simpl; [by apply not_elem_of_nil|].
  destruct (decide (c = x00)); [by apply not_elem_of_nil|].
  apply not_elem_of_cons. split; [congruence|done].
Qed.

Lemma cstr_head s c : hd x00 s = c -> c <> x00 -> exists t, cstr s = c :: t.
Proof.
  destruct s as [|c' s]; simpl; intros <- Hc; [done|].
  destruct (decide (c' = x00)); [done|]. by eexists.
Qed.

Lemma cstr_idem s : x00 ∉ s -> cstr s = s.
Proof.
  induction s as [|c s IH]; simpl; [done|].
  intros [Hc Hs]%not_elem_of_cons.
  destruct (decide (c = x00)); [congruence|]. by rewrite IH.
Qed.

(** What the trimming loop leaves: a prefix of the text, not empty when
    the text is not, and, given enough rounds, without a final slash
    unless one character is left. *)
Lemma trim_slashes_spec n : forall out,
  exists k, trim_slashes n out = take k out /\
    (out <> [] -> (1 <= k)%nat) /\ (k <= length out)%nat /\
    ((length out <= n)%nat ->
       (k <= 1)%nat \/ out !! (k - 1)%nat <> Some x2f).
Proof.
  induction n as [|n IH]; intros out.
  - exists (length out). simpl. rewrite firstn_all.
    split; [done|]. split; [destruct out; simpl; [done|lia]|].
    split; [lia|]. intros Hn. left. lia.
  - simpl.
    destruct ((1 <? length out)%nat
              && bool_decide (out !! (length out - 1)%nat = Some x2f)) eqn:E.
    + apply andb_prop in E as [Hlen Hlast]. apply Nat.ltb_lt in Hlen.
      destruct (IH (take (length out - 1) out)) as (k & Hk & Hne & Hle & Hend).
      rewrite length_take in Hle, Hend.
      exists k. rewrite Hk, take_take. replace (k `min` (length out - 1))%nat with k by lia.
      split; [done|]. split.
      { intros _. apply Hne. intros Hnil. apply (f_equal length) in Hnil.
        rewrite length_take in Hnil. simpl in Hnil. lia. }
      split; [lia|]. intros Hn.
      destruct Hend as [Hend|Hend]; [lia|by left|].
      right. rewrite lookup_take_lt in Hend by lia. exact Hend.
    + exists (length out). rewrite firstn_all.
      split; [done|]. split; [destruct out; simpl; [done|lia]|].
      split; [lia|]. intros _.
      apply andb_false_iff in E as [E|E].
      * apply Nat.ltb_ge in E. left. lia.
      * apply bool_decide_eq_false in E. by right.
Qed.

(** With a buffer of at least two bytes and a current directory that
    begins with a slash, [join_path] leaves a path that begins with a
    slash, has no slash at its end unless it is the root itself, fits the
    buffer with its terminator, and has no terminator inside. *)
Theorem join_path_canonical cwd name out_sz :
  2 <= out_sz -> hd x00 cwd = x2f ->
  (exists q, join_path cwd name out_sz = x2f :: q) /\
  (join_path cwd name out_sz = [x2f]
   \/ last (join_path cwd name out_sz) <> Some x2f) /\
  Z.of_nat (length (join_path cwd name out_sz)) < out_sz /\
  x00 ∉ join_path cwd name out_sz.
Proof.
  intros Hsz Hcwd. set (p := join_path cwd name out_sz).
  destruct (cstr_head cwd x2f Hcwd ltac:(done)) as (c' & Hc').
  set (out := if bool_decide (hd x00 name = x2f) then snprintf out_sz (cstr name)
              else if bool_decide (cstr cwd = [x2f])
                   then snprintf out_sz (x2f :: cstr name)
                   else snprintf out_sz (cstr cwd ++ x2f :: cstr name)).
  assert (Hout : exists s t, out = take (Z.to_nat (out_sz - 1)) (x2f :: s)
                             /\ x2f :: s = cstr t).
  { unfold out, snprintf. case_bool_decide as Hn.
    - destruct (cstr_head name x2f Hn ltac:(done)) as (t & Ht).
      exists t, name. by rewrite Ht.
    - case_bool_decide as Hroot.
      + exists (cstr name), (x2f :: name). split; [done|]. simpl.
        by destruct (decide (x2f = x00)).
      + exists (c' ++ x2f :: cstr name), (cstr cwd ++ x2f :: cstr name).
        rewrite (cstr_idem (cstr cwd ++ x2f :: cstr name)); [by rewrite Hc'|]. intros [H|H]%elem_of_app.
        * by apply (cstr_no_nul cwd).
        * apply elem_of_cons in H as [H|H]; [done|by apply (cstr_no_nul name)]. }
  destruct Hout as (s & t & Hout & Ht).
  destruct (trim_slashes_spec (length out) out) as (k & Hk & Hne & Hle & Hend).
  fold out in p. change p with (trim_slashes (length out) out). rewrite Hk.
  assert (Hlen : Z.of_nat (length out) < out_sz).
  { rewrite Hout, length_take. lia. }
  assert (Hk1 : (1 <= k)%nat).
  { apply Hne. rewrite Hout. replace (Z.to_nat (out_sz - 1)) with (S (Z.to_nat (out_sz - 2))) by lia.
    done. }
  assert (Hhd : exists q, take k out = x2f :: q).
  { rewrite Hout. replace (Z.to_nat (out_sz - 1)) with (S (Z.to_nat (out_sz - 2))) by lia.
    destruct k as [|k]; [lia|]. simpl. by eexists. }
  split; [exact Hhd|]. split; [|split].
  - destruct (Hend ltac:(lia)) as [Hk2|Hlast].
    + left. destruct Hhd as (q & Hq). rewrite Hq.
      apply (f_equal length) in Hq. rewrite length_take in Hq. simpl in Hq.
      destruct q; [done|simpl in Hq; lia].
    + right. rewrite last_lookup, length_take.
      replace (Nat.pred (k `min` length out)) with (k - 1)%nat by lia.
      rewrite lookup_take_lt by lia. exact Hlast.
  - rewrite length_take. lia.
  - intros Hin. apply (cstr_no_nul t). rewrite <- Ht.
    rewrite Hout in Hin.
    apply elem_of_take in Hin as (i & Hi & _).
    apply lookup_take_Some in Hi as [Hi _].
    by eapply list_elem_of_lookup_2.
Qed.

Lemma cstr_length s : Z.of_nat (length (cstr s)) = strlen s.
Proof.
  induction s as [|c s IH]; simpl; [done|].
  destruct (decide (c = x00)); simpl; lia.
Qed.

(** The marker name of a path that begins with a slash and fits the
    buffer: empty for the root, otherwise the path without its first
    character, followed by a slash. *)
Lemma path_to_fsname_fits p q sz :
  cstr p = x2f :: q -> strlen p < sz ->
  path_to_fsname p sz = if bool_decide (q = []) then [] else q ++ [x2f].
Proof.
  intros Hp Hlen. unfold path_to_fsname, snprintf. rewrite Hp.
  rewrite <- cstr_length, Hp in Hlen. simpl in Hlen.
  destruct q as [|c q]; [done|].
  rewrite bool_decide_eq_false_2 by done.
  rewrite bool_decide_eq_false_2 by done.
  apply take_ge. simpl. rewrite length_app. simpl in *. lia.
Qed.

(** [path_to_fsname] gives different marker names to different paths:
    two paths that begin with a slash and fit the buffer have the same
    marker name only if they are the same path. *)
Theorem path_to_fsname_injective p1 p2 sz :
  hd x00 p1 = x2f -> hd x00 p2 = x2f ->
  strlen p1 < sz -> strlen p2 < sz ->
  path_to_fsname p1 sz = path_to_fsname p2 sz ->
  cstr p1 = cstr p2.
Proof.
  intros H1 H2 Hl1 Hl2.
  destruct (cstr_head p1 x2f H1 ltac:(done)) as (q1 & Hq1).
  destruct (cstr_head p2 x2f H2 ltac:(done)) as (q2 & Hq2).
  rewrite (path_to_fsname_fits p1 q1 sz Hq1 Hl1).
  rewrite (path_to_fsname_fits p2 q2 sz Hq2 Hl2).
  rewrite Hq1, Hq2.
  repeat case_bool_decide; subst; intros Heq; try done.
  - by destruct q2.
  - by destruct q1.
  - by apply app_inv_tail in Heq as ->.
Qed.

Lemma trim_slashes_none n out :
  last out <> Some x2f -> trim_slashes n out = out.
Proof.
  intros Hl. destruct n as [|n]; [done|]. simpl.
  rewrite last_lookup in Hl.
  replace (length out - 1)%nat with (Nat.pred (length out)) by lia.
  rewrite (bool_decide_eq_false_2 _ Hl). by rewrite andb_false_r.
Qed.

(** The marker name of a directory made under the current directory:
    for a name without slash that fits, it is the current directory
    without its first slash, a slash unless that is the root, the name,
    and a final slash. *)
Theorem fsname_of_child cwd name sz :
  hd x00 cwd = x2f -> cstr name <> [] -> x2f ∉ cstr name ->
  strlen cwd + strlen name + 1 < sz ->
  path_to_fsname (join_path cwd name sz) sz
  = (if bool_decide (cstr cwd = [x2f]) then [] else drop 1 (cstr cwd) ++ [x2f])
    ++ cstr name ++ [x2f].
Proof.
  intros Hcwd Hne Hsl Hlen.
  destruct (cstr_head cwd x2f Hcwd ltac:(done)) as (c' & Hc').
  pose proof (cstr_length cwd) as Hlc. pose proof (cstr_length name) as Hln.
  pose proof (cstr_no_nul cwd) as Hzc. pose proof (cstr_no_nul name) as Hzn.
  destruct (cstr name) as [|n0 ns] eqn:En; [done|]. clear Hne.
  assert (Hn0 : hd x00 name <> x2f).
  { intros H. destruct (cstr_head name x2f H ltac:(done)) as (t & Ht).
    rewrite En in Ht. injection Ht as -> _. apply Hsl. by left. }
  assert (Hlast : forall pre, last (pre ++ n0 :: ns) <> Some x2f).
  { intros pre H. apply Hsl. rewrite last_app_cons in H.
    rewrite last_lookup in H. by eapply list_elem_of_lookup_2. }
  rewrite Hc' in Hlc, Hzc. simpl in Hlc, Hln.
  apply not_elem_of_cons in Hzc as [_ Hzc].
  unfold join_path. rewrite (bool_decide_eq_false_2 _ Hn0), Hc', En.
  case_bool_decide as Hroot.
  - injection Hroot as ->. simpl in Hlc.
    unfold snprintf. rewrite take_ge by (simpl; lia).
    rewrite (trim_slashes_none _ (x2f :: n0 :: ns)) by (apply (Hlast [x2f])).
    rewrite (path_to_fsname_fits _ (n0 :: ns)).
    + done.
    + apply cstr_idem. apply not_elem_of_cons. done.
    + rewrite <- cstr_length, cstr_idem by (by apply not_elem_of_cons).
      simpl. lia.
  - unfold snprintf. rewrite take_ge by (simpl; rewrite length_app; simpl; lia).
    rewrite (trim_slashes_none _ ((x2f :: c') ++ x2f :: n0 :: ns))
      by (rewrite (cons_middle x2f), app_assoc; apply Hlast).
    assert (Hz : x00 ∉ (x2f :: c') ++ x2f :: n0 :: ns).
    { intros [H|H]%elem_of_app.
      - apply elem_of_cons in H as [H|H]; done.
      - apply elem_of_cons in H as [H|H]; done. }
    rewrite (path_to_fsname_fits _ (c' ++ x2f :: n0 :: ns)).
    + rewrite bool_decide_eq_false_2 by (by destruct c').
      simpl. by rewrite <- !app_assoc.
    + by apply cstr_idem.
    + rewrite <- cstr_length, cstr_idem by done.
      simpl. rewrite length_app. simpl. lia.
Qed.

End DirsFacts.

(** ** Where the handlers depart from the stated behaviour *)

Module Departures.
Import Mach FS FSInv Examples.
#[local] Abbreviation length := List.length (only parsing).

(** C2 as stated fails on a disk whose size wraps: [main] accepts 2^57 + 1
    cylinders of one sector and maps the 128 bytes that the size wraps to.
    Cylinder 100 is a valid cylinder, its sector begins at byte 12800,
    outside the image, and the [W] is not answered. *)
Lemma wrapped_disk_write_faults :
  Disk.reachable wrapped_disk /\
  0 <= 100 < Disk.g_cyl wrapped_disk /\ 0 <= 0 < Disk.g_sec wrapped_disk /\
  (length hello <= 128)%nat /\
  length (Disk.g_base wrapped_disk) = 128%nat /\
  Disk.blk_ptr wrapped_disk 100 0 = 12800 /\
  Disk.handle_W wrapped_disk (hello ++ foo) 100 0 (Z.of_nat (length hello))
  = Fault OutOfBounds.
Proof.
  split.
  - apply Disk.reach_boot; [unfold long_min, long_max; lia..|reflexivity].
  - do 3 (split; [simpl; lia|]). vm_compute. repeat split; congruence.
Qed.

(** C9 as stated fails for the seek times that [main] accepts without a
    check.  With [T = -5] a seek over four tracks does not sleep at all;
    with [T = 2^62 + 1] the product [4 * T], computed in a [long], is 4,
    and the seek sleeps 4 microseconds. *)
Lemma seek_time_not_product :
  Disk.reachable backward84 /\ Disk.reachable slow84 /\
  0 <= 4 < Disk.g_cyl backward84 /\ 0 <= 0 < Disk.g_sec backward84 /\
  0 <= 4 < Disk.g_cyl slow84 /\ 0 <= 0 < Disk.g_sec slow84 /\
  (exists o, Disk.handle_R backward84 [] 4 0 = Ret o /\
             DiskInv.slept (Disk.trace o) = 0 /\
             Z.abs (4 - Disk.g_head_cyl backward84) * Disk.g_track_us backward84
             = -20) /\
  (exists o, Disk.handle_R slow84 [] 4 0 = Ret o /\
             DiskInv.slept (Disk.trace o) = 4 /\
             Z.abs (4 - Disk.g_head_cyl slow84) * Disk.g_track_us slow84
             = 2 ^ 64 + 4).
Proof.
  split; [apply Disk.reach_boot; [unfold long_min, long_max; lia..|reflexivity]|].
  split; [apply Disk.reach_boot; [unfold long_min, long_max; lia..|reflexivity]|].
  do 4 (split; [simpl; lia|]).
  split; eexists; (split; [vm_compute; reflexivity|]); split; reflexivity.
Qed.

(** C4 as stated fails for an invalid name: on a formatted filesystem the
    empty name, and a name of 32 characters, are answered "2\n", not
    "1\n". *)
Lemma create_invalid_name_is_2 :
  formatted (G fresh36) = true /\
  strlen [] = 0 /\
  answer (cmd_create []) fresh36 = Some r2 /\
  strlen (replicate 32 x61) = 32 /\
  answer (cmd_create (replicate 32 x61)) fresh36 = Some r2 /\
  r2 <> r1.
Proof. vm_compute. repeat split; congruence. Qed.

(** C6 as stated fails when the metadata fills the disk exactly: with 35
    blocks, [dir_start + dir_sectors = 35], and [F] is answered "0\n" and
    marks the filesystem formatted. *)
Lemma format_accepts_35_blocks :
  nblocks connected35 = 35 /\
  formatted (G connected35) = false /\
  total_blocks (compute_layout (conn connected35))
    <= dir_start (compute_layout (conn connected35))
       + dir_sectors (compute_layout (conn connected35)) /\
  answer cmd_format connected35 = Some r0 /\
  formatted (G (after cmd_format connected35)) = true.
Proof. vm_compute. repeat split; congruence. Qed.

(** C3 as stated fails: the file "foo" holds 5 bytes in the only data
    block (35) of a 36-block disk; [W foo 200] needs two blocks and is
    answered "2\n", but the directory entry on disk still has length 5 and
    first block 35, block 35 is not FREE in the cache, and [R foo] still
    returns the 5 bytes. *)
Lemma failed_write_keeps_entry :
  formatted (G hello36) = true /\
  answer (cmd_read 64 [] foo) hello36
    = Some ([x30; x20; x35; x20] ++ hello ++ [x0a]) /\
  free_count (L (G hello36)) (free_all [35] (fat_of hello36)) = 1 /\
  answer (cmd_write 64 foo 200 payload200) hello36 = Some (mkWres 0 r2 []) /\
  FS.length (entry_at (img full36) (L (G full36)) 0) = 5 /\
  first (entry_at (img full36) (L (G full36)) 0) = 35 /\
  v (fat (G full36)) !! 35%nat = Some FAT_EOF /\
  answer (cmd_read 64 [] foo) full36
    = Some ([x30; x20; x35; x20] ++ hello ++ [x0a]).
Proof. vm_compute. repeat split; congruence. Qed.

End Departures.

(** ** Instances of the theorems *)

Module Instances.
Import Mach FS FSInv Examples.
#[local] Abbreviation length := List.length (only parsing).

Lemma disk44_reachable : Disk.reachable disk44.
Proof.
  apply Disk.reach_boot; [unfold long_min, long_max; lia..|reflexivity].
Defined.

Lemma disk44_size : DiskInv.size_ok disk44.
Proof. unfold DiskInv.size_ok, Disk.BLKSZ. simpl. lia. Defined.

Lemma disk_write_then_read_hello :
  Disk.reachable disk44 /\ DiskInv.size_ok disk44 /\
  0 <= 1 < 4 /\ 0 <= 2 < 4 /\ (length hello <= 128)%nat /\
  exists o1 o2,
    Disk.handle_W disk44 (hello ++ foo) 1 2 (Z.of_nat (length hello)) = Ret o1 /\
    Disk.rv o1 = 0 /\ Disk.sent o1 = [x31] /\ Disk.rest o1 = foo /\
    Disk.handle_R (Disk.st' o1) foo 1 2 = Ret o2 /\
    Disk.rv o2 = 0 /\
    Disk.sent o2 = x31 :: hello ++ zeros (128 - length hello) /\
    length (hello ++ zeros (128 - length hello)) = 128%nat.
Proof.
  split; [exact disk44_reachable|]. split; [exact disk44_size|].
  split; [lia|]. split; [lia|]. split; [simpl; lia|].
  apply (DiskFacts.disk_write_then_read disk44 foo 1 2 hello);
    [exact disk44_reachable | exact disk44_size
     | simpl; lia | simpl; lia | simpl; lia].
Defined.

Lemma disk_rejects_cylinder_4 :
  (~ 0 <= 4 < Disk.g_cyl disk44 \/ ~ 0 <= 0 < Disk.g_sec disk44 \/ ~ 0 <= 5 <= 128) /\
  Disk.handle_W disk44 hello 4 0 5 = Ret (Disk.mkOut 0 [x30] hello disk44 []) /\
  (~ 0 <= 4 < Disk.g_cyl disk44 \/ ~ 0 <= 0 < Disk.g_sec disk44 ->
   Disk.handle_R disk44 hello 4 0 = Ret (Disk.mkOut 0 [x30] hello disk44 [])).
Proof.
  assert (H : ~ 0 <= 4 < Disk.g_cyl disk44 \/ ~ 0 <= 0 < Disk.g_sec disk44
              \/ ~ 0 <= 5 <= 128) by (left; simpl; lia).
  split; [exact H|].
  exact (DiskFacts.disk_rejects disk44 hello 4 0 5 H).
Defined.

(** The disk after [W 1 2 5]: the arm is at cylinder 1. *)
Lemma disk44_hello_served :
  Disk.serve disk44 (hello ++ foo) (Disk.ReqW 1 2 5) = Ret disk44_hello.
Proof. vm_compute. reflexivity. Defined.

Lemma disk44_hello_reachable : Disk.reachable (Disk.st' disk44_hello).
Proof.
  exact (Disk.reach_serve disk44 (hello ++ foo) (Disk.ReqW 1 2 5) disk44_hello
           disk44_reachable disk44_hello_served).
Defined.

Lemma arm_position_after_write :
  Disk.reachable (Disk.st' disk44_hello) /\
  DiskInv.size_ok (Disk.st' disk44_hello) /\
  DiskInv.track_time_ok (Disk.st' disk44_hello) /\
  Disk.g_head_cyl disk44 = 0 /\
  Disk.g_head_cyl (Disk.st' disk44_hello) = 1 /\
  0 <= Disk.g_head_cyl (Disk.st' disk44_hello)
    < Disk.g_cyl (Disk.st' disk44_hello) /\
  exists o pre,
    Disk.handle_R (Disk.st' disk44_hello) foo 3 0 = Ret o /\
    Disk.g_head_cyl (Disk.st' o) = 3 /\
    Disk.trace o
    = pre ++ [Disk.EvArm 3;
              Disk.EvLoad (Disk.blk_ptr (Disk.st' disk44_hello) 3 0)] /\
    Forall DiskInv.is_sleep pre /\
    DiskInv.slept pre
    = Z.abs (3 - Disk.g_head_cyl (Disk.st' disk44_hello))
      * Disk.g_track_us (Disk.st' disk44_hello) /\
    DiskInv.slept pre = 2000.
Proof.
  assert (Hsz : DiskInv.size_ok (Disk.st' disk44_hello)).
  { unfold DiskInv.size_ok, Disk.BLKSZ. simpl. lia. }
  assert (HT : DiskInv.track_time_ok (Disk.st' disk44_hello)).
  { unfold DiskInv.track_time_ok, long_max. simpl. lia. }
  assert (Hc : 0 <= 3 < Disk.g_cyl (Disk.st' disk44_hello)) by (simpl; lia).
  assert (Hs : 0 <= 0 < Disk.g_sec (Disk.st' disk44_hello)) by (simpl; lia).
  destruct (DiskFacts.arm_position (Disk.st' disk44_hello)
              disk44_hello_reachable) as (Hboot & Harm & HR & _).
  destruct (HR foo 3 0 Hc Hs) as [Hex Hall].
  destruct (Hex Hsz) as (o & Ho).
  destruct (Hall o Ho) as (Hat & pre & Htr & Hsl & Hsum).
  split; [exact disk44_hello_reachable|]. split; [exact Hsz|].
  split; [exact HT|]. split; [exact (Hboot 4 4 1000 (zeros 2048))|].
  split; [reflexivity|]. split; [exact Harm|].
  exists o, pre. split; [exact Ho|]. split; [exact Hat|].
  split; [exact Htr|]. split; [exact Hsl|]. split; [exact (Hsum HT)|].
  rewrite (Hsum HT). reflexivity.
Defined.

Lemma layout_of_geometry_6_6 :
  0 < 6 /\ 0 < 6 /\ 4 * (6 * 6) + 127 < 2 ^ 32 /\
  let l := compute_layout (mkDiskT 6 6 []) in
  total_blocks l = 6 * 6 /\
  super_sector = 0 /\
  fat_start l = 1 /\
  (128 * (fat_sectors l - 1) < 4 * (6 * 6) <= 128 * fat_sectors l) /\
  dir_start l = fat_start l + fat_sectors l /\
  dir_sectors l = 32 /\
  dir_entries l = 64 /\
  dir_entries l = (BLKSZ / 64) * dir_sectors l /\
  data_start l = dir_start l + dir_sectors l.
Proof.
  split; [lia|]. split; [lia|]. split; [lia|].
  apply (FSBasics.layout_of_geometry 6 6 []); lia.
Defined.

Lemma unformatted_replies_blank :
  formatted (G (blank_world 6 6)) = false /\
  cmd_create foo (blank_world 6 6) = Ret (r2, blank_world 6 6) /\
  cmd_delete 64 foo (blank_world 6 6) = Ret (r2, blank_world 6 6) /\
  cmd_write 64 foo (Z.of_nat (length hello)) (hello ++ []) (blank_world 6 6)
    = Ret (mkWres 0 r2 [], blank_world 6 6) /\
  cmd_read 64 [] foo (blank_world 6 6) = Ret (r1_0, blank_world 6 6).
Proof.
  split; [reflexivity|].
  apply (FSBasics.unformatted_replies (blank_world 6 6) 64 [] foo hello []).
  reflexivity.
Defined.

(** The small filesystems are formatted filesystems. *)
Ltac by_running := vm_compute; repeat split; (reflexivity || discriminate).

Lemma connected34_ok : conn_ok connected34.
Proof. split; [unfold DiskInv.geometry_ok|..]; by_running. Defined.

Lemma fresh36_ok : fs_ok fresh36.
Proof.
  split; [split; [unfold DiskInv.geometry_ok|..]|split|intros _|]; by_running.
Defined.

Lemma hello36_ok : fs_ok hello36.
Proof.
  split; [split; [unfold DiskInv.geometry_ok|..]|split|intros _|]; by_running.
Defined.

Lemma foo42_ok : fs_ok foo42.
Proof.
  split; [split; [unfold DiskInv.geometry_ok|..]|split|intros _|]; by_running.
Defined.

Lemma hello36_foo : only_named hello36 foo 0.
Proof.
  apply (FSDelete.only_named_scan hello36 foo 0
           (entry_at (img hello36) (L (G hello36)) 0)); by_running.
Defined.

Lemma foo42_foo : first_named foo42 foo 0.
Proof.
  apply FSDelete.only_named_first.
  apply (FSDelete.only_named_scan foo42 foo 0
           (entry_at (img foo42) (L (G foo42)) 0)); by_running.
Defined.

Lemma hello36_chain :
  chain (fat_of hello36) (first (entry_at (img hello36) (L (G hello36)) 0)) [35].
Proof.
  change (first (entry_at (img hello36) (L (G hello36)) 0)) with 35.
  apply (chain_cons _ 35 FAT_EOF []); [by_running..|].
  apply chain_nil.
Defined.

Lemma foo42_chain :
  chain (fat_of foo42) (first (entry_at (img foo42) (L (G foo42)) 0)) [].
Proof.
  change (first (entry_at (img foo42) (L (G foo42)) 0)) with FAT_EOF.
  apply chain_nil.
Defined.

Lemma create_replies_fresh36 :
  fs_ok fresh36 /\
  ((exists w', cmd_create foo fresh36 = Ret (r1, w'))
   <-> (1 <= strlen foo < 32 /\ has_entry fresh36 foo)) /\
  (~ 1 <= strlen foo < 32 -> cmd_create foo fresh36 = Ret (r2, fresh36)) /\
  (exists r w', cmd_create foo fresh36 = Ret (r, w')
                /\ (r = r0 \/ r = r1 \/ r = r2)) /\
  (forall w1, cmd_create foo fresh36 = Ret (r0, w1) ->
              exists w2, cmd_create foo w1 = Ret (r1, w2)).
Proof.
  split; [exact fresh36_ok|].
  exact (FSCreate.create_replies fresh36 foo fresh36_ok).
Defined.

Lemma format_rejects_34_blocks :
  conn_ok connected34 /\
  nblocks connected34 < dir_start (compute_layout (conn connected34))
                        + dir_sectors (compute_layout (conn connected34)) /\
  exists w',
    cmd_format connected34 = Ret (r2, w') /\
    formatted (G w') = formatted (G connected34) /\
    sector (img w') 0
    = super_pack (conn connected34) (compute_layout (conn connected34)) /\
    exists w'',
      client_open w' = Ret (tt, w'') /\
      formatted (G w'') = true /\
      L (G w'') = compute_layout (conn connected34).
Proof.
  assert (H : nblocks connected34
              < dir_start (compute_layout (conn connected34))
                + dir_sectors (compute_layout (conn connected34)))
    by by_running.
  split; [exact connected34_ok|]. split; [exact H|].
  exact (FSOpen.format_rejects_small connected34 connected34_ok H).
Defined.

Lemma delete_removes_hello36 :
  fs_ok hello36 /\ only_named hello36 foo 0 /\
  chain (fat_of hello36) (first (entry_at (img hello36) (L (G hello36)) 0)) [35] /\
  (length [35] <= 64)%nat /\
  fat_entry_on_disk (img hello36) (L (G hello36)) 35 = FAT_EOF /\
  exists w',
    cmd_delete 64 foo hello36 = Ret (r0, w') /\
    fat_entry_on_disk (img w') (L (G w')) 35 = FAT_FREE /\
    v (fat (G w')) = free_all [35] (fat_of hello36) /\
    (forall b, b ∈ [35] -> v (fat (G w')) !! Z.to_nat b = Some FAT_FREE) /\
    (forall j, 0 <= j -> j ∉ [35] ->
               v (fat (G w')) !! Z.to_nat j = fat_of hello36 !! Z.to_nat j) /\
    (forall b, b ∈ [35] -> b < 32 * fat_sectors (L (G hello36)) ->
               fat_entry_on_disk (img w') (L (G w')) b = FAT_FREE) /\
    (forall j, 0 <= j < total_blocks (L (G hello36)) ->
               j < 32 * fat_sectors (L (G hello36)) -> j ∉ [35] ->
               fat_entry_on_disk (img w') (L (G w')) j
               = default 0 (fat_of hello36 !! Z.to_nat j) mod 2 ^ 32) /\
    take 64 (drop (Z.to_nat (0 mod 2 * 64))
               (sector (img w') (dir_start (L (G hello36)) + 0 / 2)))
    = zeros 64 /\
    exists w'', cmd_read 64 [] foo w' = Ret (r1_0, w'').
Proof.
  assert (Hf : (length [35] <= 64)%nat) by (simpl; lia).
  assert (Hb : fat_entry_on_disk (img hello36) (L (G hello36)) 35 = FAT_EOF)
    by by_running.
  assert (Hfit : 35 < 32 * fat_sectors (L (G hello36))) by by_running.
  destruct (FSDelete.delete_removes hello36 foo 0 [35] 64 []
              hello36_ok hello36_foo hello36_chain Hf)
    as (w' & Hd & Hrest).
  split; [exact hello36_ok|]. split; [exact hello36_foo|].
  split; [exact hello36_chain|]. split; [exact Hf|]. split; [exact Hb|].
  exists w'. split; [exact Hd|]. split; [|exact Hrest].
  destruct Hrest as (_ & _ & _ & Hdisk & _).
  apply Hdisk; [constructor|exact Hfit].
Defined.

Lemma write_no_space_hello36 :
  fs_ok hello36 /\ first_named hello36 foo 0 /\
  chain (fat_of hello36) (first (entry_at (img hello36) (L (G hello36)) 0)) [35] /\
  (length [35] <= 64)%nat /\
  0 < Z.of_nat (length payload200) /\
  Z.of_nat (length payload200) + 127 < 2 ^ 32 /\
  free_count (L (G hello36)) (free_all [35] (fat_of hello36))
    < (Z.of_nat (length payload200) + 127) / 128 /\
  exists w',
    cmd_write 64 foo (Z.of_nat (length payload200)) (payload200 ++ hello) hello36
    = Ret (mkWres 0 r2 hello, w') /\
    img w' = img hello36 /\
    entry_at (img w') (L (G w')) 0 = entry_at (img hello36) (L (G hello36)) 0.
Proof.
  assert (Hf : (length [35] <= 64)%nat) by (simpl; lia).
  assert (H0 : 0 < Z.of_nat (length payload200)) by by_running.
  assert (H32 : Z.of_nat (length payload200) + 127 < 2 ^ 32) by by_running.
  assert (Hfew : free_count (L (G hello36)) (free_all [35] (fat_of hello36))
                 < (Z.of_nat (length payload200) + 127) / 128) by by_running.
  pose proof (FSDelete.only_named_first _ _ _ hello36_foo) as Hn.
  split; [exact hello36_ok|]. split; [exact Hn|].
  split; [exact hello36_chain|]. split; [exact Hf|].
  split; [exact H0|]. split; [exact H32|]. split; [exact Hfew|].
  exact (FSWrite.write_no_space hello36 foo 0 [35] 64 payload200 hello
           hello36_ok Hn hello36_chain Hf H0 H32 Hfew).
Defined.

Lemma write_then_read_foo42 :
  fs_ok foo42 /\ first_named foo42 foo 0 /\
  chain (fat_of foo42) (first (entry_at (img foo42) (L (G foo42)) 0)) [] /\
  (length (@nil Z) <= 64)%nat /\
  Z.of_nat (length payload300) <= 128 * Z.of_nat 64 /\
  Z.of_nat (length payload300) + 127 < 2 ^ 32 /\
  Z.of_nat (length payload300) <= free_count (L (G foo42)) (fat_of foo42) * 128 /\
  exists w1 w2,
    cmd_write 64 foo (Z.of_nat (length payload300)) (payload300 ++ hello) foo42
    = Ret (mkWres 0 r0 hello, w1) /\
    cmd_read 64 [] foo w1
    = Ret ([x30; x20] ++ fmt_u (Z.of_nat (length payload300)) ++ [x20]
             ++ payload300 ++ [x0a], w2).
Proof.
  assert (Hf : (length (@nil Z) <= 64)%nat) by (simpl; lia).
  assert (Hf' : Z.of_nat (length payload300) <= 128 * Z.of_nat 64) by by_running.
  assert (H32 : Z.of_nat (length payload300) + 127 < 2 ^ 32) by by_running.
  assert (Hfits : Z.of_nat (length payload300)
                  <= free_count (L (G foo42)) (fat_of foo42) * 128) by by_running.
  split; [exact foo42_ok|]. split; [exact foo42_foo|].
  split; [exact foo42_chain|]. split; [exact Hf|].
  split; [exact Hf'|]. split; [exact H32|]. split; [exact Hfits|].
  exact (FSWrite.write_then_read foo42 foo 0 [] 64 payload300 hello []
           foo42_ok foo42_foo foo42_chain Hf Hf' H32 Hfits).
Defined.

(** The large disk is a formatted filesystem with the empty file [foo]
    and 38749967 FREE blocks. *)
Lemma large_layout_computed : compute_layout large_conn = large_layout.
Proof. vm_compute. reflexivity. Qed.

Lemma large_fat_length : Z.of_nat (length large_fat) = 40000000.
Proof. unfold large_fat. rewrite length_app, !length_replicate. lia. Qed.

Lemma large_img_length : Z.of_nat (length large_img) = 5120000000.
Proof.
  unfold large_img.
  rewrite !length_app, FSFormat.super_pack_length, FSFat.fat_bytes_length,
    FSEntry.new_entry_pack_length, MachFacts.zeros_length.
  pose proof large_fat_length. lia.
Qed.

Lemma large_ok : fs_ok large_world.
Proof.
  split.
  - split.
    + unfold DiskInv.geometry_ok, large_world.
      cbn [dsk Disk.g_cyl Disk.g_sec Disk.g_base].
      rewrite large_img_length. unfold Disk.BLKSZ. lia.
    + reflexivity.
    + reflexivity.
    + unfold large_world. cbn [dsk Disk.g_sec]. lia.
    + reflexivity.
  - split; unfold nblocks, large_world, large_layout;
      cbn [G L dsk Disk.g_cyl Disk.g_sec total_blocks fat_start fat_sectors
           dir_start dir_sectors dir_entries]; lia.
  - intros _. exact large_fat_length.
  - reflexivity.
Qed.

Lemma large_dir_sector :
  sector large_img 1250001
  = dirent_pack (new_entry foo) ++ take 64 (zeros (Z.to_nat 4959999808)).
Proof.
  unfold sector, large_img.
  rewrite (app_assoc (super_pack _ _)).
  rewrite drop_app_length'.
  - rewrite take_app, FSEntry.new_entry_pack_length.
    rewrite take_ge by (rewrite FSEntry.new_entry_pack_length; lia).
    reflexivity.
  - rewrite length_app, FSFormat.super_pack_length, FSFat.fat_bytes_length.
    pose proof large_fat_length. lia.
Qed.

Lemma large_entry :
  entry_at (img large_world) (L (G large_world)) 0
  = dirent_unpack (dirent_pack (new_entry foo)
                     ++ take 64 (zeros (Z.to_nat 4959999808))).
Proof.
  unfold entry_at.
  change (dir_start (L (G large_world)) + 0 / 2) with 1250001.
  change (Z.to_nat (0 mod 2 * 64)) with O.
  change (img large_world) with large_img.
  rewrite drop_0, large_dir_sector. reflexivity.
Qed.

Lemma large_foo : first_named large_world foo 0.
Proof.
  split; [|split].
  - change (dir_entries (L (G large_world))) with 64. lia.
  - rewrite large_entry. apply FSEntry.new_entry_names. vm_compute. reflexivity.
  - intros i Hi. lia.
Qed.

Lemma large_chain :
  chain (fat_of large_world)
    (first (entry_at (img large_world) (L (G large_world)) 0)) [].
Proof.
  rewrite large_entry, FSEntry.dirent_unpack_pack.
  - cbn [first new_entry]. change (FAT_EOF mod 2 ^ 32) with FAT_EOF.
    apply chain_nil.
  - unfold new_entry. cbn [name].
    rewrite length_app, FSEntry.strncpy_length. simpl. lia.
Qed.

Lemma large_free :
  free_count (L (G large_world)) (fat_of large_world) = 38749967.
Proof.
  rewrite FSFat.fat_of_loaded by reflexivity.
  change (v (fat (G large_world))) with large_fat.
  unfold free_count.
  change (data_start (L (G large_world))) with 1250033.
  unfold large_fat. rewrite drop_app_length' by (by rewrite length_replicate).
  rewrite FSAlloc.nfree_replicate. lia.
Qed.

Lemma payload_max_length : Z.of_nat (length payload_max) = 4294967295.
Proof. unfold payload_max. rewrite length_replicate. lia. Qed.

Lemma write_wraps_large_disk :
  fs_ok large_world /\ first_named large_world foo 0 /\
  chain (fat_of large_world)
    (first (entry_at (img large_world) (L (G large_world)) 0)) [] /\
  (length (@nil Z) <= 0)%nat /\
  2 ^ 32 - 127 <= Z.of_nat (length payload_max) < 2 ^ 32 /\
  Z.of_nat (length payload_max)
    <= free_count (L (G large_world)) (fat_of large_world) * 128 /\
  payload_max <> [] /\
  exists w1 w2 reply,
    cmd_write 0 foo (Z.of_nat (length payload_max)) (payload_max ++ [])
      large_world
    = Ret (mkWres 0 r0 [], w1) /\
    first (entry_at (img w1) (L (G w1)) 0) = FAT_EOF /\
    cmd_read 0 [] foo w1 = Ret (reply, w2) /\
    reply = [x30; x20] ++ fmt_u (Z.of_nat (length payload_max)) ++ [x20]
            ++ take (length payload_max) [] ++ [x0a] /\
    (reply = [x30; x20] ++ fmt_u (Z.of_nat (length payload_max)) ++ [x20]
             ++ payload_max ++ [x0a] ->
     take (length payload_max) [] = payload_max).
Proof.
  assert (Hf : (length (@nil Z) <= 0)%nat) by (simpl; lia).
  assert (Hlen : 2 ^ 32 - 127 <= Z.of_nat (length payload_max) < 2 ^ 32)
    by (rewrite payload_max_length; lia).
  assert (Hfits : Z.of_nat (length payload_max)
                  <= free_count (L (G large_world)) (fat_of large_world) * 128)
    by (rewrite payload_max_length, large_free; lia).
  assert (Hne : payload_max <> []).
  { intros E. pose proof payload_max_length as H. rewrite E in H.
    simpl in H. lia. }
  split; [exact large_ok|]. split; [exact large_foo|].
  split; [exact large_chain|]. split; [exact Hf|]. split; [exact Hlen|].
  split; [exact Hfits|]. split; [exact Hne|].
  exact (FSWrite.write_wraps large_world foo 0 [] 0 payload_max [] []
           large_ok large_foo large_chain Hf Hlen).
Defined.

(** Further instances: a connected disk, the filesystem with two files
    and one with a full directory. *)
Lemma connected36_ok : conn_ok connected36.
Proof. split; [unfold DiskInv.geometry_ok|..]; by_running. Defined.

Lemma no_entry_scan w nm :
  0 <= dir_entries (L (G w)) ->
  scan_name (img w) (L (G w)) nm (Z.to_nat (dir_entries (L (G w)))) 0 = NotFound ->
  ~ has_entry w nm.
Proof.
  intros He Hscan (slot & Hr & Hn).
  apply (FSDir.scan_name_not_found _ _ _ _ _ Hscan slot); [lia|exact Hn].
Qed.

Lemma fresh36_no_foo : ~ has_entry fresh36 foo.
Proof. apply no_entry_scan; by_running. Qed.

Lemma two42_ok : fs_ok two42.
Proof.
  split; [split; [unfold DiskInv.geometry_ok|..]|split|intros _|]; by_running.
Defined.

Lemma two42_foo : first_named two42 foo 0.
Proof.
  apply FSDelete.only_named_first.
  apply (FSDelete.only_named_scan two42 foo 0
           (entry_at (img two42) (L (G two42)) 0)); by_running.
Defined.

Lemma two42_bar : first_named two42 bar 1.
Proof.
  apply FSDelete.only_named_first.
  apply (FSDelete.only_named_scan two42 bar 1
           (entry_at (img two42) (L (G two42)) 1)); by_running.
Defined.

Lemma two42_foo_chain :
  chain (fat_of two42) (first (entry_at (img two42) (L (G two42)) 0))
    [35; 36; 37].
Proof.
  change (first (entry_at (img two42) (L (G two42)) 0)) with 35.
  apply (chain_cons _ 35 36); [by_running..|].
  apply (chain_cons _ 36 37); [by_running..|].
  apply (chain_cons _ 37 FAT_EOF); [by_running..|].
  apply chain_nil.
Defined.

Lemma two42_bar_chain :
  chain (fat_of two42) (first (entry_at (img two42) (L (G two42)) 1)) [38].
Proof.
  change (first (entry_at (img two42) (L (G two42)) 1)) with 38.
  apply (chain_cons _ 38 FAT_EOF); [by_running..|].
  apply chain_nil.
Defined.

Lemma two42_foo_blocks :
  Forall (fun y => data_start (L (G two42)) <= y) [35; 36; 37].
Proof. repeat (constructor; [by_running|]). constructor. Qed.

Lemma two42_disjoint : forall y : Z, y ∈ [38] -> y ∉ [35; 36; 37].
Proof.
  intros y Hy Hin. apply elem_of_cons in Hy as [->|Hy].
  - repeat (apply elem_of_cons in Hin as [Hin|Hin]; [discriminate|]).
    by apply elem_of_nil in Hin.
  - by apply elem_of_nil in Hy.
Qed.

Lemma two42_bar_holds :
  holds (data_start (L (G two42))) (total_blocks (L (G two42))) (img two42)
    (fat_of two42) (first (entry_at (img two42) (L (G two42)) 1)) hello.
Proof.
  change (first (entry_at (img two42) (L (G two42)) 1)) with 38.
  apply (holds_cons _ _ _ _ 38 FAT_EOF); [by_running..|].
  apply holds_nil.
Qed.

Lemma narrow36_full_ok : fs_ok narrow36_full.
Proof.
  split; [split; [unfold DiskInv.geometry_ok|..]|split|intros _|]; by_running.
Defined.

Lemma narrow36_full_no_hello : ~ has_entry narrow36_full hello.
Proof. apply no_entry_scan; by_running. Qed.

Lemma narrow36_full_used :
  forall j, 0 <= j < dir_entries (L (G narrow36_full)) ->
            used (entry_at (img narrow36_full) (L (G narrow36_full)) j) <> x00.
Proof.
  intros j Hj. change (dir_entries (L (G narrow36_full))) with 2 in Hj.
  assert (j = 0 \/ j = 1) as [-> | ->] by lia; by_running.
Qed.

Lemma serve_in_bounds_disk44 :
  Disk.reachable disk44 /\ DiskInv.size_ok disk44 /\
  exists o, Disk.serve disk44 hello (Disk.ReqW 1 2 9) = Ret o /\
            length (Disk.g_base (Disk.st' o)) = length (Disk.g_base disk44) /\
            Disk.g_cyl (Disk.st' o) = Disk.g_cyl disk44 /\
            Disk.g_sec (Disk.st' o) = Disk.g_sec disk44.
Proof.
  split; [exact disk44_reachable|]. split; [exact disk44_size|].
  exact (DiskSafety.serve_in_bounds disk44 hello (Disk.ReqW 1 2 9)
           disk44_reachable disk44_size).
Defined.

Lemma write_leaves_sector_0_3 :
  Disk.reachable disk44 /\ DiskInv.size_ok disk44 /\
  0 <= 0 < Disk.g_cyl disk44 /\
  0 <= 3 < Disk.g_sec disk44 /\ (0, 3) <> (1, 2) /\
  Disk.handle_W disk44 (hello ++ foo) 1 2 5 = Ret disk44_hello /\
  exists o1 o2,
    Disk.handle_R disk44 foo 0 3 = Ret o1 /\
    Disk.handle_R (Disk.st' disk44_hello) foo 0 3 = Ret o2 /\
    Disk.sent o2 = Disk.sent o1 /\ length (Disk.sent o1) = 129%nat.
Proof.
  assert (Hc : 0 <= 0 < Disk.g_cyl disk44) by (simpl; lia).
  assert (Hs : 0 <= 3 < Disk.g_sec disk44) by (simpl; lia).
  assert (Hne : (0, 3) <> (1, 2)) by discriminate.
  assert (Hw : Disk.handle_W disk44 (hello ++ foo) 1 2 5 = Ret disk44_hello)
    by by_running.
  split; [exact disk44_reachable|]. split; [exact disk44_size|].
  split; [exact Hc|]. split; [exact Hs|].
  split; [exact Hne|]. split; [exact Hw|].
  exact (DiskSafety.write_leaves_other_sectors disk44 (hello ++ foo) foo 1 2 5
           0 3 disk44_hello disk44_reachable disk44_size Hc Hs Hne Hw).
Defined.

Lemma dirent_roundtrip_new_foo :
  length (name (new_entry foo)) = 32%nat /\
  name (new_entry foo) !! 31%nat = Some x00 /\
  0 <= FS.length (new_entry foo) < 2 ^ 32 /\
  0 <= first (new_entry foo) < 2 ^ 32 /\
  (length (dirent_pack (new_entry foo)) = 64%nat /\
   dirent_unpack (dirent_pack (new_entry foo) ++ hello) = (new_entry foo)).
Proof.
  assert (A1 : length (name (new_entry foo)) = 32%nat)
    by by_running.
  assert (A2 : name (new_entry foo) !! 31%nat = Some x00)
    by by_running.
  assert (A3 : 0 <= FS.length (new_entry foo) < 2 ^ 32)
    by by_running.
  assert (A4 : 0 <= first (new_entry foo) < 2 ^ 32)
    by by_running.
  split; [exact A1|].
  split; [exact A2|].
  split; [exact A3|].
  split; [exact A4|].
  exact (FSCodec.dirent_roundtrip (new_entry foo) hello A1 A2 A3 A4).
Defined.

Lemma sector_write_read_connected36 :
  conn_ok connected36 /\
  0 <= 5 < nblocks connected36 /\
  length (take 128 payload200) = 128%nat /\
  (exists w1,
     disk_write_idx 5 (take 128 payload200) connected36 = Ret (0, w1) /\
         conn_ok w1 /\
     (exists w2, disk_read_idx 5 w1 = Ret (Some (take 128 payload200), w2)) /\
     (forall j, 0 <= j < nblocks connected36 -> j <> 5 ->
        exists w3, disk_read_idx j w1 = Ret (Some (sector (img connected36)
            j), w3))).
Proof.
  pose proof (connected36_ok : conn_ok connected36) as A1.
  assert (A2 : 0 <= 5 < nblocks connected36)
    by by_running.
  assert (A3 : length (take 128 payload200) = 128%nat)
    by by_running.
  split; [exact A1|].
  split; [exact A2|].
  split; [exact A3|].
  exact (FSSectors.sector_write_read connected36 5 (take 128 payload200) A1 A2
      A3).
Defined.


Lemma first_fit_two42 :
  0 <= 35 /\
  total_blocks (L (G two42)) <= Z.of_nat (length (fat_of two42)) /\
  ((exists b, find_free_block (L (G two42)) (fat_of two42) 35 = Ret (Some b)
      /\
              35 <= b < total_blocks (L (G two42)) /\ (fat_of two42) !!
                  Z.to_nat b = Some FAT_FREE /\
              forall j, 35 <= j < b -> (fat_of two42) !! Z.to_nat j <> Some
                  FAT_FREE)
   \/
   (find_free_block (L (G two42)) (fat_of two42) 35 = Ret None /\
    forall j, 35 <= j < total_blocks (L (G two42)) -> (fat_of two42) !!
        Z.to_nat j <> Some FAT_FREE)).
Proof.
  assert (A1 : 0 <= 35)
    by by_running.
  assert (A2 : total_blocks (L (G two42)) <= Z.of_nat (length (fat_of two42)))
    by by_running.
  split; [exact A1|].
  split; [exact A2|].
  exact (FSSpace.find_free_block_first_fit (L (G two42)) (fat_of two42) 35 A1
      A2).
Defined.

Lemma free_chain_reclaims_hello36 :
  chain (fat_of hello36) 35 [35] /\
  (length [35] <= (64%nat))%nat /\
  0 < data_start (L (G hello36)) /\
  Forall (fun y => data_start (L (G hello36)) <= y) [35] /\
  (free_chain (64%nat) (fat_of hello36) 35 = Ret (free_all [35] (fat_of
      hello36)) /\
   length (free_all [35] (fat_of hello36)) = length (fat_of hello36) /\
   (forall y, y ∈ [35] -> free_all [35] (fat_of hello36) !! Z.to_nat y = Some
       FAT_FREE) /\
   free_count (L (G hello36)) (free_all [35] (fat_of hello36)) = free_count (L
       (G hello36)) (fat_of hello36) + Z.of_nat (length [35])).
Proof.
  pose proof (hello36_chain : chain (fat_of hello36) 35 [35]) as A1.
  assert (A2 : (length [35] <= (64%nat))%nat)
    by (simpl; lia).
  assert (A3 : 0 < data_start (L (G hello36)))
    by by_running.
  assert (A4 : Forall (fun y => data_start (L (G hello36)) <= y) [35])
    by (constructor; [by_running|constructor]).
  split; [exact A1|].
  split; [exact A2|].
  split; [exact A3|].
  split; [exact A4|].
  exact (FSSpace.free_chain_reclaims (L (G hello36)) (fat_of hello36) 35 [35]
      (64%nat) A1 A2 A3 A4).
Defined.

Lemma missing_name_fresh36 :
  fs_ok fresh36 /\
  ~ has_entry fresh36 foo /\
  ((exists w', cmd_delete (64%nat) foo fresh36 = Ret (r1, w') /\ img w' = img
      fresh36) /\
   (exists w', cmd_read (64%nat) [] foo fresh36 = Ret (r1_0, w') /\ img w' =
       img fresh36) /\
   (exists w', cmd_write (64%nat) foo (Z.of_nat (length hello)) (hello ++ foo)
       fresh36
               = Ret (mkWres 0 r1 foo, w') /\ img w' = img fresh36)).
Proof.
  pose proof (fresh36_ok : fs_ok fresh36) as A1.
  pose proof (fresh36_no_foo : ~ has_entry fresh36 foo) as A2.
  split; [exact A1|].
  split; [exact A2|].
  exact (FSNames.missing_name fresh36 foo (64%nat) [] hello foo A1 A2).
Defined.

Lemma create_new_fresh36 :
  fs_ok fresh36 /\
  1 <= strlen foo < 32 /\
  ~ has_entry fresh36 foo /\
  0 <= 0 < dir_entries (L (G fresh36)) /\
  used (entry_at (img fresh36) (L (G fresh36)) 0) = x00 /\
  ((forall j, 0 <= j < 0 -> used (entry_at (img fresh36) (L (G fresh36)) j) <>
      x00)) /\
  (exists w' w'',
     cmd_create foo fresh36 = Ret (r0, w') /\
     only_named w' foo 0 /\
     v (fat (G w')) = fat_of fresh36 /\
     (forall j, 0 <= j < dir_entries (L (G fresh36)) -> j <> 0 ->
        entry_at (img w') (L (G w')) j = entry_at (img fresh36) (L (G
            fresh36)) j) /\
     (forall j, 0 <= j -> j <> dir_start (L (G fresh36)) + 0 / 2 ->
        sector (img w') j = sector (img fresh36) j) /\
     cmd_read (64%nat) [] foo w' = Ret ([x30; x20; x30; x20; x0a], w'')).
Proof.
  pose proof (fresh36_ok : fs_ok fresh36) as A1.
  assert (A2 : 1 <= strlen foo < 32)
    by by_running.
  pose proof (fresh36_no_foo : ~ has_entry fresh36 foo) as A3.
  assert (A4 : 0 <= 0 < dir_entries (L (G fresh36)))
    by by_running.
  assert (A5 : used (entry_at (img fresh36) (L (G fresh36)) 0) = x00)
    by by_running.
  assert (A6 : (forall j, 0 <= j < 0 -> used (entry_at (img fresh36) (L (G
      fresh36)) j) <> x00))
    by (intros j Hj; lia).
  split; [exact A1|].
  split; [exact A2|].
  split; [exact A3|].
  split; [exact A4|].
  split; [exact A5|].
  split; [exact A6|].
  exact (FSNames.create_new fresh36 foo 0 (64%nat) [] A1 A2 A3 A4 A5 A6).
Defined.

Lemma create_directory_full_narrow36 :
  fs_ok narrow36_full /\
  1 <= strlen hello < 32 /\
  ~ has_entry narrow36_full hello /\
  ((forall j, 0 <= j < dir_entries (L (G narrow36_full)) -> used (entry_at
      (img narrow36_full) (L (G narrow36_full)) j) <> x00)) /\
  (exists w', cmd_create hello narrow36_full = Ret (r2, w') /\ img w' = img
      narrow36_full).
Proof.
  pose proof (narrow36_full_ok : fs_ok narrow36_full) as A1.
  assert (A2 : 1 <= strlen hello < 32)
    by by_running.
  pose proof (narrow36_full_no_hello : ~ has_entry narrow36_full hello) as A3.
  pose proof (narrow36_full_used : (forall j, 0 <= j < dir_entries (L (G
      narrow36_full)) -> used (entry_at (img narrow36_full) (L (G
      narrow36_full)) j) <> x00)) as A4.
  split; [exact A1|].
  split; [exact A2|].
  split; [exact A3|].
  split; [exact A4|].
  exact (FSNames.create_directory_full narrow36_full hello A1 A2 A3 A4).
Defined.

Lemma list_names_hello36 :
  fs_ok hello36 /\
  (exists w',
     cmd_list false hello36 = Ret (Some (listing false (img hello36) (L (G
         hello36))), w') /\
     img w' = img hello36 /\ G w' = G hello36 /\
     ((forall slot, 0 <= slot < dir_entries (L (G hello36)) ->
         used (entry_at (img hello36) (L (G hello36)) slot) = x00) ->
      listing false (img hello36) (L (G hello36)) = [])).
Proof.
  pose proof (hello36_ok : fs_ok hello36) as A1.
  split; [exact A1|].
  exact (FSNames.list_names hello36 false A1).
Defined.

Lemma fat_flush_load_hello36 :
  conn_ok hello36 /\
  fat_region_ok hello36 /\
  loaded (fat (G hello36)) = true /\
  Z.of_nat (length (v (fat (G hello36)))) = total_blocks (L (G hello36)) /\
  total_blocks (L (G hello36)) <= 32 * fat_sectors (L (G hello36)) /\
  Forall (fun x => 0 <= x < 2 ^ 32) (v (fat (G hello36))) /\
  (exists w1 w2,
     fat_flush hello36 = Ret (0, w1) /\
     G w1 = G hello36 /\
     (forall j, 0 <= j ->
        ~ fat_start (L (G hello36)) <= j
          < fat_start (L (G hello36)) + fat_sectors (L (G hello36)) ->
        sector (img w1) j = sector (img hello36) j) /\
     fat_load (set_fat w1 fat_init) = Ret (0, w2) /\
     fat (G w2) = fat (G hello36) /\ img w2 = img w1).
Proof.
  pose proof ((fs_conn _ hello36_ok) : conn_ok hello36) as A1.
  pose proof ((FSFat.layout_fat_region _ (fs_layout _ hello36_ok)) :
      fat_region_ok hello36) as A2.
  assert (A3 : loaded (fat (G hello36)) = true)
    by by_running.
  assert (A4 : Z.of_nat (length (v (fat (G hello36)))) = total_blocks (L (G
      hello36)))
    by by_running.
  assert (A5 : total_blocks (L (G hello36)) <= 32 * fat_sectors (L (G
      hello36)))
    by by_running.
  assert (A6 : Forall (fun x => 0 <= x < 2 ^ 32) (v (fat (G hello36))))
    by (apply (bool_decide_unpack _); vm_compute; exact I).
  split; [exact A1|].
  split; [exact A2|].
  split; [exact A3|].
  split; [exact A4|].
  split; [exact A5|].
  split; [exact A6|].
  exact (FSFatStore.fat_flush_load hello36 A1 A2 A3 A4 A5 A6).
Defined.

Lemma format_fresh_connected36 :
  conn_ok connected36 /\
  4 * nblocks connected36 + 127 < 2 ^ 32 /\
  dir_start (compute_layout (conn connected36)) + dir_sectors (compute_layout
      (conn connected36)) <= nblocks connected36 /\
  (exists w' w'',
     cmd_format connected36 = Ret (r0, w') /\
     fs_ok w' /\ L (G w') = compute_layout (conn connected36) /\
     sector (img w') 0 = super_pack (conn connected36) (compute_layout (conn
         connected36)) /\
     (forall slot, 0 <= slot < dir_entries (L (G w')) ->
        used (entry_at (img w') (L (G w')) slot) = x00) /\
     (forall j, 0 <= j < nblocks connected36 ->
        fat_of w' !! Z.to_nat j
        = Some (if decide (j < data_start (L (G w')))
                then FAT_RESERVED else FAT_FREE)) /\
     (forall j, 0 <= j < nblocks connected36 ->
        fat_entry_on_disk (img w') (L (G w')) j
        = if decide (j < data_start (L (G w')))
          then FAT_RESERVED else FAT_FREE) /\
     free_count (L (G w')) (fat_of w') = nblocks connected36 - data_start (L
         (G w')) /\
     (forall j, data_start (L (G w')) <= j -> sector (img w') j = sector (img
         connected36) j) /\
     cmd_read (64%nat) [] foo w' = Ret (r1_0, w'')).
Proof.
  pose proof (connected36_ok : conn_ok connected36) as A1.
  assert (A2 : 4 * nblocks connected36 + 127 < 2 ^ 32)
    by by_running.
  assert (A3 : dir_start (compute_layout (conn connected36)) + dir_sectors
      (compute_layout (conn connected36)) <= nblocks connected36)
    by by_running.
  split; [exact A1|].
  split; [exact A2|].
  split; [exact A3|].
  exact (FSFresh.format_fresh connected36 foo (64%nat) [] A1 A2 A3).
Defined.

Lemma client_open_adopts_hello36 :
  DiskInv.geometry_ok (dsk hello36) /\
  Disk.g_sec (dsk hello36) < 2 ^ 32 /\
  (exists w',
     client_open hello36 = Ret (tt, w') /\
     img w' = img hello36 /\ fat (G w') = fat (G hello36) /\
     (take 5 (sector (img hello36) 0) <> magic ->
      G w' = G hello36 /\
      conn w' = mkDiskT (Disk.g_cyl (dsk hello36)) (Disk.g_sec (dsk hello36))
          []) /\
     (forall d l,
        sector (img hello36) 0 = super_pack d l ->
        - 2 ^ 63 <= cyl d < 2 ^ 63 -> - 2 ^ 63 <= sec d < 2 ^ 63 ->
        0 <= total_blocks l < 2 ^ 32 -> 0 <= fat_start l < 2 ^ 32 ->
        0 <= fat_sectors l < 2 ^ 32 -> 0 <= dir_start l < 2 ^ 32 ->
        0 <= dir_sectors l < 2 ^ 32 -> 0 <= dir_entries l < 2 ^ 32 ->
        formatted (G w') = true /\ L (G w') = l /\
        conn w' = mkDiskT (cyl d) (sec d) [])).
Proof.
  assert (A1 : DiskInv.geometry_ok (dsk hello36))
    by (unfold DiskInv.geometry_ok; by_running).
  assert (A2 : Disk.g_sec (dsk hello36) < 2 ^ 32)
    by by_running.
  split; [exact A1|].
  split; [exact A2|].
  exact (FSOpen.client_open_adopts hello36 A1 A2).
Defined.

Lemma write_spares_other_file_two42 :
  fs_ok two42 /\
  first_named two42 foo 0 /\
  chain (fat_of two42) (first (entry_at (img two42) (L (G two42)) 0)) [35; 36;
      37] /\
  (length [35; 36; 37] <= (64%nat))%nat /\
  Z.of_nat (length hello) <= 128 * Z.of_nat (64%nat) /\
  Z.of_nat (length hello) + 127 < 2 ^ 32 /\
  (Z.of_nat (length hello) + 127) / 128 <= free_count (L (G two42)) (free_all
      [35; 36; 37] (fat_of two42)) /\
  first_named two42 bar 1 /\
  1 <> 0 /\
  chain (fat_of two42) (first (entry_at (img two42) (L (G two42)) 1)) [38] /\
  Forall (fun y => data_start (L (G two42)) <= y) [38] /\
  ((forall y, y ∈ [38] -> y ∉ [35; 36; 37])) /\
  FS.length (entry_at (img two42) (L (G two42)) 1) = Z.of_nat (length hello)
      /\
  holds (data_start (L (G two42))) (total_blocks (L (G two42))) (img two42)
      (fat_of two42) (first (entry_at (img two42) (L (G two42)) 1)) hello /\
  Z.of_nat (length hello) <= 128 * Z.of_nat (64%nat) /\
  (exists w1 w2,
     cmd_write (64%nat) foo (Z.of_nat (length hello)) (hello ++ []) two42
     = Ret (mkWres 0 r0 [], w1) /\
     entry_at (img w1) (L (G w1)) 1 = entry_at (img two42) (L (G two42)) 1 /\
     chain (fat_of w1) (first (entry_at (img w1) (L (G w1)) 1)) [38] /\
     cmd_read (64%nat) [] bar w1
     = Ret ([x30; x20] ++ fmt_u (Z.of_nat (length hello)) ++ [x20] ++ hello ++
         [x0a],
            w2)).
Proof.
  pose proof (two42_ok : fs_ok two42) as A1.
  pose proof (two42_foo : first_named two42 foo 0) as A2.
  pose proof (two42_foo_chain : chain (fat_of two42) (first (entry_at (img
      two42) (L (G two42)) 0)) [35; 36; 37]) as A3.
  assert (A4 : (length [35; 36; 37] <= (64%nat))%nat)
    by (simpl; lia).
  assert (A5 : Z.of_nat (length hello) <= 128 * Z.of_nat (64%nat))
    by by_running.
  assert (A6 : Z.of_nat (length hello) + 127 < 2 ^ 32)
    by by_running.
  assert (A7 : (Z.of_nat (length hello) + 127) / 128 <= free_count (L (G
      two42)) (free_all [35; 36; 37] (fat_of two42)))
    by by_running.
  pose proof (two42_bar : first_named two42 bar 1) as A8.
  assert (A9 : 1 <> 0)
    by lia.
  pose proof (two42_bar_chain : chain (fat_of two42) (first (entry_at (img
      two42) (L (G two42)) 1)) [38]) as A10.
  assert (A11 : Forall (fun y => data_start (L (G two42)) <= y) [38])
    by (constructor; [by_running|constructor]).
  pose proof (two42_disjoint : (forall y, y ∈ [38] -> y ∉ [35; 36; 37])) as
      A12.
  assert (A13 : FS.length (entry_at (img two42) (L (G two42)) 1) = Z.of_nat
      (length hello))
    by by_running.
  pose proof (two42_bar_holds : holds (data_start (L (G two42))) (total_blocks
      (L (G two42))) (img two42) (fat_of two42) (first (entry_at (img two42)
      (L (G two42)) 1)) hello) as A14.
  assert (A15 : Z.of_nat (length hello) <= 128 * Z.of_nat (64%nat))
    by by_running.
  split; [exact A1|].
  split; [exact A2|].
  split; [exact A3|].
  split; [exact A4|].
  split; [exact A5|].
  split; [exact A6|].
  split; [exact A7|].
  split; [exact A8|].
  split; [exact A9|].
  split; [exact A10|].
  split; [exact A11|].
  split; [exact A12|].
  split; [exact A13|].
  split; [exact A14|].
  split; [exact A15|].
  exact (FSFiles.write_spares_other_file two42 foo 0 [35; 36; 37] (64%nat)
      hello [] bar 1 [38] hello [] A1 A2 A3 A4 A5 A6 A7 A8 A9 A10 A11 A12 A13
      A14 A15).
Defined.



Lemma delete_reclaims_two42 :
  fs_ok two42 /\
  first_named two42 foo 0 /\
  chain (fat_of two42) (first (entry_at (img two42) (L (G two42)) 0)) [35; 36;
      37] /\
  Forall (fun y => data_start (L (G two42)) <= y) [35; 36; 37] /\
  (length [35; 36; 37] <= (64%nat))%nat /\
  total_blocks (L (G two42)) <= 32 * fat_sectors (L (G two42)) /\
  Forall (fun x => 0 <= x < 2 ^ 32) (fat_of two42) /\
  (exists w',
     cmd_delete (64%nat) foo two42 = Ret (r0, w') /\
     fs_ok w' /\
     fat_on_disk w' = free_all [35; 36; 37] (fat_of two42) /\
     fat_of w' = fat_on_disk w' /\
     (forall b, b ∈ [35; 36; 37] -> fat_on_disk w' !! Z.to_nat b = Some
         FAT_FREE) /\
     free_count (L (G w')) (fat_on_disk w')
     = free_count (L (G two42)) (fat_of two42) + Z.of_nat (length [35; 36;
         37]) /\
     used (entry_at (img w') (L (G w')) 0) = x00 /\
     (forall j, 0 <= j < dir_entries (L (G two42)) -> j <> 0 ->
        entry_at (img w') (L (G w')) j = entry_at (img two42) (L (G two42)) j)
            /\
     (forall j, data_start (L (G two42)) <= j -> sector (img w') j = sector
         (img two42) j)).
Proof.
  pose proof (two42_ok : fs_ok two42) as A1.
  pose proof (two42_foo : first_named two42 foo 0) as A2.
  pose proof (two42_foo_chain : chain (fat_of two42) (first (entry_at (img
      two42) (L (G two42)) 0)) [35; 36; 37]) as A3.
  pose proof (two42_foo_blocks : Forall (fun y => data_start (L (G two42)) <=
      y) [35; 36; 37]) as A4.
  assert (A5 : (length [35; 36; 37] <= (64%nat))%nat)
    by (simpl; lia).
  assert (A6 : total_blocks (L (G two42)) <= 32 * fat_sectors (L (G two42)))
    by by_running.
  assert (A7 : Forall (fun x => 0 <= x < 2 ^ 32) (fat_of two42))
    by (apply (bool_decide_unpack _); vm_compute; exact I).
  split; [exact A1|].
  split; [exact A2|].
  split; [exact A3|].
  split; [exact A4|].
  split; [exact A5|].
  split; [exact A6|].
  split; [exact A7|].
  exact (FSFiles.delete_reclaims two42 foo 0 [35; 36; 37] (64%nat) A1 A2 A3 A4
      A5 A6 A7).
Defined.

Lemma delete_spares_other_file_two42 :
  fs_ok two42 /\
  first_named two42 foo 0 /\
  chain (fat_of two42) (first (entry_at (img two42) (L (G two42)) 0)) [35; 36;
      37] /\
  (length [35; 36; 37] <= (64%nat))%nat /\
  first_named two42 bar 1 /\
  1 <> 0 /\
  chain (fat_of two42) (first (entry_at (img two42) (L (G two42)) 1)) [38] /\
  Forall (fun y => data_start (L (G two42)) <= y) [38] /\
  ((forall y, y ∈ [38] -> y ∉ [35; 36; 37])) /\
  FS.length (entry_at (img two42) (L (G two42)) 1) = Z.of_nat (length hello)
      /\
  holds (data_start (L (G two42))) (total_blocks (L (G two42))) (img two42)
      (fat_of two42) (first (entry_at (img two42) (L (G two42)) 1)) hello /\
  Z.of_nat (length hello) <= 128 * Z.of_nat (64%nat) /\
  (exists w1 w2,
     cmd_delete (64%nat) foo two42 = Ret (r0, w1) /\
     cmd_read (64%nat) [] bar w1
     = Ret ([x30; x20] ++ fmt_u (Z.of_nat (length hello)) ++ [x20] ++ hello ++
         [x0a],
            w2)).
Proof.
  pose proof (two42_ok : fs_ok two42) as A1.
  pose proof (two42_foo : first_named two42 foo 0) as A2.
  pose proof (two42_foo_chain : chain (fat_of two42) (first (entry_at (img
      two42) (L (G two42)) 0)) [35; 36; 37]) as A3.
  assert (A4 : (length [35; 36; 37] <= (64%nat))%nat)
    by (simpl; lia).
  pose proof (two42_bar : first_named two42 bar 1) as A5.
  assert (A6 : 1 <> 0)
    by lia.
  pose proof (two42_bar_chain : chain (fat_of two42) (first (entry_at (img
      two42) (L (G two42)) 1)) [38]) as A7.
  assert (A8 : Forall (fun y => data_start (L (G two42)) <= y) [38])
    by (constructor; [by_running|constructor]).
  pose proof (two42_disjoint : (forall y, y ∈ [38] -> y ∉ [35; 36; 37])) as
      A9.
  assert (A10 : FS.length (entry_at (img two42) (L (G two42)) 1) = Z.of_nat
      (length hello))
    by by_running.
  pose proof (two42_bar_holds : holds (data_start (L (G two42))) (total_blocks
      (L (G two42))) (img two42) (fat_of two42) (first (entry_at (img two42)
      (L (G two42)) 1)) hello) as A11.
  assert (A12 : Z.of_nat (length hello) <= 128 * Z.of_nat (64%nat))
    by by_running.
  split; [exact A1|].
  split; [exact A2|].
  split; [exact A3|].
  split; [exact A4|].
  split; [exact A5|].
  split; [exact A6|].
  split; [exact A7|].
  split; [exact A8|].
  split; [exact A9|].
  split; [exact A10|].
  split; [exact A11|].
  split; [exact A12|].
  exact (FSFiles.delete_spares_other_file two42 foo 0 [35; 36; 37] (64%nat)
      bar 1 [38] hello [] A1 A2 A3 A4 A5 A6 A7 A8 A9 A10 A11 A12).
Defined.


Lemma join_path_canonical_b_slash :
  2 <= Dirs.PATHBUF /\
  hd x00 path_a = x2f /\
  ((exists q, Dirs.join_path path_a name_b_slash Dirs.PATHBUF = x2f :: q) /\
   (Dirs.join_path path_a name_b_slash Dirs.PATHBUF = [x2f]
    \/ last (Dirs.join_path path_a name_b_slash Dirs.PATHBUF) <> Some x2f) /\
   Z.of_nat (length (Dirs.join_path path_a name_b_slash Dirs.PATHBUF)) <
       Dirs.PATHBUF /\
   x00 ∉ Dirs.join_path path_a name_b_slash Dirs.PATHBUF).
Proof.
  assert (A1 : 2 <= Dirs.PATHBUF)
    by by_running.
  assert (A2 : hd x00 path_a = x2f)
    by by_running.
  split; [exact A1|].
  split; [exact A2|].
  exact (DirsFacts.join_path_canonical path_a name_b_slash Dirs.PATHBUF A1
      A2).
Defined.

Lemma path_to_fsname_injective_stale :
  hd x00 path_a = x2f /\
  hd x00 path_a_stale = x2f /\
  strlen path_a < Dirs.PATHBUF /\
  strlen path_a_stale < Dirs.PATHBUF /\
  Dirs.path_to_fsname path_a Dirs.PATHBUF = Dirs.path_to_fsname path_a_stale
      Dirs.PATHBUF /\
  (cstr path_a = cstr path_a_stale).
Proof.
  assert (A1 : hd x00 path_a = x2f)
    by by_running.
  assert (A2 : hd x00 path_a_stale = x2f)
    by by_running.
  assert (A3 : strlen path_a < Dirs.PATHBUF)
    by by_running.
  assert (A4 : strlen path_a_stale < Dirs.PATHBUF)
    by by_running.
  assert (A5 : Dirs.path_to_fsname path_a Dirs.PATHBUF = Dirs.path_to_fsname
      path_a_stale Dirs.PATHBUF)
    by by_running.
  split; [exact A1|].
  split; [exact A2|].
  split; [exact A3|].
  split; [exact A4|].
  split; [exact A5|].
  exact (DirsFacts.path_to_fsname_injective path_a path_a_stale Dirs.PATHBUF
      A1 A2 A3 A4 A5).
Defined.

Lemma fsname_of_child_a_b :
  hd x00 path_a = x2f /\
  cstr name_b <> [] /\
  (x2f ∉ cstr name_b) /\
  strlen path_a + strlen name_b + 1 < Dirs.PATHBUF /\
  (Dirs.path_to_fsname (Dirs.join_path path_a name_b Dirs.PATHBUF)
      Dirs.PATHBUF
   = (if bool_decide (cstr path_a = [x2f]) then [] else drop 1 (cstr path_a)
       ++ [x2f])
     ++ cstr name_b ++ [x2f]).
Proof.
  assert (A1 : hd x00 path_a = x2f)
    by by_running.
  assert (A2 : cstr name_b <> [])
    by by_running.
  assert (A3 : x2f ∉ cstr name_b)
    by (apply (bool_decide_unpack _); vm_compute; exact I).
  assert (A4 : strlen path_a + strlen name_b + 1 < Dirs.PATHBUF)
    by by_running.
  split; [exact A1|].
  split; [exact A2|].
  split; [exact A3|].
  split; [exact A4|].
  exact (DirsFacts.fsname_of_child path_a name_b Dirs.PATHBUF A1 A2 A3 A4).
Defined.

End Instances.
